(** * DSD price book: pricing math and cost-change workflow

    A shallow embedding of [dsd/utils/pricing.py], [dsd/models.py],
    [dsd/urls.py], [dsd/views.py] and [import_dsd_master.py].  Python values
    are modelled as the interpreter has them:

    - [decimal.Decimal] under the default context (28 significant digits,
      ROUND_HALF_EVEN) is a coefficient and an exponent, with the context
      rounding written out;
    - [float] is IEEE 754 binary64, through the Standard Library's software
      floats ([SpecFloat]);
    - an attribute of a model instance holds a dynamically typed value
      ([pyval]); truthiness, [is None] and [!=] follow Python;
    - an exception is a constructor of [exn]; a computation that may raise
      returns a [result]. *)

From Stdlib Require Import ZArith List String Ascii Bool Lia QArith.
From Stdlib Require Import SpecFloat.
From Stdlib Require Import DecimalString.
Import ListNotations.
Local Open Scope Z_scope.

(* ================================================================= *)
(** ** Exceptions and results *)

Module Py.

Inductive exn : Type :=
| InvalidOperation      (* decimal.InvalidOperation *)
| DivisionByZero        (* decimal.DivisionByZero *)
| ZeroDivisionError
| OverflowError
| TypeError
| ValueError
| DoesNotExist
| Http404
| NoReverseMatch        (* django.urls.NoReverseMatch *)
| DisallowedRedirect.   (* django.core.exceptions.DisallowedRedirect *)

Inductive result (A : Type) : Type :=
| Ok (a : A)
| Raise (e : exn).
Arguments Ok {A} a.
Arguments Raise {A} e.

Definition bind {A B : Type} (m : result A) (k : A -> result B) : result B :=
  match m with
  | Ok a => k a
  | Raise e => Raise e
  end.

End Py.
Export Py.

Notation "x <- m ;; k" := (Py.bind m (fun x => k))
  (at level 61, m at next level, right associativity).

(* ================================================================= *)
(** ** decimal.Decimal under the default context *)

Module Dec.

(** [Fin c e] is the finite number [c * 10^e]. *)
Inductive Decimal : Type :=
| Fin (c e : Z)
| Inf (neg : bool)
| NaN.

(** Context precision: [getcontext().prec]. *)
Definition prec : Z := 28.

Fixpoint digits_aux (fuel : nat) (n : Z) : Z :=
  match fuel with
  | O => 1
  | S f => if n <? 10 then 1 else 1 + digits_aux f (n / 10)
  end.

(** [len(str(n))] for [n >= 0]. *)
Definition ndigits (n : Z) : Z := digits_aux (Z.to_nat (Z.log2 n)) n.

(** Nearest integer to [c / 10^k], ties to even, for [0 <= c], [0 <= k]. *)
Definition round_half_even (c k : Z) : Z :=
  let p := 10 ^ k in
  let q := c / p in
  let r := c mod p in
  if 2 * r <? p then q
  else if p <? 2 * r then q + 1
  else if Z.even q then q else q + 1.

(** Sign and magnitude, the way [Decimal] stores a number. *)
Definition with_sign (c m : Z) : Z := if c <? 0 then - m else m.

(** [Decimal._fix]: round the coefficient to the context precision. *)
Definition fix_prec (c e : Z) : Decimal :=
  let n := ndigits (Z.abs c) in
  if n <=? prec then Fin c e
  else
    let r := round_half_even (Z.abs c) (n - prec) in
    let e' := e + (n - prec) in
    (* a carry out of the top digit leaves [10^prec]: drop its last zero *)
    if ndigits r <=? prec then Fin (with_sign c r) e'
    else Fin (with_sign c (r / 10)) (e' + 1).

(** [Decimal(n)] for a Python int: exact, whatever the precision. *)
Definition of_int (n : Z) : Decimal := Fin n 0.

(** Three-way comparison of finite numbers by value. *)
Definition cmp_fin (c1 e1 c2 e2 : Z) : comparison :=
  let m := Z.min e1 e2 in
  Z.compare (c1 * 10 ^ (e1 - m)) (c2 * 10 ^ (e2 - m)).

(** [a < b], [a <= b], ...: an ordering comparison that involves a NaN
    signals InvalidOperation. *)
Definition compare (a b : Decimal) : result comparison :=
  match a, b with
  | NaN, _ | _, NaN => Raise InvalidOperation
  | Fin c1 e1, Fin c2 e2 => Ok (cmp_fin c1 e1 c2 e2)
  | Inf n1, Inf n2 =>
      Ok (if Bool.eqb n1 n2 then Eq else if n1 then Lt else Gt)
  | Inf n, Fin _ _ => Ok (if n then Lt else Gt)
  | Fin _ _, Inf n => Ok (if n then Gt else Lt)
  end.

Definition le (a b : Decimal) : result bool :=
  c <- compare a b ;; Ok (match c with Gt => false | _ => true end).
Definition ge (a b : Decimal) : result bool :=
  c <- compare a b ;; Ok (match c with Lt => false | _ => true end).
Definition gt (a b : Decimal) : result bool :=
  c <- compare a b ;; Ok (match c with Gt => true | _ => false end).

(** [a == b]: never raises; a NaN equals nothing. *)
Definition eqb (a b : Decimal) : bool :=
  match compare a b with
  | Ok Eq => true
  | _ => false
  end.

(** [bool(d)]: a Decimal is false exactly when it is a zero. *)
Definition truthy (d : Decimal) : bool :=
  match d with
  | Fin c _ => negb (c =? 0)
  | _ => true
  end.

(** [a + b] and [a - b]: the exact sum, then the context rounding. *)
Definition add (a b : Decimal) : result Decimal :=
  match a, b with
  | NaN, _ | _, NaN => Ok NaN
  | Inf n1, Inf n2 => if Bool.eqb n1 n2 then Ok (Inf n1) else Raise InvalidOperation
  | Inf n, Fin _ _ | Fin _ _, Inf n => Ok (Inf n)
  | Fin c1 e1, Fin c2 e2 =>
      let m := Z.min e1 e2 in
      Ok (fix_prec (c1 * 10 ^ (e1 - m) + c2 * 10 ^ (e2 - m)) m)
  end.

Definition neg (a : Decimal) : Decimal :=
  match a with
  | Fin c e => Fin (- c) e
  | Inf n => Inf (negb n)
  | NaN => NaN
  end.

Definition sub (a b : Decimal) : result Decimal := add a (neg b).

Definition is_neg (a : Decimal) : bool :=
  match a with
  | Fin c _ => c <? 0
  | Inf n => n
  | NaN => false
  end.

(** [a * b]: the exact product, then the context rounding. *)
Definition mul (a b : Decimal) : result Decimal :=
  match a, b with
  | NaN, _ | _, NaN => Ok NaN
  | Fin c1 e1, Fin c2 e2 => Ok (fix_prec (c1 * c2) (e1 + e2))
  | _, _ =>
      if (negb (truthy a) || negb (truthy b))%bool then Raise InvalidOperation
      else Ok (Inf (xorb (is_neg a) (is_neg b)))
  end.

(** [a / b] on magnitudes, as [Decimal.__truediv__] computes it: a
    quotient of [prec + 1] or [prec + 2] digits, a sticky digit when the
    division leaves a remainder, then the context rounding.  (An exact
    quotient is not reduced towards the ideal exponent here; the value is
    the same, and nothing below reads the exponent of a quotient.) *)
Definition div_fin (c1 e1 c2 e2 : Z) : Decimal :=
  let a := Z.abs c1 in
  let b := Z.abs c2 in
  let shift := ndigits b - ndigits a + prec + 1 in
  let num := if 0 <=? shift then a * 10 ^ shift else a in
  let den := if 0 <=? shift then b else b * 10 ^ (- shift) in
  let q := num / den in
  let r := num mod den in
  let q' := if (negb (r =? 0) && (q mod 5 =? 0))%bool then q + 1 else q in
  let s := if xorb (c1 <? 0) (c2 <? 0) then - 1 else 1 in
  fix_prec (s * q') (e1 - e2 - shift).

Definition div (a b : Decimal) : result Decimal :=
  match a, b with
  | NaN, _ | _, NaN => Ok NaN
  | Inf _, Inf _ => Raise InvalidOperation
  | Inf n, Fin c _ => Ok (Inf (xorb n (c <? 0)))
  | Fin c _, Inf _ => Ok (Fin 0 0)
  | Fin c1 e1, Fin c2 e2 =>
      if c2 =? 0 then
        Raise (if c1 =? 0 then InvalidOperation else DivisionByZero)
      else if c1 =? 0 then Ok (Fin 0 (e1 - e2))
      else Ok (div_fin c1 e1 c2 e2)
  end.

(** [int(d)]: truncation towards zero. *)
Definition to_int (a : Decimal) : result Z :=
  match a with
  | NaN => Raise ValueError
  | Inf _ => Raise OverflowError
  | Fin c e =>
      if 0 <=? e then Ok (c * 10 ^ e)
      else Ok (with_sign c (Z.abs c / 10 ^ (- e)))
  end.

(** [d.quantize(Decimal(1).scaleb(target))]: the same value at exponent
    [target], rounding half-even; InvalidOperation when the coefficient
    would need more than [prec] digits. *)
Definition quantize (a : Decimal) (target : Z) : result Decimal :=
  match a with
  | NaN => Ok NaN
  | Inf _ => Raise InvalidOperation
  | Fin c e =>
      if c =? 0 then Ok (Fin 0 target)
      else if prec <? (e + ndigits (Z.abs c) - 1) - target + 1
      then Raise InvalidOperation
      else
        let c' := if target <=? e then c * 10 ^ (e - target)
                  else with_sign c (round_half_even (Z.abs c) (target - e)) in
        if prec <? ndigits (Z.abs c') then Raise InvalidOperation
        else Ok (Fin c' target)
  end.

(** The rational a finite Decimal denotes. *)
Definition value (c e : Z) : Q :=
  if 0 <=? e then inject_Z (c * 10 ^ e) else Qmake c (Z.to_pos (10 ^ (- e))).

End Dec.
Export Dec.

(* ================================================================= *)
(** ** float: IEEE 754 binary64 *)

Module F64.

Definition float : Type := spec_float.
Definition fprec : Z := 53.
Definition femax : Z := 1024.

Definition fsub : float -> float -> float := SFsub fprec femax.
Definition fdiv : float -> float -> float := SFdiv fprec femax.
Definition feqb : float -> float -> bool := SFeqb.

Definition is_zero (f : float) : bool :=
  match f with S754_zero _ => true | _ => false end.
Definition is_inf (f : float) : bool :=
  match f with S754_infinity _ => true | _ => false end.

(** The double nearest to [n / d] (ties to even) for [0 < n], [0 < d]:
    a quotient of at least 64 bits with a sticky last bit, rounded by
    [binary_normalize]. *)
Definition round_ratio (neg : bool) (n d : Z) : float :=
  let k := Z.max 0 (64 + Z.log2 d - Z.log2 n) in
  let q := (n * 2 ^ k) / d in
  let r := (n * 2 ^ k) mod d in
  let m := 2 * q + (if r =? 0 then 0 else 1) in
  binary_normalize fprec femax (if neg then - m else m) (- (k + 1)) neg.

(** [float(n)] for a Python int. *)
Definition float_of_int (n : Z) : result float :=
  let f := binary_normalize fprec femax n 0 false in
  if is_inf f then Raise OverflowError else Ok f.

(** [float(d)] for a Decimal: the correctly rounded double. *)
Definition float_of_decimal (d : Decimal) : float :=
  match d with
  | NaN => S754_nan
  | Inf n => S754_infinity n
  | Fin c e =>
      if c =? 0 then S754_zero false
      else if 0 <=? e then round_ratio (c <? 0) (Z.abs c * 10 ^ e) 1
      else round_ratio (c <? 0) (Z.abs c) (10 ^ (- e))
  end.

(** The exact decimal expansion of a finite double [m * 2^e]. *)
Definition exact_decimal (m : positive) (e : Z) : Z * Z :=
  if 0 <=? e then (Zpos m * 2 ^ e, 0) else (Zpos m * 5 ^ (- e), e).

(** [repr]: the shortest decimal that reads back as the same double, and
    among those of that length the one nearest to it.  [p] counts the
    significant digits tried so far. *)
Fixpoint shortest (fuel : nat) (p : Z) (f : float) (neg : bool) (c e : Z)
  : Decimal :=
  let n := ndigits c in
  let k := n - p in
  if k <=? 0 then Fin (if neg then - c else c) e
  else
    let lo := c / 10 ^ k in
    let hi := lo + 1 in
    let near := round_half_even c k in
    let far := if near =? lo then hi else lo in
    let sg := fun x : Z => if neg then - x else x in
    if feqb (float_of_decimal (Fin (sg near) (e + k))) f then Fin (sg near) (e + k)
    else if feqb (float_of_decimal (Fin (sg far) (e + k))) f then Fin (sg far) (e + k)
    else
      match fuel with
      | O => Fin (sg c) e
      | S fuel' => shortest fuel' (p + 1) f neg c e
      end.

(** [Decimal(str(f))]. *)
Definition repr_decimal (f : float) : Decimal :=
  match f with
  | S754_nan => NaN
  | S754_infinity n => Inf n
  | S754_zero _ => Fin 0 0
  | S754_finite neg m e =>
      let '(c, e10) := exact_decimal m e in
      shortest 17 1 f neg c e10
  end.

End F64.

(* ================================================================= *)
(** ** Numeric strings *)

Module Parse.

Definition is_digit (a : ascii) : bool :=
  let n := N_of_ascii a in ((48 <=? n) && (n <=? 57))%N.

Definition digit_val (a : ascii) : Z := Z.of_N (N_of_ascii a) - 48.

Definition is_space (a : ascii) : bool :=
  let n := N_of_ascii a in ((n =? 32) || ((9 <=? n) && (n <=? 13)))%N.

Definition lower (a : ascii) : ascii :=
  let n := N_of_ascii a in
  if ((65 <=? n) && (n <=? 90))%N then ascii_of_N (n + 32) else a.

Fixpoint map_lower (s : string) : string :=
  match s with
  | EmptyString => EmptyString
  | String a s' => String (lower a) (map_lower s')
  end.

Fixpoint lstrip (s : string) : string :=
  match s with
  | String a s' => if is_space a then lstrip s' else s
  | EmptyString => EmptyString
  end.

Fixpoint rev_onto (s acc : string) : string :=
  match s with
  | EmptyString => acc
  | String a s' => rev_onto s' (String a acc)
  end.

(** [s.strip()] *)
Definition strip (s : string) : string :=
  rev_onto (lstrip (rev_onto (lstrip s) EmptyString)) EmptyString.

(** Reads a run of digits onto the accumulator [acc]; [cnt] counts them. *)
Fixpoint digits (s : string) (acc cnt : Z) : Z * Z * string :=
  match s with
  | String a s' =>
      if is_digit a then digits s' (10 * acc + digit_val a) (cnt + 1)
      else (acc, cnt, s)
  | EmptyString => (acc, cnt, s)
  end.

Definition sign (s : string) : bool * string :=
  match s with
  | String "-"%char s' => (true, s')
  | String "+"%char s' => (false, s')
  | _ => (false, s)
  end.

(** The numeric strings [float] and [Decimal] both read: an optional
    sign, digits with an optional point, an optional exponent; or an
    infinity or a NaN.  Surrounding white space is ignored.  (Underscore
    digit separators and NaN payloads are not recognised.) *)
Definition parse_numeric (s : string) : option Decimal :=
  let '(neg, s1) := sign (strip s) in
  let sg := fun c : Z => if neg then - c else c in
  let l := map_lower s1 in
  if (String.eqb l "inf"%string || String.eqb l "infinity"%string)%bool then Some (Inf neg)
  else if String.eqb l "nan"%string then Some NaN
  else
    let '(i, ni, s2) := digits s1 0 0 in
    let '(c, nf, s3) :=
      match s2 with
      | String "."%char s2' => digits s2' i 0
      | _ => (i, 0, s2)
      end in
    if ni + nf =? 0 then None
    else
      match s3 with
      | EmptyString => Some (Fin (sg c) (- nf))
      | String a s4 =>
          if Ascii.eqb (lower a) "e"%char then
            let '(eneg, s5) := sign s4 in
            let '(x, nx, s6) := digits s5 0 0 in
            if nx =? 0 then None
            else
              match s6 with
              | EmptyString => Some (Fin (sg c) ((if eneg then - x else x) - nf))
              | _ => None
              end
          else None
      end.

End Parse.

(* ================================================================= *)
(** ** Python str

    A [str] is the string of its characters, each given by its code point;
    the characters modelled are those with a code point below 256.  Where
    the characters beyond matter, [Wide] has the text as a list of code
    points. *)

Module Str.

(** [c.isspace()], the characters [strip()] removes. *)
Definition isspace (a : ascii) : bool :=
  let n := N_of_ascii a in
  ((n =? 32) || ((9 <=? n) && (n <=? 13)) || ((28 <=? n) && (n <=? 31))
   || (n =? 133) || (n =? 160))%N.

(** The class [\d] of [re], which is also [[0-9]] on these characters. *)
Definition isdecimal (a : ascii) : bool :=
  let n := N_of_ascii a in ((48 <=? n) && (n <=? 57))%N.

(** [c.isdigit()]: the decimal digits and the superscripts 1, 2 and 3. *)
Definition isdigit_char (a : ascii) : bool :=
  let n := N_of_ascii a in
  (((48 <=? n) && (n <=? 57)) || (n =? 178) || (n =? 179) || (n =? 185))%N.

(** [re.sub] of every character outside a class by the empty string. *)
Fixpoint keep (p : ascii -> bool) (s : string) : string :=
  match s with
  | EmptyString => EmptyString
  | String a s' => if p a then String a (keep p s') else keep p s'
  end.

Fixpoint all (p : ascii -> bool) (s : string) : bool :=
  match s with
  | EmptyString => true
  | String a s' => (p a && all p s')%bool
  end.

(** [s.isdigit()]: at least one character, and all of them digits. *)
Definition isdigit (s : string) : bool :=
  match s with
  | EmptyString => false
  | String _ _ => all isdigit_char s
  end.

Fixpoint lstrip (s : string) : string :=
  match s with
  | String a s' => if isspace a then lstrip s' else s
  | EmptyString => EmptyString
  end.

Fixpoint rev_onto (s acc : string) : string :=
  match s with
  | EmptyString => acc
  | String a s' => rev_onto s' (String a acc)
  end.

Definition rev (s : string) : string := rev_onto s EmptyString.

(** [s.strip()] *)
Definition strip (s : string) : string := rev (lstrip (rev (lstrip s))).

(** [str(n)] for a length. *)
Definition of_nat (n : nat) : string :=
  NilZero.string_of_uint (Nat.to_uint n).

End Str.

(* ================================================================= *)
(** ** Numbers read from text: float(str), int(str) and int(float)

    The builtins as CPython has them, on text as in [Str]. *)

Module Num.

(** The white space that [float()] and [int()] ignore around a number. *)
Definition isspace (a : ascii) : bool :=
  let n := N_of_ascii a in
  ((n =? 32) || ((9 <=? n) && (n <=? 13)) || (n =? 133) || (n =? 160))%N.

Fixpoint lstrip (s : string) : string :=
  match s with
  | String a s' => if isspace a then lstrip s' else s
  | EmptyString => EmptyString
  end.

Definition strip (s : string) : string :=
  Str.rev (lstrip (Str.rev (lstrip s))).

Definition is_underscore (a : ascii) : bool := Ascii.eqb a "_".

(** An underscore may stand between two digits only; the text without its
    underscores.  [prev] is the character before, if any. *)
Fixpoint drop_underscores (prev : option ascii) (s : string)
  : option string :=
  match s with
  | EmptyString =>
      match prev with
      | Some p => if is_underscore p then None else Some EmptyString
      | None => Some EmptyString
      end
  | String a s' =>
      if is_underscore a then
        match prev with
        | Some p =>
            if Str.isdecimal p then drop_underscores (Some a) s' else None
        | None => None
        end
      else
        match prev with
        | Some p =>
            if (is_underscore p && negb (Str.isdecimal a))%bool then None
            else option_map (String a) (drop_underscores (Some a) s')
        | None => option_map (String a) (drop_underscores (Some a) s')
        end
  end.

(** [float(s)] for a [str]. *)
Definition float_of_str (s : string) : result F64.float :=
  match drop_underscores None (strip s) with
  | Some t =>
      match Parse.parse_numeric t with
      | Some d => Ok (F64.float_of_decimal d)
      | None => Raise ValueError
      end
  | None => Raise ValueError
  end.

(** [int(s)] for a [str], in base 10: a sign, then digits.  (The limit
    that recent versions put on the number of digits is left out.) *)
Definition int_of_str (s : string) : result Z :=
  let '(neg, digits) := Parse.sign (strip s) in
  match drop_underscores None digits with
  | Some EmptyString | None => Raise ValueError
  | Some t =>
      if Str.all Str.isdecimal t then
        match NilZero.uint_of_string t with
        | Some u => Ok (if neg : bool then - Z.of_uint u else Z.of_uint u)
        | None => Raise ValueError
        end
      else Raise ValueError
  end.

(** [int(f)] for a float: towards zero. *)
Definition int_of_float (f : F64.float) : result Z :=
  match f with
  | S754_nan => Raise ValueError
  | S754_infinity _ => Raise OverflowError
  | S754_zero _ => Ok 0
  | S754_finite neg m e =>
      let n := if 0 <=? e then Zpos m * 2 ^ e else Zpos m / 2 ^ (- e) in
      Ok (if neg then - n else n)
  end.

End Num.

(* ================================================================= *)
(** ** Python values *)

Module Val.

Import F64.

Inductive pyval : Type :=
| PNone
| PInt (n : Z)
| PFloat (f : float)
| PDec (d : Decimal)
| PStr (s : string).

Definition is_none (v : pyval) : bool :=
  match v with PNone => true | _ => false end.

(** [bool(v)] *)
Definition truthy (v : pyval) : bool :=
  match v with
  | PNone => false
  | PInt n => negb (n =? 0)
  | PFloat f => negb (F64.is_zero f)
  | PDec d => Dec.truthy d
  | PStr s => negb (String.eqb s EmptyString)
  end.

(** [Decimal.from_float]: the exact value of a double. *)
Definition exact_of_float (f : float) : Decimal :=
  match f with
  | S754_nan => NaN
  | S754_infinity n => Inf n
  | S754_zero _ => Fin 0 0
  | S754_finite neg m e =>
      let '(c, e10) := exact_decimal m e in
      Fin (if neg then - c else c) e10
  end.

(** [a == b].  Numbers of different types compare by exact value, a
    string equals only an equal string, [None] only [None]. *)
Definition py_eq (a b : pyval) : bool :=
  match a, b with
  | PNone, PNone => true
  | PStr s, PStr t => String.eqb s t
  | PInt n, PInt m => n =? m
  | PFloat f, PFloat g => feqb f g
  | PDec d, PDec d' => Dec.eqb d d'
  | PInt n, PDec d | PDec d, PInt n => Dec.eqb (of_int n) d
  | PInt n, PFloat f | PFloat f, PInt n => Dec.eqb (of_int n) (exact_of_float f)
  | PDec d, PFloat f | PFloat f, PDec d => Dec.eqb d (exact_of_float f)
  | _, _ => false
  end.

(** [a != b] *)
Definition py_ne (a b : pyval) : bool := negb (py_eq a b).

(** [Decimal(str(v))] *)
Definition str_decimal (v : pyval) : result Decimal :=
  match v with
  | PNone => Raise InvalidOperation
  | PInt n => Ok (of_int n)
  | PFloat f => Ok (repr_decimal f)
  | PDec d => Ok d
  | PStr s =>
      match Parse.parse_numeric s with
      | Some d => Ok d
      | None => Raise InvalidOperation
      end
  end.

(** [float(v)] *)
Definition py_float (v : pyval) : result float :=
  match v with
  | PNone => Raise TypeError
  | PInt n => float_of_int n
  | PFloat f => Ok f
  | PDec d => Ok (float_of_decimal d)
  | PStr s => Num.float_of_str s
  end.

(** [a - b] *)
Definition py_sub (a b : pyval) : result pyval :=
  match a, b with
  | PInt n, PInt m => Ok (PInt (n - m))
  | PDec x, PDec y => d <- Dec.sub x y ;; Ok (PDec d)
  | PDec x, PInt m => d <- Dec.sub x (of_int m) ;; Ok (PDec d)
  | PInt n, PDec y => d <- Dec.sub (of_int n) y ;; Ok (PDec d)
  | PFloat f, PFloat g => Ok (PFloat (fsub f g))
  | PFloat f, PInt m => g <- float_of_int m ;; Ok (PFloat (fsub f g))
  | PInt n, PFloat g => f <- float_of_int n ;; Ok (PFloat (fsub f g))
  | _, _ => Raise TypeError
  end.

Definition float_div (f g : float) : result pyval :=
  if F64.is_zero g then Raise ZeroDivisionError else Ok (PFloat (fdiv f g)).

(** [a / b] *)
Definition py_truediv (a b : pyval) : result pyval :=
  match a, b with
  | PInt n, PInt m =>
      if m =? 0 then Raise ZeroDivisionError
      else if n =? 0 then Ok (PFloat (S754_zero false))
      else
        let f := round_ratio (xorb (n <? 0) (m <? 0)) (Z.abs n) (Z.abs m) in
        if F64.is_inf f then Raise OverflowError else Ok (PFloat f)
  | PDec x, PDec y => d <- Dec.div x y ;; Ok (PDec d)
  | PDec x, PInt m => d <- Dec.div x (of_int m) ;; Ok (PDec d)
  | PInt n, PDec y => d <- Dec.div (of_int n) y ;; Ok (PDec d)
  | PFloat f, PFloat g => float_div f g
  | PFloat f, PInt m => g <- float_of_int m ;; float_div f g
  | PInt n, PFloat g => f <- float_of_int n ;; float_div f g
  | _, _ => Raise TypeError
  end.

(** [a > 0] *)
Definition py_gt0 (a : pyval) : result bool :=
  match a with
  | PInt n => Ok (0 <? n)
  | PDec d => Dec.gt d (of_int 0)
  | PFloat f =>
      Ok (match SFcompare f (S754_zero false) with Some Gt => true | _ => false end)
  | _ => Raise TypeError
  end.

End Val.
Export Val.

(* ================================================================= *)
(** ** dsd/utils/pricing.py *)

Module Pricing.

(** [suggest_retail(new_unit_cost, current_margin)] *)
Definition suggest_retail (new_unit_cost current_margin : pyval)
  : result pyval :=
  if (is_none new_unit_cost || is_none current_margin)%bool then Ok PNone
  else
    unit_cost <- str_decimal new_unit_cost ;;
    margin <- str_decimal current_margin ;;
    low <- Dec.le margin (of_int 0) ;;
    out <- (if low : bool then Ok true else Dec.ge margin (of_int 1)) ;;
    if out : bool then Ok PNone
    else
      free <- Dec.le unit_cost (of_int 0) ;;
      if free : bool then Ok PNone
      else
        (* Theoretical retail at exact margin *)
        keep <- Dec.sub (of_int 1) margin ;;
        theoretical <- Dec.div unit_cost keep ;;
        (* Work in cents *)
        scaled <- Dec.mul theoretical (of_int 100) ;;
        theoretical_cents <- Dec.to_int scaled ;;
        let remainder := theoretical_cents mod 10 in
        let suggested_cents :=
          if remainder <=? 8
          then theoretical_cents - remainder + 8
          else theoretical_cents - remainder + 18 in
        let suggested_cents :=
          if suggested_cents <? theoretical_cents
          then suggested_cents + 10
          else suggested_cents in
        suggested <- Dec.div (of_int suggested_cents) (of_int 100) ;;
        q <- Dec.quantize suggested (-2) ;;
        Ok (PDec q).

(** [calculate_margin(retail_price, unit_cost)] *)
Definition calculate_margin (retail_price unit_cost : pyval)
  : result pyval :=
  if (negb (truthy retail_price) || negb (truthy unit_cost))%bool then Ok PNone
  else
    retail <- str_decimal retail_price ;;
    cost <- str_decimal unit_cost ;;
    bad <- Dec.le retail (of_int 0) ;;
    if bad : bool then Ok PNone
    else
      diff <- Dec.sub retail cost ;;
      m <- Dec.div diff retail ;;
      q <- Dec.quantize m (-4) ;;
      Ok (PDec q).

End Pricing.
Export Pricing.

(* ================================================================= *)
(** ** dsd/models.py *)

Module Models.

Definition datetime : Type := Z.        (* seconds since the epoch *)
Definition date : Type := Z.            (* days since the epoch *)

(** [t.date()] *)
Definition date_of (t : datetime) : date := t / 86400.

Inductive Status : Type := PENDING | APPROVED | REJECTED | APPLIED.
Inductive Source : Type := MANUAL | IMPORT | PORTAL | BRDATA_SYNC | SYSTEM.
Inductive ChangeType : Type := COST_AND_PRICE | COST_ONLY | PRICE_ONLY.
Inductive ExportType : Type := PRICE_CHANGE | NEW_ITEM | DISCO | TPR.
Inductive ExportStatus : Type := EXPORT_PENDING | SENT | CONFIRMED | FAILED.

Definition status_eqb (a b : Status) : bool :=
  match a, b with
  | PENDING, PENDING | APPROVED, APPROVED
  | REJECTED, REJECTED | APPLIED, APPLIED => true
  | _, _ => false
  end.

(** A [DateField] attribute: a date once loaded from the database, or
    whatever was assigned to it. *)
Inductive dateval : Type :=
| DateOf (d : date)
| Raw (v : pyval).

(** The file name [brdata_export_<YYYYMMDD>.csv] for the day of a run. *)
Inductive FileName : Type := BrdataExport (today : date).

Record User : Type := mkUser { username : string }.

Record Vendor : Type := mkVendor {
  vendor_code : string;
  target_margin : pyval
}.

(** The columns of [Item] that the workflow reads or writes. *)
Record Item : Type := mkItem {
  item_pk : Z;
  vendor_id : string;
  item_upc : string;
  brdata_item_no : option string;
  description : string;
  case_pack : Z;
  case_cost : pyval;
  allowance : pyval;
  retail_price : pyval;
  last_cost_change : option date;
  last_price_change : option date
}.

Record PendingCostChange : Type := mkPending {
  pc_id : option Z;                (* None until the first save *)
  pc_item : Z;                     (* item_id *)
  pc_vendor_code : string;
  pc_upc : string;
  new_case_cost : pyval;
  new_allowance : pyval;
  effective_date : dateval;
  suggested_retail : pyval;
  approved_retail : pyval;
  prev_case_cost : pyval;
  prev_allowance : pyval;
  prev_retail : pyval;
  prev_margin : pyval;
  status : Status;
  change_source : Source;
  submitted_by : option User;
  approved_by : option User;
  approved_at : option datetime;
  applied_at : option datetime;
  pc_notes : pyval
}.

Record ChangeHistory : Type := mkHistory {
  h_vendor_code : string;
  h_upc : string;
  change_type : ChangeType;
  old_case_cost : pyval;
  old_allowance : pyval;
  h_new_case_cost : pyval;
  h_new_allowance : pyval;
  old_retail : pyval;
  new_retail : pyval;
  old_margin : pyval;
  new_margin : pyval;
  changed_by : string;
  h_change_source : Source;
  pending_cost_change_id : option Z;
  price_change_reason : pyval;
  h_notes : pyval
}.

Record BRDataExportLog : Type := mkExportLog {
  export_type : ExportType;
  x_vendor_code : string;
  x_upc : string;
  x_brdata_item_no : option string;
  x_new_retail : pyval;
  x_effective_date : dateval;
  export_status : ExportStatus;
  export_file : option FileName;
  exported_by : option string
}.

(** *** Item: calculated properties *)

Definition net_case_cost (self : Item) : result pyval :=
  py_sub (case_cost self) (allowance self).

Definition unit_cost (self : Item) : result pyval :=
  if (negb (case_pack self =? 0) && (0 <? case_pack self))%bool then
    net <- net_case_cost self ;;
    pack <- str_decimal (PInt (case_pack self)) ;;
    py_truediv net (PDec pack)
  else Ok PNone.

Definition margin (self : Item) : result pyval :=
  if truthy (retail_price self) then
    pos <- py_gt0 (retail_price self) ;;
    if pos : bool then
      u <- unit_cost self ;;
      if is_none u then Ok PNone
      else
        u' <- unit_cost self ;;
        diff <- py_sub (retail_price self) u' ;;
        py_truediv diff (retail_price self)
    else Ok PNone
  else Ok PNone.

(** *** PendingCostChange *)

Definition set_approval (self : PendingCostChange) (st : Status)
    (by_ : option User) (at_ : option datetime) (retail : pyval)
  : PendingCostChange :=
  mkPending (pc_id self) (pc_item self) (pc_vendor_code self) (pc_upc self)
    (new_case_cost self) (new_allowance self) (effective_date self)
    (suggested_retail self) retail
    (prev_case_cost self) (prev_allowance self) (prev_retail self)
    (prev_margin self) st (change_source self) (submitted_by self)
    by_ at_ (applied_at self) (pc_notes self).

(** [approve(self, user, retail_override=None)]: the instance as it is
    handed to [save()].  [now] is the reading of [timezone.now()]. *)
Definition approve (self : PendingCostChange) (user : option User)
    (retail_override : pyval) (now : datetime) : PendingCostChange :=
  set_approval self APPROVED user (Some now)
    (if truthy retail_override then retail_override
     else if is_none (approved_retail self) then suggested_retail self
     else approved_retail self).

Definition set_applied (self : PendingCostChange) (at_ : datetime)
  : PendingCostChange :=
  mkPending (pc_id self) (pc_item self) (pc_vendor_code self) (pc_upc self)
    (new_case_cost self) (new_allowance self) (effective_date self)
    (suggested_retail self) (approved_retail self)
    (prev_case_cost self) (prev_allowance self) (prev_retail self)
    (prev_margin self) APPLIED (change_source self) (submitted_by self)
    (approved_by self) (approved_at self) (Some at_) (pc_notes self).

(** The three writes of [apply_to_item], in the order the method issues
    them. *)
Record Applied : Type := mkApplied {
  history_row : ChangeHistory;     (* ChangeHistory.objects.create(...) *)
  item_row : Item;                 (* item.save() *)
  change_row : PendingCostChange   (* self.save() *)
}.

(** [apply_to_item(self, user)] on the instance [self] and its [item].
    [t_cost], [t_price] and [t_applied] are the successive readings of
    [timezone.now()]. *)
Definition apply_to_item (self : PendingCostChange) (item : Item)
    (user : option User) (t_cost t_price t_applied : datetime)
  : result Applied :=
  if negb (status_eqb (status self) APPROVED) then Raise ValueError
  else
    (* Determine change type *)
    let retail_changed :=
      (negb (is_none (approved_retail self))
       && py_ne (approved_retail self) (retail_price item))%bool in
    let ct := if retail_changed then COST_AND_PRICE else COST_ONLY in
    (* Write history before updating item *)
    m <- margin item ;;
    let h :=
      mkHistory (vendor_id item) (item_upc item) ct
        (case_cost item) (allowance item)
        (new_case_cost self) (new_allowance self)
        (retail_price item) (approved_retail self)
        m PNone
        (match user with Some u => username u | None => "SYSTEM"%string end)
        (change_source self) (pc_id self) PNone PNone in
    (* Update item *)
    let item' :=
      mkItem (item_pk item) (vendor_id item) (item_upc item)
        (brdata_item_no item) (description item) (case_pack item)
        (new_case_cost self) (new_allowance self)
        (if retail_changed then approved_retail self else retail_price item)
        (Some (date_of t_cost))
        (if retail_changed then Some (date_of t_price)
         else last_price_change item) in
    (* Mark change as applied *)
    Ok (mkApplied h item' (set_applied self t_applied)).

End Models.
Export Models.

(* ================================================================= *)
(** ** The database, as the ORM calls of dsd/views.py use it

    A table is the list of its rows.  [save()] and [objects.create()] store
    an instance with the attribute values it has (the column conversions of
    the database driver are not part of the source).  The [journal] lists
    the writes in the order they were issued.  The automatic columns
    [created_at], [updated_at], [change_date] and [export_date] are left
    out.  Rows are kept in insertion order; [Meta.ordering] is not
    modelled. *)

Module Db.

Inductive Write : Type :=
| WHistory (h : ChangeHistory)
| WItem (i : Item)
| WChange (c : PendingCostChange)
| WExportLog (l : BRDataExportLog).

Record Store : Type := mkStore {
  vendors : list Vendor;
  items : list Item;
  changes : list PendingCostChange;
  history : list ChangeHistory;
  export_log : list BRDataExportLog;
  next_change_id : Z;
  journal : list Write
}.

Definition has_id (k : Z) (c : PendingCostChange) : bool :=
  match pc_id c with
  | Some j => j =? k
  | None => false
  end.

Definition with_id (c : PendingCostChange) (k : Z) : PendingCostChange :=
  mkPending (Some k) (pc_item c) (pc_vendor_code c) (pc_upc c)
    (new_case_cost c) (new_allowance c) (effective_date c)
    (suggested_retail c) (approved_retail c)
    (prev_case_cost c) (prev_allowance c) (prev_retail c) (prev_margin c)
    (status c) (change_source c) (submitted_by c) (approved_by c)
    (approved_at c) (applied_at c) (pc_notes c).

(** [Item.objects.filter(vendor_id=..., upc=...)] *)
Definition find_item (st : Store) (code upc : string) : option Item :=
  find (fun i => (String.eqb (vendor_id i) code
                  && String.eqb (item_upc i) upc)%bool) (items st).

(** [change.item] *)
Definition item_of (st : Store) (k : Z) : option Item :=
  find (fun i => item_pk i =? k) (items st).

(** [item.vendor] *)
Definition vendor_of (st : Store) (code : string) : option Vendor :=
  find (fun v => String.eqb (vendor_code v) code) (vendors st).

Definition is_pending_for (k : Z) (c : PendingCostChange) : bool :=
  ((pc_item c =? k) && status_eqb (status c) PENDING)%bool.

(** [PendingCostChange.objects.filter(item=item, status='PENDING')] *)
Definition pending_for (st : Store) (k : Z) : list PendingCostChange :=
  filter (is_pending_for k) (changes st).

(** [PendingCostChange.objects.filter(id=k, status=s)] *)
Definition change_with (st : Store) (k : Z) (s : Status)
  : option PendingCostChange :=
  find (fun c => (has_id k c && status_eqb (status c) s)%bool) (changes st).

Definition get_or_404 {A : Type} (o : option A) : result A :=
  match o with
  | Some a => Ok a
  | None => Raise Http404
  end.

Definition get_or_missing {A : Type} (o : option A) : result A :=
  match o with
  | Some a => Ok a
  | None => Raise DoesNotExist
  end.

Definition replace_change (c : PendingCostChange) (k : Z)
    (rows : list PendingCostChange) : list PendingCostChange :=
  map (fun r => if has_id k r then c else r) rows.

(** [change.save()]: an update of the row with the instance's id, or an
    insert under a fresh id. *)
Definition save_change (st : Store) (c : PendingCostChange) : Store :=
  match pc_id c with
  | Some k =>
      mkStore (vendors st) (items st)
        (if existsb (has_id k) (changes st)
         then replace_change c k (changes st)
         else changes st ++ [c])
        (history st) (export_log st) (next_change_id st)
        (journal st ++ [WChange c])
  | None =>
      let c' := with_id c (next_change_id st) in
      mkStore (vendors st) (items st) (changes st ++ [c'])
        (history st) (export_log st) (next_change_id st + 1)
        (journal st ++ [WChange c'])
  end.

(** [item.save()] for an item loaded from the table. *)
Definition save_item (st : Store) (i : Item) : Store :=
  mkStore (vendors st)
    (map (fun r => if item_pk r =? item_pk i then i else r) (items st))
    (changes st) (history st) (export_log st) (next_change_id st)
    (journal st ++ [WItem i]).

(** [ChangeHistory.objects.create(...)] *)
Definition create_history (st : Store) (h : ChangeHistory) : Store :=
  mkStore (vendors st) (items st) (changes st) (history st ++ [h])
    (export_log st) (next_change_id st) (journal st ++ [WHistory h]).

(** [BRDataExportLog.objects.create(...)] *)
Definition create_export_log (st : Store) (l : BRDataExportLog) : Store :=
  mkStore (vendors st) (items st) (changes st) (history st)
    (export_log st ++ [l]) (next_change_id st) (journal st ++ [WExportLog l]).

End Db.
Export Db.

(* ================================================================= *)
(** ** dsd/urls.py

    The URL configuration of the application, and [reverse] as Django
    resolves a name of the namespace [dsd] against it, the project having
    included the file.  The names that the project's other URL
    configurations declare are not in the sources; [Views.Installed] has
    them. *)

Module Urls.

Local Open Scope string_scope.

Definition app_name : string := "dsd".

(** [path(route, views.<view>, name=<name>)] *)
Record Path : Type := mkPath {
  route : string;
  view : string;
  name : string
}.

Definition urlpatterns : list Path :=
  [ mkPath "" "dashboard" "dashboard";
    mkPath "vendors/" "vendor_list" "vendor_list";
    mkPath "vendors/<str:vendor_code>/" "price_book" "price_book";
    mkPath "vendors/<str:vendor_code>/items/<str:upc>/"
      "item_detail" "item_detail";
    mkPath "vendors/<str:vendor_code>/items/<str:upc>/change/"
      "cost_change_entry" "cost_change_entry";
    mkPath "pending/" "pending_changes" "pending_changes";
    mkPath "pending/<int:change_id>/approve/"
      "approve_change" "approve_change";
    mkPath "pending/<int:change_id>/apply/" "apply_change" "apply_change";
    mkPath "export/brdata/" "brdata_export" "brdata_export" ].

(** The pattern that a name with its namespace, [dsd:<name>], refers
    to. *)
Definition named (viewname : string) : option Path :=
  find (fun p => String.eqb (app_name ++ ":" ++ name p) viewname) urlpatterns.

(** The texts that a route holds between [<] and [>]. *)
Fixpoint angles (route : string) (inside : option string) : list string :=
  match route with
  | EmptyString => []
  | String c rest =>
      match inside with
      | None =>
          if Ascii.eqb c "<" then angles rest (Some "") else angles rest None
      | Some acc =>
          if Ascii.eqb c ">" then acc :: angles rest None
          else angles rest (Some (acc ++ String c ""))
      end
  end.

(** The text before the first colon and the text after it. *)
Fixpoint at_colon (s : string) : option (string * string) :=
  match s with
  | EmptyString => None
  | String c rest =>
      if Ascii.eqb c ":" then Some ("", rest)
      else
        match at_colon rest with
        | Some (before, after) => Some (String c before, after)
        | None => None
        end
  end.

(** The parameters of a route, each with its converter: [<converter:name>],
    and [<name>] for the converter [str]. *)
Definition params (route : string) : list (string * string) :=
  map (fun s => match at_colon s with
                | Some p => p
                | None => ("str", s)
                end) (angles route None).

(** Whether a text fits a converter: [[^/]+] for [str] and [[0-9]+] for
    [int], the two converters of this file. *)
Definition fits (converter value : string) : bool :=
  if String.eqb converter "str" then
    (negb (String.eqb value "")
     && Str.all (fun c => negb (Ascii.eqb c "/")) value)%bool
  else if String.eqb converter "int" then
    (negb (String.eqb value "") && Str.all Str.isdecimal value)%bool
  else false.

(** Whether [reverse(viewname, kwargs=kwargs)] returns a URL: the name is
    declared, the keywords are the parameters of its route, and each value
    fits its converter.  Otherwise [reverse] raises NoReverseMatch. *)
Definition reverses (viewname : string) (kwargs : list (string * string))
  : bool :=
  match named viewname with
  | Some p =>
      let ps := params (route p) in
      (forallb (fun kv => existsb (fun q => String.eqb (snd q) (fst kv)) ps)
         kwargs
       && forallb
            (fun q =>
               match find (fun kv => String.eqb (fst kv) (snd q)) kwargs with
               | Some kv => fits (fst q) (snd kv)
               | None => false
               end) ps)%bool
  | None => false
  end.

End Urls.
Export Urls.

(* ================================================================= *)
(** ** dsd/views.py *)

Module Views.

Local Open Scope string_scope.

(** A view runs against the database and either returns or raises; the
    writes issued before an exception stay in the store. *)
Definition Db (A : Type) : Type := Store -> Store * result A.

Definition ret {A : Type} (a : A) : Db A := fun st => (st, Ok a).
Definition lift {A : Type} (r : result A) : Db A := fun st => (st, r).
Definition query {A : Type} (q : Store -> A) : Db A :=
  fun st => (st, Ok (q st)).
Definition write (w : Store -> Store) : Db unit :=
  fun st => (w st, Ok tt).
Definition and_then {A B : Type} (m : Db A) (k : A -> Db B) : Db B :=
  fun st =>
    match m st with
    | (st', Ok a) => k a st'
    | (st', Raise e) => (st', Raise e)
    end.

Notation "x <~ m ;; k" := (and_then m (fun x => k))
  (at level 61, m at next level, right associativity).

Inductive Method : Type := GET | POST.

(** [request.method], [request.user] and [request.POST.get]. *)
Record Request : Type := mkRequest {
  method : Method;
  user : User;
  post : string -> option string
}.

Inductive Level : Type := Success | Warning | Error.

(** One line of the export, before it is printed as text. *)
Record ExportRow : Type := mkRow {
  ITEM_NO : string;
  UPC : string;
  DESCRIPTION : string;
  NEW_RETAIL : pyval;
  EFFECTIVE_DATE : date;
  VENDOR_CODE : string
}.

Inductive Response : Type :=
| Redirect (target : string)
| Page (template : string) (preview_suggested : pyval)
| Attachment (filename : FileName) (rows : list ExportRow).

(** What the view hands back: the response and the levels of the
    messages it queued. *)
Record Reply : Type := mkReply {
  response : Response;
  messages : list Level
}.

(** *** [redirect]

    Two things that [redirect] depends on are not in the sources, and the
    views are given for any choice of them.

    [HttpResponseRedirect(url)] does not take every text.  It raises
    DisallowedRedirect for a URL with a scheme other than http, https and
    ftp, and [urlsplit], which it calls to find the scheme, raises
    ValueError for a host that it finds malformed.  Which texts are
    refused depends on the versions of Django and of Python that are
    installed: [refuses url] is the exception that
    [HttpResponseRedirect(url)] raises, if it raises one.

    The project's other URL configurations declare names of their own,
    outside the namespace [dsd]: [declares name kwargs] says whether
    [reverse] finds one of them. *)
Class Installed : Type := {
  refuses : string -> option exn;
  declares : string -> list (string * string) -> bool
}.

Definition has_char (c : ascii) (s : string) : bool :=
  negb (Str.all (fun a => negb (Ascii.eqb a c)) s).

Fixpoint lstrip_c0 (s : string) : string :=
  match s with
  | String a s' => if (N_of_ascii a <=? 32)%N then lstrip_c0 s' else s
  | EmptyString => EmptyString
  end.

Definition is_unsafe (a : ascii) : bool :=
  let n := N_of_ascii a in ((n =? 9) || (n =? 10) || (n =? 13))%N.

Definition is_ascii_alpha (a : ascii) : bool :=
  let n := N_of_ascii a in
  (((65 <=? n) && (n <=? 90)) || ((97 <=? n) && (n <=? 122)))%N.

(** [scheme_chars] *)
Definition is_scheme_char (a : ascii) : bool :=
  (is_ascii_alpha a || Str.isdecimal a
   || Ascii.eqb a "+" || Ascii.eqb a "-" || Ascii.eqb a ".")%bool.

(** The scheme that [urlsplit] finds, in lower case, and the rest of the
    text. *)
Definition split_scheme (url : string) : option string * string :=
  let u := Str.keep (fun a => negb (is_unsafe a)) (lstrip_c0 url) in
  match at_colon u with
  | Some (String c before, after) =>
      if (is_ascii_alpha c && Str.all is_scheme_char before)%bool
      then (Some (Parse.map_lower (String c before)), after)
      else (None, u)
  | _ => (None, u)
  end.

(** The host part: what follows [//], up to the next [/], [?] or [#]. *)
Fixpoint upto_delimiter (s : string) : string :=
  match s with
  | String a s' =>
      if (Ascii.eqb a "/" || Ascii.eqb a "?" || Ascii.eqb a "#")%bool
      then EmptyString else String a (upto_delimiter s')
  | EmptyString => EmptyString
  end.

Definition netloc (rest : string) : string :=
  match rest with
  | String "/" (String "/" s) => upto_delimiter s
  | _ => EmptyString
  end.

(** An installation for the examples: a project with no other names, the
    three schemes of Django, read the way [urlsplit] of Python 3.11 reads
    them, which drops leading control characters and spaces and every tab,
    carriage return and line feed, and a host with one square bracket only
    refused.  (Later versions also look at what stands between two
    brackets.) *)
Definition python311_refuses (url : string) : option exn :=
  let '(scheme, rest) := split_scheme url in
  if xorb (has_char "[" (netloc rest)) (has_char "]" (netloc rest))
  then Some ValueError
  else
    match scheme with
    | Some s =>
        if (String.eqb s "http" || String.eqb s "https"
            || String.eqb s "ftp")%bool
        then None else Some DisallowedRedirect
    | None => None
    end.

#[global] Instance python311 : Installed := {|
  refuses := python311_refuses;
  declares := fun _ _ => false
|}.

(** [reverse(to, kwargs=kwargs)] finds a route. *)
Definition reversible {lib : Installed} (to : string)
  (kwargs : list (string * string)) : bool :=
  if String.prefix (app_name ++ ":") to then reverses to kwargs
  else declares to kwargs.

(** [HttpResponseRedirect(url)] *)
Definition http_redirect {lib : Installed} (url : string)
  : result Response :=
  match refuses url with
  | Some e => Raise e
  | None => Ok (Redirect url)
  end.

(** [redirect(to, **kwargs)] for a text [to]: a relative URL is taken as
    it is; a name that [reverse] knows gives the URL of its route, a path
    from the root with no scheme and no host; any other text is taken for
    a URL when it holds a slash or a point, and raises NoReverseMatch when
    it holds neither.  [Redirect target] records the text given to
    [redirect]; the URL of a route depends on where the project mounts the
    application and is not spelled out. *)
Definition redirect {lib : Installed} (to : string)
  (kwargs : list (string * string)) : result Response :=
  if (String.prefix "./" to || String.prefix "../" to)%bool
  then http_redirect to
  else if reversible to kwargs then Ok (Redirect to)
  else if (negb (has_char "/" to) && negb (has_char "." to))%bool
  then Raise NoReverseMatch
  else http_redirect to.

(** [request.POST.get(key, default)] *)
Definition post_get (req : Request) (key : string) (default : pyval)
  : pyval :=
  match post req key with
  | Some s => PStr s
  | None => default
  end.

(** [a or b] *)
Definition py_or (a b : pyval) : pyval := if truthy a then a else b.

(** *** cost_change_entry *)

(** [float(item.margin) if item.margin else float(item.vendor.target_margin)] *)
Definition margin_basis (st : Store) (item : Item) : result F64.float :=
  m <- margin item ;;
  if truthy m then
    m' <- margin item ;; py_float m'
  else
    v <- get_or_missing (vendor_of st (vendor_id item)) ;;
    py_float (target_margin v).

(** [(new_case_cost - new_allowance) / item.case_pack], on floats. *)
Definition new_unit_cost_of (cost allow : F64.float) (item : Item)
  : result pyval :=
  net <- py_sub (PFloat cost) (PFloat allow) ;;
  py_truediv net (PInt (case_pack item)).

(** [PendingCostChange(item=item, vendor_code=..., upc=...)] *)
Definition new_change (item : Item) (code upc : string)
  : PendingCostChange :=
  mkPending None (item_pk item) code upc
    PNone (PDec (Fin 0 (-2))) (Raw PNone) PNone PNone
    PNone PNone PNone PNone
    PENDING MANUAL None None None None PNone.

(** The body of the [try] block up to [change.save()]: the instance that
    is saved, or the exception raised on the way. *)
Definition submitted_change (st : Store) (req : Request)
    (item : Item) (existing : option PendingCostChange)
    (code upc : string) : result PendingCostChange :=
  let new_case_cost := post_get req "new_case_cost" PNone in
  let new_allowance := post_get req "new_allowance" (PInt 0) in
  let effective_date := post_get req "effective_date" PNone in
  let approved_retail := post_get req "approved_retail" PNone in
  let notes := post_get req "notes" (PStr "") in
  cost <- py_float new_case_cost ;;
  allow <- py_float (py_or new_allowance (PInt 0)) ;;
  new_unit_cost <- new_unit_cost_of cost allow item ;;
  (* Calculate suggested retail *)
  current_margin <- margin_basis st item ;;
  suggested <- suggest_retail new_unit_cost (PFloat current_margin) ;;
  (* If existing pending change, update it; otherwise create new *)
  let change :=
    match existing with
    | Some c => c
    | None => new_change item code upc
    end in
  prev <- margin item ;;
  Ok (mkPending (pc_id change) (pc_item change)
        (pc_vendor_code change) (pc_upc change)
        (PFloat cost) (PFloat allow) (Raw effective_date)
        suggested (py_or approved_retail suggested)
        (case_cost item) (allowance item) (retail_price item) prev
        PENDING MANUAL (Some (user req))
        (approved_by change) (approved_at change) (applied_at change)
        notes).

(** [except (ValueError, TypeError)] *)
Definition caught_in_entry (e : exn) : bool :=
  match e with
  | ValueError | TypeError => true
  | _ => false
  end.

(** The part of the view that shows the form. *)
Definition entry_form (item : Item) (msgs : list Level) : result Reply :=
  u <- unit_cost item ;;
  preview <-
    (if truthy u then
       m <- margin item ;;
       if truthy m then
         u' <- unit_cost item ;;
         fu <- py_float u' ;;
         m' <- margin item ;;
         fm <- py_float m' ;;
         suggest_retail (PFloat fu) (PFloat fm)
       else Ok PNone
     else Ok PNone) ;;
  Ok (mkReply (Page "dsd/cost_change_entry.html" preview) msgs).

Definition cost_change_entry {lib : Installed} (req : Request) (code upc : string)
  : Db Reply :=
  item <~ query (fun st => find_item st code upc) ;;
  item <~ lift (get_or_404 item) ;;
  (* Check for existing pending change *)
  existing <~ query (fun st => hd_error (pending_for st (item_pk item))) ;;
  match method req with
  | POST =>
      attempt <~ query (fun st => submitted_change st req item existing code upc) ;;
      match attempt with
      | Ok change =>
          _ <~ write (fun st => save_change st change) ;;
          page <~ lift (redirect "dsd:price_book" [("vendor_code", code)]) ;;
          ret (mkReply page [Success])
      | Raise e =>
          if caught_in_entry e then lift (entry_form item [Error])
          else lift (Raise e)
      end
  | GET => lift (entry_form item [])
  end.

(** *** approve_change *)

(** [request.POST.get('next', 'dsd:pending_cost_changes')] *)
Definition next_target (req : Request) : string :=
  match post req "next" with
  | Some s => s
  | None => "dsd:pending_cost_changes"
  end.

(** [return redirect(request.POST.get('next', 'dsd:pending_cost_changes'))]
    after the messages [msgs] were queued. *)
Definition next_page {lib : Installed} (req : Request) (msgs : list Level) : Db Reply :=
  page <~ lift (redirect (next_target req) []) ;;
  ret (mkReply page msgs).

Definition action_is (req : Request) (a : string) : bool :=
  match post req "action" with
  | Some s => String.eqb s a
  | None => false
  end.

(** [now] is the reading of [timezone.now()] of the branch taken. *)
Definition approve_change {lib : Installed} (req : Request) (change_id : Z) (now : datetime)
  : Db Reply :=
  change <~ query (fun st => change_with st change_id PENDING) ;;
  change <~ lift (get_or_404 change) ;;
  match method req with
  | POST =>
      let retail_override := post_get req "approved_retail" PNone in
      if action_is req "approve" then
        _ <~ write (fun st =>
               save_change st
                 (approve change (Some (user req))
                    (py_or retail_override PNone) now)) ;;
        next_page req [Success]
      else if action_is req "reject" then
        _ <~ write (fun st =>
               save_change st
                 (set_approval change REJECTED (Some (user req)) (Some now)
                    (approved_retail change))) ;;
        next_page req [Warning]
      else next_page req []
  | GET => next_page req []
  end.

(** *** apply_change *)

Definition apply_change {lib : Installed} (req : Request) (change_id : Z)
    (t_cost t_price t_applied : datetime) : Db Reply :=
  change <~ query (fun st => change_with st change_id APPROVED) ;;
  change <~ lift (get_or_404 change) ;;
  match method req with
  | POST =>
      item <~ query (fun st => item_of st (pc_item change)) ;;
      item <~ lift (get_or_missing item) ;;
      match apply_to_item change item (Some (user req))
              t_cost t_price t_applied with
      | Ok a =>
          _ <~ write (fun st => create_history st (history_row a)) ;;
          _ <~ write (fun st => save_item st (item_row a)) ;;
          _ <~ write (fun st => save_change st (change_row a)) ;;
          next_page req [Success]
      | Raise ValueError => next_page req [Error]
      | Raise e => lift (Raise e)
      end
  | GET => next_page req []
  end.

(** *** brdata_export *)

(** [status='APPROVED', effective_date__lte=today] *)
Definition is_due (today : date) (c : PendingCostChange) : bool :=
  (status_eqb (status c) APPROVED
   && match effective_date c with
      | DateOf d => Z.leb d today
      | Raw _ => false
      end)%bool.

Definition due_changes (st : Store) (today : date)
  : list PendingCostChange :=
  filter (is_due today) (changes st).

(** [d.strftime(...)] needs a date. *)
Definition strftime (d : dateval) : result date :=
  match d with
  | DateOf x => Ok x
  | Raw _ => Raise TypeError
  end.

Definition export_row (st : Store) (change : PendingCostChange)
  : result ExportRow :=
  item <- get_or_missing (item_of st (pc_item change)) ;;
  day <- strftime (effective_date change) ;;
  Ok (mkRow (match brdata_item_no item with Some s => s | None => "" end)
        (pc_upc change) (description item) (approved_retail change)
        day (pc_vendor_code change)).

(** The body of the first loop: the rows written and [export_records]. *)
Fixpoint write_rows (st : Store) (due : list PendingCostChange)
  : result (list ExportRow * list (option Z)) :=
  match due with
  | [] => Ok ([], [])
  | change :: rest =>
      row <- export_row st change ;;
      more <- write_rows st rest ;;
      Ok (row :: fst more, pc_id change :: snd more)
  end.

(** [changes.get(id=change_id)] on the query set of due changes. *)
Definition get_due (st : Store) (today : date) (id : option Z)
  : result PendingCostChange :=
  get_or_missing
    (find (fun c => match id with
                    | Some k => has_id k c
                    | None => false
                    end) (due_changes st today)).

Definition export_log_entry (st : Store) (today : date) (file : FileName)
    (who : string) (id : option Z) : result BRDataExportLog :=
  c1 <- get_due st today id ;;
  c2 <- get_due st today id ;;
  c3 <- get_due st today id ;;
  item <- get_or_missing (item_of st (pc_item c3)) ;;
  c4 <- get_due st today id ;;
  c5 <- get_due st today id ;;
  Ok (mkExportLog PRICE_CHANGE (pc_vendor_code c1) (pc_upc c2)
        (brdata_item_no item) (approved_retail c4) (effective_date c5)
        SENT (Some file) (Some who)).

(** The second loop: one [BRDataExportLog.objects.create] per exported
    id. *)
Fixpoint log_exports (today : date) (file : FileName) (who : string)
    (ids : list (option Z)) : Db unit :=
  match ids with
  | [] => ret tt
  | id :: rest =>
      entry <~ query (fun st => export_log_entry st today file who id) ;;
      entry <~ lift entry ;;
      _ <~ write (fun st => create_export_log st entry) ;;
      log_exports today file who rest
  end.

(** [brdata_export(request)]; [now] is the reading of [timezone.now()]. *)
Definition brdata_export {lib : Installed} (req : Request) (now : datetime) : Db Reply :=
  let today := date_of now in
  due <~ query (fun st => due_changes st today) ;;
  match due with
  | [] =>
      page <~ lift (redirect "dsd:pending_cost_changes" []) ;;
      ret (mkReply page [Warning])
  | _ :: _ =>
      let filename := BrdataExport today in
      written <~ query (fun st => write_rows st due) ;;
      written <~ lift written ;;
      (* Log the export *)
      _ <~ log_exports today filename (username (user req)) (snd written) ;;
      ret (mkReply (Attachment filename (fst written)) [])
  end.

End Views.
Export Views.

(* ================================================================= *)
(** * Vocabulary of the properties *)

(** ** Rows as the database returns them *)

Definition is_decimal (v : pyval) : Prop :=
  exists c e, v = PDec (Fin c e).


(** ** A worked price book

    The scenario of the specification: a case of four at $10.00 with no
    allowance, on the shelf at $3.48. *)

Module Book.

Local Open Scope string_scope.

Definition money (cents : Z) : pyval := PDec (Fin cents (-2)).

Definition cola : Item :=
  mkItem 1 "COKE" "049000028904" (Some "1001") "Cola 12oz" 4
    (money 1000) (money 0) (money 348) None None.

Definition coke : Vendor := mkVendor "COKE" (PDec (Fin 2800 (-4))).

Definition amy : User := mkUser "amy".

(** A change as the submit view leaves it once reloaded: cost up to
    $11.00, suggested and approved retail $3.88. *)
Definition raise_cost (s : Status) : PendingCostChange :=
  mkPending (Some 7) 1 "COKE" "049000028904"
    (money 1100) (money 0) (DateOf 19737) (money 388) (money 388)
    (money 1000) (money 0) (money 348)
    (PDec (Fin 2816 (-4)))
    s MANUAL (Some amy) None None None (PStr "").

Definition shop (s : Status) : Store :=
  mkStore [coke] [cola] [raise_cost s] [] [] 8 [].

(** A POST with the given fields. *)
Fixpoint lookup (fields : list (string * string)) (key : string)
  : option string :=
  match fields with
  | [] => None
  | (k, v) :: rest => if String.eqb k key then Some v else lookup rest key
  end.

Definition posted (fields : list (string * string)) : Request :=
  mkRequest POST amy (lookup fields).

End Book.

(** ** Apply and approve *)

(** The test of [apply_to_item] for a change of the retail price. *)
Definition retail_changed (self : PendingCostChange) (item : Item) : bool :=
  (negb (is_none (approved_retail self))
   && py_ne (approved_retail self) (retail_price item))%bool.

(** The numeric zeros: [0], [0.0], [-0.0] and a Decimal zero. *)
Definition is_zero_number (v : pyval) : Prop :=
  v = PInt 0
  \/ (exists s, v = PFloat (S754_zero s))
  \/ (exists e, v = PDec (Fin 0 e)).

(** ** Submit *)

(** An item whose margin is zero. *)
Module Zero.

Local Open Scope string_scope.

(** The cola priced at cost: retail $2.50 against a unit cost of $2.50,
    a margin that is defined and exactly zero. *)
Definition cola_at_cost : Item :=
  mkItem 1 "COKE" "049000028904" (Some "1001") "Cola 12oz" 4
    (Book.money 1000) (Book.money 0) (Book.money 250) None None.

Definition shop : Store := mkStore [Book.coke] [cola_at_cost] [] [] [] 1 [].

Definition request : Request :=
  Book.posted [("new_case_cost", "11.00"); ("effective_date", "2024-01-15")].

(** [2.75], the new unit cost [(11.0 - 0.0) / 4]. *)
Definition new_unit_cost : pyval :=
  PFloat (S754_finite false 6192449487634432 (-51)).

End Zero.

(** The state of the table of changes that the views maintain: every row
    has an id below the next one to be given out, no two rows share an id,
    and no item has two PENDING rows. *)
Record consistent (st : Store) : Prop := mkConsistent {
  ids_given :
    Forall (fun c => exists k, pc_id c = Some k /\ k < next_change_id st)
      (changes st);
  ids_unique : NoDup (map pc_id (changes st));
  one_pending : forall item : Z, (List.length (pending_for st item) <= 1)%nat
}.

(** The instance handed to [save()] by a submit that goes through. *)
Definition base_change (item : Item) (existing : option PendingCostChange)
    (code upc : string) : PendingCostChange :=
  match existing with
  | Some c => c
  | None => new_change item code upc
  end.

(** What the saved change carries: the fields of the request, and the
    item's cost, allowance, retail and margin as they are at that moment. *)
Definition carries_submission (req : Request) (item : Item)
    (saved : PendingCostChange) : Prop :=
  exists (cost allow : F64.float) (m : pyval),
    py_float (post_get req "new_case_cost" PNone) = Ok cost
    /\ py_float (py_or (post_get req "new_allowance" (PInt 0)) (PInt 0))
       = Ok allow
    /\ margin item = Ok m
    /\ new_case_cost saved = PFloat cost
    /\ new_allowance saved = PFloat allow
    /\ effective_date saved = Raw (post_get req "effective_date" PNone)
    /\ approved_retail saved
       = py_or (post_get req "approved_retail" PNone) (suggested_retail saved)
    /\ pc_notes saved = post_get req "notes" (PStr "")
    /\ submitted_by saved = Some (user req)
    /\ change_source saved = MANUAL
    /\ status saved = PENDING
    /\ pc_item saved = item_pk item
    /\ prev_case_cost saved = case_cost item
    /\ prev_allowance saved = allowance item
    /\ prev_retail saved = retail_price item
    /\ prev_margin saved = m.

(** Two submissions in a row. *)
Module Twice.

Local Open Scope string_scope.

(** Two submissions for the cola: first $11.00, then $12.00 with an
    allowance of $0.40. *)
Definition first : Request :=
  Book.posted [("new_case_cost", "11.00"); ("effective_date", "2024-01-15")].
Definition second : Request :=
  Book.posted [("new_case_cost", "12.00"); ("new_allowance", "0.40");
               ("effective_date", "2024-02-01"); ("notes", "revised")].

(** The submission redirects to a route, so that what is installed does
    not matter; the examples run on [python311]. *)
Definition submit (req : Request) (st : Store) : Store * result Reply :=
  cost_change_entry req "COKE" "049000028904" st.

Definition after_first : Store := fst (submit first (Book.shop APPLIED)).
Definition after_second : Store := fst (submit second after_first).

Definition went_through : Reply := mkReply (Redirect "dsd:price_book") [Success].

End Twice.

(** ** Export *)


(** The line of the export for a change. *)
Definition row_of (st : Store) (c : PendingCostChange) : option ExportRow :=
  match item_of st (pc_item c), effective_date c with
  | Some item, DateOf d =>
      Some (mkRow (match brdata_item_no item with Some s => s | None => "" end)
              (pc_upc c) (description item) (approved_retail c) d
              (pc_vendor_code c))
  | _, _ => None
  end.


(** The log after a run. *)
Definition append_logs (st : Store) (logs : list BRDataExportLog) : Store :=
  fold_left create_export_log logs st.

(** A table with changes that are due and one that is not. *)
Module Due.

Local Open Scope string_scope.

(** Four approved changes for the cola: three due by day 19737, one
    dated later. *)
Definition approved (id : Z) (day : date) (retail : Z) : PendingCostChange :=
  mkPending (Some id) 1 "COKE" "049000028904"
    (Book.money 1100) (Book.money 0) (DateOf day)
    (Book.money retail) (Book.money retail)
    (Book.money 1000) (Book.money 0) (Book.money 348)
    (PDec (Fin 2816 (-4)))
    APPROVED MANUAL (Some Book.amy) (Some Book.amy) (Some 1705000000) None
    (PStr "").

Definition shop : Store :=
  mkStore [Book.coke] [Book.cola]
    [approved 1 19730 388; approved 2 19735 398; approved 3 19737 408;
     approved 4 19800 418]
    [] [] 5 [].

Definition request : Request := Book.posted [].

(** A reading of the clock on day 19737. *)
Definition now : datetime := 1705325000.

End Due.

(** ** Decimal values *)

(** [c1 * 10^e1 <= c2 * 10^e2], on the integers of the common exponent. *)
Definition le_val (c1 e1 c2 e2 : Z) : Prop :=
  c1 * 10 ^ (e1 - Z.min e1 e2) <= c2 * 10 ^ (e2 - Z.min e1 e2).

(** The steps of [Decimal.__truediv__] on positive coefficients: the
    shift, the scaled operands, and the quotient with its sticky digit. *)
Definition quot_shift (a b : Z) : Z := ndigits b - ndigits a + prec + 1.
Definition quot_num (a b : Z) : Z :=
  if 0 <=? quot_shift a b then a * 10 ^ quot_shift a b else a.
Definition quot_den (a b : Z) : Z :=
  if 0 <=? quot_shift a b then b else b * 10 ^ (- quot_shift a b).
Definition quot_sticky (a b : Z) : Z :=
  let q := quot_num a b / quot_den a b in
  if (negb (quot_num a b mod quot_den a b =? 0) && (q mod 5 =? 0))%bool
  then q + 1 else q.

(* ================================================================= *)
(** * More of the code, and the vocabulary of its properties *)


(* ================================================================= *)
(** ** dsd/utils/pricing.py: UPC utilities

    The argument is [None] or a [str]. *)

Module Upc.

Local Open Scope string_scope.

(** [normalize_upc(raw_upc)], on a text of characters below 256;
    [Wide.normalize_upc] is the function on any text. *)
Definition normalize_upc (raw_upc : option string) : option string :=
  match raw_upc with
  | None => None
  | Some raw =>
      let cleaned := Str.strip (Str.keep Str.isdecimal raw) in
      if String.eqb cleaned "" then None else Some cleaned
  end.

(** [validate_upc(upc)]: the pair [(is_valid, message)]. *)
Definition validate_upc (upc : option string) : bool * string :=
  match upc with
  | None | Some "" => (false, "UPC is empty")
  | Some upc =>
      if negb (Str.isdigit upc) then
        (false, "UPC contains non-numeric characters: " ++ upc)
      else
        let n := String.length upc in
        if negb ((n =? 12) || (n =? 13) || (n =? 14))%nat then
          (false, "UPC length " ++ Str.of_nat n
                  ++ " is invalid (expected 12, 13, or 14)")
        else (true, "OK")
  end.

End Upc.
Export Upc.

(** Twelve times the superscript two, a text of digits for [isdigit()]. *)
Definition superscripts : string :=
  let two := ascii_of_nat 178 in
  String two (String two (String two (String two (String two (String two
  (String two (String two (String two (String two (String two (String two
  EmptyString))))))))))).

(* ================================================================= *)
(** ** dsd/models.py: the other calculated properties *)

Module Calculated.

(** [PendingCostChange.new_net_case_cost] *)
Definition new_net_case_cost (self : PendingCostChange) : result pyval :=
  py_sub (new_case_cost self) (new_allowance self).

(** [PendingCostChange.new_unit_cost]; [item] is [self.item], an instance
    and so true in a condition. *)
Definition new_unit_cost (self : PendingCostChange) (item : Item)
  : result pyval :=
  if 0 <? case_pack item then
    net <- new_net_case_cost self ;;
    pack <- str_decimal (PInt (case_pack item)) ;;
    py_truediv net (PDec pack)
  else Ok PNone.

(** [(self.prev_case_cost - (self.prev_allowance or 0)) / self.item.case_pack] *)
Definition old_unit_cost (self : PendingCostChange) (item : Item)
  : result pyval :=
  net <- py_sub (prev_case_cost self) (py_or (prev_allowance self) (PInt 0)) ;;
  py_truediv net (PInt (case_pack item)).

(** [PendingCostChange.cost_change_amount] *)
Definition cost_change_amount (self : PendingCostChange) (item : Item)
  : result pyval :=
  if (negb (is_none (prev_case_cost self)) && (0 <? case_pack item))%bool then
    old_unit <- old_unit_cost self item ;;
    new_unit <- new_unit_cost self item ;;
    if is_none new_unit then Ok PNone
    else
      new_unit' <- new_unit_cost self item ;;
      py_sub new_unit' old_unit
  else Ok PNone.

(** [PendingCostChange.retail_is_overridden] *)
Definition retail_is_overridden (self : PendingCostChange) : bool :=
  if (truthy (approved_retail self) && truthy (suggested_retail self))%bool
  then py_ne (approved_retail self) (suggested_retail self)
  else false.



End Calculated.
Export Calculated.

(* ================================================================= *)
(** ** dsd/views.py: the grouping loop of price_book *)

Module PriceBook.

(** The columns of [LinkGroup] that the loop reads. *)
Record LinkGroup : Type := mkLinkGroup {
  lg_id : Z;
  link_code : string;
  link_group_name : string
}.

(** An item as the query yields it, with [item.link_group] as
    [select_related] loaded it. *)
Definition Listed : Type := (Item * option LinkGroup)%type.

(** A value of the dict [groups]. *)
Record Group : Type := mkGroup {
  link_group : LinkGroup;
  group_items : list Item
}.

(** The dict [groups]: its keys in the order of their insertion. *)
Definition Groups : Type := list (string * Group).

(** [key in groups] *)
Definition has_key (groups : Groups) (key : string) : bool :=
  existsb (fun kv => String.eqb (fst kv) key) groups.

(** [groups[key]['items'].append(item)] *)
Definition append_to (groups : Groups) (key : string) (item : Item)
  : Groups :=
  map (fun kv =>
         if String.eqb (fst kv) key
         then (fst kv, mkGroup (link_group (snd kv))
                         (group_items (snd kv) ++ [item]))
         else kv) groups.

(** The body of the loop, on [groups] and [ungrouped]. *)
Definition place (acc : Groups * list Item) (row : Listed)
  : Groups * list Item :=
  let '(groups, ungrouped) := acc in
  let '(item, lg) := row in
  match lg with
  | Some g =>
      let key := link_code g in
      let groups :=
        if negb (has_key groups key)
        then groups ++ [(key, mkGroup g [])]
        else groups in
      (append_to groups key item, ungrouped)
  | None => (groups, ungrouped ++ [item])
  end.

(** [groups] and [ungrouped] after the loop over [items]. *)
Definition group_by_link (items : list Listed) : Groups * list Item :=
  fold_left place items ([], []).

(** The items of the query whose link group has the code [key], and those
    without a link group; the link group of the first item with a code. *)
Definition with_code (key : string) (row : Listed) : bool :=
  match snd row with
  | Some g => String.eqb (link_code g) key
  | None => false
  end.

Definition without_group (row : Listed) : bool :=
  match snd row with
  | Some _ => false
  | None => true
  end.

Definition first_group (key : string) (items : list Listed)
  : option LinkGroup :=
  match find (with_code key) items with
  | Some row => snd row
  | None => None
  end.

End PriceBook.
Export PriceBook.


(* ================================================================= *)
(** ** The calendar of datetime *)

Module Calendar.

Definition is_leap (y : Z) : bool :=
  ((y mod 4 =? 0) && (negb (y mod 100 =? 0) || (y mod 400 =? 0)))%bool.

Definition days_in_month (y m : Z) : Z :=
  if (m =? 2) then (if is_leap y then 29 else 28)
  else if ((m =? 4) || (m =? 6) || (m =? 9) || (m =? 11))%bool then 30
  else 31.

(** The days before the first of January of year [y]. *)
Definition days_before_year (y : Z) : Z :=
  let p := y - 1 in p * 365 + p / 4 - p / 100 + p / 400.

Fixpoint days_of_months (y : Z) (n : nat) : Z :=
  match n with
  | O => 0
  | S k => days_of_months y k + days_in_month y (Z.of_nat (S k))
  end.

(** The days of year [y] before the first of month [m]. *)
Definition days_before_month (y m : Z) : Z :=
  days_of_months y (Z.to_nat (m - 1)).

(** [datetime(y, m, d).date()] as days since 1970-01-01, whose ordinal is
    719163; [None] for the ValueError of a date that does not exist. *)
Definition date_of_ymd (y m d : Z) : option date :=
  if ((1 <=? y) && (y <=? 9999) && (1 <=? m) && (m <=? 12)
      && (1 <=? d) && (d <=? days_in_month y m))%bool
  then Some (days_before_year y + days_before_month y m + d - 719163)
  else None.

End Calendar.

(* ================================================================= *)
(** ** import_dsd_master.py

    A cell of a row is a [str], or [None] where the line of the file is
    shorter than its header.  Text is as in [Str]; an amount is a Decimal
    as in [Dec], where a zero carries no sign.  The database is given by
    what it answers to a vendor, a link group and a list of items
    ([Database]); the deletions before the loop and what the script
    prints are left out. *)

Module ImportDsdMaster.

Local Open Scope string_scope.

Definition VENDOR_NAMES : list (string * string) :=
  [
    ("33CRAF", "33 Craft Spirits");
    ("7UP", "7UP Bottling Company");
    ("AC FOO", "AC Food");
    ("AM BRE", "American Breads");
    ("AM CRE", "American Creameries");
    ("ANIMSU", "Animas Universal");
    ("BIMBO", "Bimbo Bakeries");
    ("BRKTHR", "Breakthrough Beverages");
    ("BUD", "Anheuser-Busch/Budweiser");
    ("CALSUN", "California Sun Dry");
    ("CAMPOS", "Campos Brothers");
    ("CAZODO", "Casa Zodo");
    ("CLASSC", "Classic Foods");
    ("COKE", "Coca-Cola Bottling");
    ("CRYSTL", "Crystal Creamery");
    ("DONSAL", "Don Salvador");
    ("EL KOR", "El Kora");
    ("ELMEXI", "El Mexicano");
    ("FERNDS", "Fernandez Foods");
    ("FRITO", "Frito-Lay Inc.");
    ("GALLO", "E&J Gallo Winery");
    ("GIBSON", "Gibson Wine Company");
    ("GLDRSH", "Goldenrod Farms");
    ("GOYA", "Goya Foods");
    ("GRANDA", "Granada Foods");
    ("GVALLY", "Gold Valley");
    ("JACENT", "Jacent Strategic Merch.");
    ("JGI", "JGI Foods");
    ("JOSEPH", "Joseph Farms");
    ("LAPERL", "La Perla");
    ("LAROSA", "La Rosa");
    ("LATAPA", "La Tapatia");
    ("LATORT", "La Tortilla Factory");
    ("MARTIN", "Martins Famous Pastry");
    ("MCKEE", "McKee Foods/Little Debbie");
    ("MERCLT", "Mercado Latino");
    ("MILLER", "Miller Brewing/MillerCoors");
    ("MINISN", "Mini Snacks");
    ("MISSN", "Mission Foods");
    ("MONTER", "Monterey Mushrooms");
    ("NABSCO", "Nabisco/Mondelez");
    ("NESTLE", "Nestle USA");
    ("NOBLE", "Noble Juice");
    ("NORCAL", "NorCal Beverage");
    ("NUCAL", "NuCal Foods");
    ("NUTCH", "Nutchel Foods");
    ("OLIVET", "Oliveto Foods");
    ("OLIVRA", "Olivera Foods");
    ("PEERLE", "Peerless Coffee");
    ("PEETS", "Peets Coffee");
    ("PEPES", "Pepes Foods");
    ("PEPSI", "PepsiCo Beverages");
    ("PFARMS", "Pacific Farms");
    ("PHOENI", "Phoenix Foods");
    ("PRDCRS", "Producers Dairy");
    ("REDBLL", "Red Bull North America");
    ("REYNA", "Reyna Foods");
    ("RNDC", "Republic National Dist.");
    ("ROPAME", "Ropa Americana");
    ("ROSABR", "Rosa Brand");
    ("ROSIE", "Rosie Foods");
    ("RUGDO", "Rugido Foods");
    ("SANTOS", "Santos Foods");
    ("SNYDER", "Snyders-Lance");
    ("SOPAC", "So-Pac Distributing");
    ("STHRN", "Southern Wine & Spirits");
    ("T&S", "T&S Foods");
    ("THAL G", "Thal G Foods");
    ("TLTECA", "Tolteca Foods");
    ("TONYS", "Tonys Fine Foods");
    ("TROPIC", "Tropical Foods");
    ("USTRAD", "US Trading");
    ("VALEYW", "Valley Wholesale");
    ("WONDER", "Wonder/Flowers Baking")
  ].

(** The class [[0-9.-]]. *)
Definition is_amount_char (a : ascii) : bool :=
  (Str.isdecimal a || Ascii.eqb a "." || Ascii.eqb a "-")%bool.

(** [Decimal("0.00")] *)
Definition zero_money : Decimal := Fin 0 (-2).

(** [money(v)] *)
Definition money (v : option string) : Decimal :=
  match v with
  | None | Some "" => zero_money
  | Some s =>
      let c := Str.keep is_amount_char s in
      match (d <- str_decimal (PStr c) ;; Dec.quantize d (-2)) with
      | Ok q => q
      | Raise _ => zero_money
      end
  end.

(** [s.split("/")] *)
Fixpoint split_slash (s : string) : list string :=
  match s with
  | EmptyString => [EmptyString]
  | String a s' =>
      if Ascii.eqb a "/" then EmptyString :: split_slash s'
      else
        match split_slash s' with
        | x :: rest => String a x :: rest
        | [] => [String a EmptyString]
        end
  end.

(** [v and str(v).strip()], as a condition. *)
Definition filled (v : option string) : bool :=
  match v with
  | None | Some "" => false
  | Some s => negb (String.eqb (Str.strip s) "")
  end.

(** [pdate(v)] *)
Definition pdate (v : option string) : option date :=
  match v with
  | Some s =>
      if filled v then
        match split_slash (Str.strip s) with
        | [p0; p1; p2] =>
            match Num.int_of_str p0, Num.int_of_str p1, Num.int_of_str p2 with
            | Ok m, Ok d, Ok y =>
                let y := (if y <? 100 then y + 2000 else y)%Z in
                Calendar.date_of_ymd y m d
            | _, _, _ => None
            end
        | _ => None
        end
      else None
  | None => None
  end.

(** [int(float(str(v)))] for a [str]. *)
Definition whole (s : string) : result Z :=
  f <- Num.float_of_str s ;; Num.int_of_float f.

(** [pint(v, d)] *)
Definition pint (v : option string) (d : Z) : Z :=
  match v with
  | Some s =>
      if filled v then
        match whole s with
        | Ok n => Z.max 1 n
        | Raise _ => d
        end
      else d
  | None => d
  end.

(** [pint_none(v)] *)
Definition pint_none (v : option string) : option Z :=
  match v with
  | Some s =>
      if filled v then
        match whole s with
        | Ok n => Some n
        | Raise _ => None
        end
      else None
  | None => None
  end.

(** [c.upper()], as code points: two characters turn into characters
    above 255, and one into two letters. *)
Definition upper_char (a : ascii) : list N :=
  let n := N_of_ascii a in
  if ((97 <=? n) && (n <=? 122))%N then [n - 32]%N
  else if (n =? 181)%N then [924]%N
  else if (n =? 223)%N then [83; 83]%N
  else if (n =? 255)%N then [376]%N
  else if ((224 <=? n) && (n <=? 254) && negb (n =? 247))%N then [n - 32]%N
  else [n].

Fixpoint upper (s : string) : list N :=
  match s with
  | EmptyString => []
  | String a s' => upper_char a ++ upper s'
  end.

Fixpoint codes (s : string) : list N :=
  match s with
  | EmptyString => []
  | String a s' => N_of_ascii a :: codes s'
  end.

Fixpoint same_codes (l1 l2 : list N) : bool :=
  match l1, l2 with
  | [], [] => true
  | a :: l1', b :: l2' => ((a =? b)%N && same_codes l1' l2')%bool
  | _, _ => false
  end.

(** [istrue(v)] *)
Definition istrue (v : option string) : bool :=
  match v with
  | None | Some "" => false
  | Some s =>
      existsb (fun t => same_codes (upper (Str.strip s)) (codes t))
        ["Y"; "YES"; "1"; "TRUE"; "X"; "T"]
  end.

(** A row of [csv.DictReader]: for a column, the cell, or nothing when the
    file has no such column. *)
Definition Row : Type := string -> option (option string).

(** [row.get(key, "")] *)
Definition get (row : Row) (key : string) : option string :=
  match row key with
  | Some cell => cell
  | None => Some ""
  end.

(** [s[:n]] *)
Definition upto (n : nat) (s : string) : string := String.substring 0 n s.

(** [s or None] *)
Definition or_none (s : string) : option string :=
  if String.eqb s "" then None else Some s.

(** How the script stops before its end. *)
Inductive stop : Type :=
| AttributeError                 (* [None] has no [strip] *)
| Signal (e : exn)               (* an exception of [decimal] *)
| DatabaseError.                 (* [objects.create] is refused *)

Inductive outcome (A : Type) : Type :=
| Goes (a : A)
| Stops (why : stop).
Arguments Goes {A} a.
Arguments Stops {A} why.

(** [cell.strip()]: a cell that is [None] has no such method. *)
Definition stripped (cell : option string) : outcome string :=
  match cell with
  | Some s => Goes (Str.strip s)
  | None => Stops AttributeError
  end.

(** [str(cell)] *)
Definition str_of (cell : option string) : string :=
  match cell with
  | Some s => s
  | None => "None"
  end.

(** [Item(...)]: the instance appended to [buf], not yet saved.  The
    vendor is given by its code, the link group by its key in [lgc]. *)
Record Draft : Type := mkDraft {
  d_vendor : string;
  d_upc : string;
  d_seq : option Z;
  d_link_group : option string;
  d_brdata_item_no : option string;
  d_description : string;
  d_case_pack : Z;
  d_size_alpha : option string;
  d_case_cost : Decimal;
  d_allowance : Decimal;
  d_price_qty : Z;
  d_retail_price : option Decimal;
  d_last_cost_change : option date;
  d_last_price_change : option date;
  d_is_disco : bool;
  d_is_tpr : bool;
  d_movement : option Z;
  d_vendor_comments : option string;
  d_notes : option string;
  d_is_active : bool
}.

(** [(cc - net).quantize(Decimal("0.01")) if net > 0 and net < cc
     else Decimal("0.00")] *)
Definition allowance_of (cc net : Decimal) : result Decimal :=
  pos <- Dec.gt net (of_int 0) ;;
  below <- (if pos : bool
            then c <- Dec.compare net cc ;;
                 Ok (match c with Lt => true | _ => false end)
            else Ok false) ;;
  if below : bool then
    diff <- Dec.sub cc net ;; Dec.quantize diff (-2)
  else Ok zero_money.

(** Lines 121 to 146: the instance made of a row that is kept. *)
Definition draft_of (row : Row) (v : string) (lg : option string)
    (upc : string) : outcome Draft :=
  let cc := money (get row "Case Cost") in
  let net := money (get row "Net Case Cost") in
  match allowance_of cc net with
  | Raise e => Stops (Signal e)
  | Ok allow =>
      let lcd := pdate (get row "Last Change Date") in
      let seq := pint_none (get row "SEQ") in
      match stripped (get row "Vendor #") with
      | Stops why => Stops why
      | Goes item_no =>
      match stripped (get row "Long Description") with
      | Stops why => Stops why
      | Goes description =>
      let case_pack := pint (get row "Case Pack") 1 in
      match stripped (get row "Size Alpha") with
      | Stops why => Stops why
      | Goes size =>
      let price_qty := pint (get row "Price Qty") 1 in
      let price := money (get row "Price") in
      let is_disco := istrue (get row "Disco") in
      let is_tpr := istrue (get row "TPR") in
      let movement := pint_none (get row "Movement") in
      match stripped (get row "Vendor Comments") with
      | Stops why => Stops why
      | Goes comments =>
      match stripped (get row "NOTES") with
      | Stops why => Stops why
      | Goes notes =>
          Goes (mkDraft v upc seq lg
                  (or_none (upto 20 item_no))
                  (upto 100 description)
                  case_pack
                  (or_none (upto 20 size))
                  cc allow price_qty
                  (if Dec.truthy price then Some price else None)
                  lcd lcd is_disco is_tpr movement
                  (or_none (upto 500 comments))
                  (or_none (upto 500 notes))
                  true)
      end end end end end
  end.

(** The instance as the calculated properties of [Item] see it. *)
Definition instance (pk : Z) (d : Draft) : Item :=
  mkItem pk (d_vendor d) (d_upc d) (d_brdata_item_no d) (d_description d)
    (d_case_pack d) (PDec (d_case_cost d)) (PDec (d_allowance d))
    (match d_retail_price d with Some p => PDec p | None => PNone end)
    (d_last_cost_change d) (d_last_price_change d).

(** [stats] *)
Record Stats : Type := mkStats {
  s_v : Z;
  s_lg : Z;
  s_i : Z;
  s_sk : Z;
  s_err : Z
}.

(** A vendor and a link group as [objects.create] is given them. *)
Record NewVendor : Type := mkNewVendor {
  nv_code : string;
  nv_name : string;
  nv_comm_method : string;
  nv_target_margin : Decimal
}.

Record NewLinkGroup : Type := mkNewLinkGroup {
  nl_key : string;                     (* its key in [lgc] *)
  nl_vendor : string;
  nl_link_code : string;
  nl_name : string
}.

(** The state of the script inside the loop: the dicts [vc] and [lgc] in
    the order of their making, [buf], the lists handed to [bulk_create]
    so far, each with whether it went through, and [stats]. *)
Record Loading : Type := mkLoading {
  vc : list NewVendor;
  lgc : list NewLinkGroup;
  buf : list Draft;
  batches : list (list Draft * bool);
  stats : Stats
}.

(** What the database answers to a vendor, a link group and a list of
    items, after all that went before. *)
Record Database : Type := mkDatabase {
  takes_vendor : Loading -> NewVendor -> bool;
  takes_group : Loading -> NewLinkGroup -> bool;
  takes_items : Loading -> list Draft -> bool
}.

Definition start : Loading := mkLoading [] [] [] [] (mkStats 0 0 0 0 0).

Definition count (s : Stats) (v lg i sk err : Z) : Stats :=
  mkStats (s_v s + v) (s_lg s + lg) (s_i s + i) (s_sk s + sk)
    (s_err s + err).

(** [flush()] *)
Definition flush (db : Database) (st : Loading) : Loading :=
  match buf st with
  | [] => st
  | _ :: _ =>
      let n := Z.of_nat (List.length (buf st)) in
      if takes_items db st (buf st) then
        mkLoading (vc st) (lgc st) [] (batches st ++ [(buf st, true)])
          (count (stats st) 0 0 n 0 0)
      else
        mkLoading (vc st) (lgc st) [] (batches st ++ [(buf st, false)])
          (count (stats st) 0 0 0 0 n)
  end.

(** [stats["sk"] += 1; continue] *)
Definition skip (st : Loading) : Loading :=
  mkLoading (vc st) (lgc st) (buf st) (batches st)
    (count (stats st) 0 0 0 1 0).

(** [VENDOR_NAMES.get(v, v)] *)
Definition vendor_name (v : string) : string :=
  match find (fun kv => String.eqb (fst kv) v) VENDOR_NAMES with
  | Some kv => snd kv
  | None => v
  end.

(** [v in vc] and [k in lgc] *)
Definition in_vc (st : Loading) (v : string) : bool :=
  existsb (fun x => String.eqb (nv_code x) v) (vc st).

Definition in_lgc (st : Loading) (k : string) : bool :=
  existsb (fun x => String.eqb (nl_key x) k) (lgc st).

(** Lines 93 to 102 *)
Definition make_vendor (db : Database) (st : Loading) (v : string)
  : outcome Loading :=
  if in_vc st v then Goes st
  else
    let obj := mkNewVendor v (vendor_name v) "EXCEL" (Fin 2800 (-4)) in
    if takes_vendor db st obj then
      Goes (mkLoading (vc st ++ [obj]) (lgc st) (buf st) (batches st)
              (count (stats st) 1 0 0 0 0))
    else Stops DatabaseError.

(** Lines 104 to 114: the state and [lg] *)
Definition make_group (db : Database) (st : Loading) (row : Row)
    (v : string) : outcome (Loading * option string) :=
  match stripped (get row "Link Code") with
  | Stops why => Stops why
  | Goes lc =>
      if String.eqb lc "" then Goes (st, None)
      else
        let k := v ++ "|" ++ lc in
        if in_lgc st k then Goes (st, Some k)
        else
          match stripped (get row "Link Group Name") with
          | Stops why => Stops why
          | Goes name =>
              let obj :=
                mkNewLinkGroup k v lc
                  (if String.eqb name "" then lc else name) in
              if takes_group db st obj then
                Goes (mkLoading (vc st) (lgc st ++ [obj]) (buf st)
                        (batches st) (count (stats st) 0 1 0 0 0),
                      Some k)
              else Stops DatabaseError
          end
  end.

(** Line 116: the UPC of a row. *)
Definition upc_of (row : Row) : string :=
  Str.keep Str.isdecimal (Str.strip (str_of (get row "UPC"))).

(** The body of the loop, for one row. *)
Definition load_row (db : Database) (st : Loading) (row : Row)
  : outcome Loading :=
  match stripped (get row "Vendor Code") with
  | Stops why => Stops why
  | Goes v =>
      if (String.eqb v "" || String.eqb v "#REF!")%bool then Goes (skip st)
      else
        match make_vendor db st v with
        | Stops why => Stops why
        | Goes st1 =>
            match make_group db st1 row v with
            | Stops why => Stops why
            | Goes (st2, lg) =>
                let upc := upc_of row in
                if String.eqb upc "" then Goes (skip st2)
                else
                  match draft_of row v lg upc with
                  | Stops why => Stops why
                  | Goes item =>
                      let st3 :=
                        mkLoading (vc st2) (lgc st2) (buf st2 ++ [item])
                          (batches st2) (stats st2) in
                      if (500 <=? List.length (buf st3))%nat
                      then Goes (flush db st3) else Goes st3
                  end
            end
        end
  end.

(** The loop over the rows that the reader yields. *)
Fixpoint load_rows (db : Database) (st : Loading) (rows : list Row)
  : outcome Loading :=
  match rows with
  | [] => Goes st
  | row :: rest =>
      match load_row db st row with
      | Goes st' => load_rows db st' rest
      | Stops why => Stops why
      end
  end.

(** Lines 72 to 151: the loop from the empty state, and the last
    [flush()]. *)
Definition load (db : Database) (rows : list Row) : outcome Loading :=
  match load_rows db start rows with
  | Goes st => Goes (flush db st)
  | Stops why => Stops why
  end.

End ImportDsdMaster.

(** A file of a few lines, and a database that takes everything. *)
Module Sheet.

Local Open Scope string_scope.

(** The row of a line, read under a header of distinct names. *)
Definition row_of (cells : list (string * option string))
  : ImportDsdMaster.Row :=
  fun key => option_map snd (find (fun kv => String.eqb (fst kv) key) cells).

Definition line (vendor link upc cost net pack : string)
  : ImportDsdMaster.Row :=
  row_of [("Vendor Code", Some vendor); ("Link Code", Some link);
          ("Link Group Name", Some ""); ("UPC", Some upc);
          ("Vendor #", Some "4411"); ("Long Description", Some "Cola 12oz");
          ("Size Alpha", Some "12 OZ"); ("Case Pack", Some pack);
          ("Case Cost", Some cost); ("Net Case Cost", Some net);
          ("Price Qty", Some "1"); ("Price", Some "$1.48");
          ("Last Change Date", Some "1/15/24"); ("Disco", Some "");
          ("TPR", Some "y"); ("SEQ", Some "10"); ("Movement", Some "");
          ("Vendor Comments", Some ""); ("NOTES", Some "")].

Definition cola : ImportDsdMaster.Row :=
  line "COKE" "COLA" "0-49000-02890-4" "$12.00" "10.80" "12".

(** A line without a net cost and with an empty case pack. *)
Definition root_beer : ImportDsdMaster.Row :=
  line "COKE" "" "0-49000-05010-3" "9.60" "" "0".

(** A line that ends before the description. *)
Definition short : ImportDsdMaster.Row :=
  row_of [("Vendor Code", Some "COKE"); ("Link Code", Some "");
          ("UPC", Some "049000028911"); ("Vendor #", Some "4412");
          ("Long Description", None)].

Definition no_vendor : ImportDsdMaster.Row :=
  line "  " "COLA" "049000028904" "12.00" "10.80" "12".

Definition no_upc : ImportDsdMaster.Row :=
  line "PEPSI" "" "n/a" "12.00" "10.80" "12".

(** Two vendors whose codes and link codes run together to one key. *)
Definition first_of_key : ImportDsdMaster.Row :=
  line "A|B" "C" "011110000011" "5.00" "" "6".

Definition second_of_key : ImportDsdMaster.Row :=
  line "A" "B|C" "022220000022" "5.00" "" "6".

Definition open : ImportDsdMaster.Database :=
  ImportDsdMaster.mkDatabase
    (fun _ _ => true) (fun _ _ => true) (fun _ _ => true).

(** A database that refuses every list of items. *)
Definition closed : ImportDsdMaster.Database :=
  ImportDsdMaster.mkDatabase
    (fun _ _ => true) (fun _ _ => true) (fun _ _ => false).

(** The state at the end of a run that reaches its end. *)
Definition after (db : ImportDsdMaster.Database)
    (rows : list ImportDsdMaster.Row) : ImportDsdMaster.Loading :=
  match ImportDsdMaster.load db rows with
  | ImportDsdMaster.Goes st => st
  | ImportDsdMaster.Stops _ => ImportDsdMaster.start
  end.

End Sheet.

(* ================================================================= *)
(** ** The state of the import *)

Module Loaded.

Import ImportDsdMaster.
Local Open Scope string_scope.

(** All the items made so far, in the order of their rows. *)
Definition items (st : Loading) : list Draft :=
  (List.concat (map fst (batches st)) ++ buf st)%list.

(** The number of items in the lists that [bulk_create] took ([true]) or
    refused ([false]). *)
Definition handed (ok : bool) (st : Loading) : Z :=
  Z.of_nat
    (list_sum
       (map (fun b => List.length (fst b))
          (filter (fun b => Bool.eqb (snd b) ok) (batches st)))).

(** After [n] rows: every row is counted once. *)
Record counted (n : Z) (st : Loading) : Prop := mkCounted {
  c_rows : (s_sk (stats st) + s_i (stats st) + s_err (stats st)
            + Z.of_nat (List.length (buf st)) = n)%Z;
  c_i : s_i (stats st) = handed true st;
  c_err : s_err (stats st) = handed false st;
  c_sk : (0 <= s_sk (stats st))%Z;
  c_buf : (List.length (buf st) < 500)%nat;
  c_full : Forall (fun b => List.length (fst b) = 500%nat) (batches st);
  c_v : s_v (stats st) = Z.of_nat (List.length (vc st));
  c_lg : s_lg (stats st) = Z.of_nat (List.length (lgc st))
}.

(** A text without the bar that joins a vendor code and a link code. *)
Definition no_bar (s : string) : bool :=
  Str.all (fun a => negb (Ascii.eqb a "|")) s.

Definition vendor_made (st : Loading) (x : NewVendor) : Prop :=
  nv_code x <> "" /\ nv_code x <> "#REF!"
  /\ nv_name x = vendor_name (nv_code x).

Definition group_made (st : Loading) (g : NewLinkGroup) : Prop :=
  nl_key g = nl_vendor g ++ "|" ++ nl_link_code g
  /\ nl_link_code g <> "" /\ nl_name g <> ""
  /\ In (nl_vendor g) (map nv_code (vc st)).

Definition item_made (st : Loading) (d : Draft) : Prop :=
  In (d_vendor d) (map nv_code (vc st))
  /\ normalize_upc (Some (d_upc d)) = Some (d_upc d)
  /\ match d_link_group d with
     | Some k =>
         In k (map nl_key (lgc st))
         /\ exists lc : string, k = d_vendor d ++ "|" ++ lc
     | None => True
     end.

(** What is made refers to what was made before it. *)
Record linked (st : Loading) : Prop := mkLinked {
  l_codes : NoDup (map nv_code (vc st));
  l_vendors : Forall (vendor_made st) (vc st);
  l_keys : NoDup (map nl_key (lgc st));
  l_groups : Forall (group_made st) (lgc st);
  l_items : Forall (item_made st) (items st)
}.

End Loaded.


(** ** The groups of the price book *)

(** The number of items in the groups. *)
Definition grouped_count (groups : Groups) : nat :=
  list_sum (map (fun kv => List.length (group_items (snd kv))) groups).

(** What [groups] and [ungrouped] hold once the loop has gone through
    [rows]. *)
Record grouped (rows : list Listed) (groups : Groups) (ungrouped : list Item)
  : Prop := mkGrouped {
  g_ungrouped : ungrouped = map fst (filter without_group rows);
  g_keys : NoDup (map fst groups);
  g_present : forall key,
      has_key groups key = true
      <-> exists row, In row rows /\ with_code key row = true;
  g_entries : forall key g,
      In (key, g) groups ->
      first_group key rows = Some (link_group g)
      /\ link_code (link_group g) = key
      /\ group_items g = map fst (filter (with_code key) rows);
  g_count :
      List.length rows = (grouped_count groups + List.length ungrouped)%nat
}.

(** ** Runs of the views *)

(** One call of one of the four views that can write, whatever the request
    and the arguments taken from the URL; the call may return or raise. *)
Inductive view_step {lib : Installed} (st : Store) : Store -> Prop :=
| step_entry (req : Request) (code upc : string) :
    view_step st (fst (cost_change_entry req code upc st))
| step_approve (req : Request) (k : Z) (now : datetime) :
    view_step st (fst (approve_change req k now st))
| step_apply (req : Request) (k : Z) (t_cost t_price t_applied : datetime) :
    view_step st (fst (apply_change req k t_cost t_price t_applied st))
| step_export (req : Request) (now : datetime) :
    view_step st (fst (brdata_export req now st)).

(** Any number of calls, one after the other. *)
Inductive run {lib : Installed} : Store -> Store -> Prop :=
| run_done (st : Store) : run st st
| run_call (st st1 st2 : Store) :
    view_step st st1 -> run st1 st2 -> run st st2.

(** The status of a change before and after one call. *)
Definition one_move (s s' : Status) : bool :=
  match s, s' with
  | PENDING, (PENDING | APPROVED | REJECTED) => true
  | APPROVED, (APPROVED | APPLIED) => true
  | REJECTED, REJECTED => true
  | APPLIED, APPLIED => true
  | _, _ => false
  end.

(** The status of a change before and after a run. *)
Definition moves (s s' : Status) : bool :=
  match s, s' with
  | PENDING, _ => true
  | APPROVED, (APPROVED | APPLIED) => true
  | REJECTED, REJECTED => true
  | APPLIED, APPLIED => true
  | _, _ => false
  end.

(** Every APPLIED change has a row of the history that names it and
    carries its cost, allowance and retail. *)
Definition audited (st : Store) : Prop :=
  forall c, In c (changes st) -> status c = APPLIED ->
    exists h,
      In h (history st)
      /\ pending_cost_change_id h = pc_id c
      /\ h_new_case_cost h = new_case_cost c
      /\ h_new_allowance h = new_allowance c
      /\ new_retail h = approved_retail c.
(** A request by GET: the POST dictionary is empty. *)
Definition get_request (who : User) : Request :=
  mkRequest GET who (fun _ => None).

(* ================================================================= *)
(** ** Text with any character: the two ways a UPC is cleaned

    The sheet is read as UTF-8, so that a cell can hold any character, and
    [normalize_upc] takes any text.  Here a [str] is the list of its code
    points.  The two tables of the Unicode database that the code consults
    are arguments, since they grow from one version of Python to the next:
    the decimal digits (category Nd), which the class [\d] of [re] matches
    in a [str] pattern, and the white space that [strip()] removes. *)

Module Wide.

Definition text := list N.

Record Unicode := mkUnicode {
  decimal : N -> bool;  (* c.isdecimal(), the class \d *)
  space : N -> bool     (* c.isspace() *)
}.

(** The class [[0-9]]. *)
Definition ascii_digit (c : N) : bool := ((48 <=? c) && (c <=? 57))%N.

(** The text of a string of [Str]. *)
Definition of_string (s : string) : text :=
  map N_of_ascii (list_ascii_of_string s).

(** [t if t else None] *)
Definition or_none (t : text) : option text :=
  match t with
  | [] => None
  | _ :: _ => Some t
  end.

Section Tables.

Variable u : Unicode.

Fixpoint lstrip (t : text) : text :=
  match t with
  | c :: t' => if space u c then lstrip t' else t
  | [] => []
  end.

(** [s.strip()] *)
Definition strip (t : text) : text := rev (lstrip (rev (lstrip t))).

(** [normalize_upc(raw_upc)], dsd/utils/pricing.py *)
Definition normalize_upc (raw_upc : option text) : option text :=
  match raw_upc with
  | None => None
  | Some raw => or_none (strip (filter (decimal u) raw))
  end.

(** import_dsd_master.py, line 116, on the text of the cell; the row is
    skipped when the result is empty. *)
Definition upc_of (cell : text) : text := filter ascii_digit (strip cell).

End Tables.

(** What the tables of every version say: below 256 they are the classes
    of [Str], and no decimal digit is white space. *)
Definition standard (u : Unicode) : Prop :=
  (forall c, (c < 256)%N -> decimal u c = Str.isdecimal (ascii_of_N c))
  /\ (forall c, (c < 256)%N -> space u c = Str.isspace (ascii_of_N c))
  /\ (forall c, decimal u c = true -> space u c = false).

Definition within (ranges : list (N * N)) (c : N) : bool :=
  existsb (fun r => ((fst r <=? c) && (c <=? snd r))%N) ranges.

(** The decimal digits of Unicode 14.0, the version of Python 3.11, as
    ranges of code points. *)
Definition Nd : list (N * N) :=
 (  [(48, 57); (1632, 1641); (1776, 1785); (1984, 1993); (2406, 2415);
   (2534, 2543); (2662, 2671); (2790, 2799); (2918, 2927); (3046, 3055);
   (3174, 3183); (3302, 3311); (3430, 3439); (3558, 3567); (3664, 3673);
   (3792, 3801); (3872, 3881); (4160, 4169); (4240, 4249); (6112, 6121);
   (6160, 6169); (6470, 6479); (6608, 6617); (6784, 6793); (6800, 6809);
   (6992, 7001); (7088, 7097); (7232, 7241); (7248, 7257); (42528, 42537);
   (43216, 43225); (43264, 43273); (43472, 43481); (43504, 43513);
   (43600, 43609); (44016, 44025); (65296, 65305); (66720, 66729);
   (68912, 68921); (69734, 69743); (69872, 69881); (69942, 69951);
   (70096, 70105); (70384, 70393); (70736, 70745); (70864, 70873);
   (71248, 71257); (71360, 71369); (71472, 71481); (71904, 71913);
   (72016, 72025); (72784, 72793); (73040, 73049); (73120, 73129);
   (92768, 92777); (92864, 92873); (93008, 93017); (120782, 120831);
   (123200, 123209); (123632, 123641); (125264, 125273); (130032, 130041)])%N.

(** Its white space, as [isspace()] has it. *)
Definition White_Space : list (N * N) :=
 (  [(9, 13); (28, 32); (133, 133); (160, 160); (5760, 5760); (8192, 8202);
   (8232, 8233); (8239, 8239); (8287, 8287); (12288, 12288)])%N.

Definition unicode14 : Unicode := mkUnicode (within Nd) (within White_Space).

(** Three Arabic-Indic digits, U+0663 U+0664 U+0665. *)
Definition arabic_indic : text := [1635; 1636; 1637]%N.

End Wide.

(* ================================================================= *)
(** * Properties *)

Lemma fix_prec_finite c e : exists c' e', fix_prec c e = Fin c' e'.
Proof.
  unfold fix_prec.
  destruct (ndigits (Z.abs c) <=? prec); [now eauto|].
  destruct (ndigits _ <=? prec); eauto.
Qed.

Lemma sub_finite c1 e1 c2 e2 :
  exists c e, Dec.sub (Fin c1 e1) (Fin c2 e2) = Ok (Fin c e).
Proof.
  unfold Dec.sub, Dec.neg, Dec.add.
  destruct (fix_prec_finite (c1 * 10 ^ (e1 - Z.min e1 e2)
                             + - c2 * 10 ^ (e2 - Z.min e1 e2)) (Z.min e1 e2))
    as (c & e & ->).
  eauto.
Qed.

Lemma div_finite c1 e1 c2 e2 :
  c2 <> 0 -> exists c e, Dec.div (Fin c1 e1) (Fin c2 e2) = Ok (Fin c e).
Proof.
  intros Hc. unfold Dec.div.
  destruct (Z.eqb_spec c2 0); [contradiction|].
  destruct (c1 =? 0); [now eauto|].
  unfold div_fin.
  match goal with
  | |- context [fix_prec ?x ?y] =>
      destruct (fix_prec_finite x y) as (c & e & ->)
  end.
  eauto.
Qed.



(** ** Apply: promotion of an approved change *)

Lemma change_with_id st k s c :
  change_with st k s = Some c -> pc_id c = Some k /\ status c = s.
Proof.
  unfold change_with. intros H. apply find_some in H as [_ H].
  apply andb_prop in H as [Hid Hs]. unfold has_id in Hid.
  destruct (pc_id c) as [j|]; [|discriminate].
  apply Z.eqb_eq in Hid. subst j. split; [reflexivity|].
  destruct (status c), s; (reflexivity || discriminate).
Qed.




(** ** History rows *)

(** C8.  Whatever the change, the item and the user, the history row that
    [apply_to_item] writes has no new margin: [new_margin] is never passed
    to [ChangeHistory.objects.create] and keeps its NULL default.  On the
    worked price book the row records the old margin 0.2816... next to an
    empty new margin. *)
Theorem apply_to_item_leaves_new_margin_empty :
  (forall (self : PendingCostChange) (item : Item) (user : option User)
          (t_cost t_price t_applied : datetime),
      match apply_to_item self item user t_cost t_price t_applied with
      | Ok a => new_margin (history_row a) = PNone
      | Raise _ => True
      end)
  /\ exists a,
       apply_to_item (Book.raise_cost APPROVED) Book.cola (Some Book.amy)
         1705325000 1705325001 1705325002 = Ok a
       /\ old_margin (history_row a)
          = PDec (Fin 2816091954022988505747126437 (-28))
       /\ new_margin (history_row a) = PNone
       /\ old_case_cost (history_row a) = Book.money 1000
       /\ h_new_case_cost (history_row a) = Book.money 1100
       /\ old_retail (history_row a) = Book.money 348
       /\ new_retail (history_row a) = Book.money 388
       /\ changed_by (history_row a) = "amy"%string
       /\ h_change_source (history_row a) = MANUAL
       /\ pending_cost_change_id (history_row a) = Some 7.
Proof.
  split.
  - intros. unfold apply_to_item.
    destruct (negb (status_eqb (status self) APPROVED)); [exact I|].
    destruct (margin item); cbn; [reflexivity | exact I].
  - eexists. split; [vm_compute; reflexivity|]. cbn. repeat split.
Qed.

(** ** Approve *)

(** C10.  [approve(user, retail_override=0)] on a PENDING change sets the
    status to APPROVED and records who and when, but the zero is not
    stored: the approved retail keeps its value, or takes the suggested
    retail when it was unset. *)
Theorem approve_ignores_zero_override :
  forall (self : PendingCostChange) (user : option User) (zero : pyval)
         (now : datetime),
    status self = PENDING ->
    is_zero_number zero ->
    let after := approve self user zero now in
    status after = APPROVED
    /\ approved_by after = user
    /\ approved_at after = Some now
    /\ approved_retail after
       = (if is_none (approved_retail self) then suggested_retail self
          else approved_retail self)
    /\ after = approve self user PNone now.
Proof.
  intros self user zero now _ Hz after. subst after. unfold approve.
  assert (Hf : truthy zero = false).
  { destruct Hz as [-> | [(s & ->) | (e & ->)]]; reflexivity. }
  rewrite Hf. cbn. repeat split.
Qed.

Lemma approve_ignores_zero_override_witness :
  approved_retail
    (approve (Book.raise_cost PENDING) (Some Book.amy) (PInt 0) 1705325000)
  = Book.money 388.
Proof.
  destruct (approve_ignores_zero_override (Book.raise_cost PENDING)
              (Some Book.amy) (PInt 0) 1705325000) as (_ & _ & _ & H & _).
  - reflexivity.
  - left. reflexivity.
  - exact H.
Defined.

(** The view hands the override over as text: an empty field counts as no
    override, while the text ["0"] is kept. *)
Lemma approve_change_override_text (s : string) :
  py_or (PStr s) PNone = (if String.eqb s "" then PNone else PStr s).
Proof. unfold py_or. cbn. now destruct (String.eqb s ""). Qed.

(** ** The state machine's guards *)

(** [approve] has no check of its own: whatever the status, the change
    comes out APPROVED. *)
Lemma approve_from_any_status self user override now :
  status (approve self user override now) = APPROVED.
Proof. reflexivity. Qed.

(** C2, as stated, fails for [approve]: on an APPLIED change the method
    raises nothing and overwrites the status, the approver and the
    approval time. *)
Lemma approve_on_applied_change_succeeds :
  let c := Book.raise_cost APPLIED in
  let c' := approve c (Some Book.amy) PNone 1705325000 in
  status c <> PENDING
  /\ status c' = APPROVED
  /\ approved_by c' = Some Book.amy
  /\ c' <> c.
Proof.
  cbn. repeat split; try discriminate.
Qed.

Lemma change_with_none st k s :
  Forall (fun c => pc_id c = Some k -> status c <> s) (changes st) ->
  change_with st k s = None.
Proof.
  unfold change_with. intros H.
  destruct (find _ (changes st)) as [c|] eqn:E; [|reflexivity].
  apply find_some in E as [Hin E]. apply andb_prop in E as [Hid Hs].
  rewrite Forall_forall in H. specialize (H c Hin).
  unfold has_id in Hid. destruct (pc_id c) as [j|]; [|discriminate].
  apply Z.eqb_eq in Hid. subst j. exfalso. apply H; [reflexivity|].
  destruct (status c), s; (reflexivity || discriminate).
Qed.

(** C2, amended.  [apply_to_item] on a change that is not APPROVED raises
    ValueError and produces no write, and [apply_change] then leaves the
    store as it was.  For approve and reject the guard is the look-up of
    the views: when no change with that id is PENDING (for [apply_change]:
    APPROVED), the view fails with Http404 and the store is unchanged. *)
Theorem wrong_state_is_refused {lib : Installed} :
  (forall (self : PendingCostChange) (item : Item) (user : option User)
          (t_cost t_price t_applied : datetime),
      status self <> APPROVED ->
      apply_to_item self item user t_cost t_price t_applied = Raise ValueError)
  /\ (forall (st : Store) (req : Request) (k : Z) (now : datetime),
        Forall (fun c => pc_id c = Some k -> status c <> PENDING) (changes st) ->
        approve_change req k now st = (st, Raise Http404))
  /\ (forall (st : Store) (req : Request) (k : Z)
             (t_cost t_price t_applied : datetime),
        Forall (fun c => pc_id c = Some k -> status c <> APPROVED) (changes st) ->
        apply_change req k t_cost t_price t_applied st = (st, Raise Http404)).
Proof.
  repeat split.
  - intros self item user t1 t2 t3 H. unfold apply_to_item.
    destruct (status self); try reflexivity. now contradiction H.
  - intros st req k now H. unfold approve_change, and_then, query, lift.
    now rewrite (change_with_none _ _ _ H).
  - intros st req k t1 t2 t3 H. unfold apply_change, and_then, query, lift.
    now rewrite (change_with_none _ _ _ H).
Qed.

Lemma wrong_state_is_refused_witness :
  apply_to_item (Book.raise_cost PENDING) Book.cola (Some Book.amy) 1 2 3
  = Raise ValueError
  /\ approve_change (Book.posted [("action", "approve")]%string) 7 1705325000
       (Book.shop APPLIED)
     = (Book.shop APPLIED, Raise Http404)
  /\ apply_change (Book.posted []) 7 1 2 3 (Book.shop REJECTED)
     = (Book.shop REJECTED, Raise Http404).
Proof.
  destruct wrong_state_is_refused as (H1 & H2 & H3).
  split; [|split].
  - apply H1. discriminate.
  - apply H2. repeat constructor. discriminate.
  - apply H3. repeat constructor. discriminate.
Defined.

(** ** Submit: the suggested and the approved retail *)

(** C9, as stated, fails when the item's margin is defined and exactly
    zero: the margin is [Decimal('0')], which is false in a condition, so
    the basis is the vendor's default 0.28 and the suggestion is $3.88,
    whereas [suggest_retail] at the item's own margin gives None. *)
Lemma zero_margin_falls_back_to_vendor_default :
  exists c,
    margin Zero.cola_at_cost = Ok (PDec (Fin 0 (-25)))
    /\ new_unit_cost_of (F64.float_of_decimal (Fin 1100 (-2)))
         (S754_zero false) Zero.cola_at_cost = Ok Zero.new_unit_cost
    /\ submitted_change Zero.shop Zero.request Zero.cola_at_cost None
         "COKE" "049000028904" = Ok c
    /\ suggested_retail c = Book.money 388
    /\ suggest_retail Zero.new_unit_cost
         (PFloat (F64.float_of_decimal (Fin 0 (-25)))) = Ok PNone
    /\ suggest_retail Zero.new_unit_cost
         (PFloat (F64.float_of_decimal (Fin 2800 (-4)))) = Ok (Book.money 388).
Proof.
  eexists. split; [vm_compute; reflexivity|].
  split; [vm_compute; reflexivity|].
  split; [vm_compute; reflexivity|].
  cbn [suggested_retail]. repeat split; vm_compute; reflexivity.
Qed.

(** A value is false in a condition exactly when it is None, a numeric
    zero or the empty text. *)
Lemma truthy_false_iff (v : pyval) :
  truthy v = false <->
  v = PNone \/ is_zero_number v \/ v = PStr "".
Proof.
  unfold is_zero_number. split.
  - destruct v as [|n|f|d|s]; cbn; intros H.
    + now left.
    + right. left. left. apply Bool.negb_false_iff, Z.eqb_eq in H. now subst.
    + right. left. right. left. destruct f; try discriminate. eauto.
    + right. left. right. right. destruct d as [c e| |]; try discriminate.
      cbn in H. apply Bool.negb_false_iff, Z.eqb_eq in H. subst. eauto.
    + right. right. apply Bool.negb_false_iff, String.eqb_eq in H. now subst.
  - intros [-> | [[-> | [(s & ->) | (e & ->)]] | ->]]; reflexivity.
Qed.

(** C9, amended.  When the submit goes through, the new unit cost is the
    float [(new_case_cost - new_allowance) / item.case_pack]; the basis is
    the item's margin when that margin is true in a condition (defined and
    not zero) and the vendor's default target margin otherwise (undefined
    or exactly zero); the suggested retail is [suggest_retail] of the two;
    and the approved retail is the posted override when the field is
    present and not empty, the suggested retail otherwise. *)
Theorem submit_suggests_from_margin_basis :
  forall (st : Store) (req : Request) (item : Item)
         (existing : option PendingCostChange) (code upc : string)
         (c : PendingCostChange),
    submitted_change st req item existing code upc = Ok c ->
    exists (cost allow pack basis : F64.float) (m : pyval),
      py_float (post_get req "new_case_cost" PNone) = Ok cost
      /\ py_float (py_or (post_get req "new_allowance" (PInt 0)) (PInt 0))
         = Ok allow
      /\ F64.float_of_int (case_pack item) = Ok pack
      /\ margin item = Ok m
      /\ (truthy m = true -> py_float m = Ok basis)
      /\ (truthy m = false ->
          exists v, vendor_of st (vendor_id item) = Some v
                    /\ py_float (target_margin v) = Ok basis)
      /\ suggest_retail (PFloat (F64.fdiv (F64.fsub cost allow) pack))
           (PFloat basis) = Ok (suggested_retail c)
      /\ approved_retail c
         = match post req "approved_retail" with
           | Some s => if String.eqb s "" then suggested_retail c else PStr s
           | None => suggested_retail c
           end.
Proof.
  intros st req item existing code upc c H.
  unfold submitted_change in H.
  destruct (py_float (post_get req "new_case_cost" PNone)) as [cost|] eqn:Hc;
    [|discriminate].
  destruct (py_float (py_or (post_get req "new_allowance" (PInt 0)) (PInt 0)))
    as [allow|] eqn:Ha; [|discriminate].
  cbn [Py.bind] in H.
  unfold new_unit_cost_of in H. cbn [py_sub Py.bind py_truediv] in H.
  destruct (F64.float_of_int (case_pack item)) as [pack|] eqn:Hp;
    [|discriminate].
  cbn [Py.bind] in H. unfold float_div in H.
  destruct (F64.is_zero pack); [discriminate|]. cbn [Py.bind] in H.
  unfold margin_basis in H.
  destruct (margin item) as [m|] eqn:Hm; [|discriminate].
  cbn [Py.bind] in H.
  assert (Hb : exists basis,
             (truthy m = true -> py_float m = Ok basis)
             /\ (truthy m = false ->
                 exists v, vendor_of st (vendor_id item) = Some v
                           /\ py_float (target_margin v) = Ok basis)
             /\ (if truthy m then py_float m
                 else v <- get_or_missing (vendor_of st (vendor_id item)) ;;
                      py_float (target_margin v)) = Ok basis).
  { destruct (truthy m).
    - destruct (py_float m) as [b|]; [|discriminate].
      exists b. split; [reflexivity|]. split; [discriminate|reflexivity].
    - destruct (vendor_of st (vendor_id item)) as [v|]; [|discriminate].
      cbn [get_or_missing Py.bind] in *.
      destruct (py_float (target_margin v)) as [b|] eqn:Hv; [|discriminate].
      exists b. split; [discriminate|]. split; [|reflexivity].
      intros _. exists v. split; [reflexivity|exact Hv]. }
  destruct Hb as (basis & Hb1 & Hb2 & Hb3). rewrite Hb3 in H.
  cbn [Py.bind] in H.
  destruct (suggest_retail _ (PFloat basis)) as [sug|] eqn:Hs; [|discriminate].
  cbn [Py.bind] in H. injection H as <-.
  exists cost, allow, pack, basis, m. cbn [suggested_retail approved_retail].
  repeat (split; [assumption || reflexivity|]).
  unfold post_get, py_or.
  destruct (post req "approved_retail") as [s|]; cbn; [|reflexivity].
  now destruct (String.eqb s "").
Qed.

Lemma submit_suggests_from_margin_basis_witness :
  exists c cost allow pack basis m,
    submitted_change (Book.shop APPLIED)
      (Book.posted [("new_case_cost", "11.00"); ("approved_retail", "3.99")]%string)
      Book.cola None "COKE" "049000028904" = Ok c
    /\ margin Book.cola = Ok m
    /\ truthy m = true
    /\ suggest_retail (PFloat (F64.fdiv (F64.fsub cost allow) pack))
         (PFloat basis) = Ok (suggested_retail c)
    /\ suggested_retail c = Book.money 388
    /\ approved_retail c = PStr "3.99".
Proof.
  eexists.
  assert (H : submitted_change (Book.shop APPLIED)
      (Book.posted [("new_case_cost", "11.00"); ("approved_retail", "3.99")]%string)
      Book.cola None "COKE" "049000028904" = Ok _)
    by (vm_compute; reflexivity).
  destruct (submit_suggests_from_margin_basis _ _ _ _ _ _ _ H)
    as (cost & allow & pack & basis & m & _ & _ & _ & Hm & _ & _ & Hs & Ha).
  exists cost, allow, pack, basis, m.
  split; [exact H|]. split; [exact Hm|].
  split; [|split; [exact Hs|split; [reflexivity|exact Ha]]].
  assert (Hm' : margin Book.cola
                = Ok (PDec (Fin 2816091954022988505747126437 (-28))))
    by (vm_compute; reflexivity).
  rewrite Hm' in Hm. injection Hm as <-. reflexivity.
Defined.

(** ** At most one PENDING change per item *)

Section Rows.

Context {A : Type}.
Variables (p : A -> bool) (f : A -> A).

Lemma filter_map_same (l : list A) :
  (forall x, In x l -> p (f x) = p x) ->
  filter p (map f l) = map f (filter p l).
Proof.
  induction l as [|x l IH]; intros H; [reflexivity|].
  cbn. rewrite (H x (or_introl eq_refl)).
  rewrite IH by (intros y Hy; apply H; now right).
  now destruct (p x).
Qed.

Lemma filter_map_fewer (l : list A) :
  (forall x, In x l -> p (f x) = true -> p x = true) ->
  (List.length (filter p (map f l)) <= List.length (filter p l))%nat.
Proof.
  induction l as [|x l IH]; intros H; [reflexivity|].
  cbn. assert (IH' := IH (fun y Hy => H y (or_intror Hy))).
  destruct (p (f x)) eqn:E.
  - rewrite (H x (or_introl eq_refl) E). cbn. lia.
  - destruct (p x); cbn; lia.
Qed.

End Rows.

Lemma same_id_same_row (rows : list PendingCostChange) x y :
  NoDup (map pc_id rows) -> In x rows -> In y rows -> pc_id x = pc_id y ->
  x = y.
Proof.
  induction rows as [|r rows IH]; intros Hnd Hx Hy E; [contradiction|].
  cbn in Hnd. inversion Hnd as [|? ? Hnotin Hnd']; subst.
  destruct Hx as [-> | Hx], Hy as [-> | Hy].
  - reflexivity.
  - exfalso. apply Hnotin. rewrite E. now apply in_map.
  - exfalso. apply Hnotin. rewrite <- E. now apply in_map.
  - now apply IH.
Qed.

Lemma has_id_iff k c : has_id k c = true <-> pc_id c = Some k.
Proof.
  unfold has_id. destruct (pc_id c) as [j|]; [|split; discriminate].
  rewrite Z.eqb_eq. split; [now intros -> | now intros [= ->]].
Qed.

Lemma replace_keeps_ids c k rows :
  pc_id c = Some k -> map pc_id (replace_change c k rows) = map pc_id rows.
Proof.
  intros Hc. unfold replace_change. rewrite map_map. apply map_ext_in.
  intros r _. destruct (has_id k r) eqn:E; [|reflexivity].
  apply has_id_iff in E. congruence.
Qed.

Lemma existsb_has_id k old rows :
  In old rows -> pc_id old = Some k -> existsb (has_id k) rows = true.
Proof.
  intros Hin Hid. apply existsb_exists. exists old.
  split; [assumption | now apply has_id_iff].
Qed.

Lemma is_pending_for_iff item c :
  is_pending_for item c = true <-> pc_item c = item /\ status c = PENDING.
Proof.
  unfold is_pending_for. rewrite Bool.andb_true_iff, Z.eqb_eq.
  split; intros [H1 H2]; (split; [assumption|]).
  - now destruct (status c).
  - now rewrite H2.
Qed.

(** Saving over the row [old]: the table keeps its ids, and no item gains a
    PENDING row unless [old] was already one of its PENDING rows. *)
Lemma save_over_consistent st c k old :
  consistent st ->
  pc_id c = Some k -> In old (changes st) -> pc_id old = Some k ->
  (status c = PENDING -> status old = PENDING /\ pc_item old = pc_item c) ->
  consistent (save_change st c).
Proof.
  intros [Hids Hnd Hone] Hc Hin Hold Hpend.
  unfold save_change. rewrite Hc, (existsb_has_id _ _ _ Hin Hold).
  constructor; cbn.
  - unfold replace_change. rewrite Forall_forall in *.
    intros r Hr. apply in_map_iff in Hr as (r0 & <- & Hr0).
    destruct (has_id k r0); [|now apply Hids].
    destruct (Hids old Hin) as (j & Hj & Hlt). exists k. split; [assumption|].
    congruence.
  - now rewrite replace_keeps_ids.
  - intros item. unfold pending_for. cbn.
    etransitivity; [|apply (Hone item)]. unfold pending_for, replace_change.
    apply filter_map_fewer. intros r Hr.
    destruct (has_id k r) eqn:E; [|trivial].
    apply has_id_iff in E.
    assert (r = old) as -> by (eapply same_id_same_row; eauto; congruence).
    rewrite !is_pending_for_iff. intros [Hi Hs].
    destruct (Hpend Hs) as [Hs' Hi']. split; congruence.
Qed.

(** Inserting a row that is PENDING for an item without PENDING rows. *)
Lemma save_new_consistent st c :
  consistent st -> pc_id c = None ->
  (status c = PENDING -> pending_for st (pc_item c) = []) ->
  consistent (save_change st c).
Proof.
  intros [Hids Hnd Hone] Hc Hpend. unfold save_change. rewrite Hc.
  constructor; cbn.
  - apply Forall_app. split.
    + eapply Forall_impl; [|exact Hids]. cbn.
      intros r (j & Hj & Hlt). exists j. split; [assumption | lia].
    + constructor; [|constructor]. exists (next_change_id st). cbn.
      split; [reflexivity | lia].
  - rewrite map_app. cbn. apply NoDup_app; [assumption| |].
    + constructor; [intros []|constructor].
    + intros x Hx [<- | []]. apply in_map_iff in Hx as (r & Hr & Hin).
      rewrite Forall_forall in Hids. destruct (Hids r Hin) as (j & Hj & Hlt).
      rewrite Hj in Hr. injection Hr as ->. lia.
  - intros item. unfold pending_for. cbn. rewrite filter_app, List.length_app. cbn.
    destruct (is_pending_for item (with_id c (next_change_id st))) eqn:E.
    + apply is_pending_for_iff in E as [Hi Hs]. cbn in Hi, Hs.
      specialize (Hpend Hs). subst item. unfold pending_for in Hpend.
      rewrite Hpend. cbn. lia.
    + cbn. specialize (Hone item). unfold pending_for in Hone. lia.
Qed.

Lemma consistent_same_changes st st' :
  changes st' = changes st -> next_change_id st' = next_change_id st ->
  consistent st -> consistent st'.
Proof.
  intros Hc Hn [Hids Hnd Hone]. constructor.
  - now rewrite Hc, Hn.
  - now rewrite Hc.
  - intros item. unfold pending_for. rewrite Hc. apply Hone.
Qed.

Lemma change_with_in st k s c :
  change_with st k s = Some c ->
  In c (changes st) /\ pc_id c = Some k /\ status c = s.
Proof.
  intros H. split; [|now apply change_with_id in H].
  unfold change_with in H. now apply find_some in H.
Qed.

Lemma first_pending st item c :
  hd_error (pending_for st item) = Some c ->
  In c (changes st) /\ pc_item c = item /\ status c = PENDING.
Proof.
  intros H. assert (Hin : In c (pending_for st item)).
  { destruct (pending_for st item); [discriminate|].
    injection H as ->. now left. }
  unfold pending_for in Hin. apply filter_In in Hin as [Hin Hp].
  split; [assumption | now apply is_pending_for_iff].
Qed.

Lemma log_exports_keeps_changes today file who ids st :
  changes (fst (log_exports today file who ids st)) = changes st
  /\ next_change_id (fst (log_exports today file who ids st))
     = next_change_id st
  /\ items (fst (log_exports today file who ids st)) = items st.
Proof.
  revert st. induction ids as [|id ids IH]; intros st; [now cbn|].
  cbn. unfold and_then, query, lift, write.
  destruct (export_log_entry st today file who id) as [entry|]; [|now cbn].
  destruct (IH (create_export_log st entry)) as (H1 & H2 & H3).
  rewrite H1, H2, H3. now cbn.
Qed.

Lemma submitted_change_carries st req item existing code upc c :
  submitted_change st req item existing code upc = Ok c ->
  pc_item (base_change item existing code upc) = item_pk item ->
  pc_id c = pc_id (base_change item existing code upc)
  /\ forall k, carries_submission req item (with_id c k).
Proof.
  intros H Hitem. unfold submitted_change in H.
  fold (base_change item existing code upc) in H.
  destruct (py_float (post_get req "new_case_cost" PNone)) as [cost|] eqn:Hc;
    [|discriminate].
  destruct (py_float (py_or (post_get req "new_allowance" (PInt 0)) (PInt 0)))
    as [allow|] eqn:Ha; [|discriminate].
  cbn [Py.bind] in H.
  destruct (new_unit_cost_of cost allow item); [|discriminate].
  destruct (margin_basis st item); [|discriminate].
  cbn [Py.bind] in H.
  destruct (suggest_retail a (PFloat a0)) as [sug|]; [|discriminate].
  cbn [Py.bind] in H.
  destruct (margin item) as [m|] eqn:Hm; [|discriminate].
  cbn [Py.bind] in H. injection H as <-. cbn. split; [reflexivity|].
  intros k. exists cost, allow, m. cbn. repeat split; assumption.
Qed.

Lemma with_id_same c k : pc_id c = Some k -> with_id c k = c.
Proof. intros H. destruct c. cbn in *. now subst. Qed.

(** The store that [cost_change_entry] leaves: a submission that is read
    is saved, whatever the redirect makes of it afterwards. *)
Lemma entry_writes {lib : Installed} st req code upc :
  fst (cost_change_entry req code upc st)
  = match find_item st code upc with
    | Some item =>
        match method req with
        | POST =>
            match submitted_change st req item
                    (hd_error (pending_for st (item_pk item))) code upc with
            | Ok c => save_change st c
            | Raise _ => st
            end
        | GET => st
        end
    | None => st
    end.
Proof.
  unfold cost_change_entry, and_then, query, lift, write, ret.
  destruct (find_item st code upc) as [item|]; [|reflexivity].
  cbn [get_or_404]. destruct (method req).
  - now destruct (entry_form item []).
  - destruct (submitted_change st req item _ code upc) as [c|e].
    + now destruct (redirect _ _).
    + destruct (caught_in_entry e); [|reflexivity].
      now destruct (entry_form item [Error]).
Qed.

(** The save of a submission: the item has exactly one PENDING change
    afterwards, the one just saved; an existing PENDING row is overwritten
    in place and the table does not grow. *)
Lemma submit_saves st req code upc item c :
  consistent st ->
  find_item st code upc = Some item ->
  submitted_change st req item (hd_error (pending_for st (item_pk item)))
    code upc = Ok c ->
  consistent (save_change st c)
  /\ exists item0 saved,
       find_item st code upc = Some item0
       /\ items (save_change st c) = items st
       /\ pending_for (save_change st c) (item_pk item0) = [saved]
       /\ carries_submission req item0 saved
       /\ (pending_for st (item_pk item0) <> [] ->
           List.length (changes (save_change st c)) = List.length (changes st)
           /\ exists old, pending_for st (item_pk item0) = [old]
                          /\ pc_id saved = pc_id old).
Proof.
  intros Hcons Hfind Hsub.
  destruct (hd_error (pending_for st (item_pk item))) as [old|] eqn:Hhd.
  - (* an existing PENDING change is overwritten *)
    destruct (first_pending _ _ _ Hhd) as (Hin & Hitem & Hst).
    destruct (submitted_change_carries _ _ _ _ _ _ _ Hsub) as [Hid Hcar];
      [exact Hitem|]. cbn [base_change] in Hid.
    assert (Hold : exists k, pc_id old = Some k).
    { destruct Hcons as [Hids _ _]. rewrite Forall_forall in Hids.
      destruct (Hids old Hin) as (k & Hk & _). eauto. }
    destruct Hold as (k & Hk).
    assert (Hone : pending_for st (item_pk item) = [old]).
    { pose proof (one_pending st Hcons (item_pk item)) as Hle.
      destruct (pending_for st (item_pk item)) as [|x [|y l]];
        [discriminate| |cbn in Hle; lia].
      now injection Hhd as ->. }
    assert (Hc : pc_id c = Some k) by congruence.
    specialize (Hcar k). rewrite (with_id_same _ _ Hc) in Hcar.
    assert (Hpc : status c = PENDING /\ pc_item c = item_pk item).
    { destruct Hcar as (? & ? & ? & H'). tauto. }
    split.
    { eapply save_over_consistent; eauto. intros _. split; [assumption|].
      destruct Hpc. congruence. }
    exists item, c. split; [exact Hfind|].
    unfold save_change. rewrite Hc, (existsb_has_id _ _ _ Hin Hk).
    cbn [items changes]. split; [reflexivity|].
    split; [|split; [exact Hcar|]].
    + unfold pending_for. cbn [changes]. unfold replace_change.
      rewrite filter_map_same.
      * fold (pending_for st (item_pk item)). rewrite Hone. cbn.
        assert (has_id k old = true) as -> by now apply has_id_iff.
        reflexivity.
      * intros r Hr. destruct (has_id k r) eqn:E; [|reflexivity].
        apply has_id_iff in E.
        assert (r = old) as ->.
        { eapply same_id_same_row; eauto; [apply Hcons | congruence]. }
        destruct Hpc as [Hs Hi]. unfold is_pending_for.
        now rewrite Hs, Hst, Hi, Hitem.
    + intros _. split.
      * unfold replace_change. now rewrite List.length_map.
      * exists old. split; [assumption | congruence].
  - (* no PENDING change yet: a row is inserted *)
    assert (Hnone : pending_for st (item_pk item) = []).
    { now destruct (pending_for st (item_pk item)). }
    destruct (submitted_change_carries _ _ _ _ _ _ _ Hsub) as [Hid Hcar];
      [reflexivity|]. cbn [base_change new_change pc_id] in Hid.
    specialize (Hcar (next_change_id st)).
    assert (Hpc : pc_item c = item_pk item).
    { destruct Hcar as (? & ? & ? & H'). cbn in H'. tauto. }
    split.
    { apply save_new_consistent; [assumption..|]. intros _. now rewrite Hpc. }
    exists item, (with_id c (next_change_id st)). split; [exact Hfind|].
    unfold save_change. rewrite Hid. cbn [items changes].
    split; [reflexivity|]. split; [|split; [exact Hcar|]].
    + unfold pending_for. cbn [changes]. rewrite filter_app.
      fold (pending_for st (item_pk item)). rewrite Hnone. cbn.
      assert (is_pending_for (item_pk item) (with_id c (next_change_id st))
              = true) as ->; [|reflexivity].
      apply is_pending_for_iff. destruct Hcar as (? & ? & ? & H'). tauto.
    + intros Hne. now contradiction Hne.
Qed.

(** One submit that goes through: the item has exactly one PENDING change
    afterwards, the one just saved; an existing PENDING row is overwritten
    in place and the table does not grow. *)
Lemma submit_upserts {lib : Installed} st req code upc st' reply :
  consistent st ->
  cost_change_entry req code upc st = (st', Ok reply) ->
  response reply = Redirect "dsd:price_book" ->
  consistent st'
  /\ exists item saved,
       find_item st code upc = Some item
       /\ items st' = items st
       /\ pending_for st' (item_pk item) = [saved]
       /\ carries_submission req item saved
       /\ (pending_for st (item_pk item) <> [] ->
           List.length (changes st') = List.length (changes st)
           /\ exists old, pending_for st (item_pk item) = [old]
                          /\ pc_id saved = pc_id old).
Proof.
  intros Hcons H Hredirect.
  unfold cost_change_entry, and_then, query, lift, write, ret in H.
  destruct (find_item st code upc) as [item|] eqn:Hfind; [|discriminate].
  cbn [get_or_404] in H.
  destruct (method req).
  { (* GET: the form is shown *)
    unfold entry_form in H. destruct (unit_cost item); [|discriminate].
    cbn [Py.bind] in H.
    match type of H with
    | (_, r <- ?e ;; _) = _ => destruct e; [|discriminate]
    end.
    cbn in H. injection H as <- <-. discriminate. }
  destruct (submitted_change st req item _ code upc) as [c|e] eqn:Hsub.
  2:{ destruct (caught_in_entry e); [|discriminate].
      unfold entry_form in H. destruct (unit_cost item); [|discriminate].
      cbn [Py.bind] in H.
      match type of H with
      | (_, r <- ?e ;; _) = _ => destruct e; [|discriminate]
      end.
      cbn in H. injection H as <- <-. discriminate. }
  destruct (redirect _ _) as [page|]; [|discriminate].
  injection H as <- _. rewrite <- Hfind.
  now apply (submit_saves st req code upc item c).
Qed.

(** The redirect at the end of a view writes nothing. *)
Lemma next_page_store {lib : Installed} req msgs st : fst (next_page req msgs st) = st.
Proof.
  unfold next_page, and_then, lift, ret.
  now destruct (redirect (next_target req) []).
Qed.

Lemma next_page_reply {lib : Installed} req msgs st :
  next_page req msgs st
  = (st, page <- redirect (next_target req) [] ;; Ok (mkReply page msgs)).
Proof.
  unfold next_page, and_then, lift, ret.
  now destruct (redirect (next_target req) []).
Qed.

(** Every view leaves the table of changes consistent, whether it returns
    or raises. *)
Lemma views_keep_consistent {lib : Installed} st :
  consistent st ->
  (forall req code upc, consistent (fst (cost_change_entry req code upc st)))
  /\ (forall req k now, consistent (fst (approve_change req k now st)))
  /\ (forall req k t_cost t_price t_applied,
        consistent (fst (apply_change req k t_cost t_price t_applied st)))
  /\ (forall req now, consistent (fst (brdata_export req now st))).
Proof.
  intros Hcons. split; [|split; [|split]].
  - intros req code upc. rewrite entry_writes.
    destruct (find_item st code upc) as [item|] eqn:Hfind; [|exact Hcons].
    destruct (method req); [exact Hcons|].
    destruct (submitted_change st req item _ code upc) as [c|e] eqn:Hsub;
      [|exact Hcons].
    now apply (submit_saves st req code upc item c).
  - intros req k now. unfold approve_change, and_then, query, lift, write, ret.
    destruct (change_with st k PENDING) as [c|] eqn:Hc; [|exact Hcons].
    cbn [get_or_404]. destruct (change_with_in _ _ _ _ Hc) as (Hin & Hid & _).
    destruct (method req); [now rewrite next_page_store|].
    destruct (action_is req "approve"); [|destruct (action_is req "reject")];
      rewrite next_page_store; try exact Hcons;
      (eapply save_over_consistent; eauto; cbn; discriminate).
  - intros req k t1 t2 t3.
    unfold apply_change, and_then, query, lift, write, ret.
    destruct (change_with st k APPROVED) as [c|] eqn:Hc; [|exact Hcons].
    cbn [get_or_404]. destruct (change_with_in _ _ _ _ Hc) as (Hin & Hid & Hs).
    destruct (method req); [now rewrite next_page_store|].
    destruct (item_of st (pc_item c)) as [item|]; [|exact Hcons].
    cbn [get_or_missing].
    unfold apply_to_item. rewrite Hs. cbn [status_eqb negb].
    destruct (margin item) as [m|e]; cbn [Py.bind].
    + rewrite next_page_store. cbn [fst history_row item_row change_row].
      eapply save_over_consistent; [| | exact Hin | exact Hid |].
      * eapply consistent_same_changes; [| |exact Hcons]; reflexivity.
      * exact Hid.
      * cbn. discriminate.
    + destruct e; rewrite ?next_page_store; exact Hcons.
  - intros req now. unfold brdata_export, and_then, query, lift, write, ret.
    destruct (due_changes st (date_of now)) as [|c due];
      [now destruct (redirect _ _)|].
    destruct (write_rows st (c :: due)) as [w|]; [|exact Hcons].
    destruct (log_exports_keeps_changes (date_of now)
                (BrdataExport (date_of now)) (username (user req)) (snd w) st)
      as (H1 & H2 & _).
    destruct (log_exports _ _ _ (snd w) st) as [st' [u|e]]; cbn [fst] in *;
      now apply (consistent_same_changes st st').
Qed.

(** C4.  Starting from a consistent table, every view keeps it consistent,
    so no item ever has two PENDING changes.  A submit that goes through
    leaves the item with exactly one PENDING change, which carries that
    submission's fields and the item's cost, allowance, retail and margin
    of that moment; when a PENDING change existed it is that row,
    overwritten in place.  So after two submissions for one item there is
    one PENDING row, with the id of the first, the fields of the second and
    the snapshot taken at the second. *)
Theorem one_pending_change_per_item {lib : Installed} :
  forall st : Store,
    consistent st ->
    ((forall req code upc, consistent (fst (cost_change_entry req code upc st)))
     /\ (forall req k now, consistent (fst (approve_change req k now st)))
     /\ (forall req k t_cost t_price t_applied,
           consistent (fst (apply_change req k t_cost t_price t_applied st)))
     /\ (forall req now, consistent (fst (brdata_export req now st))))
    /\ (forall req code upc st' reply,
          cost_change_entry req code upc st = (st', Ok reply) ->
          response reply = Redirect "dsd:price_book" ->
          exists item saved,
            find_item st code upc = Some item
            /\ pending_for st' (item_pk item) = [saved]
            /\ carries_submission req item saved)
    /\ (forall req1 req2 code upc st1 st2 reply1 reply2,
          cost_change_entry req1 code upc st = (st1, Ok reply1) ->
          response reply1 = Redirect "dsd:price_book" ->
          cost_change_entry req2 code upc st1 = (st2, Ok reply2) ->
          response reply2 = Redirect "dsd:price_book" ->
          exists item first second,
            find_item st1 code upc = Some item
            /\ pending_for st1 (item_pk item) = [first]
            /\ pending_for st2 (item_pk item) = [second]
            /\ pc_id second = pc_id first
            /\ List.length (changes st2) = List.length (changes st1)
            /\ carries_submission req2 item second).
Proof.
  intros st Hcons. split; [now apply views_keep_consistent|]. split.
  - intros req code upc st' reply H Hr.
    destruct (submit_upserts _ _ _ _ _ _ Hcons H Hr)
      as (_ & item & saved & H1 & _ & H2 & H3 & _).
    exists item, saved. auto.
  - intros req1 req2 code upc st1 st2 reply1 reply2 H1 Hr1 H2 Hr2.
    destruct (submit_upserts _ _ _ _ _ _ Hcons H1 Hr1)
      as (Hcons1 & item & first & Hfind & Hitems & Hp1 & _).
    destruct (submit_upserts _ _ _ _ _ _ Hcons1 H2 Hr2)
      as (_ & item' & second & Hfind' & _ & Hp2 & Hcar & Hover).
    assert (item' = item) as ->.
    { unfold find_item in *. rewrite Hitems in Hfind'. congruence. }
    destruct Hover as (Hlen & old & Hold & Hid); [now rewrite Hp1|].
    rewrite Hp1 in Hold. injection Hold as <-.
    exists item, first, second. unfold find_item in *. rewrite Hitems.
    auto 10.
Qed.

Lemma no_pending_rows st item :
  Forall (fun c => status c <> PENDING) (changes st) ->
  pending_for st item = [].
Proof.
  unfold pending_for. induction 1 as [|c l Hc _ IH]; [reflexivity|].
  cbn. destruct (is_pending_for item c) eqn:E; [|assumption].
  apply is_pending_for_iff in E as [_ E]. contradiction.
Qed.

Lemma book_shop_consistent s : s <> PENDING -> consistent (Book.shop s).
Proof.
  intros Hs. constructor.
  - repeat constructor. exists 7. cbn. split; [reflexivity | lia].
  - cbn. repeat constructor. intros [].
  - intros item. rewrite no_pending_rows; [cbn; lia|].
    repeat constructor. assumption.
Qed.

Lemma one_pending_change_per_item_witness :
  exists item first second,
    find_item Twice.after_first "COKE" "049000028904" = Some item
    /\ pending_for Twice.after_first (item_pk item) = [first]
    /\ pending_for Twice.after_second (item_pk item) = [second]
    /\ pc_id second = pc_id first
    /\ List.length (changes Twice.after_second)
       = List.length (changes Twice.after_first)
    /\ carries_submission Twice.second item second.
Proof.
  assert (Hcons : consistent (Book.shop APPLIED))
    by (apply book_shop_consistent; discriminate).
  destruct (one_pending_change_per_item _ Hcons) as (_ & _ & H).
  apply (H Twice.first Twice.second "COKE"%string "049000028904"%string
           Twice.after_first Twice.after_second
           Twice.went_through Twice.went_through);
    vm_compute; reflexivity.
Defined.

(** ** Export *)

Lemma append_logs_spec logs : forall st,
  export_log (append_logs st logs) = export_log st ++ logs
  /\ changes (append_logs st logs) = changes st
  /\ items (append_logs st logs) = items st
  /\ vendors (append_logs st logs) = vendors st
  /\ history (append_logs st logs) = history st
  /\ next_change_id (append_logs st logs) = next_change_id st.
Proof.
  induction logs as [|l logs IH]; intros st; cbn.
  - now rewrite app_nil_r.
  - destruct (IH (create_export_log st l)) as (H1 & H2 & H3 & H4 & H5 & H6).
    unfold append_logs in *. rewrite H1, H2, H3, H4, H5, H6. cbn.
    now rewrite <- app_assoc.
Qed.







(** With nothing due the export queues its warning and calls [redirect]
    with a name that urls.py does not declare. *)
Lemma export_nothing_due {lib : Installed} st req now :
  due_changes st (date_of now) = [] ->
  brdata_export req now st = (st, Raise NoReverseMatch).
Proof.
  intros Hnone. unfold brdata_export, and_then, query, lift, ret.
  now rewrite Hnone.
Qed.

(** C7.  The claim fails on the code where it says that an export with
    nothing to select signals an empty result rather than an error: the
    view queues a warning and then redirects to [dsd:pending_cost_changes],
    a name that urls.py does not declare (the worklist is
    [pending_changes]), so that [redirect] raises NoReverseMatch and the
    request ends in an error.  Nothing is written. *)
Theorem export_with_nothing_due_raises {lib : Installed} :
  forall (st : Store) (req : Request) (now : datetime),
    due_changes st (date_of now) = [] ->
    brdata_export req now st = (st, Raise NoReverseMatch)
    /\ named "dsd:pending_cost_changes" = None
    /\ exists p, named "dsd:pending_changes" = Some p
                 /\ view p = "pending_changes"%string.
Proof.
  intros st req now Hnone. split; [now apply export_nothing_due|].
  split; [reflexivity|]. eexists. split; reflexivity.
Qed.

Lemma export_with_nothing_due_raises_witness :
  brdata_export Due.request Due.now (Book.shop PENDING)
  = (Book.shop PENDING, Raise NoReverseMatch).
Proof.
  exact (proj1 (export_with_nothing_due_raises (Book.shop PENDING)
                  Due.request Due.now eq_refl)).
Defined.



(** ** Decimal arithmetic: digits and rounding *)

Lemma pow10_pos k : 0 < 10 ^ k \/ k < 0.
Proof. destruct (Z.le_gt_cases 0 k); [left; now apply Z.pow_pos_nonneg | right; lia]. Qed.

Lemma digits_aux_spec fuel : forall n,
  0 < n < 2 ^ (Z.of_nat fuel + 1) ->
  1 <= digits_aux fuel n
  /\ 10 ^ (digits_aux fuel n - 1) <= n < 10 ^ digits_aux fuel n.
Proof.
  induction fuel as [|f IH]; intros n Hn.
  - cbn in *. assert (n = 1) as -> by lia. cbn. lia.
  - cbn [digits_aux]. destruct (Z.ltb_spec n 10) as [Hlt|Hge].
    + cbn. lia.
    + assert (Hpow : 2 ^ (Z.of_nat (S f) + 1) = 2 * 2 ^ (Z.of_nat f + 1)).
      { rewrite Nat2Z.inj_succ. rewrite <- Z.pow_succ_r by lia. f_equal; lia. }
      assert (Hq : 0 < n / 10 < 2 ^ (Z.of_nat f + 1)).
      { split.
        - apply Z.div_str_pos. lia.
        - apply Z.div_lt_upper_bound; lia. }
      destruct (IH _ Hq) as (H1 & H2 & H3).
      set (d := digits_aux f (n / 10)) in *.
      replace (1 + d - 1) with (Z.succ (d - 1)) by lia.
      replace (1 + d) with (Z.succ d) by lia.
      rewrite !Z.pow_succ_r by lia.
      pose proof (Z.div_mod n 10 ltac:(lia)) as Hdm.
      pose proof (Z.mod_pos_bound n 10 ltac:(lia)) as Hm.
      lia.
Qed.

Lemma ndigits_spec n :
  0 < n -> 1 <= ndigits n /\ 10 ^ (ndigits n - 1) <= n < 10 ^ ndigits n.
Proof.
  intros Hn. unfold ndigits. apply digits_aux_spec.
  destruct (Z.log2_spec n Hn) as [_ H]. split; [assumption|].
  rewrite Z2Nat.id by apply Z.log2_nonneg.
  now replace (Z.log2 n + 1) with (Z.succ (Z.log2 n)) by lia.
Qed.

Lemma ndigits_unique n d :
  10 ^ (d - 1) <= n < 10 ^ d -> 0 < n -> ndigits n = d.
Proof.
  intros [Hlo Hhi] Hn. destruct (ndigits_spec n Hn) as (H1 & H2 & H3).
  assert (Hd : 0 <= d).
  { destruct (Z.le_gt_cases 0 d); [assumption|].
    rewrite Z.pow_neg_r in Hhi by lia. lia. }
  destruct (Z.lt_trichotomy (ndigits n) d) as [Hlt | [Heq | Hgt]];
    [|assumption|].
  - exfalso. assert (10 ^ ndigits n <= 10 ^ (d - 1))
      by (apply Z.pow_le_mono_r; lia). lia.
  - exfalso. assert (10 ^ d <= 10 ^ (ndigits n - 1))
      by (apply Z.pow_le_mono_r; lia). lia.
Qed.

Lemma ndigits_shift n j :
  0 < n -> 0 <= j -> ndigits (n * 10 ^ j) = ndigits n + j.
Proof.
  intros Hn Hj. destruct (ndigits_spec n Hn) as (H1 & H2 & H3).
  assert (Hp : 0 < 10 ^ j) by (apply Z.pow_pos_nonneg; lia).
  apply ndigits_unique; [|nia].
  replace (ndigits n + j - 1) with ((ndigits n - 1) + j) by lia.
  rewrite !Z.pow_add_r by lia. nia.
Qed.

Lemma ndigits_le n d : 0 < n -> (ndigits n <= d <-> n < 10 ^ d).
Proof.
  intros Hn. destruct (ndigits_spec n Hn) as (H1 & H2 & H3). split.
  - intros Hle. eapply Z.lt_le_trans; [exact H3|].
    apply Z.pow_le_mono_r; lia.
  - intros Hlt. destruct (Z.le_gt_cases (ndigits n) d); [assumption|].
    exfalso. assert (10 ^ d <= 10 ^ (ndigits n - 1)).
    { destruct (Z.le_gt_cases 0 d).
      - apply Z.pow_le_mono_r; lia.
      - rewrite (Z.pow_neg_r 10 d) by lia. apply Z.pow_nonneg. lia. }
    lia.
Qed.

Lemma round_half_even_exact c k :
  0 <= k -> round_half_even (c * 10 ^ k) k = c.
Proof.
  intros Hk. unfold round_half_even.
  assert (Hp : 0 < 10 ^ k) by (apply Z.pow_pos_nonneg; lia).
  rewrite Z.div_mul, Z.mod_mul by lia.
  destruct (Z.ltb_spec (2 * 0) (10 ^ k)); [reflexivity | lia].
Qed.

Lemma round_half_even_between c k :
  0 <= k ->
  c / 10 ^ k <= round_half_even c k <= c / 10 ^ k + 1
  /\ (c mod 10 ^ k = 0 -> round_half_even c k = c / 10 ^ k).
Proof.
  intros Hk. unfold round_half_even.
  assert (Hp : 0 < 10 ^ k) by (apply Z.pow_pos_nonneg; lia).
  split.
  - destruct (2 * (c mod 10 ^ k) <? 10 ^ k); [lia|].
    destruct (10 ^ k <? 2 * (c mod 10 ^ k)); [lia|].
    destruct (Z.even (c / 10 ^ k)); lia.
  - intros ->. destruct (Z.ltb_spec (2 * 0) (10 ^ k)); [reflexivity | lia].
Qed.

Lemma round_half_even_lower c k g :
  0 <= k -> g * 10 ^ k <= c -> g <= round_half_even c k.
Proof.
  intros Hk Hg. assert (Hp : 0 < 10 ^ k) by (apply Z.pow_pos_nonneg; lia).
  destruct (round_half_even_between c k Hk) as [[H _] _].
  etransitivity; [|exact H]. apply Z.div_le_lower_bound; lia.
Qed.

Lemma round_half_even_upper c k g :
  0 <= k -> c <= g * 10 ^ k -> round_half_even c k <= g.
Proof.
  intros Hk Hg. assert (Hp : 0 < 10 ^ k) by (apply Z.pow_pos_nonneg; lia).
  destruct (round_half_even_between c k Hk) as [[_ H] Hex].
  destruct (Z.lt_ge_cases (c / 10 ^ k) g) as [Hlt|Hge]; [lia|].
  assert (Hc : c = g * 10 ^ k).
  { pose proof (Z.mul_div_le c (10 ^ k) Hp). nia. }
  rewrite Hex; rewrite Hc.
  - rewrite Z.div_mul; lia.
  - apply Z.mod_mul. lia.
Qed.

Lemma ndigits_zero : ndigits 0 = 1.
Proof. reflexivity. Qed.

(** A coefficient that fits the precision is left alone. *)
Lemma fix_prec_small c e : Z.abs c < 10 ^ prec -> fix_prec c e = Fin c e.
Proof.
  intros Hc. unfold fix_prec.
  destruct (Z.eq_dec c 0) as [->|Hnz].
  - reflexivity.
  - assert (H : ndigits (Z.abs c) <= prec) by (apply ndigits_le; lia).
    now apply Z.leb_le in H as ->.
Qed.

(** A positive coefficient of more than [prec] digits is rounded to a
    coefficient of exactly [prec] digits. *)
Lemma fix_prec_large c e :
  0 < c -> prec < ndigits c ->
  exists R E,
    fix_prec c e = Fin R E
    /\ 10 ^ (prec - 1) <= R < 10 ^ prec
    /\ e + (ndigits c - prec) <= E <= e + (ndigits c - prec) + 1.
Proof.
  intros Hc Hn. unfold fix_prec. rewrite Z.abs_eq by lia.
  destruct (Z.leb_spec (ndigits c) prec) as [|_]; [lia|].
  destruct (ndigits_spec c Hc) as (_ & Hlo & Hhi).
  set (k := ndigits c - prec) in *.
  assert (Hk : 0 < k) by (unfold k; lia).
  assert (Hp : 0 < 10 ^ k) by (apply Z.pow_pos_nonneg; lia).
  assert (HR : 10 ^ (prec - 1) <= round_half_even c k <= 10 ^ prec).
  { split.
    - apply round_half_even_lower; [lia|].
      rewrite <- Z.pow_add_r by (unfold prec; lia).
      now replace (prec - 1 + k) with (ndigits c - 1) by (unfold k; lia).
    - apply round_half_even_upper; [lia|].
      rewrite <- Z.pow_add_r by (unfold prec; lia).
      replace (prec + k) with (ndigits c) by (unfold k; lia). lia. }
  assert (Hpos : 0 < round_half_even c k).
  { assert (0 < 10 ^ (prec - 1)) by (apply Z.pow_pos_nonneg; unfold prec; lia).
    lia. }
  unfold with_sign. destruct (Z.ltb_spec c 0) as [|_]; [lia|].
  destruct (Z.leb_spec (ndigits (round_half_even c k)) prec) as [Hle|Hgt].
  - eexists _, _. split; [reflexivity|].
    apply ndigits_le in Hle; [|assumption]. lia.
  - assert (HR' : round_half_even c k = 10 ^ prec).
    { destruct (Z.lt_ge_cases (round_half_even c k) (10 ^ prec)) as [Hlt|Hge];
        [|lia].
      apply ndigits_le in Hlt; [lia | assumption]. }
    rewrite HR'. eexists _, _. split; [reflexivity|].
    change (10 ^ prec / 10) with (10 ^ (prec - 1)).
    split; [|lia]. split; [lia|]. apply Z.pow_lt_mono_r; unfold prec; lia.
Qed.

(** A positive coefficient stays positive under the context rounding. *)
Lemma fix_prec_positive c e :
  0 < c -> exists R E, fix_prec c e = Fin R E /\ 0 < R.
Proof.
  intros Hc. destruct (Z.le_gt_cases (ndigits c) prec) as [Hle|Hgt].
  - exists c, e. split; [|assumption]. apply fix_prec_small.
    rewrite Z.abs_eq by lia. now apply ndigits_le.
  - destruct (fix_prec_large c e Hc Hgt) as (R & E & H & [HR _] & _).
    exists R, E. split; [assumption|].
    assert (0 < 10 ^ (prec - 1)) by (apply Z.pow_pos_nonneg; unfold prec; lia).
    lia.
Qed.

Lemma fix_prec_nonneg c e :
  0 <= c -> exists R E, fix_prec c e = Fin R E /\ 0 <= R.
Proof.
  intros Hc. destruct (Z.eq_dec c 0) as [->|Hnz].
  - exists 0, e. split; [reflexivity | lia].
  - destruct (fix_prec_positive c e) as (R & E & H & HR); [lia|].
    exists R, E. split; [assumption | lia].
Qed.

(** The quotient of two positive numbers is not negative. *)
Lemma div_fin_nonneg a ea b eb :
  0 < a -> 0 < b -> exists T E, div_fin a ea b eb = Fin T E /\ 0 <= T.
Proof.
  intros Ha Hb. unfold div_fin. rewrite !Z.abs_eq by lia.
  destruct (Z.ltb_spec a 0) as [|_]; [lia|].
  destruct (Z.ltb_spec b 0) as [|_]; [lia|]. cbn [xorb].
  apply fix_prec_nonneg.
  set (shift := ndigits b - ndigits a + prec + 1).
  assert (Hq : 0 <= (if 0 <=? shift then a * 10 ^ shift else a)
                    / (if 0 <=? shift then b else b * 10 ^ (- shift))).
  { destruct (Z.leb_spec 0 shift).
    - apply Z.div_pos; [|lia].
      assert (0 < 10 ^ shift) by (apply Z.pow_pos_nonneg; lia). nia.
    - assert (0 < 10 ^ (- shift)) by (apply Z.pow_pos_nonneg; lia).
      apply Z.div_pos; nia. }
  match goal with
  | |- 0 <= 1 * (if ?b then _ else _) => destruct b
  end; lia.
Qed.

(** A whole number of cents below [10^28] becomes that many hundredths;
    from [10^28] on the result needs more than 28 digits and [quantize]
    raises. *)
Lemma cents_to_money s :
  0 < s ->
  (x <- Dec.div (of_int s) (of_int 100) ;; Dec.quantize x (-2))
  = if s <? 10 ^ 28 then Ok (Fin s (-2)) else Raise InvalidOperation.
Proof.
  intros Hs. unfold Dec.div, of_int.
  change (100 =? 0) with false. cbv iota.
  destruct (Z.eqb_spec s 0) as [|_]; [lia|]. cbn [Py.bind].
  destruct (ndigits_spec s Hs) as (Hl1 & Hlo & Hhi).
  unfold div_fin. rewrite (Z.abs_eq s) by lia.
  change (Z.abs 100) with 100. change (ndigits 100) with 3.
  destruct (Z.ltb_spec s 0) as [|_]; [lia|].
  change (100 <? 0) with false. cbn [xorb].
  set (la := ndigits s) in *. unfold prec.
  set (shift := 3 - la + 28 + 1).
  destruct (Z.ltb_spec s (10 ^ 28)) as [Hsmall|Hbig].
  - (* the quotient is exact *)
    assert (Hla : la <= 28) by (apply ndigits_le; assumption).
    destruct (Z.leb_spec 0 shift) as [_|]; [|unfold shift in *; lia].
    assert (Hnum : s * 10 ^ shift = s * 10 ^ (shift - 4) * 10 ^ 2 * 100).
    { replace shift with ((shift - 4) + 2 + 2) at 1 by lia.
      rewrite !Z.pow_add_r by (unfold shift; lia). change (10 ^ 2) with 100.
      lia. }
    rewrite Hnum, Z.div_mul, Z.mod_mul by lia. cbn [Z.eqb negb andb].
    rewrite Z.mul_1_l.
    assert (Hc : 0 < s * 10 ^ (shift - 4)).
    { assert (0 < 10 ^ (shift - 4))
        by (apply Z.pow_pos_nonneg; unfold shift; lia). nia. }
    assert (Hnd : ndigits (s * 10 ^ (shift - 4)) = 28).
    { rewrite ndigits_shift by (unfold shift; lia). unfold shift. fold la. lia. }
    assert (Hnq : ndigits (s * 10 ^ (shift - 4) * 10 ^ 2) = 30).
    { rewrite ndigits_shift by lia. lia. }
    unfold fix_prec. rewrite Z.abs_eq by lia. rewrite Hnq. unfold prec.
    change (30 <=? 28) with false. cbv iota. change (30 - 28) with 2.
    rewrite round_half_even_exact by lia. rewrite Hnd.
    change (28 <=? 28) with true. cbv iota.
    unfold with_sign.
    destruct (Z.ltb_spec (s * 10 ^ (shift - 4) * 10 ^ 2) 0) as [|_]; [lia|].
    unfold quantize.
    destruct (Z.eqb_spec (s * 10 ^ (shift - 4)) 0) as [|_]; [lia|].
    rewrite Z.abs_eq by lia. rewrite Hnd. unfold prec.
    destruct (Z.ltb_spec 28 (0 - 0 - shift + 2 + 28 - 1 - -2 + 1)) as [|_];
      [unfold shift in *; lia|].
    assert (Hc' : (if -2 <=? 0 - 0 - shift + 2
                   then s * 10 ^ (shift - 4) * 10 ^ (0 - 0 - shift + 2 - -2)
                   else with_sign (s * 10 ^ (shift - 4))
                          (round_half_even (s * 10 ^ (shift - 4))
                             (-2 - (0 - 0 - shift + 2)))) = s).
    { destruct (Z.leb_spec (-2) (0 - 0 - shift + 2)).
      - assert (shift = 4) as -> by (unfold shift in *; lia).
        change (4 - 4) with 0. change (0 - 0 - 4 + 2 - -2) with 0.
        rewrite Z.pow_0_r. lia.
      - unfold with_sign.
        destruct (Z.ltb_spec (s * 10 ^ (shift - 4)) 0) as [|_]; [lia|].
        replace (-2 - (0 - 0 - shift + 2)) with (shift - 4) by lia.
        apply round_half_even_exact. unfold shift. lia. }
    rewrite Hc'. rewrite Z.abs_eq by lia. fold la.
    destruct (Z.ltb_spec 28 la); [lia | reflexivity].
  - (* the quotient has 28 digits and an exponent of -1 or more *)
    assert (Hla : 28 < la).
    { destruct (Z.le_gt_cases la 28) as [H|H]; [|assumption].
      apply ndigits_le in H; [lia | assumption]. }
    set (num := if 0 <=? shift then s * 10 ^ shift else s).
    set (den := if 0 <=? shift then 100 else 100 * 10 ^ (- shift)).
    assert (Hden : 0 < den /\ 10 ^ 29 * den <= num < 10 ^ 30 * den).
    { unfold num, den. destruct (Z.leb_spec 0 shift) as [Hsh|Hsh].
      - split; [lia|].
        assert (E : ndigits (s * 10 ^ shift) = 32).
        { rewrite ndigits_shift by lia. unfold shift. fold la. lia. }
        assert (0 < s * 10 ^ shift).
        { assert (0 < 10 ^ shift) by (apply Z.pow_pos_nonneg; lia). nia. }
        destruct (ndigits_spec (s * 10 ^ shift)) as (_ & H1 & H2);
          [assumption|]. rewrite E in H1, H2.
        change (10 ^ (32 - 1)) with (10 ^ 29 * 100) in H1.
        change (10 ^ 32) with (10 ^ 30 * 100) in H2. lia.
      - assert (Hp : 0 < 10 ^ (- shift)) by (apply Z.pow_pos_nonneg; lia).
        split; [lia|].
        assert (E1 : 10 ^ (la - 1) = 10 ^ 29 * (100 * 10 ^ (- shift))).
        { replace (la - 1) with (29 + (2 + - shift)) by (unfold shift; lia).
          rewrite !Z.pow_add_r by lia. reflexivity. }
        assert (E2 : 10 ^ la = 10 ^ 30 * (100 * 10 ^ (- shift))).
        { replace la with (30 + (2 + - shift)) at 1 by (unfold shift; lia).
          rewrite !Z.pow_add_r by lia. reflexivity. }
        lia. }
    destruct Hden as (Hden & Hnlo & Hnhi).
    assert (Hq : 10 ^ 29 <= num / den < 10 ^ 30).
    { split.
      - apply Z.div_le_lower_bound; lia.
      - apply Z.div_lt_upper_bound; lia. }
    set (q := num / den) in *.
    set (q' := if (negb (num mod den =? 0) && (q mod 5 =? 0))%bool
               then q + 1 else q).
    assert (Hq' : 10 ^ 29 <= q' < 10 ^ 30).
    { unfold q'. destruct (negb (num mod den =? 0)); cbn [andb]; [|lia].
      destruct (Z.eqb_spec (q mod 5) 0) as [H5|]; [|lia].
      assert (H30 : 10 ^ 30 mod 5 = 0) by reflexivity.
      apply Z.mod_divide in H5; [|lia]. apply Z.mod_divide in H30; [|lia].
      destruct H5 as (x & Hx), H30 as (y & Hy). lia. }
    rewrite Z.mul_1_l.
    assert (Hnq : ndigits q' = 30).
    { apply ndigits_unique; [|lia]. change (30 - 1) with 29. lia. }
    destruct (fix_prec_large q' (0 - 0 - shift)) as (R & E & -> & HR & HE).
    { lia. }
    { rewrite Hnq. unfold prec. lia. }
    rewrite Hnq in HE. unfold prec in HR, HE.
    assert (HRpos : 0 < R) by (change (10 ^ (28 - 1)) with (10 ^ 27) in HR; lia).
    unfold quantize.
    destruct (Z.eqb_spec R 0) as [|_]; [lia|].
    rewrite Z.abs_eq by lia.
    assert (HnR : ndigits R = 28) by (apply ndigits_unique; lia).
    rewrite HnR. unfold prec.
    destruct (Z.ltb_spec 28 (E + 28 - 1 - -2 + 1)) as [_|];
      [reflexivity | unfold shift in *; lia].
Qed.

(** ** Comparisons and values *)

Lemma pow10_positive k : 0 <= k -> 0 < 10 ^ k.
Proof. intros. apply Z.pow_pos_nonneg; lia. Qed.

Lemma mul_compare_r a b p : 0 < p -> (a * p ?= b * p) = (a ?= b).
Proof.
  intros Hp. destruct (Z.compare_spec a b) as [->|H|H].
  - apply Z.compare_refl.
  - apply Z.compare_lt_iff. nia.
  - apply Z.compare_gt_iff. nia.
Qed.

Lemma value_scaled c e k :
  k <= e -> k <= 0 ->
  (value c e == (c * 10 ^ (e - k)) # Z.to_pos (10 ^ (- k)))%Q.
Proof.
  intros H1 H2. unfold value.
  pose proof (pow10_positive (- k) ltac:(lia)) as Hk.
  destruct (Z.leb_spec 0 e) as [He|He]; unfold Qeq, inject_Z;
    cbn [Qnum Qden]; rewrite ?Z2Pos.id by (apply pow10_positive; lia).
  - replace (e - k) with (e + - k) by lia. rewrite Z.pow_add_r by lia. ring.
  - replace (- k) with ((e - k) + - e) at 1 by lia.
    rewrite Z.pow_add_r by lia. ring.
Qed.

(** The comparison of the code is the comparison of the values. *)
Lemma cmp_fin_value c1 e1 c2 e2 :
  cmp_fin c1 e1 c2 e2 = (value c1 e1 ?= value c2 e2)%Q.
Proof.
  set (k := Z.min (Z.min e1 e2) 0).
  rewrite (Qcompare_comp _ _ (value_scaled c1 e1 k ltac:(lia) ltac:(lia))
             _ _ (value_scaled c2 e2 k ltac:(lia) ltac:(lia))).
  unfold Qcompare, cmp_fin. cbn [Qnum Qden].
  pose proof (pow10_positive (- k) ltac:(lia)) as Hk.
  rewrite Z2Pos.id by assumption.
  rewrite mul_compare_r by assumption.
  set (m := Z.min e1 e2).
  pose proof (pow10_positive (m - k) ltac:(lia)) as Hmk.
  replace (e1 - k) with ((e1 - m) + (m - k)) by lia.
  replace (e2 - k) with ((e2 - m) + (m - k)) by lia.
  rewrite !Z.pow_add_r by lia. rewrite !Z.mul_assoc.
  now rewrite mul_compare_r by assumption.
Qed.

Lemma cmp_fin_zero c e : cmp_fin c e 0 0 = (c ?= 0).
Proof.
  unfold cmp_fin. rewrite Z.mul_0_l.
  pose proof (pow10_positive (e - Z.min e 0) ltac:(lia)) as Hp.
  destruct (Z.compare_spec c 0) as [->|H|H].
  - reflexivity.
  - apply Z.compare_lt_iff. nia.
  - apply Z.compare_gt_iff. nia.
Qed.

Lemma value_positive c e : (0 < value c e)%Q <-> 0 < c.
Proof.
  rewrite Qlt_alt. change 0%Q with (value 0 0).
  rewrite <- cmp_fin_value. unfold cmp_fin. rewrite Z.mul_0_l.
  pose proof (pow10_positive (e - Z.min 0 e) ltac:(lia)) as Hp.
  rewrite Z.compare_lt_iff. nia.
Qed.

Lemma value_below_one c e :
  (value c e < 1)%Q <-> cmp_fin c e 1 0 = Lt.
Proof.
  rewrite Qlt_alt. change 1%Q with (value 1 0). now rewrite cmp_fin_value.
Qed.

Lemma bind_assoc {A B C : Type} (m : result A) (f : A -> result B)
    (g : B -> result C) :
  (x <- m ;; y <- f x ;; g y) = (y <- (x <- m ;; f x) ;; g y).
Proof. now destruct m. Qed.

Lemma str_decimal_not_none v d : str_decimal v = Ok d -> is_none v = false.
Proof. now destruct v. Qed.

(** The rounding to a price ending in 8: never below the truncated
    theoretical cents, and positive. *)
Lemma suggested_cents_end_in_8 t :
  0 <= t ->
  let remainder := t mod 10 in
  let s := if remainder <=? 8 then t - remainder + 8 else t - remainder + 18 in
  let s' := if s <? t then s + 10 else s in
  s' mod 10 = 8 /\ 0 < s' /\ t <= s' <= t + 9.
Proof.
  intros Ht remainder s s'. subst remainder s s'.
  pose proof (Z.mod_pos_bound t 10 ltac:(lia)) as Hr.
  pose proof (Z.div_mod t 10 ltac:(lia)) as Hdm.
  assert (Hq : 0 <= t / 10) by (apply Z.div_pos; lia).
  destruct (Z.leb_spec (t mod 10) 8).
  - destruct (Z.ltb_spec (t - t mod 10 + 8) t); [lia|].
    split; [|lia].
    replace (t - t mod 10 + 8) with (8 + (t / 10) * 10) by lia.
    now rewrite Z.mod_add by lia.
  - destruct (Z.ltb_spec (t - t mod 10 + 18) t); [lia|].
    split; [|lia].
    replace (t - t mod 10 + 18) with (8 + (t / 10 + 1) * 10) by lia.
    now rewrite Z.mod_add by lia.
Qed.

(** ** suggest_retail *)

(** The truncated theoretical cents of a positive cost at a margin between
    0 and 1: every step returns, and the cents are not negative. *)
Lemma theoretical_cents_nonneg cu eu cm em :
  0 < cu -> 0 < cm -> cmp_fin cm em 1 0 = Lt ->
  exists K E T ET S ES t,
    Dec.sub (of_int 1) (Fin cm em) = Ok (Fin K E) /\ 0 < K
    /\ Dec.div (Fin cu eu) (Fin K E) = Ok (Fin T ET)
    /\ Dec.mul (Fin T ET) (of_int 100) = Ok (Fin S ES)
    /\ Dec.to_int (Fin S ES) = Ok t /\ 0 <= t.
Proof.
  intros Hu Hm Hlt.
  assert (HK : 0 < 1 * 10 ^ (0 - Z.min 0 em) + - cm * 10 ^ (em - Z.min 0 em)).
  { unfold cmp_fin in Hlt. apply -> Z.compare_lt_iff in Hlt.
    rewrite (Z.min_comm em 0) in Hlt.
    set (a := 10 ^ (0 - Z.min 0 em)) in *.
    set (b := 10 ^ (em - Z.min 0 em)) in *. lia. }
  destruct (fix_prec_positive _ (Z.min 0 em) HK) as (K & E & HfK & HKpos).
  destruct (div_fin_nonneg cu eu K E Hu HKpos) as (T & ET & HfT & HT).
  destruct (fix_prec_nonneg (T * 100) (ET + 0)) as (S & ES & HfS & HS); [lia|].
  exists K, E, T, ET, S, ES.
  exists (if 0 <=? ES then S * 10 ^ ES
          else with_sign S (Z.abs S / 10 ^ (- ES))).
  split; [|split; [exact HKpos|split; [|split; [|split]]]].
  - unfold Dec.sub, Dec.neg, Dec.add, of_int. now rewrite HfK.
  - unfold Dec.div. destruct (Z.eqb_spec K 0); [lia|].
    destruct (Z.eqb_spec cu 0); [lia|]. now rewrite HfT.
  - unfold Dec.mul, of_int. now rewrite HfS.
  - unfold Dec.to_int. now destruct (0 <=? ES).
  - unfold with_sign. destruct (Z.leb_spec 0 ES).
    + pose proof (pow10_positive ES ltac:(lia)). nia.
    + destruct (Z.ltb_spec S 0); [lia|]. rewrite Z.abs_eq by lia.
      apply Z.div_pos; [lia | apply pow10_positive; lia].
Qed.

(** C5, as stated, fails for a price beyond the 28 digits of the Decimal
    context: for a unit cost of [1E+30] and a margin of 0.5 the final
    [quantize] raises InvalidOperation, so no value is returned although
    the cost is positive and the margin lies strictly between 0 and 1. *)
Lemma suggest_retail_raises_beyond_28_digits :
  (0 < value 1 30)%Q /\ (0 < value 5 (-1))%Q /\ (value 5 (-1) < 1)%Q
  /\ suggest_retail (PDec (Fin 1 30)) (PDec (Fin 5 (-1)))
     = Raise InvalidOperation.
Proof.
  split; [|split; [|split]]; vm_compute; reflexivity.
Qed.

(** C5, amended.  For finite numbers [u] and [m], [suggest_retail(u, m)]
    is None when [u <= 0], [m <= 0] or [m >= 1].  When [u > 0] and
    [0 < m < 1] it arrives at a positive whole number of cents that ends in
    the digit 8 and returns it as a Decimal with two places, provided the
    cents stay below [10^28]; from there on [quantize] raises
    InvalidOperation.  So None is returned exactly for the inputs out of
    range, and every value returned ends in 8. *)
Theorem suggest_retail_defined_and_ends_in_8 :
  forall (u m : pyval) (cu eu cm em : Z),
    str_decimal u = Ok (Fin cu eu) ->
    str_decimal m = Ok (Fin cm em) ->
    (((value cu eu <= 0)%Q \/ (value cm em <= 0)%Q \/ (1 <= value cm em)%Q) ->
     suggest_retail u m = Ok PNone)
    /\ ((0 < value cu eu)%Q -> (0 < value cm em)%Q -> (value cm em < 1)%Q ->
        exists cents : Z,
          cents mod 10 = 8 /\ 0 < cents
          /\ suggest_retail u m
             = if cents <? 10 ^ 28 then Ok (PDec (Fin cents (-2)))
               else Raise InvalidOperation).
Proof.
  intros u m cu eu cm em Hu Hm.
  assert (Hstart : suggest_retail u m
                   = suggest_retail (PDec (Fin cu eu)) (PDec (Fin cm em))).
  { unfold suggest_retail.
    rewrite (str_decimal_not_none _ _ Hu), (str_decimal_not_none _ _ Hm).
    cbn [orb is_none str_decimal]. now rewrite Hu, Hm. }
  rewrite Hstart. clear Hstart Hu Hm u m.
  unfold suggest_retail. cbn [orb is_none str_decimal Py.bind].
  unfold Dec.le, Dec.ge, of_int. cbn [Dec.compare Py.bind].
  rewrite (cmp_fin_value cm em 0 0), (cmp_fin_value cm em 1 0),
    (cmp_fin_value cu eu 0 0).
  change (value 0 0) with 0%Q. change (value 1 0) with 1%Q.
  split.
  - intros H.
    destruct (Qcompare_spec (value cm em) 0) as [E|E|E]; try reflexivity.
    destruct (Qcompare_spec (value cm em) 1) as [E1|E1|E1]; try reflexivity.
    destruct (Qcompare_spec (value cu eu) 0) as [E2|E2|E2]; try reflexivity.
    exfalso. destruct H as [H | [H | H]].
    + apply (Qlt_not_le _ _ E2 H).
    + apply (Qlt_not_le _ _ E H).
    + apply (Qlt_not_le _ _ E1 H).
  - intros Hup Hmp Hm1.
    rewrite (proj1 (Qgt_alt _ _) Hmp), (proj1 (Qlt_alt _ _) Hm1),
      (proj1 (Qgt_alt _ _) Hup).
    cbv iota.
    apply value_positive in Hup, Hmp. apply value_below_one in Hm1.
    destruct (theoretical_cents_nonneg cu eu cm em Hup Hmp Hm1)
      as (K & E & T & ET & S & ES & t & H1 & _ & H2 & H3 & H4 & Ht).
    unfold of_int in H1, H3. rewrite H1. cbn [Py.bind]. rewrite H2.
    cbn [Py.bind]. rewrite H3. cbn [Py.bind]. rewrite H4. cbn [Py.bind].
    cbv zeta.
    destruct (suggested_cents_end_in_8 t Ht) as (H8 & Hpos & _).
    cbv zeta in H8, Hpos.
    set (cents := if (if t mod 10 <=? 8 then t - t mod 10 + 8
                      else t - t mod 10 + 18) <? t
                  then (if t mod 10 <=? 8 then t - t mod 10 + 8
                        else t - t mod 10 + 18) + 10
                  else (if t mod 10 <=? 8 then t - t mod 10 + 8
                        else t - t mod 10 + 18)) in *.
    exists cents. split; [assumption|]. split; [assumption|].
    rewrite bind_assoc. fold (of_int cents). fold (of_int 100).
    rewrite (cents_to_money cents Hpos).
    now destruct (cents <? 10 ^ 28).
Qed.

Lemma suggest_retail_defined_and_ends_in_8_witness :
  suggest_retail (PInt 0) (PDec (Fin 295 (-3))) = Ok PNone
  /\ exists cents,
       cents mod 10 = 8 /\ 0 < cents
       /\ suggest_retail (PDec (Fin 275 (-2))) (PDec (Fin 2816 (-4)))
          = if cents <? 10 ^ 28 then Ok (PDec (Fin cents (-2)))
            else Raise InvalidOperation.
Proof.
  split.
  - apply (proj1 (suggest_retail_defined_and_ends_in_8
                    (PInt 0) (PDec (Fin 295 (-3))) 0 0 295 (-3)
                    eq_refl eq_refl)).
    left. vm_compute. discriminate.
  - apply (proj2 (suggest_retail_defined_and_ends_in_8
                    (PDec (Fin 275 (-2))) (PDec (Fin 2816 (-4)))
                    275 (-2) 2816 (-4) eq_refl eq_refl));
      vm_compute; reflexivity.
Defined.

(** ** The suggestion against the theoretical price *)

(** C1.  The first example of the docstring of [suggest_retail]: a unit
    cost of $4.50 at a margin of 29.5%.  The theoretical retail is
    6.3829..., its cents are truncated to 638, which already end in 8, and
    the function returns $6.38 (the docstring announces $6.48): the
    suggestion is below the theoretical price, [6.38 * (1 - 0.295)] is
    4.4979, less than the unit cost.  The same holds when the arguments
    are the floats 4.5 and 0.295. *)
Theorem suggest_retail_undercuts_theoretical_price :
  suggest_retail (PDec (Fin 450 (-2))) (PDec (Fin 295 (-3)))
  = Ok (PDec (Fin 638 (-2)))
  /\ suggest_retail (PFloat (F64.float_of_decimal (Fin 450 (-2))))
       (PFloat (F64.float_of_decimal (Fin 295 (-3))))
     = Ok (PDec (Fin 638 (-2)))
  /\ Dec.div (Fin 450 (-2)) (Fin 705 (-3))
     = Ok (Fin 6382978723404255319148936170 (-27))
  /\ (value 638 (-2) * (1 - value 295 (-3)) < value 450 (-2))%Q
  /\ (0 < value 450 (-2))%Q
  /\ (0 < value 295 (-3))%Q /\ (value 295 (-3) < 1)%Q.
Proof.
  repeat split; vm_compute; reflexivity.
Qed.

(** ** Order of Decimal values *)

Lemma pow10_split x y : 0 <= x -> 0 <= y -> 10 ^ (x + y) = 10 ^ x * 10 ^ y.
Proof. intros. now apply Z.pow_add_r. Qed.

(** Any exponent below both will do as the common one. *)
Lemma le_val_base c1 e1 c2 e2 k :
  k <= e1 -> k <= e2 ->
  (le_val c1 e1 c2 e2 <-> c1 * 10 ^ (e1 - k) <= c2 * 10 ^ (e2 - k)).
Proof.
  intros H1 H2. unfold le_val. set (m := Z.min e1 e2).
  pose proof (pow10_positive (m - k) ltac:(lia)) as Hp.
  replace (e1 - k) with ((e1 - m) + (m - k)) by lia.
  replace (e2 - k) with ((e2 - m) + (m - k)) by lia.
  rewrite !pow10_split by lia. rewrite !Z.mul_assoc. split; intros H.
  - now apply Z.mul_le_mono_nonneg_r; [lia|].
  - now apply Z.mul_le_mono_pos_r in H.
Qed.

Lemma le_val_value c1 e1 c2 e2 :
  le_val c1 e1 c2 e2 <-> (value c1 e1 <= value c2 e2)%Q.
Proof.
  rewrite Qle_alt, <- cmp_fin_value. unfold le_val, cmp_fin.
  now rewrite Z.compare_le_iff.
Qed.

Lemma le_val_trans c1 e1 c2 e2 c3 e3 :
  le_val c1 e1 c2 e2 -> le_val c2 e2 c3 e3 -> le_val c1 e1 c3 e3.
Proof.
  rewrite !le_val_value. apply Qle_trans.
Qed.

(** What the context rounding does to a long positive coefficient: the
    result is the coefficient rounded half-even at its 28th digit. *)
Lemma fix_prec_rounds c e :
  0 < c -> prec < ndigits c ->
  exists R E,
    fix_prec c e = Fin R E /\ 0 < R
    /\ e + (ndigits c - prec) <= E
    /\ R * 10 ^ (E - (e + (ndigits c - prec)))
       = round_half_even c (ndigits c - prec)
    /\ 10 ^ (prec - 1) <= round_half_even c (ndigits c - prec) <= 10 ^ prec.
Proof.
  intros Hc Hn. unfold fix_prec. rewrite Z.abs_eq by lia.
  destruct (Z.leb_spec (ndigits c) prec) as [|_]; [lia|].
  destruct (ndigits_spec c Hc) as (_ & Hlo & Hhi).
  set (k := ndigits c - prec) in *.
  assert (Hk : 0 < k) by (unfold k; lia).
  assert (HR : 10 ^ (prec - 1) <= round_half_even c k <= 10 ^ prec).
  { split.
    - apply round_half_even_lower; [lia|].
      rewrite <- Z.pow_add_r by (unfold prec; lia).
      now replace (prec - 1 + k) with (ndigits c - 1) by (unfold k; lia).
    - apply round_half_even_upper; [lia|].
      rewrite <- Z.pow_add_r by (unfold prec; lia).
      replace (prec + k) with (ndigits c) by (unfold k; lia). lia. }
  assert (H27 : 0 < 10 ^ (prec - 1)) by (apply pow10_positive; unfold prec; lia).
  unfold with_sign. destruct (Z.ltb_spec c 0) as [|_]; [lia|].
  destruct (Z.leb_spec (ndigits (round_half_even c k)) prec) as [Hle|Hgt].
  - eexists _, _. split; [reflexivity|]. split; [lia|]. split; [lia|].
    split; [|assumption].
    replace (e + k - (e + k)) with 0 by lia. rewrite Z.pow_0_r. lia.
  - assert (HR' : round_half_even c k = 10 ^ prec).
    { destruct (Z.lt_ge_cases (round_half_even c k) (10 ^ prec)) as [Hlt|Hge];
        [|lia].
      apply ndigits_le in Hlt; lia. }
    rewrite HR' in *. eexists _, _. split; [reflexivity|].
    change (10 ^ prec / 10) with (10 ^ (prec - 1)).
    split; [assumption|]. split; [lia|]. split; [|assumption].
    replace (e + k + 1 - (e + k)) with 1 by lia. reflexivity.
Qed.

(** The context rounding does not cross a number of at most 28 digits. *)
Lemma fix_prec_lower c e L eL :
  0 < c -> 0 <= L < 10 ^ prec -> le_val L eL c e ->
  exists R E, fix_prec c e = Fin R E /\ 0 < R /\ le_val L eL R E.
Proof.
  intros Hc HL Hle.
  destruct (Z.le_gt_cases (ndigits c) prec) as [Hsmall|Hlarge].
  - exists c, e. split; [|split; assumption]. apply fix_prec_small.
    rewrite Z.abs_eq by lia. now apply ndigits_le.
  - destruct (fix_prec_rounds c e Hc Hlarge)
      as (R & E & Hf & HR & HE & Hval & H27 & H28).
    exists R, E. split; [assumption|]. split; [assumption|].
    set (k := ndigits c - prec) in *.
    set (R0 := round_half_even c k) in *.
    assert (Hk : 0 < k) by (unfold k; lia).
    destruct (Z.le_gt_cases (e + k) eL) as [Hcoarse|Hfine].
    + (* L lies on the grid of the rounded coefficient *)
      apply -> (le_val_base L eL c e e) in Hle; [|lia|lia].
      rewrite Z.sub_diag, Z.pow_0_r, Z.mul_1_r in Hle.
      replace (eL - e) with ((eL - (e + k)) + k) in Hle by lia.
      rewrite pow10_split, Z.mul_assoc in Hle by lia.
      assert (Hg : L * 10 ^ (eL - (e + k)) <= R0)
        by (apply round_half_even_lower; [lia | exact Hle]).
      apply (le_val_base _ _ _ _ (e + k)); [lia|lia|]. now rewrite Hval.
    + (* L has fewer than 28 digits above the rounding position *)
      apply (le_val_base _ _ _ _ eL); [lia|lia|].
      rewrite Z.sub_diag, Z.pow_0_r, Z.mul_1_r.
      replace (E - eL) with ((E - (e + k)) + (e + k - eL)) by lia.
      rewrite pow10_split, Z.mul_assoc, Hval by lia.
      assert (10 ^ 1 <= 10 ^ (e + k - eL)) by (apply Z.pow_le_mono_r; lia).
      change (10 ^ 1) with 10 in *.
      assert (E28 : 10 ^ prec = 10 ^ (prec - 1) * 10) by reflexivity.
      nia.
Qed.

Lemma pow10_lt_inv x y : 0 <= y -> 10 ^ x < 10 ^ y -> x < y.
Proof.
  intros Hy H. destruct (Z.lt_ge_cases x y) as [|Hge]; [assumption|].
  assert (10 ^ y <= 10 ^ x) by (apply Z.pow_le_mono_r; lia). lia.
Qed.

Lemma fix_prec_upper c e U eU :
  0 < c -> 0 < U < 10 ^ prec -> le_val c e U eU ->
  exists R E, fix_prec c e = Fin R E /\ 0 < R /\ le_val R E U eU.
Proof.
  intros Hc HU Hle.
  destruct (Z.le_gt_cases (ndigits c) prec) as [Hsmall|Hlarge].
  - exists c, e. split; [|split; assumption]. apply fix_prec_small.
    rewrite Z.abs_eq by lia. now apply ndigits_le.
  - destruct (fix_prec_rounds c e Hc Hlarge)
      as (R & E & Hf & HR & HE & Hval & H27 & H28).
    exists R, E. split; [assumption|]. split; [assumption|].
    destruct (ndigits_spec c Hc) as (_ & Hlo & _).
    set (k := ndigits c - prec) in *.
    set (R0 := round_half_even c k) in *.
    assert (Hk : 0 < k) by (unfold k; lia).
    destruct (Z.le_gt_cases (e + k) eU) as [Hcoarse|Hfine].
    + apply -> (le_val_base c e U eU e) in Hle; [|lia|lia].
      rewrite Z.sub_diag, Z.pow_0_r, Z.mul_1_r in Hle.
      replace (eU - e) with ((eU - (e + k)) + k) in Hle by lia.
      rewrite pow10_split, Z.mul_assoc in Hle by lia.
      assert (Hg : R0 <= U * 10 ^ (eU - (e + k)))
        by (apply round_half_even_upper; [lia | exact Hle]).
      apply (le_val_base _ _ _ _ (e + k)); [lia|lia|]. now rewrite Hval.
    + (* a coefficient of more than 28 digits cannot be below U here *)
      exfalso. set (b := Z.min e eU).
      assert (Hprec : prec = 28) by reflexivity.
      apply -> (le_val_base c e U eU b) in Hle; [|lia|lia].
      assert (H1 : 10 ^ (ndigits c - 1 + (e - b)) <= c * 10 ^ (e - b)).
      { rewrite pow10_split by lia.
        apply Z.mul_le_mono_nonneg_r; [|assumption].
        apply Z.lt_le_incl, pow10_positive. lia. }
      assert (H2 : U * 10 ^ (eU - b) < 10 ^ (prec + (eU - b))).
      { rewrite pow10_split by lia.
        apply Z.mul_lt_mono_pos_r; [apply pow10_positive|]; lia. }
      assert (H3 : ndigits c - 1 + (e - b) < prec + (eU - b)).
      { apply pow10_lt_inv; lia. }
      unfold k in *. lia.
Qed.

Lemma le_val_shift c1 e1 c2 e2 t :
  le_val c1 (e1 + t) c2 (e2 + t) <-> le_val c1 e1 c2 e2.
Proof.
  unfold le_val. rewrite Z.add_min_distr_r.
  now replace (e1 + t - (Z.min e1 e2 + t)) with (e1 - Z.min e1 e2) by lia;
    replace (e2 + t - (Z.min e1 e2 + t)) with (e2 - Z.min e1 e2) by lia.
Qed.

Lemma le_val_grow c1 e1 c2 c2' e2 :
  c2 <= c2' -> le_val c1 e1 c2 e2 -> le_val c1 e1 c2' e2.
Proof.
  unfold le_val. intros H H'.
  pose proof (pow10_positive (e2 - Z.min e1 e2) ltac:(lia)). nia.
Qed.

(** *** The quotient of [Decimal.__truediv__] *)

Lemma div_fin_positive a ea b eb :
  0 < a -> 0 < b ->
  div_fin a ea b eb = fix_prec (quot_sticky a b) (ea - eb - quot_shift a b).
Proof.
  intros Ha Hb. unfold div_fin. rewrite !Z.abs_eq by lia.
  destruct (Z.ltb_spec a 0) as [|_]; [lia|].
  destruct (Z.ltb_spec b 0) as [|_]; [lia|]. cbn [xorb].
  rewrite Z.mul_1_l. reflexivity.
Qed.

(** The quotient has 29 or 30 digits. *)
Lemma quotient_range a b :
  0 < a -> 0 < b ->
  0 < quot_den a b
  /\ 10 ^ prec * quot_den a b <= quot_num a b
  /\ quot_num a b < 10 ^ (prec + 2) * quot_den a b.
Proof.
  intros Ha Hb. unfold quot_num, quot_den.
  destruct (ndigits_spec a Ha) as (Ha1 & Halo & Hahi).
  destruct (ndigits_spec b Hb) as (Hb1 & Hblo & Hbhi).
  assert (Hprec : prec = 28) by reflexivity.
  set (la := ndigits a) in *. set (lb := ndigits b) in *.
  assert (Hs : quot_shift a b = lb - la + prec + 1) by reflexivity.
  set (s := quot_shift a b) in *.
  destruct (Z.leb_spec 0 s) as [Hpos|Hneg].
  - split; [assumption|].
    pose proof (pow10_positive s Hpos) as Hp.
    assert (E1 : 10 ^ (la - 1) * 10 ^ s = 10 ^ prec * 10 ^ lb).
    { rewrite <- !pow10_split by lia. f_equal. lia. }
    assert (E2 : 10 ^ la * 10 ^ s = 10 ^ (prec + 2) * 10 ^ (lb - 1)).
    { rewrite <- !pow10_split by lia. f_equal. lia. }
    assert (0 < 10 ^ prec) by (apply pow10_positive; lia).
    assert (0 < 10 ^ (prec + 2)) by (apply pow10_positive; lia).
    split; nia.
  - pose proof (pow10_positive (- s) ltac:(lia)) as Hp.
    split; [nia|].
    assert (E1 : 10 ^ (la - 1) = 10 ^ prec * (10 ^ lb * 10 ^ (- s))).
    { rewrite <- !pow10_split by lia. f_equal. lia. }
    assert (E2 : 10 ^ la = 10 ^ (prec + 2) * (10 ^ (lb - 1) * 10 ^ (- s))).
    { rewrite <- !pow10_split by lia. f_equal. lia. }
    assert (0 < 10 ^ prec) by (apply pow10_positive; lia).
    assert (0 < 10 ^ (prec + 2)) by (apply pow10_positive; lia).
    split; nia.
Qed.

Lemma quotient_sticky a b :
  0 < a -> 0 < b ->
  let q := quot_num a b / quot_den a b in
  10 ^ prec <= q
  /\ q <= quot_sticky a b <= q + 1
  /\ (quot_num a b mod quot_den a b = 0 -> quot_sticky a b = q).
Proof.
  intros Ha Hb q. destruct (quotient_range a b Ha Hb) as (Hd & Hlo & Hhi).
  split; [apply Z.div_le_lower_bound; lia|].
  unfold quot_sticky. fold q. split.
  - destruct (negb _ && _)%bool; lia.
  - intros ->. reflexivity.
Qed.

(** The integer quotient is not below a number of at most 28 digits that
    the exact quotient is not below.  [x] is the exponent of [L] once the
    exponents of [a] and [b] are taken to be 0. *)
Lemma quotient_lower a b L x :
  0 < a -> 0 < b -> 0 <= L < 10 ^ prec ->
  le_val (L * b) x a 0 ->
  le_val L x (quot_num a b / quot_den a b) (- quot_shift a b).
Proof.
  intros Ha Hb HL H.
  destruct (quotient_range a b Ha Hb) as (Hd & Hlo & Hhi).
  destruct (quotient_sticky a b Ha Hb) as (Hq & _).
  unfold quot_num, quot_den in *.
  set (s := quot_shift a b) in *.
  destruct (Z.le_gt_cases (- s) x) as [Hcoarse|Hfine].
  - apply (le_val_base _ _ _ _ (- s)); [lia|lia|].
    rewrite Z.sub_diag, Z.pow_0_r, Z.mul_1_r.
    replace (x - - s) with (x + s) by lia.
    apply Z.div_le_lower_bound; [assumption|].
    destruct (Z.leb_spec 0 s) as [Hs|Hs].
    + pose proof (pow10_positive s Hs) as Hp.
      destruct (Z.le_gt_cases 0 x) as [Hx|Hx].
      * apply -> (le_val_base (L * b) x a 0 0) in H; [|lia|lia].
        rewrite !Z.sub_0_r, Z.pow_0_r, Z.mul_1_r in H.
        rewrite (pow10_split x s) by lia. nia.
      * apply -> (le_val_base (L * b) x a 0 x) in H; [|lia|lia].
        rewrite Z.sub_diag, Z.pow_0_r, Z.mul_1_r in H.
        replace s with ((x + s) + (0 - x)) at 2 by lia.
        rewrite (pow10_split (x + s) (0 - x)) by lia.
        pose proof (pow10_positive (x + s) ltac:(lia)). nia.
    + apply -> (le_val_base (L * b) x a 0 0) in H; [|lia|lia].
      rewrite !Z.sub_0_r, Z.pow_0_r, Z.mul_1_r in H.
      replace x with ((x + s) + - s) in H at 1 by lia.
      rewrite (pow10_split (x + s) (- s)) in H by lia. nia.
  - apply (le_val_base _ _ _ _ x); [lia|lia|].
    rewrite Z.sub_diag, Z.pow_0_r, Z.mul_1_r.
    pose proof (pow10_positive (- s - x) ltac:(lia)). nia.
Qed.

Lemma div_fin_lower a ea b eb L eL :
  0 < a -> 0 < b -> 0 <= L < 10 ^ prec ->
  le_val (L * b) (eL + eb) a ea ->
  exists R E, div_fin a ea b eb = Fin R E /\ 0 < R /\ le_val L eL R E.
Proof.
  intros Ha Hb HL H. rewrite (div_fin_positive a ea b eb Ha Hb).
  destruct (quotient_sticky a b Ha Hb) as (Hq & [Hs _] & _).
  assert (H28 : 0 < 10 ^ prec) by (apply pow10_positive; unfold prec; lia).
  apply fix_prec_lower; [lia | assumption |].
  eapply le_val_grow; [exact Hs|].
  apply (le_val_shift _ _ _ _ (- (ea - eb))).
  replace (ea - eb - quot_shift a b + - (ea - eb)) with (- quot_shift a b)
    by lia.
  apply quotient_lower; try assumption.
  apply (le_val_shift _ _ _ _ ea).
  now replace (eL + - (ea - eb) + ea) with (eL + eb) by lia.
Qed.

(** The quotient with its sticky digit is not above a number of at most
    28 digits that the exact quotient is not above. *)
Lemma quotient_upper a b U x :
  0 < a -> 0 < b -> 0 < U < 10 ^ prec ->
  le_val a 0 (U * b) x ->
  le_val (quot_sticky a b) (- quot_shift a b) U x.
Proof.
  intros Ha Hb HU H.
  destruct (quotient_range a b Ha Hb) as (Hd & Hlo & Hhi).
  destruct (quotient_sticky a b Ha Hb) as (Hq & [_ Hs] & Hex).
  cbv zeta in Hq, Hs, Hex.
  pose proof (Z.div_mod (quot_num a b) (quot_den a b) ltac:(lia)) as Hdm.
  pose proof (Z.mod_pos_bound (quot_num a b) (quot_den a b) Hd) as Hmod.
  set (q := quot_num a b / quot_den a b) in *.
  set (r := quot_num a b mod quot_den a b) in *.
  unfold quot_num, quot_den in *.
  set (s := quot_shift a b) in *.
  assert (H28 : 0 < 10 ^ prec) by (apply pow10_positive; unfold prec; lia).
  destruct (Z.le_gt_cases (- s) x) as [Hcoarse|Hfine].
  - apply (le_val_base _ _ _ _ (- s)); [lia|lia|].
    rewrite Z.sub_diag, Z.pow_0_r, Z.mul_1_r.
    replace (x - - s) with (x + s) by lia.
    set (G := U * 10 ^ (x + s)).
    assert (HG : (if 0 <=? s then a * 10 ^ s else a)
                 <= G * (if 0 <=? s then b else b * 10 ^ (- s))).
    { unfold G. destruct (Z.leb_spec 0 s) as [Hs0|Hs0].
      - pose proof (pow10_positive s Hs0) as Hp.
        destruct (Z.le_gt_cases 0 x) as [Hx|Hx].
        + apply -> (le_val_base a 0 (U * b) x 0) in H; [|lia|lia].
          rewrite !Z.sub_0_r, Z.pow_0_r, Z.mul_1_r in H.
          rewrite (pow10_split x s) by lia. nia.
        + apply -> (le_val_base a 0 (U * b) x x) in H; [|lia|lia].
          rewrite Z.sub_diag, Z.pow_0_r, Z.mul_1_r in H.
          replace s with ((x + s) + (0 - x)) at 1 by lia.
          rewrite (pow10_split (x + s) (0 - x)) by lia.
          pose proof (pow10_positive (x + s) ltac:(lia)). nia.
      - apply -> (le_val_base a 0 (U * b) x 0) in H; [|lia|lia].
        rewrite !Z.sub_0_r, Z.pow_0_r, Z.mul_1_r in H.
        replace x with ((x + s) + - s) in H at 1 by lia.
        rewrite (pow10_split (x + s) (- s)) in H by lia. nia. }
    destruct (Z.eq_dec r 0) as [Hr|Hr].
    + rewrite (Hex Hr). nia.
    + assert (q < G) by nia. lia.
  - exfalso.
    destruct (Z.leb_spec 0 s) as [Hs0|Hs0].
    + apply -> (le_val_base a 0 (U * b) x x) in H; [|lia|lia].
      rewrite Z.sub_diag, Z.pow_0_r, Z.mul_1_r in H.
      replace (0 - x) with (s + (- s - x)) in H by lia.
      rewrite (pow10_split s (- s - x)) in H by lia.
      assert (10 ^ 1 <= 10 ^ (- s - x)) by (apply Z.pow_le_mono_r; lia).
      change (10 ^ 1) with 10 in *.
      pose proof (pow10_positive s Hs0). nia.
    + pose proof (pow10_positive (- s) ltac:(lia)) as Hp.
      destruct (Z.le_gt_cases 0 x) as [Hx|Hx].
      * apply -> (le_val_base a 0 (U * b) x 0) in H; [|lia|lia].
        rewrite !Z.sub_0_r, Z.pow_0_r, Z.mul_1_r in H.
        assert (Hxs : 10 ^ x < 10 ^ (- s)) by (apply Z.pow_lt_mono_r; lia).
        pose proof (pow10_positive x Hx) as Hpx.
        assert (H1 : U * b * 10 ^ x <= U * b * 10 ^ (- s))
          by (apply Z.mul_le_mono_nonneg_l; nia).
        assert (H2 : U * b * 10 ^ (- s) < 10 ^ prec * b * 10 ^ (- s))
          by (apply Z.mul_lt_mono_pos_r; [assumption | nia]).
        rewrite Z.mul_assoc in Hlo. lia.
      * apply -> (le_val_base a 0 (U * b) x x) in H; [|lia|lia].
        rewrite Z.sub_diag, Z.pow_0_r, Z.mul_1_r in H.
        pose proof (pow10_positive (0 - x) ltac:(lia)) as Hpx.
        assert (H1 : 10 ^ prec * b <= 10 ^ prec * b * 10 ^ (- s)) by nia.
        assert (H2 : U * b < 10 ^ prec * b) by nia.
        assert (H3 : a <= a * 10 ^ (0 - x)) by nia.
        rewrite Z.mul_assoc in Hlo. lia.
Qed.

Lemma le_val_shrink c1 c1' e1 c2 e2 :
  c1' <= c1 -> le_val c1 e1 c2 e2 -> le_val c1' e1 c2 e2.
Proof.
  unfold le_val. intros H H'.
  pose proof (pow10_positive (e1 - Z.min e1 e2) ltac:(lia)). nia.
Qed.

Lemma div_fin_upper a ea b eb U eU :
  0 < a -> 0 < b -> 0 < U < 10 ^ prec ->
  le_val a ea (U * b) (eU + eb) ->
  exists R E, div_fin a ea b eb = Fin R E /\ 0 < R /\ le_val R E U eU.
Proof.
  intros Ha Hb HU H. rewrite (div_fin_positive a ea b eb Ha Hb).
  destruct (quotient_sticky a b Ha Hb) as (Hq & [Hs _] & _).
  assert (H28 : 0 < 10 ^ prec) by (apply pow10_positive; unfold prec; lia).
  apply fix_prec_upper; [lia | assumption |].
  apply (le_val_shift _ _ _ _ (- (ea - eb))).
  replace (ea - eb - quot_shift a b + - (ea - eb)) with (- quot_shift a b)
    by lia.
  apply quotient_upper; try assumption.
  apply (le_val_shift _ _ _ _ ea).
  now replace (eU + - (ea - eb) + ea) with (eU + eb) by lia.
Qed.

(** ** The margin of the suggested price *)

Lemma pow10_le_inv x y : 0 <= y -> 10 ^ x <= 10 ^ y -> x <= y.
Proof.
  intros Hy H. destruct (Z.le_gt_cases x y) as [|Hgt]; [assumption|].
  assert (10 ^ y < 10 ^ x) by (apply Z.pow_lt_mono_r; lia). lia.
Qed.

(** [quantize] of a positive number that is at most 1: it returns, and
    does not cross a multiple of the quantum. *)
Lemma quantize_between c e g t :
  0 < c -> 0 < g -> t <= 0 -> - t < prec ->
  le_val g t c e -> le_val c e 1 0 ->
  exists q, Dec.quantize (Fin c e) t = Ok (Fin q t) /\ g <= q <= 10 ^ (- t).
Proof.
  intros Hc Hg Ht Htp Hlo Hhi.
  assert (Hprec : prec = 28) by reflexivity.
  destruct (ndigits_spec c Hc) as (Hn1 & Hnlo & _).
  assert (Hadj : e + ndigits c - 1 <= 0).
  { set (b := Z.min e 0).
    apply -> (le_val_base c e 1 0 b) in Hhi; [|lia|lia].
    rewrite Z.mul_1_l in Hhi.
    assert (H1 : 10 ^ (ndigits c - 1 + (e - b)) <= c * 10 ^ (e - b)).
    { rewrite (pow10_split (ndigits c - 1) (e - b)) by lia.
      apply Z.mul_le_mono_nonneg_r; [|assumption].
      apply Z.lt_le_incl, pow10_positive. lia. }
    assert (H2 : ndigits c - 1 + (e - b) <= 0 - b)
      by (apply pow10_le_inv; lia).
    lia. }
  unfold quantize. destruct (Z.eqb_spec c 0) as [|_]; [lia|].
  rewrite Z.abs_eq by lia.
  destruct (Z.ltb_spec prec (e + ndigits c - 1 - t + 1)) as [|_]; [lia|].
  set (c' := if t <=? e then c * 10 ^ (e - t)
             else with_sign c (round_half_even c (t - e))).
  assert (Hc' : g <= c' <= 10 ^ (- t)).
  { unfold c'. destruct (Z.leb_spec t e) as [Hte|Hte].
    - apply -> (le_val_base g t c e t) in Hlo; [|lia|lia].
      apply -> (le_val_base c e 1 0 t) in Hhi; [|lia|lia].
      rewrite Z.sub_diag, Z.pow_0_r, Z.mul_1_r in Hlo.
      rewrite Z.mul_1_l, Z.sub_0_l in Hhi. lia.
    - apply -> (le_val_base g t c e e) in Hlo; [|lia|lia].
      apply -> (le_val_base c e 1 0 e) in Hhi; [|lia|lia].
      rewrite Z.sub_diag, Z.pow_0_r, Z.mul_1_r in Hlo, Hhi.
      rewrite Z.mul_1_l in Hhi.
      unfold with_sign. destruct (Z.ltb_spec c 0) as [|_]; [lia|]. split.
      + apply round_half_even_lower; [lia | assumption].
      + apply round_half_even_upper; [lia|].
        rewrite <- pow10_split by lia.
        now replace (- t + (t - e)) with (0 - e) by lia. }
  assert (Hnd : ndigits (Z.abs c') <= prec).
  { rewrite Z.abs_eq by lia. apply ndigits_le; [lia|].
    apply Z.le_lt_trans with (10 ^ (- t)); [lia|].
    apply Z.pow_lt_mono_r; lia. }
  destruct (Z.ltb_spec prec (ndigits (Z.abs c'))) as [|_]; [lia|].
  exists c'. split; [reflexivity | assumption].
Qed.

(** A number with a positive coefficient is true in a condition. *)
Lemma positive_is_truthy v c e :
  str_decimal v = Ok (Fin c e) -> 0 < c -> Val.truthy v = true.
Proof.
  intros H Hc. destruct v as [|n|f|d|s]; unfold str_decimal in H.
  - discriminate.
  - injection H as H1 _. unfold Val.truthy.
    destruct (Z.eqb_spec n 0); [lia | reflexivity].
  - unfold Val.truthy. destruct f; try reflexivity.
    cbv in H. injection H as H1 _. lia.
  - injection H as ->. unfold Val.truthy, Dec.truthy.
    destruct (Z.eqb_spec c 0); [lia | reflexivity].
  - destruct s; [discriminate | reflexivity].
Qed.

(** A margin between 0 and 1 with at most four decimal places is a whole
    number of basis points between 0 and 10000. *)
Lemma basis_points cm em :
  0 < cm -> cmp_fin cm em 1 0 = Lt -> -4 <= em ->
  em < 0 /\ 0 < cm * 10 ^ (em + 4) < 10 ^ 4.
Proof.
  intros Hc Hlt Hem. unfold cmp_fin in Hlt. apply -> Z.compare_lt_iff in Hlt.
  rewrite Z.mul_1_l in Hlt.
  assert (Hneg : em < 0).
  { destruct (Z.lt_ge_cases em 0) as [|Hge]; [assumption|].
    rewrite Z.min_r in Hlt by lia. rewrite Z.sub_diag in Hlt.
    pose proof (pow10_positive (em - 0) ltac:(lia)).
    change (10 ^ 0) with 1 in Hlt. nia. }
  split; [assumption|].
  rewrite Z.min_l in Hlt by lia. rewrite Z.sub_diag, Z.pow_0_r in Hlt.
  pose proof (pow10_positive (em + 4) ltac:(lia)) as Hp.
  split; [nia|].
  replace 4 with ((em + 4) + (0 - em)) at 2 by lia.
  rewrite (pow10_split (em + 4) (0 - em)) by lia. nia.
Qed.

(** The price less the margin, as a decimal with six places. *)
Lemma price_less_margin r cm em :
  -4 <= em -> em < 0 ->
  (value r (-2) * (1 - value cm em)
   == value (r * (10 ^ 4 - cm * 10 ^ (em + 4))) (-6))%Q.
Proof.
  intros H1 H2.
  rewrite (value_scaled cm em (-4)) by lia.
  replace (em - -4) with (em + 4) by lia.
  set (g := cm * 10 ^ (em + 4)).
  change (value r (-2)) with (r # 100).
  change (value (r * (10 ^ 4 - g)) (-6)) with ((r * (10 ^ 4 - g)) # 1000000).
  change (Z.to_pos (10 ^ (- -4))) with 10000%positive.
  unfold Qeq, Qmult, Qminus, Qplus, Qopp. cbn [Qnum Qden].
  change (10 ^ 4) with 10000.
  rewrite !Pos2Z.inj_mul. lia.
Qed.

(** The difference [retail - cost] when the cost is at most the price less
    [g] basis points: it is positive, at least [g] basis points of the
    price and at most the price, also after the context rounding. *)
Lemma difference_between r cu eu g :
  0 < cu -> 0 < g -> 0 < r -> g * r < 10 ^ prec -> r < 10 ^ prec ->
  le_val cu eu (r * (10 ^ 4 - g)) (-6) ->
  exists D E, Dec.sub (Fin r (-2)) (Fin cu eu) = Ok (Fin D E) /\ 0 < D
              /\ le_val (g * r) (-6) D E /\ le_val D E r (-2).
Proof.
  intros Hcu Hg Hr Hgr Hrp Hle.
  unfold Dec.sub, neg, add.
  set (mn := Z.min (-2) eu).
  set (D0 := r * 10 ^ (-2 - mn) + - cu * 10 ^ (eu - mn)).
  set (B := Z.min (-6) eu).
  apply -> (le_val_base cu eu (r * (10 ^ 4 - g)) (-6) B) in Hle;
    [|unfold B; lia|unfold B; lia].
  assert (HX : 0 < 10 ^ (-6 - B)) by (apply pow10_positive; unfold B; lia).
  assert (HY : 0 < 10 ^ (mn - B))
    by (apply pow10_positive; unfold B, mn; lia).
  assert (HW : 0 < 10 ^ (eu - B)) by (apply pow10_positive; unfold B; lia).
  assert (P1 : 10 ^ (-2 - mn) * 10 ^ (mn - B) = 10 ^ 4 * 10 ^ (-6 - B)).
  { rewrite <- (pow10_split (-2 - mn) (mn - B)) by (unfold B, mn; lia).
    rewrite <- (pow10_split 4 (-6 - B)) by (unfold B; lia).
    f_equal. lia. }
  assert (P2 : 10 ^ (eu - mn) * 10 ^ (mn - B) = 10 ^ (eu - B)).
  { rewrite <- (pow10_split (eu - mn) (mn - B)) by (unfold B, mn; lia).
    f_equal. lia. }
  assert (E1 : D0 * 10 ^ (mn - B)
               = r * (10 ^ 4 * 10 ^ (-6 - B)) - cu * 10 ^ (eu - B)).
  { unfold D0. rewrite <- P1, <- P2. ring. }
  change (10 ^ 4) with 10000 in *.
  set (X := 10 ^ (-6 - B)) in *. set (Y := 10 ^ (mn - B)) in *.
  set (W := 10 ^ (eu - B)) in *.
  assert (HcW : 0 < cu * W) by (apply Z.mul_pos_pos; assumption).
  assert (HgrX : 0 < g * r * X)
    by (apply Z.mul_pos_pos; [apply Z.mul_pos_pos|]; assumption).
  assert (Hlo : g * r * X <= D0 * Y) by lia.
  assert (Hhi : D0 * Y <= r * (10000 * X)) by lia.
  assert (HD0 : 0 < D0).
  { destruct (Z.lt_ge_cases 0 D0) as [|Hn]; [assumption|].
    assert (D0 * Y <= 0) by (apply Z.mul_nonpos_nonneg; lia). lia. }
  assert (L1 : le_val (g * r) (-6) D0 mn).
  { apply <- (le_val_base (g * r) (-6) D0 mn B);
      [|unfold B; lia|unfold B, mn; lia]. exact Hlo. }
  assert (L2 : le_val D0 mn r (-2)).
  { apply <- (le_val_base D0 mn r (-2) B);
      [|unfold B, mn; lia|unfold B; lia].
    fold Y. replace (10 ^ (-2 - B)) with (10000 * X); [exact Hhi|].
    unfold X. change 10000 with (10 ^ 4).
    rewrite <- (pow10_split 4 (-6 - B)) by (unfold B; lia). f_equal. lia. }
  destruct (fix_prec_lower D0 mn (g * r) (-6) HD0 ltac:(lia) L1)
    as (R & E & HR & HRpos & HRlo).
  destruct (fix_prec_upper D0 mn r (-2) HD0 ltac:(lia) L2)
    as (R' & E' & HR' & _ & HRhi).
  rewrite HR in HR'. injection HR' as <- <-.
  exists R, E. rewrite HR. repeat split; assumption.
Qed.

(** The margin comes back rounded half-even to four places, so a target
    margin with a fifth place can round to less than itself: for a cost of
    0.7560648 and a target of 29.994% the suggested price is 1.08, of which
    the cost is exactly 70.006%, and the computed margin is 0.2999. *)
Lemma calculate_margin_rounds_below_target :
  suggest_retail (PDec (Fin 7560648 (-7))) (PDec (Fin 29994 (-5)))
  = Ok (PDec (Fin 108 (-2)))
  /\ (value 7560648 (-7) <= value 108 (-2) * (1 - value 29994 (-5)))%Q
  /\ calculate_margin (PDec (Fin 108 (-2))) (PDec (Fin 7560648 (-7)))
     = Ok (PDec (Fin 2999 (-4)))
  /\ (value 2999 (-4) < value 29994 (-5))%Q.
Proof.
  split; [|split; [|split]]; vm_compute; try reflexivity. discriminate.
Qed.

(** C6.  The claim fails on the code, for the first example of the
    docstring of [suggest_retail]: the cost 4.50 is positive and the margin
    0.295 lies strictly between 0 and 1, both functions return,
    [suggest_retail(4.50, 0.295)] is 6.38 (the theoretical price
    6.3829... cut to whole cents, which already end in 8), which undercuts
    the theoretical price, and [calculate_margin(6.38, 4.50)] is 0.2947:
    [calculate_margin(suggest_retail(u, m), u) >= m] is [False]. *)
Theorem suggested_price_misses_target_margin :
  (0 < value 450 (-2))%Q
  /\ (0 < value 295 (-3))%Q /\ (value 295 (-3) < 1)%Q
  /\ suggest_retail (PDec (Fin 450 (-2))) (PDec (Fin 295 (-3)))
     = Ok (PDec (Fin 638 (-2)))
  /\ (value 638 (-2) * (1 - value 295 (-3)) < value 450 (-2))%Q
  /\ calculate_margin (PDec (Fin 638 (-2))) (PDec (Fin 450 (-2)))
     = Ok (PDec (Fin 2947 (-4)))
  /\ (value 2947 (-4) < value 295 (-3))%Q
  /\ Dec.ge (Fin 2947 (-4)) (Fin 295 (-3)) = Ok false.
Proof.
  repeat split; vm_compute; reflexivity.
Qed.

(** Apart from the cut to whole cents, a target written with at most four
    decimal places is kept.  Let [u > 0] be a cost, [0 < m < 1] a margin with
    at most four places and [r] a price below [10^24] cents that does not
    undercut the theoretical one, that is [u <= r * (1 - m)].  Then
    [calculate_margin(r, u)] returns a Decimal with four places that is at
    least [m]. *)
Theorem margin_of_a_sufficient_price_reaches_target :
  forall (u : pyval) (cu eu cm em r : Z),
    str_decimal u = Ok (Fin cu eu) ->
    (0 < value cu eu)%Q -> (0 < value cm em)%Q -> (value cm em < 1)%Q ->
    -4 <= em ->
    r < 10 ^ 24 ->
    (value cu eu <= value r (-2) * (1 - value cm em))%Q ->
    exists q : Z,
      calculate_margin (PDec (Fin r (-2))) u = Ok (PDec (Fin q (-4)))
      /\ (value cm em <= value q (-4))%Q.
Proof.
  intros u cu eu cm em r Hu Hu0 Hm0 Hm1 Hem Hr24 Hle.
  apply value_positive in Hu0, Hm0. apply value_below_one in Hm1.
  destruct (basis_points cm em Hm0 Hm1 Hem) as (Hneg & Hg0 & Hg1).
  rewrite price_less_margin in Hle by lia.
  apply le_val_value in Hle.
  set (g := cm * 10 ^ (em + 4)) in *.
  assert (Hprec : prec = 28) by reflexivity.
  assert (H24 : 10 ^ 4 * 10 ^ 24 = 10 ^ prec).
  { rewrite Hprec. rewrite <- (pow10_split 4 24) by lia. reflexivity. }
  assert (H24pos : 0 < 10 ^ 24) by (apply pow10_positive; lia).
  assert (Hr : 0 < r).
  { pose proof Hle as H.
    apply -> (le_val_base cu eu (r * (10 ^ 4 - g)) (-6) (Z.min eu (-6))) in H;
      [|lia|lia].
    pose proof (pow10_positive (eu - Z.min eu (-6)) ltac:(lia)) as P1.
    pose proof (pow10_positive (-6 - Z.min eu (-6)) ltac:(lia)) as P2.
    destruct (Z.lt_ge_cases 0 r) as [|Hn]; [assumption|].
    assert (r * (10 ^ 4 - g) <= 0) by (apply Z.mul_nonpos_nonneg; lia).
    assert (r * (10 ^ 4 - g) * 10 ^ (-6 - Z.min eu (-6)) <= 0)
      by (apply Z.mul_nonpos_nonneg; lia).
    assert (0 < cu * 10 ^ (eu - Z.min eu (-6)))
      by (apply Z.mul_pos_pos; assumption).
    lia. }
  assert (Hgr : g * r < 10 ^ prec).
  { rewrite <- H24.
    apply Z.le_lt_trans with (g * 10 ^ 24).
    - apply Z.mul_le_mono_nonneg_l; lia.
    - apply Z.mul_lt_mono_pos_r; lia. }
  assert (Hrp : r < 10 ^ prec).
  { rewrite <- H24. pose proof (pow10_positive 4 ltac:(lia)). nia. }
  destruct (difference_between r cu eu g Hu0 Hg0 Hr Hgr Hrp Hle)
    as (D & E & Hsub & HD & HDlo & HDhi).
  assert (Hg28 : 0 <= g < 10 ^ prec).
  { split; [lia|]. apply Z.lt_trans with (10 ^ 4); [lia|].
    apply Z.pow_lt_mono_r; lia. }
  destruct (div_fin_lower D E r (-2) g (-4) HD Hr Hg28 HDlo)
    as (M & EM & Hdiv & HM & HMlo).
  assert (H1 : 0 < 1 < 10 ^ prec).
  { split; [lia|]. apply (Z.pow_lt_mono_r 10 0 prec); lia. }
  destruct (div_fin_upper D E r (-2) 1 0 HD Hr H1
              ltac:(rewrite Z.mul_1_l; exact HDhi))
    as (M' & EM' & Hdiv' & _ & HMhi).
  rewrite Hdiv in Hdiv'. injection Hdiv' as <- <-.
  destruct (quantize_between M EM g (-4) HM Hg0 ltac:(lia)
              ltac:(lia) HMlo HMhi) as (q & Hq & Hgq & _).
  exists q. split.
  - unfold calculate_margin.
    rewrite (positive_is_truthy (PDec (Fin r (-2))) r (-2) eq_refl Hr).
    rewrite (positive_is_truthy u cu eu Hu Hu0).
    cbn [negb orb]. rewrite Hu. cbn [str_decimal Py.bind].
    unfold Dec.le, compare, of_int. rewrite cmp_fin_zero.
    rewrite (proj2 (Z.compare_gt_iff r 0)) by lia.
    cbn [Py.bind]. rewrite Hsub. cbn [Py.bind].
    unfold Dec.div. destruct (Z.eqb_spec r 0) as [|_]; [lia|].
    destruct (Z.eqb_spec D 0) as [|_]; [lia|].
    cbn [Py.bind]. rewrite Hdiv, Hq. reflexivity.
  - apply le_val_value.
    apply <- (le_val_base cm em q (-4) (-4)); [|lia|lia].
    replace (em - -4) with (em + 4) by lia. fold g.
    rewrite Z.sub_diag, Z.pow_0_r. lia.
Qed.

Lemma margin_of_a_sufficient_price_reaches_target_witness :
  exists q : Z,
    calculate_margin (PDec (Fin 648 (-2))) (PDec (Fin 450 (-2)))
    = Ok (PDec (Fin q (-4)))
    /\ (value 295 (-3) <= value q (-4))%Q.
Proof.
  apply (margin_of_a_sufficient_price_reaches_target
           (PDec (Fin 450 (-2))) 450 (-2) 295 (-3) 648);
    vm_compute; try reflexivity; discriminate.
Defined.

(* ================================================================= *)
(** * Further properties *)

(** ** What one call leaves behind *)

Lemma save_change_over st c k old :
  NoDup (map pc_id (changes st)) ->
  pc_id c = Some k -> In old (changes st) -> pc_id old = Some k ->
  In c (changes (save_change st c))
  /\ forall x, In x (changes st) -> x <> old ->
               In x (changes (save_change st c)).
Proof.
  intros Hnd Hc Hin Hold. unfold save_change. rewrite Hc.
  rewrite (existsb_has_id _ _ _ Hin Hold). cbn [changes].
  unfold replace_change. split.
  - apply in_map_iff. exists old. split; [|assumption].
    now rewrite (proj2 (has_id_iff k old) Hold).
  - intros x Hx Hne. apply in_map_iff. exists x. split; [|assumption].
    destruct (has_id k x) eqn:E; [|reflexivity].
    apply has_id_iff in E. contradiction Hne.
    eapply same_id_same_row; eauto. congruence.
Qed.

Lemma save_change_new st c :
  pc_id c = None ->
  forall x, In x (changes st) -> In x (changes (save_change st c)).
Proof.
  intros Hc x Hx. unfold save_change. rewrite Hc. cbn [changes].
  apply in_or_app. now left.
Qed.

(** The store after [cost_change_entry]: untouched, or the submitted
    change saved. *)
Lemma entry_outcome {lib : Installed} req code upc st :
  fst (cost_change_entry req code upc st) = st
  \/ exists item c,
       find_item st code upc = Some item
       /\ submitted_change st req item
            (hd_error (pending_for st (item_pk item))) code upc = Ok c
       /\ fst (cost_change_entry req code upc st) = save_change st c.
Proof.
  rewrite entry_writes.
  destruct (find_item st code upc) as [item|]; [|now left].
  destruct (method req); [now left|].
  destruct (submitted_change st req item _ code upc) as [c|e] eqn:Hsub;
    [|now left].
  right. exists item, c. auto.
Qed.

(** The store after [approve_change]: untouched, or the PENDING change
    saved as APPROVED or as REJECTED. *)
Lemma approve_outcome {lib : Installed} req k now st :
  fst (approve_change req k now st) = st
  \/ exists old c,
       change_with st k PENDING = Some old
       /\ (c = approve old (Some (user req))
                 (py_or (post_get req "approved_retail" PNone) PNone) now
           \/ c = set_approval old REJECTED (Some (user req)) (Some now)
                    (approved_retail old))
       /\ fst (approve_change req k now st) = save_change st c.
Proof.
  unfold approve_change, and_then, query, lift, write, ret.
  destruct (change_with st k PENDING) as [old|]; [|now left].
  cbn [get_or_404]. destruct (method req); [left; apply next_page_store|].
  destruct (action_is req "approve").
  - right. eexists old, _. split; [reflexivity|].
    split; [left; reflexivity | apply next_page_store].
  - destruct (action_is req "reject"); [|left; apply next_page_store].
    right. eexists old, _. split; [reflexivity|].
    split; [right; reflexivity | apply next_page_store].
Qed.

(** The store after [apply_change]: untouched, or the three writes of
    [apply_to_item]. *)
Lemma apply_outcome {lib : Installed} req k t1 t2 t3 st :
  fst (apply_change req k t1 t2 t3 st) = st
  \/ exists old item a,
       change_with st k APPROVED = Some old
       /\ item_of st (pc_item old) = Some item
       /\ apply_to_item old item (Some (user req)) t1 t2 t3 = Ok a
       /\ fst (apply_change req k t1 t2 t3 st)
          = save_change
              (save_item (create_history st (history_row a)) (item_row a))
              (change_row a).
Proof.
  unfold apply_change, and_then, query, lift, write, ret.
  destruct (change_with st k APPROVED) as [old|]; [|now left].
  cbn [get_or_404]. destruct (method req); [left; apply next_page_store|].
  destruct (item_of st (pc_item old)) as [item|] eqn:Hitem; [|now left].
  cbn [get_or_missing].
  destruct (apply_to_item old item _ t1 t2 t3) as [a|e] eqn:Ha.
  - right. exists old, item, a.
    split; [reflexivity|]. split; [assumption|].
    split; [assumption | apply next_page_store].
  - left. destruct e; try reflexivity. apply next_page_store.
Qed.

Lemma log_exports_appends today file who ids : forall st,
  exists logs,
    fst (log_exports today file who ids st) = append_logs st logs.
Proof.
  induction ids as [|id ids IH]; intros st.
  - exists []. reflexivity.
  - cbn [log_exports]. unfold and_then, query, lift, write.
    destruct (export_log_entry st today file who id) as [entry|].
    + destruct (IH (create_export_log st entry)) as (logs & Hl).
      exists (entry :: logs). exact Hl.
    + exists []. reflexivity.
Qed.

(** The store after [brdata_export]: log entries appended, nothing else. *)
Lemma export_outcome {lib : Installed} req now st :
  exists logs, fst (brdata_export req now st) = append_logs st logs.
Proof.
  unfold brdata_export, and_then, query, lift, write, ret.
  destruct (due_changes st (date_of now)) as [|c due];
    [exists []; now destruct (redirect _ _)|].
  destruct (write_rows st (c :: due)) as [w|]; [|now exists []].
  destruct (log_exports_appends (date_of now) (BrdataExport (date_of now))
              (username (user req)) (snd w) st) as (logs & Hl).
  exists logs. rewrite <- Hl.
  now destruct (log_exports _ _ _ (snd w) st) as [st' [u|e]].
Qed.

Lemma submitted_change_shape st req item existing code upc c :
  submitted_change st req item existing code upc = Ok c ->
  pc_id c = pc_id (base_change item existing code upc)
  /\ pc_item c = pc_item (base_change item existing code upc)
  /\ status c = PENDING.
Proof.
  intros H. unfold submitted_change in H.
  fold (base_change item existing code upc) in H.
  destruct (py_float (post_get req "new_case_cost" PNone)); [|discriminate].
  destruct (py_float (py_or (post_get req "new_allowance" (PInt 0)) (PInt 0)));
    [|discriminate].
  cbn [Py.bind] in H.
  destruct (new_unit_cost_of a a0 item); [|discriminate].
  destruct (margin_basis st item); [|discriminate].
  cbn [Py.bind] in H.
  destruct (suggest_retail a1 (PFloat a2)); [|discriminate].
  cbn [Py.bind] in H.
  destruct (margin item); [|discriminate].
  cbn [Py.bind] in H. injection H as <-. cbn. auto.
Qed.

Lemma apply_to_item_rows self item user t1 t2 t3 a :
  apply_to_item self item user t1 t2 t3 = Ok a ->
  status self = APPROVED
  /\ change_row a = set_applied self t3
  /\ item_pk (item_row a) = item_pk item
  /\ pending_cost_change_id (history_row a) = pc_id self
  /\ h_new_case_cost (history_row a) = new_case_cost self
  /\ h_new_allowance (history_row a) = new_allowance self
  /\ new_retail (history_row a) = approved_retail self.
Proof.
  unfold apply_to_item. intros H.
  destruct (status self) eqn:Hs; cbn [status_eqb negb] in H;
    try discriminate.
  destruct (margin item); [|discriminate].
  cbn [Py.bind] in H. injection H as <-. cbn. auto 10.
Qed.

Lemma one_move_refl s : one_move s s = true.
Proof. now destruct s. Qed.

Lemma moves_after_one s s1 s2 :
  one_move s s1 = true -> moves s1 s2 = true -> moves s s2 = true.
Proof. now destruct s, s1, s2. Qed.

Lemma given_id st c :
  consistent st -> In c (changes st) -> exists k, pc_id c = Some k.
Proof.
  intros [Hids _ _] Hin. rewrite Forall_forall in Hids.
  destruct (Hids c Hin) as (k & Hk & _). eauto.
Qed.

(** One call, seen from a row of the table of changes. *)
Lemma step_rows {lib : Installed} st st' :
  consistent st -> view_step st st' ->
  forall c, In c (changes st) ->
    exists c',
      In c' (changes st') /\ pc_id c' = pc_id c /\ pc_item c' = pc_item c
      /\ one_move (status c) (status c') = true
      /\ (status c = REJECTED \/ status c = APPLIED -> c' = c).
Proof.
  intros Hcons Hstep c Hc.
  assert (Hsame : In c (changes st') ->
                  exists c',
                    In c' (changes st') /\ pc_id c' = pc_id c
                    /\ pc_item c' = pc_item c
                    /\ one_move (status c) (status c') = true
                    /\ (status c = REJECTED \/ status c = APPLIED -> c' = c)).
  { intros H. exists c. rewrite one_move_refl. auto. }
  assert (Hover : forall base new old k,
             changes base = changes st ->
             st' = save_change base new ->
             In old (changes st) -> pc_id old = Some k ->
             pc_id new = Some k -> pc_item new = pc_item old ->
             one_move (status old) (status new) = true ->
             status old <> REJECTED -> status old <> APPLIED ->
             exists c',
               In c' (changes st') /\ pc_id c' = pc_id c
               /\ pc_item c' = pc_item c
               /\ one_move (status c) (status c') = true
               /\ (status c = REJECTED \/ status c = APPLIED -> c' = c)).
  { intros base new old k Hb -> Hold Hk Hnew Hitem Hmove Hr Ha.
    destruct (save_change_over base new k old) as [Hin Hrest]; auto.
    { rewrite Hb. apply Hcons. }
    { now rewrite Hb. }
    destruct (has_id k c) eqn:E.
    - apply has_id_iff in E.
      assert (c = old) as ->.
      { eapply same_id_same_row; eauto; [apply Hcons | congruence]. }
      exists new. split; [assumption|]. split; [congruence|].
      split; [assumption|]. split; [assumption|].
      intros [H|H]; contradiction.
    - apply Hsame. apply Hrest; [now rewrite Hb|].
      intros ->. apply has_id_iff in Hk. congruence. }
  destruct Hstep as [req code upc | req k now | req k t1 t2 t3 | req now].
  - (* cost_change_entry *)
    destruct (entry_outcome req code upc st) as [E|(item & new & _ & Hsub & E)];
      rewrite E in *; [now apply Hsame|].
    destruct (submitted_change_shape _ _ _ _ _ _ _ Hsub) as (Hid & Hitem & Hs).
    destruct (hd_error (pending_for st (item_pk item))) as [old|] eqn:Hhd;
      cbn [base_change] in Hid, Hitem.
    + destruct (first_pending _ _ _ Hhd) as (Hin & _ & Hst).
      destruct (given_id st old Hcons Hin) as (k & Hk).
      apply (Hover st new old k); auto; try congruence.
      now rewrite Hst, Hs.
    + apply Hsame. now apply save_change_new.
  - (* approve_change *)
    destruct (approve_outcome req k now st)
      as [E|(old & new & Hold & Hnew & E)]; rewrite E in *;
      [now apply Hsame|].
    destruct (change_with_in _ _ _ _ Hold) as (Hin & Hk & Hst).
    apply (Hover st new old k); auto; try congruence;
      destruct Hnew as [-> | ->]; cbn; try assumption; try reflexivity;
      now rewrite Hst.
  - (* apply_change *)
    destruct (apply_outcome req k t1 t2 t3 st)
      as [E|(old & item & a & Hold & _ & Ha & E)]; rewrite E in *;
      [now apply Hsame|].
    destruct (change_with_in _ _ _ _ Hold) as (Hin & Hk & Hst).
    destruct (apply_to_item_rows _ _ _ _ _ _ _ Ha) as (_ & Hrow & _).
    apply (Hover (save_item (create_history st (history_row a)) (item_row a))
             (change_row a) old k); auto; try congruence;
      rewrite Hrow; cbn; try assumption; try reflexivity.
    now rewrite Hst.
  - (* brdata_export *)
    destruct (export_outcome req now st) as (logs & E). rewrite E in *.
    apply Hsame. destruct (append_logs_spec logs st) as (_ & -> & _).
    assumption.
Qed.

Lemma step_consistent {lib : Installed} st st' :
  consistent st -> view_step st st' -> consistent st'.
Proof.
  intros H Hs. destruct (views_keep_consistent st H) as (H1 & H2 & H3 & H4).
  destruct Hs; auto.
Qed.

Lemma run_consistent {lib : Installed} st st' : consistent st -> run st st' -> consistent st'.
Proof.
  intros H Hr. induction Hr as [|st st1 st2 Hs _ IH]; [assumption|].
  apply IH. eapply step_consistent; eauto.
Qed.

(** A run, seen from a row of the table of changes. *)
Lemma run_rows {lib : Installed} st st' :
  consistent st -> run st st' ->
  forall c, In c (changes st) ->
    exists c',
      In c' (changes st') /\ pc_id c' = pc_id c /\ pc_item c' = pc_item c
      /\ moves (status c) (status c') = true
      /\ (status c = REJECTED \/ status c = APPLIED -> c' = c).
Proof.
  intros Hcons Hr. induction Hr as [st|st st1 st2 Hs _ IH]; intros c Hc.
  - exists c. split; [assumption|]. split; [reflexivity|].
    split; [reflexivity|]. split; [now destruct (status c) | auto].
  - destruct (step_rows st st1 Hcons Hs c Hc)
      as (c1 & Hin1 & Hid1 & Hit1 & Hm1 & Ht1).
    destruct (IH (step_consistent _ _ Hcons Hs) c1 Hin1)
      as (c2 & Hin2 & Hid2 & Hit2 & Hm2 & Ht2).
    exists c2. split; [assumption|]. split; [congruence|].
    split; [congruence|]. split; [eapply moves_after_one; eauto|].
    intros Hterm. specialize (Ht1 Hterm). subst c1. auto.
Qed.

(** The status of a change only moves forward.  From a consistent table,
    one call of a view keeps every change in the table, under its id and
    for its item, and moves its status by at most one step of PENDING to
    APPROVED or REJECTED, or APPROVED to APPLIED; a REJECTED or APPLIED
    change is left exactly as it is.  So over any run of calls no change
    is ever deleted, an APPROVED change never returns to PENDING, and
    REJECTED and APPLIED are final. *)
Theorem status_only_moves_forward {lib : Installed} :
  forall st : Store,
    consistent st ->
    (forall st', view_step st st' ->
       forall c, In c (changes st) ->
         exists c',
           In c' (changes st') /\ pc_id c' = pc_id c
           /\ pc_item c' = pc_item c
           /\ one_move (status c) (status c') = true
           /\ (status c = REJECTED \/ status c = APPLIED -> c' = c))
    /\ (forall st', run st st' ->
          forall c, In c (changes st) ->
            exists c',
              In c' (changes st') /\ pc_id c' = pc_id c
              /\ pc_item c' = pc_item c
              /\ moves (status c) (status c') = true
              /\ (status c = REJECTED \/ status c = APPLIED -> c' = c)).
Proof.
  intros st Hcons. split; intros st' H.
  - now apply step_rows.
  - now apply run_rows.
Qed.

Lemma status_only_moves_forward_witness :
  exists c',
    In c' (changes (fst (apply_change (Book.posted []) 7 1 2 3
                           (Book.shop APPROVED))))
    /\ pc_id c' = Some 7
    /\ moves APPROVED (status c') = true.
Proof.
  destruct (proj2 (status_only_moves_forward (Book.shop APPROVED)
                     (book_shop_consistent APPROVED ltac:(discriminate)))
              _ (run_call _ _ _ (step_apply _ (Book.posted []) 7 1 2 3)
                   (run_done _))
              (Book.raise_cost APPROVED) (or_introl eq_refl))
    as (c' & H1 & H2 & _ & H4 & _).
  exists c'. split; [exact H1 | split; [exact H2 | exact H4]].
Defined.

(** ** The audit trail *)

Lemma save_change_keeps st c :
  vendors (save_change st c) = vendors st
  /\ items (save_change st c) = items st
  /\ history (save_change st c) = history st
  /\ export_log (save_change st c) = export_log st
  /\ (List.length (changes st) <= List.length (changes (save_change st c)))%nat
  /\ exists w, journal (save_change st c) = journal st ++ [w].
Proof.
  unfold save_change. destruct (pc_id c) as [k|]; cbn.
  - do 4 (split; [reflexivity|]). split; [|eauto].
    destruct (existsb (has_id k) (changes st)).
    + unfold replace_change. rewrite List.length_map. lia.
    + rewrite List.length_app. cbn. lia.
  - do 4 (split; [reflexivity|]). split; [|eauto].
    rewrite List.length_app. cbn. lia.
Qed.

Lemma append_logs_journal logs : forall st,
  journal (append_logs st logs) = journal st ++ map WExportLog logs.
Proof.
  induction logs as [|l logs IH]; intros st; cbn.
  - now rewrite app_nil_r.
  - unfold append_logs in IH. rewrite IH. cbn. now rewrite <- app_assoc.
Qed.

Lemma save_item_keys st i :
  map item_pk (items (save_item st i)) = map item_pk (items st).
Proof.
  unfold save_item. cbn. rewrite map_map. apply map_ext_in.
  intros r _. destruct (Z.eqb_spec (item_pk r) (item_pk i)); congruence.
Qed.

(** What one call adds to the tables that are only ever appended to. *)
Lemma step_appends {lib : Installed} st st' :
  view_step st st' ->
  exists hs ls ws,
    history st' = history st ++ hs
    /\ export_log st' = export_log st ++ ls
    /\ journal st' = journal st ++ ws
    /\ vendors st' = vendors st
    /\ map item_pk (items st') = map item_pk (items st)
    /\ (List.length (changes st) <= List.length (changes st'))%nat.
Proof.
  assert (Hnone : exists hs ls ws,
             history st = history st ++ hs
             /\ export_log st = export_log st ++ ls
             /\ journal st = journal st ++ ws
             /\ vendors st = vendors st
             /\ map item_pk (items st) = map item_pk (items st)
             /\ (List.length (changes st) <= List.length (changes st))%nat).
  { exists [], [], []. rewrite !app_nil_r. auto 10. }
  assert (Hsave : forall c, exists hs ls ws,
             history (save_change st c) = history st ++ hs
             /\ export_log (save_change st c) = export_log st ++ ls
             /\ journal (save_change st c) = journal st ++ ws
             /\ vendors (save_change st c) = vendors st
             /\ map item_pk (items (save_change st c)) = map item_pk (items st)
             /\ (List.length (changes st)
                 <= List.length (changes (save_change st c)))%nat).
  { intros c.
    destruct (save_change_keeps st c) as (H1 & H2 & H3 & H4 & H5 & w & H6).
    exists [], [], [w]. rewrite H1, H2, H3, H4, H6, !app_nil_r. auto 10. }
  intros Hstep.
  destruct Hstep as [req code upc | req k now | req k t1 t2 t3 | req now].
  - destruct (entry_outcome req code upc st) as [E|(item & new & _ & _ & E)];
      rewrite E; auto.
  - destruct (approve_outcome req k now st) as [E|(old & new & _ & _ & E)];
      rewrite E; auto.
  - destruct (apply_outcome req k t1 t2 t3 st)
      as [E|(old & item & a & _ & _ & _ & E)]; rewrite E; [auto|].
    set (st1 := save_item (create_history st (history_row a)) (item_row a)).
    destruct (save_change_keeps st1 (change_row a))
      as (H1 & H2 & H3 & H4 & H5 & w & H6).
    exists [history_row a], [], [WHistory (history_row a); WItem (item_row a); w].
    rewrite H1, H2, H3, H4, H6. unfold st1 in *.
    rewrite save_item_keys. cbn in *. rewrite app_nil_r, <- !app_assoc. cbn.
    repeat (split; [reflexivity|]). exact H5.
  - destruct (export_outcome req now st) as (logs & E). rewrite E.
    destruct (append_logs_spec logs st) as (H1 & H2 & H3 & H4 & H5 & _).
    exists [], logs, (map WExportLog logs).
    rewrite H1, H2, H3, H4, H5, append_logs_journal, app_nil_r.
    repeat (split; [reflexivity|]). lia.
Qed.

(** The audit trail is only ever appended to.  Over any run of calls of
    the views, the history, the export log and the journal of writes keep
    every row they had, in place, and grow at the end; no change is
    deleted; the vendors are untouched and no item is created or deleted. *)
Theorem audit_trail_is_append_only {lib : Installed} :
  forall st st' : Store,
    run st st' ->
    exists hs ls ws,
      history st' = history st ++ hs
      /\ export_log st' = export_log st ++ ls
      /\ journal st' = journal st ++ ws
      /\ vendors st' = vendors st
      /\ map item_pk (items st') = map item_pk (items st)
      /\ (List.length (changes st) <= List.length (changes st'))%nat.
Proof.
  intros st st' Hr. induction Hr as [st|st st1 st2 Hs _ IH].
  - exists [], [], []. rewrite !app_nil_r. auto 10.
  - destruct (step_appends st st1 Hs)
      as (hs & ls & ws & H1 & H2 & H3 & H4 & H5 & H6).
    destruct IH as (hs' & ls' & ws' & I1 & I2 & I3 & I4 & I5 & I6).
    exists (hs ++ hs'), (ls ++ ls'), (ws ++ ws').
    rewrite I1, I2, I3, I4, I5, H1, H2, H3, H4, H5, <- !app_assoc.
    repeat (split; [reflexivity|]). lia.
Qed.

Lemma audit_trail_is_append_only_witness :
  exists hs ls ws,
    let st' := fst (apply_change (Book.posted []) 7 1 2 3
                      (Book.shop APPROVED)) in
    history st' = history (Book.shop APPROVED) ++ hs
    /\ export_log st' = export_log (Book.shop APPROVED) ++ ls
    /\ journal st' = journal (Book.shop APPROVED) ++ ws
    /\ vendors st' = vendors (Book.shop APPROVED)
    /\ map item_pk (items st') = map item_pk (items (Book.shop APPROVED))
    /\ (List.length (changes (Book.shop APPROVED))
        <= List.length (changes st'))%nat.
Proof.
  apply (audit_trail_is_append_only (Book.shop APPROVED)).
  exact (run_call _ _ _ (step_apply _ (Book.posted []) 7 1 2 3) (run_done _)).
Defined.

Lemma save_change_rows_from st c x :
  In x (changes (save_change st c)) ->
  In x (changes st) \/ x = c
  \/ (pc_id c = None /\ x = with_id c (next_change_id st)).
Proof.
  unfold save_change. destruct (pc_id c) as [k|]; cbn [changes].
  - destruct (existsb (has_id k) (changes st)).
    + unfold replace_change. intros H. apply in_map_iff in H as (r & <- & Hr).
      destruct (has_id k r); auto.
    + intros H. apply in_app_or in H as [H|[<-|[]]]; auto.
  - intros H. apply in_app_or in H as [H|[<-|[]]]; auto.
Qed.

Lemma step_audited {lib : Installed} st st' : audited st -> view_step st st' -> audited st'.
Proof.
  intros Ha Hstep.
  assert (Hsave : forall new,
             status new <> APPLIED -> audited (save_change st new)).
  { intros new Hnew x Hx Hs.
    destruct (save_change_keeps st new) as (_ & _ & -> & _).
    apply save_change_rows_from in Hx as [Hx|[->|[_ ->]]].
    - now apply Ha.
    - contradiction.
    - destruct new. cbn in *. contradiction. }
  destruct Hstep as [req code upc | req k now | req k t1 t2 t3 | req now].
  - destruct (entry_outcome req code upc st)
      as [E|(item & new & _ & Hsub & E)]; rewrite E; [assumption|].
    apply Hsave.
    destruct (submitted_change_shape _ _ _ _ _ _ _ Hsub) as (_ & _ & ->).
    discriminate.
  - destruct (approve_outcome req k now st)
      as [E|(old & new & _ & [-> | ->] & E)]; rewrite E;
      [assumption | apply Hsave; cbn; discriminate..].
  - destruct (apply_outcome req k t1 t2 t3 st)
      as [E|(old & item & a & Hold & _ & Happ & E)]; rewrite E; [assumption|].
    destruct (change_with_in _ _ _ _ Hold) as (_ & Hk & _).
    destruct (apply_to_item_rows _ _ _ _ _ _ _ Happ)
      as (_ & Hrow & _ & H1 & H2 & H3 & H4).
    set (st1 := save_item (create_history st (history_row a)) (item_row a)).
    intros x Hx Hs.
    destruct (save_change_keeps st1 (change_row a)) as (_ & _ & -> & _).
    change (history st1) with (history st ++ [history_row a]).
    apply save_change_rows_from in Hx as [Hx|[->|[Hnone _]]].
    + destruct (Ha x Hx Hs) as (h & Hh & Hrest).
      exists h. split; [apply in_or_app; now left | exact Hrest].
    + exists (history_row a). split; [apply in_or_app; right; now left|].
      rewrite Hrow. cbn. auto.
    + rewrite Hrow in Hnone. cbn in Hnone. congruence.
  - destruct (export_outcome req now st) as (logs & E). rewrite E.
    destruct (append_logs_spec logs st) as (_ & H2 & _ & _ & H5 & _).
    intros x Hx Hs. rewrite H2 in Hx. rewrite H5. now apply Ha.
Qed.

(** No price change without a history row.  When every APPLIED change of
    the table has a history row that names it and carries its new case
    cost, allowance and retail, the same holds after any run of calls of
    the views. *)
Theorem applied_changes_are_audited {lib : Installed} :
  forall st st' : Store, audited st -> run st st' -> audited st'.
Proof.
  intros st st' Ha Hr. induction Hr as [|st st1 st2 Hs _ IH]; [assumption|].
  apply IH. eapply step_audited; eauto.
Qed.

Lemma applied_changes_are_audited_witness :
  audited (fst (apply_change (Book.posted []) 7 1 2 3 (Book.shop APPROVED))).
Proof.
  apply (applied_changes_are_audited (Book.shop APPROVED)).
  - intros c [<-|[]] Hs. discriminate.
  - exact (run_call _ _ _ (step_apply _ (Book.posted []) 7 1 2 3)
             (run_done _)).
Defined.

(** ** Items *)

Lemma item_of_pk st k i : item_of st k = Some i -> item_pk i = k.
Proof.
  unfold item_of. intros H. apply find_some in H as [_ H].
  now apply Z.eqb_eq in H.
Qed.

(** One call, seen from a row of the table of items. *)
Lemma step_items {lib : Installed} st st' :
  consistent st -> view_step st st' ->
  forall i, In i (items st) ->
    In i (items st')
    \/ exists c',
         In c' (changes st') /\ pc_item c' = item_pk i
         /\ status c' = APPLIED /\ ~ In c' (changes st).
Proof.
  intros Hcons Hstep i Hi.
  destruct Hstep as [req code upc | req k now | req k t1 t2 t3 | req now].
  - left. destruct (entry_outcome req code upc st)
      as [E|(item & new & _ & _ & E)]; rewrite E; [assumption|].
    now destruct (save_change_keeps st new) as (_ & -> & _).
  - left. destruct (approve_outcome req k now st)
      as [E|(old & new & _ & _ & E)]; rewrite E; [assumption|].
    now destruct (save_change_keeps st new) as (_ & -> & _).
  - destruct (apply_outcome req k t1 t2 t3 st)
      as [E|(old & item & a & Hold & Hitem & Happ & E)]; rewrite E;
      [now left|].
    destruct (change_with_in _ _ _ _ Hold) as (Hin & Hk & Hst).
    destruct (apply_to_item_rows _ _ _ _ _ _ _ Happ)
      as (_ & Hrow & Hpk & _).
    set (st1 := save_item (create_history st (history_row a)) (item_row a)).
    destruct (save_change_keeps st1 (change_row a)) as (_ & -> & _).
    destruct (Z.eqb_spec (item_pk i) (item_pk (item_row a))) as [Heq|Hne].
    + right. exists (change_row a).
      destruct (save_change_over st1 (change_row a) k old) as [Hnew _];
        try assumption.
      { apply Hcons. }
      { rewrite Hrow. exact Hk. }
      split; [assumption|]. rewrite Hrow. cbn.
      split; [|split; [reflexivity|]].
      * rewrite Heq, Hpk. symmetry. now apply item_of_pk with st.
      * intros Hback.
        assert (set_applied old t3 = old).
        { apply (same_id_same_row (changes st));
            [apply Hcons | exact Hback | exact Hin | reflexivity]. }
        assert (status (set_applied old t3) = status old) by congruence.
        cbn in *. congruence.
    + left. unfold st1, save_item. cbn [items]. apply in_map_iff.
      exists i. split; [|assumption].
      destruct (Z.eqb_spec (item_pk i) (item_pk (item_row a))); congruence.
  - left. destruct (export_outcome req now st) as (logs & E). rewrite E.
    now destruct (append_logs_spec logs st) as (_ & _ & -> & _).
Qed.

(** An item is changed only by applying a change for it.  From a
    consistent table and over any run of calls of the views, a row of the
    table of items is still there unchanged, unless the table of changes
    has gained an APPLIED change for that item. *)
Theorem items_change_only_by_applied_changes {lib : Installed} :
  forall st st' : Store,
    consistent st -> run st st' ->
    forall i, In i (items st) ->
      In i (items st')
      \/ exists c',
           In c' (changes st') /\ pc_item c' = item_pk i
           /\ status c' = APPLIED /\ ~ In c' (changes st).
Proof.
  intros st st' Hcons Hr.
  induction Hr as [st|st st1 st2 Hs Hr IH]; intros i Hi; [now left|].
  pose proof (step_consistent _ _ Hcons Hs) as Hcons1.
  destruct (step_items st st1 Hcons Hs i Hi)
    as [Hi1|(c1 & Hin1 & Hit1 & Hs1 & Hnew1)].
  - destruct (IH Hcons1 i Hi1) as [Hi2|(c2 & Hin2 & Hit2 & Hs2 & Hnew2)];
      [now left|].
    right. exists c2. do 3 (split; [assumption|]).
    intros Hback.
    destruct (step_rows st st1 Hcons Hs c2 Hback) as (c & Hc & _ & _ & _ & Ht).
    rewrite (Ht (or_intror Hs2)) in Hc. contradiction.
  - right.
    destruct (run_rows st1 st2 Hcons1 Hr c1 Hin1) as (c2 & Hc2 & _ & _ & _ & Ht).
    rewrite (Ht (or_intror Hs1)) in Hc2.
    exists c1. auto.
Qed.

Lemma items_change_only_by_applied_changes_witness :
  In Book.cola
    (items (fst (apply_change (Book.posted []) 7 1 2 3 (Book.shop APPROVED))))
  \/ exists c',
       In c' (changes (fst (apply_change (Book.posted []) 7 1 2 3
                              (Book.shop APPROVED))))
       /\ pc_item c' = 1 /\ status c' = APPLIED
       /\ ~ In c' (changes (Book.shop APPROVED)).
Proof.
  apply (items_change_only_by_applied_changes (Book.shop APPROVED)).
  - apply book_shop_consistent. discriminate.
  - exact (run_call _ _ _ (step_apply _ (Book.posted []) 7 1 2 3)
             (run_done _)).
  - left. reflexivity.
Defined.

(** ** Requests that must not write *)

(** A GET never writes through the entry, approve and apply views, and
    neither does a POST to [approve_change] whose action is neither
    approve nor reject; whether the view returns or raises, the store is as
    it was.  The export view makes no such distinction: a GET appends to
    the export log. *)
Theorem reading_requests_do_not_write {lib : Installed} :
  (forall (st : Store) (req : Request),
      method req = GET ->
      (forall code upc, fst (cost_change_entry req code upc st) = st)
      /\ (forall k now, fst (approve_change req k now st) = st)
      /\ (forall k t_cost t_price t_applied,
            fst (apply_change req k t_cost t_price t_applied st) = st))
  /\ (forall (st : Store) (req : Request) (k : Z) (now : datetime),
        action_is req "approve" = false -> action_is req "reject" = false ->
        fst (approve_change req k now st) = st)
  /\ (exists (st : Store) (req : Request) (now : datetime),
        method req = GET
        /\ export_log st = []
        /\ List.length (export_log (fst (brdata_export req now st))) = 3%nat).
Proof.
  split; [|split].
  - intros st req Hget. split; [|split].
    + intros code upc.
      unfold cost_change_entry, and_then, query, lift, write, ret.
      destruct (find_item st code upc) as [item|]; [|reflexivity].
      cbn [get_or_404]. rewrite Hget. now destruct (entry_form item []).
    + intros k now. unfold approve_change, and_then, query, lift, write, ret.
      destruct (change_with st k PENDING); [|reflexivity].
      cbn [get_or_404]. rewrite Hget. apply next_page_store.
    + intros k t1 t2 t3.
      unfold apply_change, and_then, query, lift, write, ret.
      destruct (change_with st k APPROVED); [|reflexivity].
      cbn [get_or_404]. rewrite Hget. apply next_page_store.
  - intros st req k now Ha Hr.
    unfold approve_change, and_then, query, lift, write, ret.
    destruct (change_with st k PENDING); [|reflexivity].
    cbn [get_or_404]. rewrite Ha, Hr.
    destruct (method req); apply next_page_store.
  - exists Due.shop, (get_request Book.amy), Due.now.
    vm_compute. auto.
Qed.

Lemma reading_requests_do_not_write_witness :
  fst (approve_change (get_request Book.amy) 7 1705325000 (Book.shop PENDING))
  = Book.shop PENDING.
Proof.
  apply (proj1 reading_requests_do_not_write (Book.shop PENDING)
           (get_request Book.amy) eq_refl).
Defined.

(** ** Submissions that fail *)

(** [float()] of a text returns or raises ValueError. *)
Lemma float_of_str_error (s : string) (e : exn) :
  Num.float_of_str s = Raise e -> caught_in_entry e = true.
Proof.
  unfold Num.float_of_str.
  destruct (Num.drop_underscores None (Num.strip s)) as [t|];
    [|now intros [= <-]].
  destruct (Parse.parse_numeric t); [discriminate|]. now intros [= <-].
Qed.

Lemma posted_number_error (req : Request) (key : string) (e : exn) :
  py_float (post_get req key PNone) = Raise e -> caught_in_entry e = true.
Proof.
  unfold post_get. destruct (post req key) as [s|]; cbn [py_float].
  - apply float_of_str_error.
  - now intros [= <-].
Qed.

Lemma posted_allowance_error (req : Request) (e : exn) :
  py_float (py_or (post_get req "new_allowance" (PInt 0)) (PInt 0)) = Raise e ->
  caught_in_entry e = true.
Proof.
  unfold post_get, py_or. destruct (post req "new_allowance") as [s|].
  - destruct (truthy (PStr s)).
    + cbn [py_float]. apply float_of_str_error.
    + vm_compute. discriminate.
  - vm_compute. discriminate.
Qed.

Lemma entry_form_page item msgs reply :
  entry_form item msgs = Ok reply ->
  messages reply = msgs
  /\ exists preview, response reply = Page "dsd/cost_change_entry.html" preview.
Proof.
  unfold entry_form. destruct (unit_cost item) as [u|]; [|discriminate].
  cbn [Py.bind].
  match goal with
  | |- (p <- ?e ;; _) = _ -> _ => destruct e as [p|]; [|discriminate]
  end.
  cbn [Py.bind]. intros [= <-]. cbn. eauto.
Qed.

(** [float()] reads a text as CPython does: a single underscore between
    two digits is skipped, the white space around the number includes the
    no-break space and the next-line character, but not the separators
    U+001C to U+001F. *)
Lemma float_reads_as_cpython :
  Num.float_of_str "1_000" = Ok (S754_finite false 8796093022208000 (-43))
  /\ Num.float_of_str "1000" = Ok (S754_finite false 8796093022208000 (-43))
  /\ Num.float_of_str (String (ascii_of_nat 160) "12.5")
     = Num.float_of_str "12.5"
  /\ Num.float_of_str (String (ascii_of_nat 133) "12.5 ")
     = Num.float_of_str "12.5"
  /\ Num.float_of_str "12.5" = Ok (S754_finite false 7036874417766400 (-49))
  /\ Num.float_of_str "1__0" = Raise ValueError
  /\ Num.float_of_str "_1" = Raise ValueError
  /\ Num.float_of_str "1_" = Raise ValueError
  /\ Num.float_of_str (String (ascii_of_nat 28) "1") = Raise ValueError.
Proof. repeat split; vm_compute; reflexivity. Qed.

(** A submission whose new case cost or new allowance is not a number
    saves nothing: [float()] raises ValueError or TypeError, the view
    catches it, and answers with what the form gives, which, when it
    returns, is the entry page with one error message. *)
Theorem submit_with_bad_number_saves_nothing {lib : Installed} :
  forall (st : Store) (req : Request) (code upc : string) (item : Item)
         (e : exn),
    find_item st code upc = Some item ->
    method req = POST ->
    (py_float (post_get req "new_case_cost" PNone) = Raise e
     \/ ((exists cost, py_float (post_get req "new_case_cost" PNone) = Ok cost)
         /\ py_float (py_or (post_get req "new_allowance" (PInt 0)) (PInt 0))
            = Raise e)) ->
    cost_change_entry req code upc st = (st, entry_form item [Error])
    /\ forall reply,
         entry_form item [Error] = Ok reply ->
         messages reply = [Error]
         /\ exists preview,
              response reply = Page "dsd/cost_change_entry.html" preview.
Proof.
  intros st req code upc item e Hfind Hpost Hbad.
  split; [|intros reply; apply entry_form_page].
  unfold cost_change_entry, and_then, query, lift, write, ret.
  rewrite Hfind. cbn [get_or_404]. rewrite Hpost.
  assert (Hsub : submitted_change st req item
                   (hd_error (pending_for st (item_pk item))) code upc
                 = Raise e /\ caught_in_entry e = true).
  { unfold submitted_change. destruct Hbad as [Hc | [(cost & Hc) Ha]].
    - rewrite Hc. split; [reflexivity|]. eapply posted_number_error; eauto.
    - rewrite Hc, Ha. split; [reflexivity|].
      eapply posted_allowance_error; eauto. }
  destruct Hsub as [-> ->]. reflexivity.
Qed.

Lemma submit_with_bad_number_saves_nothing_witness :
  cost_change_entry (Book.posted [("new_case_cost", "eleven")]%string)
    "COKE" "049000028904" (Book.shop APPLIED)
  = (Book.shop APPLIED, entry_form Book.cola [Error]).
Proof.
  apply (submit_with_bad_number_saves_nothing (Book.shop APPLIED)
           (Book.posted [("new_case_cost", "eleven")]%string)
           "COKE" "049000028904" Book.cola ValueError eq_refl eq_refl).
  left. vm_compute. reflexivity.
Defined.

(** A submission for an item whose case pack is 0 divides by zero: with
    numbers in the form the view raises ZeroDivisionError, which its
    [except (ValueError, TypeError)] does not catch, and nothing is
    saved. *)
Theorem submit_for_empty_case_pack_raises {lib : Installed} :
  forall (st : Store) (req : Request) (code upc : string) (item : Item)
         (cost allow : F64.float),
    find_item st code upc = Some item ->
    method req = POST ->
    case_pack item = 0 ->
    py_float (post_get req "new_case_cost" PNone) = Ok cost ->
    py_float (py_or (post_get req "new_allowance" (PInt 0)) (PInt 0))
    = Ok allow ->
    cost_change_entry req code upc st = (st, Raise ZeroDivisionError).
Proof.
  intros st req code upc item cost allow Hfind Hpost Hpack Hc Ha.
  unfold cost_change_entry, and_then, query, lift, write, ret.
  rewrite Hfind. cbn [get_or_404]. rewrite Hpost.
  assert (Hsub : submitted_change st req item
                   (hd_error (pending_for st (item_pk item))) code upc
                 = Raise ZeroDivisionError).
  { unfold submitted_change. rewrite Hc, Ha. cbn [Py.bind].
    unfold new_unit_cost_of. rewrite Hpack. reflexivity. }
  rewrite Hsub. reflexivity.
Qed.

Lemma submit_for_empty_case_pack_raises_witness :
  cost_change_entry (Book.posted [("new_case_cost", "11.00")]%string)
    "COKE" "049000028904"
    (mkStore [Book.coke]
       [mkItem 1 "COKE" "049000028904" None "Cola 12oz" 0
          (Book.money 1000) (Book.money 0) (Book.money 348) None None]
       [] [] [] 1 [])
  = (mkStore [Book.coke]
       [mkItem 1 "COKE" "049000028904" None "Cola 12oz" 0
          (Book.money 1000) (Book.money 0) (Book.money 348) None None]
       [] [] [] 1 [],
     Raise ZeroDivisionError).
Proof.
  eapply submit_for_empty_case_pack_raises; vm_compute; reflexivity.
Defined.

(** ** Reject *)

Lemma book_shop_any_consistent s : consistent (Book.shop s).
Proof.
  constructor.
  - repeat constructor. exists 7. cbn. split; [reflexivity | lia].
  - cbn. repeat constructor. intros [].
  - intros item. unfold pending_for. cbn [changes Book.shop filter].
    destruct (is_pending_for item (Book.raise_cost s)); cbn; lia.
Qed.

Lemma reject_is_not_approve req :
  action_is req "reject" = true -> action_is req "approve" = false.
Proof.
  unfold action_is. destruct (post req "action") as [s|]; [|discriminate].
  intros H. apply String.eqb_eq in H. now subst s.
Qed.

Lemma find_replaced (p : PendingCostChange -> bool) c k old rows :
  In old rows -> has_id k old = true -> p c = true ->
  (forall r, In r rows -> has_id k r = false -> p r = false) ->
  find p (replace_change c k rows) = Some c.
Proof.
  intros Hin Hold Hc Hrest. induction rows as [|r rows IH]; [destruct Hin|].
  cbn. destruct (has_id k r) eqn:E.
  - now rewrite Hc.
  - rewrite (Hrest r (or_introl eq_refl) E). apply IH.
    + destruct Hin as [->|Hin]; [congruence | assumption].
    + intros r' Hr'. apply Hrest. now right.
Qed.

Lemma filter_none {A : Type} (p : A -> bool) (l : list A) :
  (forall x, In x l -> p x = false) -> filter p l = [].
Proof.
  induction l as [|x l IH]; intros H; [reflexivity|].
  cbn. rewrite (H x (or_introl eq_refl)). apply IH.
  intros y Hy. apply H. now right.
Qed.

Lemma only_pending st item old :
  consistent st -> In old (changes st) ->
  pc_item old = item -> status old = PENDING ->
  forall r, In r (changes st) -> is_pending_for item r = true -> r = old.
Proof.
  intros Hcons Hin Hitem Hst r Hr Hp.
  pose proof (one_pending st Hcons item) as Hle.
  assert (Ho : In old (pending_for st item)).
  { apply filter_In. split; [assumption|]. now apply is_pending_for_iff. }
  assert (Hr' : In r (pending_for st item)).
  { apply filter_In. now split. }
  destruct (pending_for st item) as [|x [|y l]];
    [destruct Ho | | cbn in Hle; lia].
  destruct Ho as [<-|[]]. now destruct Hr' as [<-|[]].
Qed.

(** Rejecting a PENDING change sets it aside for good.  With action
    reject, [approve_change] saves the change as REJECTED with the
    rejecting user and the time, and leaves its costs and retails, the
    items, the history and the export log as they were; it queues a
    warning and redirects to the posted [next], and without a [next] field
    the redirect raises NoReverseMatch, after the rejection was stored.  On
    a consistent table the item then has no PENDING change, and any later
    call of [approve_change] or [apply_change] for that id fails with
    Http404 and writes nothing. *)
Theorem rejected_change_is_set_aside {lib : Installed} :
  forall (st : Store) (req : Request) (k : Z) (now : datetime)
         (old : PendingCostChange),
    consistent st ->
    change_with st k PENDING = Some old ->
    method req = POST ->
    action_is req "reject" = true ->
    let st' := fst (approve_change req k now st) in
    let c' := set_approval old REJECTED (Some (user req)) (Some now)
                (approved_retail old) in
    approve_change req k now st
    = (st', page <- redirect (next_target req) [] ;;
            Ok (mkReply page [Warning]))
    /\ (post req "next" = None ->
        approve_change req k now st = (st', Raise NoReverseMatch))
    /\ changes st' = replace_change c' k (changes st)
    /\ change_with st' k REJECTED = Some c'
    /\ List.length (changes st') = List.length (changes st)
    /\ items st' = items st
    /\ history st' = history st
    /\ export_log st' = export_log st
    /\ pending_for st' (pc_item old) = []
    /\ (forall req2 now2, approve_change req2 k now2 st' = (st', Raise Http404))
    /\ (forall req2 t_cost t_price t_applied,
          apply_change req2 k t_cost t_price t_applied st'
          = (st', Raise Http404)).
Proof.
  intros st req k now old Hcons Hold Hpost Hrej st' c'.
  destruct (change_with_in _ _ _ _ Hold) as (Hin & Hk & Hst).
  assert (Hrun : approve_change req k now st
                 = (save_change st c',
                    page <- redirect (next_target req) [] ;;
                    Ok (mkReply page [Warning]))).
  { unfold approve_change, and_then, query, lift, write, ret.
    rewrite Hold. cbn [get_or_404].
    rewrite Hpost, (reject_is_not_approve req Hrej), Hrej.
    apply next_page_reply. }
  assert (Est : st' = save_change st c') by (unfold st'; now rewrite Hrun).
  assert (Hrows : changes st' = replace_change c' k (changes st)).
  { rewrite Est. unfold save_change.
    assert (pc_id c' = Some k) as -> by exact Hk.
    now rewrite (existsb_has_id _ _ _ Hin Hk). }
  assert (Hold' : has_id k old = true) by now apply has_id_iff.
  assert (Hgone : forall s, s <> REJECTED -> change_with st' k s = None).
  { intros s Hs. apply change_with_none. rewrite Hrows.
    apply Forall_forall. intros r Hr Hid.
    apply in_map_iff in Hr as (r0 & <- & Hr0).
    destruct (has_id k r0) eqn:E.
    - cbn. congruence.
    - apply has_id_iff in Hid. congruence. }
  split; [now rewrite Est|].
  split.
  { intros Hnext. rewrite Hrun, Est. unfold next_target. now rewrite Hnext. }
  split; [exact Hrows|].
  split; [|split; [|split; [|split; [|split]]]].
  - unfold change_with. rewrite Hrows.
    apply find_replaced with old; try assumption.
    + unfold c', has_id. cbn. rewrite Hk, Z.eqb_refl. reflexivity.
    + intros r _ ->. reflexivity.
  - rewrite Hrows. unfold replace_change. apply List.length_map.
  - rewrite Est. now destruct (save_change_keeps st c') as (_ & -> & _).
  - rewrite Est. now destruct (save_change_keeps st c') as (_ & _ & -> & _).
  - rewrite Est. now destruct (save_change_keeps st c') as (_ & _ & _ & -> & _).
  - split; [|split].
    + unfold pending_for. rewrite Hrows. apply filter_none.
      intros r Hr. apply in_map_iff in Hr as (r0 & <- & Hr0).
      destruct (has_id k r0) eqn:E;
        [unfold is_pending_for, c'; cbn; apply Bool.andb_false_r|].
      destruct (is_pending_for (pc_item old) r0) eqn:Hp; [|reflexivity].
      rewrite (only_pending st (pc_item old) old Hcons Hin eq_refl Hst r0 Hr0 Hp)
        in E.
      congruence.
    + intros req2 now2.
      unfold approve_change, and_then, query, lift, write, ret.
      now rewrite (Hgone PENDING ltac:(discriminate)).
    + intros req2 t1 t2 t3.
      unfold apply_change, and_then, query, lift, write, ret.
      now rewrite (Hgone APPROVED ltac:(discriminate)).
Qed.

Lemma rejected_change_is_set_aside_witness :
  exists c',
    change_with
      (fst (approve_change (Book.posted [("action", "reject")]%string) 7
              1705325000 (Book.shop PENDING))) 7 REJECTED = Some c'
    /\ approved_by c' = Some Book.amy
    /\ approved_retail c' = Book.money 388.
Proof.
  eexists. split.
  - apply (rejected_change_is_set_aside (Book.shop PENDING)
             (Book.posted [("action", "reject")]%string) 7 1705325000
             (Book.raise_cost PENDING) (book_shop_any_consistent PENDING)
             eq_refl eq_refl eq_refl).
  - split; reflexivity.
Defined.

(** ** UPC utilities *)

Lemma append_assoc (s t u : string) :
  ((s ++ t) ++ u)%string = (s ++ (t ++ u))%string.
Proof. induction s as [|a s IH]; cbn; [reflexivity | now rewrite IH]. Qed.

Lemma rev_onto_app s : forall acc,
  Str.rev_onto s acc = (Str.rev_onto s "" ++ acc)%string.
Proof.
  induction s as [|a s IH]; intros acc; [reflexivity|].
  cbn. rewrite IH, (IH (String a EmptyString)).
  now rewrite append_assoc.
Qed.

Lemma append_empty_r (s : string) : (s ++ "")%string = s.
Proof. induction s as [|a s IH]; cbn; [reflexivity | now rewrite IH]. Qed.

Lemma rev_cons a s : Str.rev (String a s) = (Str.rev s ++ String a "")%string.
Proof. unfold Str.rev. cbn. apply rev_onto_app. Qed.

Lemma rev_app s t : Str.rev (s ++ t) = (Str.rev t ++ Str.rev s)%string.
Proof.
  induction s as [|a s IH].
  - cbn. now rewrite append_empty_r.
  - cbn [append]. now rewrite !rev_cons, IH, append_assoc.
Qed.

Lemma rev_involutive s : Str.rev (Str.rev s) = s.
Proof.
  induction s as [|a s IH]; [reflexivity|].
  now rewrite rev_cons, rev_app, IH.
Qed.

Lemma all_app p s t :
  Str.all p (s ++ t) = (Str.all p s && Str.all p t)%bool.
Proof.
  induction s as [|a s IH]; cbn; [reflexivity|].
  now rewrite IH, Bool.andb_assoc.
Qed.

Lemma all_rev p s : Str.all p (Str.rev s) = Str.all p s.
Proof.
  induction s as [|a s IH]; [reflexivity|].
  rewrite rev_cons, all_app, IH. cbn.
  rewrite Bool.andb_true_r. apply Bool.andb_comm.
Qed.

Lemma decimal_is_not_space a : Str.isdecimal a = true -> Str.isspace a = false.
Proof.
  destruct a as [[] [] [] [] [] [] [] []]; vm_compute; congruence.
Qed.

Lemma decimal_isdigit a : Str.isdecimal a = true -> Str.isdigit_char a = true.
Proof.
  destruct a as [[] [] [] [] [] [] [] []]; vm_compute; congruence.
Qed.

Lemma lstrip_decimal s : Str.all Str.isdecimal s = true -> Str.lstrip s = s.
Proof.
  destruct s as [|a s]; [reflexivity|]. cbn.
  intros H. apply andb_prop in H as [H _].
  now rewrite (decimal_is_not_space a H).
Qed.

(** [strip()] does nothing to a string of decimal digits. *)
Lemma strip_decimal s : Str.all Str.isdecimal s = true -> Str.strip s = s.
Proof.
  intros H. unfold Str.strip. rewrite (lstrip_decimal s H).
  rewrite lstrip_decimal by now rewrite all_rev.
  apply rev_involutive.
Qed.

Lemma keep_all p s : Str.all p (Str.keep p s) = true.
Proof.
  induction s as [|a s IH]; [reflexivity|].
  cbn. destruct (p a) eqn:E; [cbn; now rewrite E | assumption].
Qed.

Lemma keep_fixed p s : Str.all p s = true -> Str.keep p s = s.
Proof.
  induction s as [|a s IH]; [reflexivity|].
  cbn. intros H. apply andb_prop in H as [Ha Hs].
  now rewrite Ha, IH.
Qed.

Lemma keep_app p s t :
  Str.keep p (s ++ t) = (Str.keep p s ++ Str.keep p t)%string.
Proof.
  induction s as [|a s IH]; [reflexivity|].
  cbn. destruct (p a); cbn; now rewrite IH.
Qed.

Lemma keep_shorter p s :
  (String.length (Str.keep p s) <= String.length s)%nat.
Proof.
  induction s as [|a s IH]; [reflexivity|].
  cbn. destruct (p a); cbn; lia.
Qed.

Lemma keep_nothing p s :
  Str.keep p s = ""%string <-> Str.all (fun a => negb (p a)) s = true.
Proof.
  induction s as [|a s IH]; [cbn; tauto|].
  cbn. destruct (p a); cbn; [split; discriminate | exact IH].
Qed.

Lemma normalize_upc_digits raw :
  normalize_upc (Some raw)
  = (if String.eqb (Str.keep Str.isdecimal raw) ""
     then None else Some (Str.keep Str.isdecimal raw)).
Proof.
  unfold normalize_upc. now rewrite strip_decimal by apply keep_all.
Qed.

(** [normalize_upc] returns exactly the decimal digits of its argument, in
    their order: [None] for [None] and for a text without a digit,
    otherwise a non-empty string of digits that [normalize_upc] maps to
    itself.  The call of [strip()] changes nothing, and a character that
    is not a digit, wherever it stands, has no influence on the result. *)
Theorem normalize_upc_keeps_the_digits :
  normalize_upc None = None
  /\ (forall raw,
        normalize_upc (Some raw)
        = (if String.eqb (Str.keep Str.isdecimal raw) ""
           then None else Some (Str.keep Str.isdecimal raw)))
  /\ (forall raw d,
        normalize_upc (Some raw) = Some d ->
        d <> ""%string
        /\ Str.all Str.isdecimal d = true
        /\ (String.length d <= String.length raw)%nat
        /\ normalize_upc (Some d) = Some d)
  /\ (forall raw,
        normalize_upc (Some raw) = None
        <-> Str.all (fun a => negb (Str.isdecimal a)) raw = true)
  /\ (forall s1 s2 a,
        Str.isdecimal a = false ->
        normalize_upc (Some (s1 ++ String a s2)%string)
        = normalize_upc (Some (s1 ++ s2)%string)).
Proof.
  split; [reflexivity|]. split; [exact normalize_upc_digits|].
  split; [|split].
  - intros raw d. rewrite normalize_upc_digits.
    destruct (String.eqb_spec (Str.keep Str.isdecimal raw) "") as [|Hne];
      [discriminate|].
    intros [= <-]. split; [assumption|]. split; [apply keep_all|].
    split; [apply keep_shorter|].
    rewrite normalize_upc_digits, keep_fixed by apply keep_all.
    destruct (String.eqb_spec (Str.keep Str.isdecimal raw) ""); congruence.
  - intros raw. rewrite normalize_upc_digits, <- keep_nothing.
    destruct (String.eqb_spec (Str.keep Str.isdecimal raw) "");
      split; congruence.
  - intros s1 s2 a Ha. rewrite !normalize_upc_digits, !keep_app.
    cbn. now rewrite Ha.
Qed.

Lemma normalize_upc_keeps_the_digits_witness :
  normalize_upc (Some "0-49000 02890.4"%string) = Some "049000028904"%string
  /\ normalize_upc (Some "04900-0028904"%string)
     = normalize_upc (Some "049000028904"%string).
Proof.
  split.
  - reflexivity.
  - apply (proj2 (proj2 (proj2 (proj2 normalize_upc_keeps_the_digits)))
             "04900"%string "0028904"%string "-"%char).
    reflexivity.
Defined.

Lemma isdigit_of_decimals s :
  s <> ""%string -> Str.all Str.isdecimal s = true -> Str.isdigit s = true.
Proof.
  destruct s as [|a s]; [congruence|]. intros _. unfold Str.isdigit.
  generalize (String a s). clear. intros s.
  induction s as [|a s IH]; [reflexivity|].
  cbn. intros H. apply andb_prop in H as [Ha Hs].
  now rewrite (decimal_isdigit a Ha), IH.
Qed.

Lemma length_zero (s : string) : String.length s = 0%nat <-> s = ""%string.
Proof. destruct s; cbn; split; congruence. Qed.

(** [validate_upc] of a normalized UPC depends only on the number of
    decimal digits of the raw text: empty for none, valid for 12, 13 or 14,
    and a wrong length otherwise; the message about non-numeric characters
    never appears.  In every case the flag is true exactly when the
    message is OK.  On its own [validate_upc] accepts more than what
    [normalize_upc] produces: twelve superscript twos pass [isdigit()],
    and [normalize_upc] turns them into [None]. *)
Theorem validate_upc_of_normalized :
  (forall raw : option string,
      let n := match raw with
               | Some s => String.length (Str.keep Str.isdecimal s)
               | None => 0%nat
               end in
      validate_upc (normalize_upc raw)
      = if (n =? 0)%nat then (false, "UPC is empty"%string)
        else if ((n =? 12) || (n =? 13) || (n =? 14))%nat
             then (true, "OK"%string)
             else (false,
                   ("UPC length " ++ Str.of_nat n
                    ++ " is invalid (expected 12, 13, or 14)")%string))
  /\ (forall upc : option string,
        fst (validate_upc upc) = true <-> snd (validate_upc upc) = "OK"%string)
  /\ validate_upc (Some superscripts) = (true, "OK"%string)
  /\ normalize_upc (Some superscripts) = None.
Proof.
  split; [|split; [|split; reflexivity]].
  - intros [raw|] n; [|reflexivity]. unfold n. clear n.
    rewrite normalize_upc_digits.
    set (d := Str.keep Str.isdecimal raw).
    assert (Hall : Str.all Str.isdecimal d = true) by apply keep_all.
    clearbody d.
    destruct (String.eqb_spec d "") as [->|Hne]; [reflexivity|].
    destruct (Nat.eqb_spec (String.length d) 0) as [H0|_];
      [apply length_zero in H0; contradiction|].
    unfold validate_upc. rewrite (isdigit_of_decimals d Hne Hall).
    destruct d as [|a d]; [congruence|]. cbn [negb].
    now destruct ((String.length (String a d) =? 12)
                  || (String.length (String a d) =? 13)
                  || (String.length (String a d) =? 14))%nat.
  - intros [[|a upc]|]; cbn [validate_upc]; try (split; discriminate).
    destruct (negb (Str.isdigit (String a upc)));
      [cbn; split; discriminate|].
    destruct (negb _); cbn; split; (reflexivity || discriminate).
Qed.

(** ** suggest_retail: the price chosen *)

(** The run of [suggest_retail] on a positive cost and a margin between 0
    and 1: the theoretical price in cents [t], and the cents returned. *)
Lemma suggest_retail_run (u m : pyval) cu eu cm em :
  str_decimal u = Ok (Fin cu eu) ->
  str_decimal m = Ok (Fin cm em) ->
  0 < cu -> 0 < cm -> cmp_fin cm em 1 0 = Lt ->
  exists K E T ET S ES t,
    Dec.sub (of_int 1) (Fin cm em) = Ok (Fin K E) /\ 0 < K
    /\ Dec.div (Fin cu eu) (Fin K E) = Ok (Fin T ET)
    /\ Dec.mul (Fin T ET) (of_int 100) = Ok (Fin S ES)
    /\ Dec.to_int (Fin S ES) = Ok t /\ 0 <= t
    /\ suggest_retail u m
       = let cents := t - t mod 10 + (if t mod 10 <=? 8 then 8 else 18) in
         if cents <? 10 ^ 28 then Ok (PDec (Fin cents (-2)))
         else Raise InvalidOperation.
Proof.
  intros Hu Hm Hup Hmp Hm1.
  destruct (theoretical_cents_nonneg cu eu cm em Hup Hmp Hm1)
    as (K & E & T & ET & S & ES & t & H1 & HK & H2 & H3 & H4 & Ht).
  exists K, E, T, ET, S, ES, t. do 5 (split; [assumption|]).
  split; [assumption|].
  unfold suggest_retail.
  rewrite (str_decimal_not_none _ _ Hu), (str_decimal_not_none _ _ Hm).
  cbn [orb]. rewrite Hu, Hm. cbn [Py.bind].
  unfold Dec.le, Dec.ge, of_int. cbn [Dec.compare Py.bind].
  rewrite Hm1, !cmp_fin_zero.
  rewrite (proj2 (Z.compare_gt_iff cm 0)), (proj2 (Z.compare_gt_iff cu 0))
    by lia.
  cbn [Py.bind]. unfold of_int in H1, H3.
  rewrite H1. cbn [Py.bind]. rewrite H2. cbn [Py.bind].
  rewrite H3. cbn [Py.bind]. rewrite H4. cbn [Py.bind]. cbv zeta.
  destruct (suggested_cents_end_in_8 t Ht) as (_ & Hpos & Hlo & _).
  cbv zeta in Hpos, Hlo.
  assert (Hsame : (if t mod 10 <=? 8 then t - t mod 10 + 8
                   else t - t mod 10 + 18)
                  = t - t mod 10 + (if t mod 10 <=? 8 then 8 else 18))
    by now destruct (t mod 10 <=? 8).
  assert (Hguard : ((if t mod 10 <=? 8 then t - t mod 10 + 8
                     else t - t mod 10 + 18) <? t) = false).
  { apply Z.ltb_ge. pose proof (Z.mod_pos_bound t 10 ltac:(lia)).
    destruct (Z.leb_spec (t mod 10) 8); lia. }
  rewrite Hguard in *. rewrite Hsame in *.
  set (cents := t - t mod 10 + (if t mod 10 <=? 8 then 8 else 18)) in *.
  rewrite bind_assoc. fold (of_int cents). fold (of_int 100).
  rewrite (cents_to_money cents Hpos).
  now destruct (cents <? 10 ^ 28).
Qed.

(** [suggest_retail] returns the next price ending in 8 from the
    theoretical price cut to whole cents.  With [t] the value of
    [int(theoretical * 100)], the cents returned are the least whole number
    that is at least [t] and ends in the digit 8, so they exceed [t] by
    nine at most; the test "suggested_cents < theoretical_cents" of the
    source is never true. *)
Theorem suggest_retail_is_next_price_ending_in_8 :
  forall (u m : pyval) (cu eu cm em : Z),
    str_decimal u = Ok (Fin cu eu) ->
    str_decimal m = Ok (Fin cm em) ->
    (0 < value cu eu)%Q -> (0 < value cm em)%Q -> (value cm em < 1)%Q ->
    exists (keep theoretical scaled : Decimal) (t cents : Z),
      Dec.sub (of_int 1) (Fin cm em) = Ok keep
      /\ Dec.div (Fin cu eu) keep = Ok theoretical
      /\ Dec.mul theoretical (of_int 100) = Ok scaled
      /\ Dec.to_int scaled = Ok t
      /\ 0 <= t <= cents /\ cents <= t + 9 /\ cents mod 10 = 8
      /\ (forall p, t <= p -> p mod 10 = 8 -> cents <= p)
      /\ ((if t mod 10 <=? 8 then t - t mod 10 + 8 else t - t mod 10 + 18)
          <? t) = false
      /\ suggest_retail u m
         = if cents <? 10 ^ 28 then Ok (PDec (Fin cents (-2)))
           else Raise InvalidOperation.
Proof.
  intros u m cu eu cm em Hu Hm Hup Hmp Hm1.
  apply value_positive in Hup, Hmp. apply value_below_one in Hm1.
  destruct (suggest_retail_run u m cu eu cm em Hu Hm Hup Hmp Hm1)
    as (K & E & T & ET & S & ES & t & H1 & _ & H2 & H3 & H4 & Ht & Hrun).
  cbv zeta in Hrun.
  exists (Fin K E), (Fin T ET), (Fin S ES), t,
    (t - t mod 10 + (if t mod 10 <=? 8 then 8 else 18)).
  do 4 (split; [assumption|]).
  pose proof (Z.mod_pos_bound t 10 ltac:(lia)) as Hr.
  pose proof (Z.div_mod t 10 ltac:(lia)) as Hdm.
  assert (H8 : (t - t mod 10 + (if t mod 10 <=? 8 then 8 else 18)) mod 10 = 8).
  { replace (t - t mod 10) with (10 * (t / 10)) by lia.
    destruct (Z.leb_spec (t mod 10) 8).
    - rewrite Z.add_comm, Z.mul_comm, Z.mod_add by lia. reflexivity.
    - replace (10 * (t / 10) + 18) with (8 + (t / 10 + 1) * 10) by lia.
      rewrite Z.mod_add by lia. reflexivity. }
  split; [destruct (Z.leb_spec (t mod 10) 8); lia|].
  split; [destruct (Z.leb_spec (t mod 10) 8); lia|].
  split; [exact H8|]. split; [|split; [|exact Hrun]].
  - intros p Hp Hp8.
    pose proof (Z.div_mod p 10 ltac:(lia)) as Hdp. rewrite Hp8 in Hdp.
    destruct (Z.leb_spec (t mod 10) 8); lia.
  - apply Z.ltb_ge. destruct (Z.leb_spec (t mod 10) 8); lia.
Qed.

Lemma suggest_retail_is_next_price_ending_in_8_witness :
  exists keep theoretical scaled t cents,
    Dec.sub (of_int 1) (Fin 295 (-3)) = Ok keep
    /\ Dec.div (Fin 462 (-2)) keep = Ok theoretical
    /\ Dec.mul theoretical (of_int 100) = Ok scaled
    /\ Dec.to_int scaled = Ok t
    /\ 0 <= t <= cents /\ cents <= t + 9 /\ cents mod 10 = 8
    /\ (forall p, t <= p -> p mod 10 = 8 -> cents <= p)
    /\ ((if t mod 10 <=? 8 then t - t mod 10 + 8 else t - t mod 10 + 18)
        <? t) = false
    /\ suggest_retail (PDec (Fin 462 (-2))) (PDec (Fin 295 (-3)))
       = if cents <? 10 ^ 28 then Ok (PDec (Fin cents (-2)))
         else Raise InvalidOperation.
Proof.
  apply (suggest_retail_is_next_price_ending_in_8
           (PDec (Fin 462 (-2))) (PDec (Fin 295 (-3))) 462 (-2) 295 (-3)
           eq_refl eq_refl); vm_compute; reflexivity.
Defined.

(** ** suggest_retail: the distance to the theoretical price *)

(** [1 - margin] is exact when the margin has at most 28 decimal places. *)
Lemma keep_exact cm em :
  0 < cm -> cmp_fin cm em 1 0 = Lt -> -28 <= em ->
  em < 0 /\ 0 < 10 ^ (- em) - cm
  /\ Dec.sub (of_int 1) (Fin cm em) = Ok (Fin (10 ^ (- em) - cm) em).
Proof.
  intros Hc Hlt Hem. unfold cmp_fin in Hlt. apply -> Z.compare_lt_iff in Hlt.
  rewrite Z.mul_1_l in Hlt.
  assert (Hneg : em < 0).
  { destruct (Z.lt_ge_cases em 0) as [|Hge]; [assumption|].
    rewrite Z.min_r in Hlt by lia. rewrite Z.sub_diag in Hlt.
    pose proof (pow10_positive (em - 0) ltac:(lia)).
    change (10 ^ 0) with 1 in Hlt. nia. }
  rewrite Z.min_l in Hlt by lia. rewrite Z.sub_diag, Z.pow_0_r in Hlt.
  rewrite Z.sub_0_l in Hlt.
  split; [assumption|]. split; [lia|].
  unfold Dec.sub, Dec.neg, Dec.add, of_int.
  rewrite Z.min_r by lia. rewrite Z.sub_diag, Z.pow_0_r, Z.sub_0_l.
  rewrite fix_prec_small.
  - do 2 f_equal. lia.
  - assert (10 ^ (- em) <= 10 ^ prec)
      by (apply Z.pow_le_mono_r; unfold prec; lia).
    lia.
Qed.

Lemma value_negative_exponent c e :
  e < 0 -> value c e = c # Z.to_pos (10 ^ (- e)).
Proof.
  intros He. unfold value. now destruct (Z.leb_spec 0 e); [lia|].
Qed.

Lemma cents_times_keep n cm em :
  em < 0 ->
  (value n (-2) * (1 - value cm em)
   == value (n * (10 ^ (- em) - cm)) (-2 + em))%Q.
Proof.
  intros He.
  rewrite (value_negative_exponent cm em He).
  rewrite (value_negative_exponent _ (-2 + em)) by lia.
  change (value n (-2)) with (n # 100).
  pose proof (pow10_positive (- em) ltac:(lia)) as Hp.
  assert (Hsplit : 10 ^ (- (-2 + em)) = 100 * 10 ^ (- em)).
  { replace (- (-2 + em)) with (2 + - em) by lia.
    rewrite pow10_split by lia. reflexivity. }
  unfold Qeq, Qmult, Qminus, Qplus, Qopp. cbn [Qnum Qden].
  rewrite !Pos2Z.inj_mul, !Z2Pos.id by lia.
  rewrite Hsplit. ring.
Qed.

Lemma to_int_lower S ES n t :
  0 < S -> le_val n 0 S ES -> Dec.to_int (Fin S ES) = Ok t -> n <= t.
Proof.
  intros HS Hle. unfold Dec.to_int.
  destruct (Z.leb_spec 0 ES) as [He|He]; intros [= <-].
  - apply -> (le_val_base n 0 S ES 0) in Hle; [|lia|lia].
    now rewrite Z.sub_diag, Z.pow_0_r, Z.mul_1_r, Z.sub_0_r in Hle.
  - apply -> (le_val_base n 0 S ES ES) in Hle; [|lia|lia].
    rewrite Z.sub_diag, Z.pow_0_r, Z.mul_1_r, Z.sub_0_l in Hle.
    unfold with_sign. destruct (Z.ltb_spec S 0); [lia|].
    rewrite Z.abs_eq by lia.
    apply Z.div_le_lower_bound; [apply pow10_positive; lia | lia].
Qed.

Lemma to_int_upper S ES n t :
  0 < S -> le_val S ES n 0 -> Dec.to_int (Fin S ES) = Ok t -> t <= n.
Proof.
  intros HS Hle. unfold Dec.to_int.
  destruct (Z.leb_spec 0 ES) as [He|He]; intros [= <-].
  - apply -> (le_val_base S ES n 0 0) in Hle; [|lia|lia].
    now rewrite Z.sub_diag, Z.pow_0_r, Z.mul_1_r, Z.sub_0_r in Hle.
  - apply -> (le_val_base S ES n 0 ES) in Hle; [|lia|lia].
    rewrite Z.sub_diag, Z.pow_0_r, Z.mul_1_r, Z.sub_0_l in Hle.
    unfold with_sign. destruct (Z.ltb_spec S 0); [lia|].
    rewrite Z.abs_eq by lia.
    pose proof (pow10_positive (- ES) ltac:(lia)) as Hp.
    apply Z.lt_succ_r. apply Z.div_lt_upper_bound; [assumption|]. nia.
Qed.

Lemma le_val_cents_lower n T ET :
  le_val n (-2) T ET -> le_val n 0 (T * 100) (ET + 0).
Proof.
  intros H. rewrite Z.add_0_r.
  set (k := Z.min (-2) ET).
  apply -> (le_val_base n (-2) T ET k) in H; [|unfold k; lia|unfold k; lia].
  apply <- (le_val_base n 0 (T * 100) ET k); [|unfold k; lia|unfold k; lia].
  replace (0 - k) with (2 + (-2 - k)) by lia.
  rewrite pow10_split by (unfold k; lia). change (10 ^ 2) with 100.
  nia.
Qed.

Lemma le_val_cents_upper n T ET :
  le_val T ET n (-2) -> le_val (T * 100) (ET + 0) n 0.
Proof.
  intros H. rewrite Z.add_0_r.
  set (k := Z.min (-2) ET).
  apply -> (le_val_base T ET n (-2) k) in H; [|unfold k; lia|unfold k; lia].
  apply <- (le_val_base (T * 100) ET n 0 k); [|unfold k; lia|unfold k; lia].
  replace (0 - k) with (2 + (-2 - k)) by lia.
  rewrite pow10_split by (unfold k; lia). change (10 ^ 2) with 100.
  nia.
Qed.

Lemma returned_cents c r :
  (if c <? 10 ^ 28 then Ok (PDec (Fin c (-2))) else Raise InvalidOperation)
  = Ok (PDec (Fin r (-2))) ->
  r = c /\ r < 10 ^ 28.
Proof.
  destruct (Z.ltb_spec c (10 ^ 28)) as [H|H]; [|discriminate].
  intros [= <-]. split; [reflexivity | assumption].
Qed.

(** The suggested price is less than a cent below and less than ten cents
    above the theoretical price.  For a cost [u > 0] and a margin
    [0 < m < 1] with at most 28 decimal places, a price [r] returned by
    [suggest_retail], in cents, satisfies
    [r - 10 < 100 * u / (1 - m) < r + 1]. *)
Theorem suggest_retail_stays_near_theoretical :
  forall (u m : pyval) (cu eu cm em r : Z),
    str_decimal u = Ok (Fin cu eu) ->
    str_decimal m = Ok (Fin cm em) ->
    (0 < value cu eu)%Q -> (0 < value cm em)%Q -> (value cm em < 1)%Q ->
    -28 <= em ->
    suggest_retail u m = Ok (PDec (Fin r (-2))) ->
    (value (r - 10) (-2) * (1 - value cm em) < value cu eu)%Q
    /\ (value cu eu < value (r + 1) (-2) * (1 - value cm em))%Q.
Proof.
  intros u m cu eu cm em r Hu Hm Hup Hmp Hm1 Hem Hret.
  apply value_positive in Hup, Hmp. apply value_below_one in Hm1.
  destruct (keep_exact cm em Hmp Hm1 Hem) as (Hneg & HKpos & Hkeep).
  destruct (suggest_retail_run u m cu eu cm em Hu Hm Hup Hmp Hm1)
    as (K & E & T & ET & S & ES & t & H1 & _ & H2 & H3 & H4 & Ht & Hrun).
  rewrite Hkeep in H1. injection H1 as <- <-.
  set (K := 10 ^ (- em) - cm) in *.
  cbv zeta in Hrun. rewrite Hret in Hrun.
  pose proof (Z.mod_pos_bound t 10 ltac:(lia)) as Hmod.
  assert (Hprec : prec = 28) by reflexivity.
  assert (H28 : 10 ^ 28 = 10 * 10 ^ 27) by reflexivity.
  assert (Hr : r = t - t mod 10 + (if t mod 10 <=? 8 then 8 else 18)
               /\ r < 10 ^ 28).
  { symmetry in Hrun. exact (returned_cents _ _ Hrun). }
  destruct Hr as [Hr Hsmall].
  assert (Hrt : t <= r <= t + 9) by (destruct (Z.leb_spec (t mod 10) 8); lia).
  (* the quotient and its hundredfold *)
  unfold Dec.div in H2.
  destruct (Z.eqb_spec K 0) as [|_]; [lia|].
  destruct (Z.eqb_spec cu 0) as [|_]; [lia|].
  injection H2 as H2.
  unfold Dec.mul, of_int in H3. injection H3 as H3.
  split; apply Qnot_le_lt; intros Hcontra.
  - (* 100 u <= (r - 10) (1 - m) *)
    rewrite cents_times_keep in Hcontra by assumption.
    apply le_val_value in Hcontra.
    destruct (Z.le_gt_cases (r - 10) 0) as [Hle|Hgt].
    + (* the right-hand side is not positive *)
      set (k := Z.min eu (-2 + em)).
      apply -> (le_val_base cu eu ((r - 10) * K) (-2 + em) k) in Hcontra;
        [|unfold k; lia|unfold k; lia].
      pose proof (pow10_positive (eu - k) ltac:(unfold k; lia)).
      pose proof (pow10_positive (-2 + em - k) ltac:(unfold k; lia)).
      assert ((r - 10) * K <= 0) by nia.
      assert ((r - 10) * K * 10 ^ (-2 + em - k) <= 0) by nia.
      assert (0 < cu * 10 ^ (eu - k)) by nia.
      lia.
    + destruct (div_fin_upper cu eu K em (r - 10) (-2) Hup HKpos)
        as (R0 & E0 & Hdiv & HR0 & Hup0);
        [rewrite Hprec; lia | exact Hcontra|].
      rewrite Hdiv in H2. injection H2 as -> ->.
      destruct (fix_prec_upper (T * 100) (ET + 0) (r - 10) 0)
        as (R1 & E1 & Hfix & HR1 & Hup1);
        [lia | rewrite Hprec; lia | now apply le_val_cents_upper|].
      rewrite Hfix in H3. injection H3 as -> ->.
      pose proof (to_int_upper S ES (r - 10) t HR1 Hup1 H4). lia.
  - (* (r + 1) (1 - m) <= 100 u *)
    rewrite cents_times_keep in Hcontra by assumption.
    apply le_val_value in Hcontra.
    assert (Hr1 : r + 1 < 10 ^ 28).
    { assert (r mod 10 = 8).
      { rewrite Hr. replace (t - t mod 10) with (10 * (t / 10))
          by (pose proof (Z.div_mod t 10 ltac:(lia)); lia).
        destruct (Z.leb_spec (t mod 10) 8).
        - rewrite Z.add_comm, Z.mul_comm, Z.mod_add by lia. reflexivity.
        - replace (10 * (t / 10) + 18) with (8 + (t / 10 + 1) * 10) by lia.
          rewrite Z.mod_add by lia. reflexivity. }
      pose proof (Z.div_mod r 10 ltac:(lia)). lia. }
    destruct (div_fin_lower cu eu K em (r + 1) (-2) Hup HKpos)
      as (R0 & E0 & Hdiv & HR0 & Hlo0);
      [rewrite Hprec; lia | exact Hcontra|].
    rewrite Hdiv in H2. injection H2 as -> ->.
    destruct (fix_prec_lower (T * 100) (ET + 0) (r + 1) 0)
      as (R1 & E1 & Hfix & HR1 & Hlo1);
      [lia | rewrite Hprec; lia | now apply le_val_cents_lower|].
    rewrite Hfix in H3. injection H3 as -> ->.
    pose proof (to_int_lower S ES (r + 1) t HR1 Hlo1 H4). lia.
Qed.

Lemma suggest_retail_stays_near_theoretical_witness :
  (value (638 - 10) (-2) * (1 - value 295 (-3)) < value 450 (-2))%Q
  /\ (value 450 (-2) < value (638 + 1) (-2) * (1 - value 295 (-3)))%Q.
Proof.
  apply (suggest_retail_stays_near_theoretical
           (PDec (Fin 450 (-2))) (PDec (Fin 295 (-3))) 450 (-2) 295 (-3) 638
           eq_refl eq_refl); vm_compute; try reflexivity; discriminate.
Defined.

(** ** calculate_margin: when it is defined, and its range *)

(** [quantize] of a positive number that is at most 1. *)
Lemma quantize_upto c e t :
  0 < c -> t <= 0 -> - t < prec -> le_val c e 1 0 ->
  exists q, Dec.quantize (Fin c e) t = Ok (Fin q t) /\ 0 <= q <= 10 ^ (- t).
Proof.
  intros Hc Ht Htp Hhi.
  assert (Hprec : prec = 28) by reflexivity.
  destruct (ndigits_spec c Hc) as (Hn1 & Hnlo & _).
  assert (Hadj : e + ndigits c - 1 <= 0).
  { set (b := Z.min e 0).
    apply -> (le_val_base c e 1 0 b) in Hhi; [|lia|lia].
    rewrite Z.mul_1_l in Hhi.
    assert (H1 : 10 ^ (ndigits c - 1 + (e - b)) <= c * 10 ^ (e - b)).
    { rewrite (pow10_split (ndigits c - 1) (e - b)) by lia.
      apply Z.mul_le_mono_nonneg_r; [|assumption].
      apply Z.lt_le_incl, pow10_positive. lia. }
    assert (H2 : ndigits c - 1 + (e - b) <= 0 - b)
      by (apply pow10_le_inv; lia).
    lia. }
  unfold quantize. destruct (Z.eqb_spec c 0) as [|_]; [lia|].
  rewrite Z.abs_eq by lia.
  destruct (Z.ltb_spec prec (e + ndigits c - 1 - t + 1)) as [|_]; [lia|].
  set (c' := if t <=? e then c * 10 ^ (e - t)
             else with_sign c (round_half_even c (t - e))).
  pose proof (pow10_positive (- t) ltac:(lia)) as Hpt.
  assert (Hc' : 0 <= c' <= 10 ^ (- t)).
  { unfold c'. destruct (Z.leb_spec t e) as [Hte|Hte].
    - apply -> (le_val_base c e 1 0 t) in Hhi; [|lia|lia].
      rewrite Z.mul_1_l, Z.sub_0_l in Hhi.
      pose proof (pow10_positive (e - t) ltac:(lia)). nia.
    - apply -> (le_val_base c e 1 0 e) in Hhi; [|lia|lia].
      rewrite Z.sub_diag, Z.pow_0_r, Z.mul_1_r in Hhi.
      rewrite Z.mul_1_l in Hhi.
      unfold with_sign. destruct (Z.ltb_spec c 0) as [|_]; [lia|]. split.
      + apply round_half_even_lower; lia.
      + apply round_half_even_upper; [lia|].
        rewrite <- pow10_split by lia.
        now replace (- t + (t - e)) with (0 - e) by lia. }
  assert (Hnd : ndigits (Z.abs c') <= prec).
  { rewrite Z.abs_eq by lia.
    destruct (Z.eq_dec c' 0) as [->|Hne]; [rewrite ndigits_zero; lia|].
    apply ndigits_le; [lia|].
    apply Z.le_lt_trans with (10 ^ (- t)); [lia|].
    apply Z.pow_lt_mono_r; lia. }
  destruct (Z.ltb_spec prec (ndigits (Z.abs c'))) as [|_]; [lia|].
  exists c'. split; [reflexivity | assumption].
Qed.

(** [calculate_margin] is [None] exactly when the retail price or the
    unit cost is false in a condition, or the retail price is not
    positive.  For a cost above zero and at most the retail price, whose
    coefficient has at most 28 digits, it returns a Decimal with four
    places between 0 and 1, both included. *)
Theorem calculate_margin_is_a_share :
  forall (retail_price unit_cost : pyval) (cr er cu eu : Z),
    str_decimal retail_price = Ok (Fin cr er) ->
    str_decimal unit_cost = Ok (Fin cu eu) ->
    (calculate_margin retail_price unit_cost = Ok PNone
     <-> (Val.truthy retail_price = false \/ Val.truthy unit_cost = false
          \/ cr <= 0))
    /\ (0 < cu -> 0 < cr < 10 ^ 28 ->
        (value cu eu <= value cr er)%Q ->
        exists q : Z,
          calculate_margin retail_price unit_cost = Ok (PDec (Fin q (-4)))
          /\ 0 <= q <= 10 ^ 4).
Proof.
  intros r u cr er cu eu Hr Hu.
  assert (Hprec : prec = 28) by reflexivity.
  assert (Hle0 : Dec.le (Fin cr er) (of_int 0) = Ok (cr <=? 0)).
  { unfold Dec.le, of_int. cbn [Dec.compare Py.bind]. rewrite cmp_fin_zero.
    destruct (Z.compare_spec cr 0); destruct (Z.leb_spec cr 0);
      (reflexivity || lia). }
  split.
  - unfold calculate_margin.
    destruct (Val.truthy r) eqn:Tr; [|cbn; tauto].
    destruct (Val.truthy u) eqn:Tu; [|cbn; tauto].
    cbn [negb orb]. rewrite Hr, Hu. cbn [Py.bind]. rewrite Hle0.
    cbn [Py.bind]. destruct (Z.leb_spec cr 0) as [Hc|Hc]; [tauto|].
    split; [|intros [H|[H|H]]; (discriminate || lia)].
    destruct (Dec.sub (Fin cr er) (Fin cu eu)) as [d|]; [|discriminate].
    cbn [Py.bind]. destruct (Dec.div d (Fin cr er)) as [x|]; [|discriminate].
    cbn [Py.bind]. destruct (Dec.quantize x (-4)); discriminate.
  - intros Hcu Hcr Hcost. apply le_val_value in Hcost.
    unfold calculate_margin.
    rewrite (positive_is_truthy r cr er Hr (proj1 Hcr)).
    rewrite (positive_is_truthy u cu eu Hu Hcu).
    cbn [negb orb]. rewrite Hr, Hu. cbn [Py.bind]. rewrite Hle0.
    destruct (Z.leb_spec cr 0); [lia|]. cbn [Py.bind].
    unfold Dec.sub, Dec.neg, Dec.add.
    set (mn := Z.min er eu).
    set (D0 := cr * 10 ^ (er - mn) + - cu * 10 ^ (eu - mn)).
    apply -> (le_val_base cu eu cr er mn) in Hcost;
      [|unfold mn; lia|unfold mn; lia].
    assert (HD0 : 0 <= D0) by (unfold D0; lia).
    destruct (Z.eq_dec D0 0) as [Hz|Hnz].
    + (* cost equals retail *)
      rewrite Hz. change (fix_prec 0 mn) with (Fin 0 mn). cbn [Py.bind].
      unfold Dec.div. destruct (Z.eqb_spec cr 0); [lia|].
      cbn [Z.eqb Py.bind]. exists 0. split; [reflexivity|].
      split; [lia|]. apply Z.lt_le_incl, pow10_positive. lia.
    + assert (L : le_val D0 mn cr er).
      { apply <- (le_val_base D0 mn cr er mn);
          [|unfold mn; lia|unfold mn; lia].
        rewrite Z.sub_diag, Z.pow_0_r, Z.mul_1_r. unfold D0.
        pose proof (pow10_positive (eu - mn) ltac:(unfold mn; lia)). nia. }
      destruct (fix_prec_upper D0 mn cr er) as (D & E & HD & HDpos & HDle);
        [lia | rewrite Hprec; lia | exact L|].
      rewrite HD. cbn [Py.bind]. unfold Dec.div.
      destruct (Z.eqb_spec cr 0); [lia|].
      destruct (Z.eqb_spec D 0); [lia|].
      destruct (div_fin_upper D E cr er 1 0) as (M & EM & HM & HMpos & HMle).
      { exact HDpos. } { lia. }
      { split; [lia|]. apply (Z.pow_lt_mono_r 10 0 prec); lia. }
      { now rewrite Z.mul_1_l. }
      rewrite HM. cbn [Py.bind].
      destruct (quantize_upto M EM (-4) HMpos ltac:(lia) ltac:(lia) HMle)
        as (q & Hq & Hrange).
      rewrite Hq. exists q. split; [reflexivity | exact Hrange].
Qed.

Lemma calculate_margin_is_a_share_witness :
  exists q : Z,
    calculate_margin (PDec (Fin 348 (-2))) (PDec (Fin 250 (-2)))
    = Ok (PDec (Fin q (-4)))
    /\ 0 <= q <= 10 ^ 4.
Proof.
  apply (proj2 (calculate_margin_is_a_share
                  (PDec (Fin 348 (-2))) (PDec (Fin 250 (-2)))
                  348 (-2) 250 (-2) eq_refl eq_refl));
    vm_compute; try reflexivity; try discriminate.
  split; reflexivity.
Defined.

(** ** The calculated properties of a change *)

Lemma apply_to_item_costs self item user t1 t2 t3 a :
  apply_to_item self item user t1 t2 t3 = Ok a ->
  case_cost (item_row a) = new_case_cost self
  /\ allowance (item_row a) = new_allowance self
  /\ case_pack (item_row a) = case_pack item.
Proof.
  unfold apply_to_item. intros H.
  destruct (negb (status_eqb (status self) APPROVED)); [discriminate|].
  destruct (margin item); [|discriminate].
  cbn [Py.bind] in H. injection H as <-. cbn. auto.
Qed.

Lemma unit_cost_of_pack item :
  0 < case_pack item ->
  unit_cost item
  = (net <- py_sub (case_cost item) (allowance item) ;;
     py_truediv net (PDec (of_int (case_pack item)))).
Proof.
  intros Hp. unfold unit_cost, net_case_cost.
  destruct (Z.eqb_spec (case_pack item) 0); [lia|].
  destruct (Z.ltb_spec 0 (case_pack item)); [|lia].
  cbn [negb andb str_decimal].
  destruct (py_sub (case_cost item) (allowance item)); reflexivity.
Qed.

Lemma new_unit_cost_of_pack self item :
  0 < case_pack item ->
  new_unit_cost self item
  = (net <- py_sub (new_case_cost self) (new_allowance self) ;;
     py_truediv net (PDec (of_int (case_pack item)))).
Proof.
  intros Hp. unfold new_unit_cost, new_net_case_cost.
  destruct (Z.ltb_spec 0 (case_pack item)); [|lia].
  cbn [str_decimal].
  destruct (py_sub (new_case_cost self) (new_allowance self)); reflexivity.
Qed.

(** Subtracting [prev_allowance or 0] from a cost with two places is
    subtracting the allowance, also when the allowance is zero and the
    integer 0 takes its place. *)
Lemma less_allowance_or_zero cc ca :
  py_sub (PDec (Fin cc (-2))) (py_or (PDec (Fin ca (-2))) (PInt 0))
  = py_sub (PDec (Fin cc (-2))) (PDec (Fin ca (-2))).
Proof.
  unfold py_or. cbn [Val.truthy Dec.truthy].
  destruct (Z.eqb_spec ca 0) as [->|_]; [|reflexivity].
  cbn [negb py_sub]. unfold Dec.sub, Dec.neg, Dec.add, of_int.
  change (Z.min (-2) 0) with (-2). change (Z.min (-2) (-2)) with (-2).
  change (- 0) with 0. now rewrite !Z.mul_0_l.
Qed.

(** The change amount is the difference between the unit cost the item
    takes when the change is applied and the unit cost it has now.  For an
    item with a positive case pack whose cost and allowance are stored with
    two places, and a change that carries them as its snapshot and has
    Decimals for the new cost and allowance: [item.unit_cost] and
    [change.new_unit_cost] are Decimals, [cost_change_amount] is the second
    minus the first, and after [apply_to_item] the item's unit cost is the
    change's new unit cost. *)
Theorem cost_change_amount_is_the_difference :
  forall (self : PendingCostChange) (item : Item) (cc ca nc en na ea : Z),
    0 < case_pack item ->
    case_cost item = PDec (Fin cc (-2)) ->
    allowance item = PDec (Fin ca (-2)) ->
    prev_case_cost self = case_cost item ->
    prev_allowance self = allowance item ->
    new_case_cost self = PDec (Fin nc en) ->
    new_allowance self = PDec (Fin na ea) ->
    exists old new diff : Decimal,
      unit_cost item = Ok (PDec old)
      /\ new_unit_cost self item = Ok (PDec new)
      /\ Dec.sub new old = Ok diff
      /\ cost_change_amount self item = Ok (PDec diff)
      /\ forall user t_cost t_price t_applied a,
           apply_to_item self item user t_cost t_price t_applied = Ok a ->
           unit_cost (item_row a) = Ok (PDec new).
Proof.
  intros self item cc ca nc en na ea Hp Hcc Hca Hpc Hpa Hnc Hna.
  assert (Hp0 : case_pack item <> 0) by lia.
  destruct (sub_finite cc (-2) ca (-2)) as (c1 & e1 & Hs1).
  destruct (div_finite c1 e1 (case_pack item) 0 Hp0) as (c2 & e2 & Hd1).
  destruct (sub_finite nc en na ea) as (c3 & e3 & Hs2).
  destruct (div_finite c3 e3 (case_pack item) 0 Hp0) as (c4 & e4 & Hd2).
  destruct (sub_finite c4 e4 c2 e2) as (c5 & e5 & Hs3).
  assert (Hold : unit_cost item = Ok (PDec (Fin c2 e2))).
  { rewrite unit_cost_of_pack by assumption. rewrite Hcc, Hca.
    cbn [py_sub]. rewrite Hs1. cbn [Py.bind py_truediv]. unfold of_int.
    now rewrite Hd1. }
  assert (Hnew : new_unit_cost self item = Ok (PDec (Fin c4 e4))).
  { rewrite new_unit_cost_of_pack by assumption. rewrite Hnc, Hna.
    cbn [py_sub]. rewrite Hs2. cbn [Py.bind py_truediv]. unfold of_int.
    now rewrite Hd2. }
  exists (Fin c2 e2), (Fin c4 e4), (Fin c5 e5).
  split; [exact Hold|]. split; [exact Hnew|]. split; [exact Hs3|]. split.
  - unfold cost_change_amount. rewrite Hpc, Hcc. cbn [is_none negb andb].
    destruct (Z.ltb_spec 0 (case_pack item)); [|lia].
    unfold old_unit_cost. rewrite Hpc, Hpa, Hcc, Hca.
    rewrite less_allowance_or_zero. cbn [py_sub]. rewrite Hs1.
    cbn [Py.bind py_truediv]. unfold of_int. rewrite Hd1. cbn [Py.bind].
    rewrite Hnew. cbn [Py.bind is_none py_sub]. now rewrite Hs3.
  - intros user t1 t2 t3 a Ha.
    destruct (apply_to_item_costs _ _ _ _ _ _ _ Ha) as (H1 & H2 & H3).
    rewrite unit_cost_of_pack by (rewrite H3; assumption).
    rewrite H1, H2, H3. rewrite <- Hnew.
    symmetry. now apply new_unit_cost_of_pack.
Qed.

Lemma cost_change_amount_is_the_difference_witness :
  exists old new diff : Decimal,
    unit_cost Book.cola = Ok (PDec old)
    /\ new_unit_cost (Book.raise_cost APPROVED) Book.cola = Ok (PDec new)
    /\ Dec.sub new old = Ok diff
    /\ cost_change_amount (Book.raise_cost APPROVED) Book.cola
       = Ok (PDec diff)
    /\ forall user t_cost t_price t_applied a,
         apply_to_item (Book.raise_cost APPROVED) Book.cola user
           t_cost t_price t_applied = Ok a ->
         unit_cost (item_row a) = Ok (PDec new).
Proof.
  apply (cost_change_amount_is_the_difference (Book.raise_cost APPROVED)
           Book.cola 1000 0 1100 (-2) 0 (-2)); reflexivity.
Defined.

(** ** retail_is_overridden *)

Lemma decimal_equals_itself c e : Dec.eqb (Fin c e) (Fin c e) = true.
Proof.
  unfold Dec.eqb, Dec.compare, cmp_fin. now rewrite Z.compare_refl.
Qed.

Lemma decimal_eqb_value c1 e1 c2 e2 :
  Dec.eqb (Fin c1 e1) (Fin c2 e2) = true <-> (value c1 e1 == value c2 e2)%Q.
Proof.
  unfold Dec.eqb, Dec.compare. rewrite cmp_fin_value, Qeq_alt.
  destruct (value c1 e1 ?= value c2 e2)%Q; split; congruence.
Qed.

Lemma approve_retails self user override now :
  suggested_retail (approve self user override now) = suggested_retail self
  /\ approved_retail (approve self user override now)
     = (if Val.truthy override then override
        else if is_none (approved_retail self) then suggested_retail self
             else approved_retail self).
Proof. split; reflexivity. Qed.

(** [retail_is_overridden] after [approve].  With a suggested retail that
    is [None] or a finite Decimal: approving without an override (or with
    a zero one) a change whose approved retail was not set leaves the flag
    false; approving with a Decimal override that is not zero sets the
    flag exactly when the suggested retail is not zero and differs from
    the override in value, whatever the number of places written. *)
Theorem overridden_flag_after_approve :
  forall (self : PendingCostChange) (user : option User) (now : datetime),
    (suggested_retail self = PNone \/ is_decimal (suggested_retail self)) ->
    (forall override,
        Val.truthy override = false ->
        approved_retail self = PNone ->
        retail_is_overridden (approve self user override now) = false)
    /\ (forall co eo,
          co <> 0 ->
          (retail_is_overridden (approve self user (PDec (Fin co eo)) now)
           = true
           <-> exists cs es,
                 suggested_retail self = PDec (Fin cs es) /\ cs <> 0
                 /\ ~ (value co eo == value cs es)%Q)).
Proof.
  intros self user now Hs. split.
  - intros override Ho Ha. unfold retail_is_overridden.
    destruct (approve_retails self user override now) as [-> ->].
    rewrite Ho, Ha. cbn [is_none].
    destruct Hs as [-> | (c & e & ->)]; [reflexivity|].
    unfold py_ne. cbn [py_eq]. rewrite decimal_equals_itself.
    now destruct (Val.truthy (PDec (Fin c e))).
  - intros co eo Hco. unfold retail_is_overridden.
    destruct (approve_retails self user (PDec (Fin co eo)) now) as [-> ->].
    assert (Ht : Val.truthy (PDec (Fin co eo)) = true).
    { cbn. now destruct (Z.eqb_spec co 0). }
    rewrite Ht. cbv iota. rewrite Ht. cbn [andb].
    destruct Hs as [-> | (c & e & ->)].
    + cbn [Val.truthy]. split; [discriminate|].
      intros (cs & es & H & _). discriminate.
    + cbn [Val.truthy Dec.truthy]. unfold py_ne. cbn [py_eq].
      destruct (Z.eqb_spec c 0) as [->|Hc]; cbn [negb].
      * split; [discriminate|]. intros (cs & es & [= <- <-] & H & _).
        contradiction.
      * destruct (Dec.eqb (Fin co eo) (Fin c e)) eqn:E; cbn [negb].
        -- apply decimal_eqb_value in E. split; [discriminate|].
           intros (cs & es & [= <- <-] & _ & H). contradiction.
        -- split; [|reflexivity]. intros _. exists c, e.
           split; [reflexivity|]. split; [assumption|].
           intros H. apply decimal_eqb_value in H. congruence.
Qed.

Lemma overridden_flag_after_approve_witness :
  retail_is_overridden
    (approve (Book.raise_cost PENDING) (Some Book.amy)
       (PDec (Fin 39 (-1))) 1705325000) = true
  <-> exists cs es,
        suggested_retail (Book.raise_cost PENDING) = PDec (Fin cs es)
        /\ cs <> 0 /\ ~ (value 39 (-1) == value cs es)%Q.
Proof.
  apply (proj2 (overridden_flag_after_approve (Book.raise_cost PENDING)
                  (Some Book.amy) 1705325000
                  (or_intror (ex_intro _ 388 (ex_intro _ (-2) eq_refl))))).
  discriminate.
Defined.

(** ** The pending change of an item *)





(** ** price_book: the groups *)

Lemma has_key_in groups key :
  has_key groups key = true <-> In key (map fst groups).
Proof.
  unfold has_key. rewrite existsb_exists, in_map_iff. split.
  - intros (kv & Hin & E). apply String.eqb_eq in E. eauto.
  - intros (kv & E & Hin). exists kv. split; [assumption|].
    now apply String.eqb_eq.
Qed.

Lemma append_to_keys groups key item :
  map fst (append_to groups key item) = map fst groups.
Proof.
  unfold append_to. rewrite map_map. apply map_ext.
  intros kv. now destruct (String.eqb (fst kv) key).
Qed.

Lemma append_to_other groups key item :
  has_key groups key = false -> append_to groups key item = groups.
Proof.
  unfold has_key, append_to. induction groups as [|kv groups IH]; intros H;
    [reflexivity|].
  cbn in *. apply Bool.orb_false_iff in H as [H1 H2].
  now rewrite H1, IH.
Qed.

Lemma list_sum_cons a l : list_sum (a :: l) = (a + list_sum l)%nat.
Proof. reflexivity. Qed.

Lemma append_to_count groups key item :
  NoDup (map fst groups) -> has_key groups key = true ->
  grouped_count (append_to groups key item) = S (grouped_count groups).
Proof.
  unfold grouped_count.
  induction groups as [|kv groups IH]; intros Hnd H; [discriminate|].
  cbn [map] in Hnd. inversion Hnd as [|? ? Hnot Hnd']. subst.
  cbn [append_to map list_sum].
  destruct (String.eqb_spec (fst kv) key) as [E|E].
  - cbn [snd group_items]. rewrite List.length_app. cbn [List.length].
    fold (append_to groups key item).
    rewrite append_to_other.
    + rewrite !list_sum_cons. lia.
    + destruct (has_key groups key) eqn:Hk; [|reflexivity].
      apply has_key_in in Hk. congruence.
  - fold (append_to groups key item). rewrite !list_sum_cons.
    rewrite IH; [lia | assumption|].
    unfold has_key in *. cbn in H.
    destruct (String.eqb_spec (fst kv) key); [contradiction | exact H].
Qed.

Lemma append_to_in groups key item k g :
  In (k, g) (append_to groups key item) ->
  exists g0,
    In (k, g0) groups
    /\ g = (if String.eqb k key
            then mkGroup (link_group g0) (group_items g0 ++ [item])
            else g0).
Proof.
  unfold append_to. intros H. apply in_map_iff in H as ([k0 g0] & E & Hin).
  cbn [fst snd] in E. exists g0.
  destruct (String.eqb k0 key) eqn:Ek; injection E as <- <-.
  - rewrite Ek. now split.
  - rewrite Ek. now split.
Qed.

Lemma find_app {A : Type} (p : A -> bool) (l1 l2 : list A) :
  find p (l1 ++ l2)
  = match find p l1 with Some x => Some x | None => find p l2 end.
Proof.
  induction l1 as [|a l1 IH]; [reflexivity|].
  cbn. now destruct (p a).
Qed.

Lemma find_none_filter {A : Type} (p : A -> bool) (l : list A) :
  (forall x, In x l -> p x = false) -> find p l = None /\ filter p l = [].
Proof.
  induction l as [|a l IH]; intros H; [now split|].
  cbn. rewrite (H a (or_introl eq_refl)). apply IH.
  intros x Hx. apply H. now right.
Qed.

(** One turn of the loop. *)
Lemma place_keeps rows groups ungrouped row :
  grouped rows groups ungrouped ->
  grouped (rows ++ [row]) (fst (place (groups, ungrouped) row))
    (snd (place (groups, ungrouped) row)).
Proof.
  intros [Hu Hk Hp He Hc]. destruct row as [item [g|]]; cbn [place fst snd].
  - (* the item has a link group *)
    set (key := link_code g).
    assert (Hrow : forall k, with_code k (item, Some g) = String.eqb key k)
      by reflexivity.
    destruct (has_key groups key) eqn:Hkey; cbn [negb].
    + (* the key is in the dict *)
      constructor.
      * rewrite filter_app. cbn. now rewrite app_nil_r.
      * now rewrite append_to_keys.
      * intros k. rewrite has_key_in, append_to_keys, <- has_key_in, Hp.
        split.
        -- intros (r & Hr & Hw). exists r. split; [|assumption].
           apply in_or_app. now left.
        -- intros (r & Hr & Hw). apply in_app_or in Hr as [Hr|[<-|[]]].
           ++ eauto.
           ++ rewrite Hrow in Hw. apply String.eqb_eq in Hw. subst k.
              now apply Hp.
      * intros k g' Hin.
        apply append_to_in in Hin as (g0 & Hin0 & ->).
        destruct (He k g0 Hin0) as (Hf & Hl & Hi).
        unfold first_group in *. rewrite find_app, filter_app, map_app.
        destruct (find (with_code k) rows) as [r|] eqn:Ef; [|discriminate].
        destruct (String.eqb_spec k key) as [->|Hne]; cbn [link_group group_items].
        -- split; [assumption|]. split; [assumption|].
           cbn [filter]. rewrite Hrow, String.eqb_refl. cbn. now rewrite Hi.
        -- split; [assumption|]. split; [assumption|].
           cbn [filter]. rewrite Hrow.
           destruct (String.eqb_spec key k); [congruence|].
           cbn. now rewrite app_nil_r.
      * rewrite List.length_app, append_to_count by assumption.
        cbn [List.length]. lia.
    + (* a new key *)
      assert (Hfresh : forall r, In r rows -> with_code key r = false).
      { intros r Hr. destruct (with_code key r) eqn:E; [|reflexivity].
        assert (has_key groups key = true) by (apply Hp; eauto).
        congruence. }
      destruct (find_none_filter (with_code key) rows Hfresh) as [Hfn Hfl].
      assert (Happ : append_to (groups ++ [(key, mkGroup g [])]) key item
                     = groups ++ [(key, mkGroup g [item])]).
      { unfold append_to. rewrite map_app.
        fold (append_to groups key item).
        rewrite (append_to_other groups key item Hkey).
        cbn. now rewrite String.eqb_refl. }
      rewrite Happ. constructor.
      * rewrite filter_app. cbn. now rewrite app_nil_r.
      * rewrite map_app. cbn. apply NoDup_app_remove_l with (l := []).
        cbn. apply NoDup_Add with (a := key) (l := map fst groups).
        -- clear. induction (map fst groups) as [|x l IH]; cbn;
             constructor. exact IH.
        -- split; [assumption|]. intros Hin. apply has_key_in in Hin.
           congruence.
      * intros k. rewrite has_key_in, map_app, in_app_iff, <- has_key_in, Hp.
        cbn. split.
        -- intros [(r & Hr & Hw) | [<-|[]]].
           ++ exists r. split; [apply in_or_app; now left | assumption].
           ++ exists (item, Some g). split; [apply in_or_app; right; now left|].
              rewrite Hrow. apply String.eqb_refl.
        -- intros (r & Hr & Hw). apply in_app_or in Hr as [Hr|[<-|[]]].
           ++ left. eauto.
           ++ right. left. rewrite Hrow in Hw. now apply String.eqb_eq in Hw.
      * intros k g' Hin. apply in_app_or in Hin as [Hin|[E|[]]].
        -- destruct (He k g' Hin) as (Hf & Hl & Hi).
           unfold first_group in *. rewrite find_app, filter_app, map_app.
           destruct (find (with_code k) rows) as [r|] eqn:Ef; [|discriminate].
           split; [assumption|]. split; [assumption|].
           cbn [filter]. rewrite Hrow.
           destruct (String.eqb_spec key k) as [Ek|Ek].
           ++ exfalso.
              assert (has_key groups key = true).
              { apply has_key_in. apply in_map_iff. exists (k, g').
                split; [symmetry; exact Ek | exact Hin]. }
              congruence.
           ++ cbn. now rewrite app_nil_r.
        -- injection E as <- <-. cbn [link_group group_items].
           unfold first_group. rewrite find_app, Hfn, filter_app, Hfl.
           cbn [find filter app]. rewrite Hrow, String.eqb_refl.
           now split.
      * rewrite List.length_app. unfold grouped_count in *.
        rewrite map_app, list_sum_app. cbn. lia.
  - (* the item has no link group *)
    constructor.
    + rewrite filter_app, map_app. cbn. now rewrite Hu.
    + assumption.
    + intros k. rewrite Hp. split.
      * intros (r & Hr & Hw). exists r. split; [|assumption].
        apply in_or_app. now left.
      * intros (r & Hr & Hw). apply in_app_or in Hr as [Hr|[<-|[]]];
          [eauto | discriminate].
    + intros k g' Hin. destruct (He k g' Hin) as (Hf & Hl & Hi).
      unfold first_group in *. rewrite find_app, filter_app.
      destruct (find (with_code k) rows) as [r|]; [|discriminate].
      split; [assumption|]. split; [assumption|].
      cbn. now rewrite app_nil_r.
    + rewrite !List.length_app. cbn. lia.
Qed.

(** The groups of the price book.  After the loop, [ungrouped] lists the
    items without a link group in the order of the query; the keys of
    [groups] are distinct and are exactly the link codes that occur; the
    entry of a code lists, in the order of the query, all items whose link
    group has that code, and its link group is the one of the first such
    item (two link groups with one code are shown as one); and every item
    of the query is in exactly one of these lists, so that their lengths
    add up to the item count. *)
Theorem price_book_groups_partition_the_items :
  forall items : list Listed,
    grouped items (fst (group_by_link items)) (snd (group_by_link items)).
Proof.
  intros items. unfold group_by_link.
  induction items as [|row items IH] using rev_ind.
  - apply mkGrouped.
    + reflexivity.
    + constructor.
    + intros key. split; [discriminate | intros (r & [] & _)].
    + intros key g [].
    + reflexivity.
  - rewrite fold_left_app. cbn [fold_left].
    destruct (fold_left place items ([], [])) as [groups ungrouped].
    now apply place_keeps.
Qed.

(** ** The names the views redirect to *)

(** The name the views redirect to by default is not a name of urls.py.
    Without a [next] field in the form, [approve_change] and
    [apply_change] redirect to [dsd:pending_cost_changes], and so does
    [brdata_export] when nothing is due; urls.py declares nine names, all
    different, and that one is not among them: the worklist is declared as
    [pending_changes].  So [redirect] raises NoReverseMatch: without a
    [next] field [approve_change] and [apply_change] never return a
    response, whatever they have written before, and neither does
    [brdata_export] with nothing due.  The name [dsd:price_book], to which
    a submission redirects, is declared, and it reverses for every vendor
    code that is not empty and holds no slash. *)
Theorem default_redirect_is_not_a_url_name {lib : Installed} :
  (forall req : Request,
      post req "next" = None ->
      named (next_target req) = None
      /\ redirect (next_target req) [] = Raise NoReverseMatch
      /\ (forall k now st reply,
            snd (approve_change req k now st) <> Ok reply)
      /\ (forall k t_cost t_price t_applied st reply,
            snd (apply_change req k t_cost t_price t_applied st) <> Ok reply))
  /\ (forall (req : Request) (now : datetime) (st : Store),
        due_changes st (date_of now) = [] ->
        brdata_export req now st = (st, Raise NoReverseMatch))
  /\ NoDup (map name urlpatterns)
  /\ (exists p, named "dsd:pending_changes" = Some p
                /\ view p = "pending_changes"%string
                /\ route p = "pending/"%string)
  /\ (exists p, named "dsd:price_book" = Some p
                /\ view p = "price_book"%string)
  /\ (forall code : string,
        fits "str" code = true ->
        redirect "dsd:price_book" [("vendor_code", code)]%string
        = Ok (Redirect "dsd:price_book")).
Proof.
  split; [|split; [|split; [|split; [|split]]]].
  - intros req Hnext.
    assert (Hpage : forall msgs st,
               next_page req msgs st = (st, Raise NoReverseMatch)).
    { intros msgs st. rewrite next_page_reply. unfold next_target.
      now rewrite Hnext. }
    unfold next_target. rewrite Hnext.
    split; [reflexivity|]. split; [reflexivity|]. split.
    + intros k now st reply.
      unfold approve_change, and_then, query, lift, write, ret.
      destruct (change_with st k PENDING); [|discriminate].
      cbn [get_or_404]. destruct (method req); [now rewrite Hpage|].
      destruct (action_is req "approve");
        [|destruct (action_is req "reject")]; now rewrite Hpage.
    + intros k t1 t2 t3 st reply.
      unfold apply_change, and_then, query, lift, write, ret.
      destruct (change_with st k APPROVED) as [c|]; [|discriminate].
      cbn [get_or_404]. destruct (method req); [now rewrite Hpage|].
      destruct (item_of st (pc_item c)); [|discriminate].
      cbn [get_or_missing].
      destruct (apply_to_item c i _ t1 t2 t3) as [a|e];
        [now rewrite Hpage|].
      destruct e; try discriminate. now rewrite Hpage.
  - intros req now st Hdue. now apply export_nothing_due.
  - cbn. repeat constructor; cbn; intuition discriminate.
  - eexists. split; [reflexivity|]. split; reflexivity.
  - eexists. split; reflexivity.
  - intros code Hfits. unfold redirect.
    change (String.prefix "./" "dsd:price_book") with false.
    change (String.prefix "../" "dsd:price_book") with false.
    cbn [orb]. unfold reversible.
    change (String.prefix (app_name ++ ":") "dsd:price_book") with true.
    cbv iota.
    assert (reverses "dsd:price_book" [("vendor_code", code)]%string = true)
      as ->; [|reflexivity].
    unfold reverses.
    change (named "dsd:price_book")
      with (Some (mkPath "vendors/<str:vendor_code>/" "price_book"
                    "price_book")).
    cbn [route].
    change (params "vendors/<str:vendor_code>/")
      with [("str", "vendor_code")]%string.
    cbn -[fits]. now rewrite Hfits.
Qed.

Lemma default_redirect_is_not_a_url_name_witness :
  approve_change (Book.posted [("action", "approve")]%string) 7 1705325000
    (Book.shop PENDING)
  = (fst (approve_change (Book.posted [("action", "approve")]%string) 7
            1705325000 (Book.shop PENDING)),
     Raise NoReverseMatch)
  /\ change_with
       (fst (approve_change (Book.posted [("action", "approve")]%string) 7
               1705325000 (Book.shop PENDING))) 7 APPROVED <> None
  /\ redirect "dsd:price_book" [("vendor_code", "COKE")]%string
     = Ok (Redirect "dsd:price_book").
Proof.
  split; [|split].
  - destruct (approve_change (Book.posted [("action", "approve")]%string) 7
                1705325000 (Book.shop PENDING)) as [st' r] eqn:E.
    cbn [fst]. f_equal.
    pose proof (proj1 (proj2 (proj2
                  (proj1 default_redirect_is_not_a_url_name
                     (Book.posted [("action", "approve")]%string) eq_refl)))
                  7 1705325000 (Book.shop PENDING)) as Hnever.
    rewrite E in Hnever. cbn [snd] in Hnever.
    destruct r as [reply|e]; [now contradiction (Hnever reply)|].
    vm_compute in E. now injection E as _ <-.
  - vm_compute. discriminate.
  - apply (proj2 (proj2 (proj2 (proj2 (proj2
             default_redirect_is_not_a_url_name))))). reflexivity.
Defined.

(* ================================================================= *)
(** ** import_dsd_master.py: amounts *)

Lemma parse_rev_onto_all p s : forall acc,
  Str.all p s = true -> Str.all p acc = true ->
  Str.all p (Parse.rev_onto s acc) = true.
Proof.
  induction s as [|a s IH]; intros acc Hs Hacc; cbn in *; [assumption|].
  apply andb_prop in Hs as [Ha Hs]. apply IH; [assumption|].
  cbn. now rewrite Ha, Hacc.
Qed.

Lemma parse_lstrip_all p s :
  Str.all p s = true -> Str.all p (Parse.lstrip s) = true.
Proof.
  induction s as [|a s IH]; intros Hs; cbn in *; [reflexivity|].
  destruct (Parse.is_space a); [|assumption].
  apply andb_prop in Hs as [_ Hs]. now apply IH.
Qed.

Lemma parse_strip_all p s :
  Str.all p s = true -> Str.all p (Parse.strip s) = true.
Proof.
  intros Hs. unfold Parse.strip.
  repeat first [apply parse_rev_onto_all | apply parse_lstrip_all];
    auto.
Qed.

Lemma parse_sign_all p s :
  Str.all p s = true -> Str.all p (snd (Parse.sign s)) = true.
Proof.
  destruct s as [|a s]; [auto|]. intros Hs.
  assert (Ht : Str.all p s = true) by (cbn in Hs; now apply andb_prop in Hs).
  unfold Parse.sign.
  destruct a as [[] [] [] [] [] [] [] []]; cbn [snd]; assumption.
Qed.

(** A letter is no character of an amount. *)
Lemma amount_char_is_no_letter a l :
  ImportDsdMaster.is_amount_char a = true ->
  (l = "i" \/ l = "n")%char ->
  Ascii.eqb (Parse.lower a) l = false.
Proof.
  intros Ha [-> | ->];
    destruct a as [[] [] [] [] [] [] [] []]; try discriminate Ha; reflexivity.
Qed.

(** Text made of digits, points and minus signs reads as a finite number,
    or as none. *)
Lemma parse_amount t :
  Str.all ImportDsdMaster.is_amount_char t = true ->
  Parse.parse_numeric t = None
  \/ exists a e, Parse.parse_numeric t = Some (Fin a e).
Proof.
  intros Ht. unfold Parse.parse_numeric.
  pose proof (parse_sign_all _ _ (parse_strip_all _ _ Ht)) as Hs.
  destruct (Parse.sign (Parse.strip t)) as [neg s1]. cbn [snd] in Hs.
  assert (Hinf : (String.eqb (Parse.map_lower s1) "inf"
                  || String.eqb (Parse.map_lower s1) "infinity")%bool = false
                 /\ String.eqb (Parse.map_lower s1) "nan" = false).
  { destruct s1 as [|a s1]; [now split|].
    cbn in Hs. apply andb_prop in Hs as [Ha _].
    cbn [Parse.map_lower String.eqb].
    rewrite (amount_char_is_no_letter a "i" Ha) by now left.
    rewrite (amount_char_is_no_letter a "n" Ha) by now right.
    now split. }
  destruct Hinf as [-> ->].
  destruct (Parse.digits s1 0 0) as [[i ni] s2].
  destruct (match s2 with
            | String "."%char s2' => Parse.digits s2' i 0
            | _ => (i, 0, s2)
            end) as [[c nf] s3].
  destruct (ni + nf =? 0); [now left|].
  destruct s3 as [|a s4]; [right; eauto|].
  destruct (Ascii.eqb (Parse.lower a) "e"); [|now left].
  destruct (Parse.sign s4) as [eneg s5].
  destruct (Parse.digits s5 0 0) as [[x nx] s6].
  destruct (nx =? 0); [now left|].
  destruct s6; [right; eauto | now left].
Qed.

(** What [quantize] returns for a finite number has the exponent asked
    for and a coefficient of at most [prec] digits. *)
Lemma quantize_finite a e t q :
  Dec.quantize (Fin a e) t = Ok q ->
  exists c, q = Fin c t /\ Z.abs c < 10 ^ prec.
Proof.
  unfold Dec.quantize.
  destruct (a =? 0).
  { intros [= <-]. exists 0. split; [reflexivity|]. reflexivity. }
  destruct (prec <? e + ndigits (Z.abs a) - 1 - t + 1); [discriminate|].
  set (c' := if t <=? e then a * 10 ^ (e - t)
             else with_sign a (round_half_even (Z.abs a) (t - e))).
  destruct (Z.ltb_spec prec (ndigits (Z.abs c'))) as [|Hle]; [discriminate|].
  intros [= <-]. exists c'. split; [reflexivity|].
  destruct (Z.eq_dec c' 0) as [-> | Hnz]; [reflexivity|].
  apply ndigits_le; [lia | assumption].
Qed.

Lemma money_cents v :
  exists c, ImportDsdMaster.money v = Fin c (-2) /\ Z.abs c < 10 ^ prec.
Proof.
  assert (Hzero : exists c, ImportDsdMaster.zero_money = Fin c (-2)
                            /\ Z.abs c < 10 ^ prec).
  { exists 0. split; reflexivity. }
  destruct v as [s|]; [|exact Hzero].
  assert (Hrun : ImportDsdMaster.money (Some s)
             = match (d <- str_decimal
                             (PStr (Str.keep ImportDsdMaster.is_amount_char s)) ;;
                      Dec.quantize d (-2)) with
               | Ok q => q
               | Raise _ => ImportDsdMaster.zero_money
               end).
  { destruct s; reflexivity. }
  rewrite Hrun. cbn [str_decimal].
  destruct (parse_amount (Str.keep ImportDsdMaster.is_amount_char s)
              (keep_all _ _)) as [-> | (a & e & ->)];
    [exact Hzero|].
  cbn [Py.bind].
  destruct (Dec.quantize (Fin a e) (-2)) as [q|] eqn:Hq; [|exact Hzero].
  apply quantize_finite in Hq as (c & -> & Hc). now exists c.
Qed.

(** [money] never fails: whatever the cell holds, it returns an amount
    with two places and a coefficient of at most 28 digits, never an
    infinity or a NaN; a cell whose text does not read as a number counts
    as 0.00.  The amount depends only on the digits, points and minus
    signs of the text: a currency sign, a thousands separator, spaces,
    letters and brackets change nothing.  A number written with at most
    two places is kept exactly, as long as it has no more than 28 digits
    in cents. *)
Theorem money_reads_the_digits_as_cents :
  (forall v : option string,
     exists c, ImportDsdMaster.money v = Fin c (-2) /\ Z.abs c < 10 ^ 28)
  /\ (forall s : string,
        ImportDsdMaster.money (Some s)
        = ImportDsdMaster.money
            (Some (Str.keep ImportDsdMaster.is_amount_char s)))
  /\ (forall s : string,
        Parse.parse_numeric (Str.keep ImportDsdMaster.is_amount_char s) = None ->
        ImportDsdMaster.money (Some s) = Fin 0 (-2))
  /\ (forall (s : string) (a e : Z),
        Parse.parse_numeric (Str.keep ImportDsdMaster.is_amount_char s)
        = Some (Fin a e) ->
        -2 <= e -> Z.abs a * 10 ^ (e + 2) < 10 ^ 28 ->
        ImportDsdMaster.money (Some s) = Fin (a * 10 ^ (e + 2)) (-2)).
Proof.
  assert (Hrun : forall s,
             ImportDsdMaster.money (Some s)
             = match (d <- str_decimal
                             (PStr (Str.keep ImportDsdMaster.is_amount_char s)) ;;
                      Dec.quantize d (-2)) with
               | Ok q => q
               | Raise _ => ImportDsdMaster.zero_money
               end).
  { intros [|a s]; reflexivity. }
  split; [|split; [|split]].
  - intros v. exact (money_cents v).
  - intros s. rewrite !Hrun.
    now rewrite (keep_fixed _ (Str.keep ImportDsdMaster.is_amount_char s))
      by apply keep_all.
  - intros s Hnone. rewrite Hrun. cbn [str_decimal]. now rewrite Hnone.
  - intros s a e Hsome He Hfit. rewrite Hrun. cbn [str_decimal].
    rewrite Hsome. cbn [Py.bind]. unfold Dec.quantize.
    destruct (Z.eqb_spec a 0) as [-> | Hnz]; [now rewrite Z.mul_0_l|].
    assert (Hpos : 0 < Z.abs a) by lia.
    destruct (ndigits_spec _ Hpos) as (Hn1 & Hlo & _).
    assert (Hprec : prec = 28) by reflexivity.
    assert (Hd : ndigits (Z.abs a) - 1 + (e + 2) < 28).
    { apply (Z.pow_lt_mono_r_iff 10); [lia | lia |].
      rewrite Z.pow_add_r by lia.
      eapply Z.le_lt_trans; [|exact Hfit].
      apply Z.mul_le_mono_nonneg_r; [apply Z.pow_nonneg; lia | exact Hlo]. }
    destruct (Z.ltb_spec prec (e + ndigits (Z.abs a) - 1 - -2 + 1));
      [lia|].
    destruct (Z.leb_spec (-2) e); [|lia].
    replace (e - -2) with (e + 2) by lia.
    assert (Hc : ndigits (Z.abs (a * 10 ^ (e + 2))) <= prec).
    { assert (0 < 10 ^ (e + 2)) by (apply Z.pow_pos_nonneg; lia).
      rewrite Z.abs_mul, (Z.abs_eq (10 ^ (e + 2))) by lia.
      apply ndigits_le; [nia | rewrite Hprec; exact Hfit]. }
    destruct (Z.ltb_spec prec (ndigits (Z.abs (a * 10 ^ (e + 2)))));
      [lia | reflexivity].
Qed.

Lemma money_reads_the_digits_as_cents_witness :
  ImportDsdMaster.money (Some "$1,234.50"%string) = Fin 123450 (-2)
  /\ ImportDsdMaster.money (Some "12"%string) = Fin 1200 (-2)
  /\ ImportDsdMaster.money (Some "n/a"%string) = Fin 0 (-2).
Proof.
  split; [|split].
  - exact (proj2 (proj2 (proj2 money_reads_the_digits_as_cents))
             "$1,234.50"%string 123450 (-2) eq_refl
             ltac:(discriminate) eq_refl).
  - exact (proj2 (proj2 (proj2 money_reads_the_digits_as_cents))
             "12"%string 12 0 eq_refl ltac:(discriminate) eq_refl).
  - exact (proj1 (proj2 (proj2 money_reads_the_digits_as_cents))
             "n/a"%string eq_refl).
Defined.

(* ================================================================= *)
(** ** import_dsd_master.py: the item made of a row *)

Lemma pint_at_least v d : 1 <= d -> 1 <= ImportDsdMaster.pint v d.
Proof.
  intros Hd. unfold ImportDsdMaster.pint.
  destruct v as [s|]; [|assumption].
  destruct (ImportDsdMaster.filled (Some s)); [|assumption].
  destruct (ImportDsdMaster.whole s); [lia | assumption].
Qed.

Lemma cmp_fin_same_exponent a b e :
  cmp_fin a e b e = (a ?= b).
Proof.
  unfold cmp_fin. rewrite Z.min_id, Z.sub_diag. cbn [Z.pow].
  now rewrite !Z.mul_1_r.
Qed.

Lemma sub_same_exponent a b e :
  Z.abs (a - b) < 10 ^ prec ->
  Dec.sub (Fin a e) (Fin b e) = Ok (Fin (a - b) e).
Proof.
  intros H. unfold Dec.sub, Dec.neg, Dec.add.
  rewrite Z.min_id, Z.sub_diag. cbn [Z.pow]. rewrite !Z.mul_1_r.
  replace (a + - b) with (a - b) by lia.
  now rewrite fix_prec_small.
Qed.

Lemma quantize_same_exponent c e :
  Z.abs c < 10 ^ prec -> Dec.quantize (Fin c e) e = Ok (Fin c e).
Proof.
  intros H. unfold Dec.quantize.
  destruct (Z.eqb_spec c 0) as [-> | Hnz]; [reflexivity|].
  assert (Hn : ndigits (Z.abs c) <= prec) by (apply ndigits_le; lia).
  destruct (Z.ltb_spec prec (e + ndigits (Z.abs c) - 1 - e + 1)); [lia|].
  rewrite Z.leb_refl, Z.sub_diag. cbn [Z.pow]. rewrite Z.mul_1_r.
  destruct (Z.ltb_spec prec (ndigits (Z.abs c))); [lia | reflexivity].
Qed.

(** The allowance of two amounts in cents. *)
Lemma allowance_of_cents cc net :
  Z.abs cc < 10 ^ prec -> Z.abs net < 10 ^ prec ->
  ImportDsdMaster.allowance_of (Fin cc (-2)) (Fin net (-2))
  = Ok (Fin (if ((0 <? net) && (net <? cc))%bool then cc - net else 0) (-2)).
Proof.
  intros Hcc Hnet. unfold ImportDsdMaster.allowance_of, Dec.gt, of_int.
  cbn [Dec.compare Py.bind]. rewrite cmp_fin_zero, cmp_fin_same_exponent.
  rewrite Z.ltb_antisym, Z.leb_compare.
  destruct (Z.compare_spec net 0) as [H0|H0|H0]; cbn [negb andb Py.bind];
    try reflexivity.
  rewrite (Z.ltb_compare net cc).
  destruct (Z.compare_spec net cc) as [H1|H1|H1]; cbn [Py.bind];
    try reflexivity.
  rewrite sub_same_exponent by lia. cbn [Py.bind].
  apply quantize_same_exponent. lia.
Qed.

(** The item that the import makes of a row has the costs of the row.
    Its case cost is the amount of "Case Cost", in cents; its allowance is
    the case cost less "Net Case Cost" when that net cost is positive and
    below the case cost, and 0.00 otherwise, so it is never negative; and
    its [net_case_cost] is then the net cost of the row, otherwise the
    case cost.  Case pack and price quantity are at least 1, whatever the
    cells hold, so that [unit_cost] is a Decimal: it is never [None] and
    the division by the case pack never fails.  The retail price is
    [None] or an amount other than zero, and both dates of change are the
    same. *)
Theorem imported_item_has_the_costs_of_its_row :
  forall (row : ImportDsdMaster.Row) (v upc : string) (lg : option string)
         (d : ImportDsdMaster.Draft) (pk : Z),
    ImportDsdMaster.draft_of row v lg upc = ImportDsdMaster.Goes d ->
    exists cc net : Z,
      ImportDsdMaster.money (ImportDsdMaster.get row "Case Cost")
      = Fin cc (-2)
      /\ ImportDsdMaster.money (ImportDsdMaster.get row "Net Case Cost")
         = Fin net (-2)
      /\ ImportDsdMaster.d_case_cost d = Fin cc (-2)
      /\ ImportDsdMaster.d_allowance d
         = Fin (if ((0 <? net) && (net <? cc))%bool then cc - net else 0) (-2)
      /\ net_case_cost (ImportDsdMaster.instance pk d)
         = Ok (PDec (Fin (if ((0 <? net) && (net <? cc))%bool
                          then net else cc) (-2)))
      /\ 1 <= ImportDsdMaster.d_case_pack d
      /\ 1 <= ImportDsdMaster.d_price_qty d
      /\ (exists c e : Z,
            unit_cost (ImportDsdMaster.instance pk d) = Ok (PDec (Fin c e)))
      /\ (ImportDsdMaster.d_retail_price d = None
          \/ exists p : Z,
               p <> 0
               /\ ImportDsdMaster.d_retail_price d = Some (Fin p (-2)))
      /\ ImportDsdMaster.d_last_price_change d
         = ImportDsdMaster.d_last_cost_change d.
Proof.
  intros row v upc lg d pk. unfold ImportDsdMaster.draft_of.
  destruct (money_cents (ImportDsdMaster.get row "Case Cost"))
    as (cc & Ecc & Hcc).
  destruct (money_cents (ImportDsdMaster.get row "Net Case Cost"))
    as (net & Enet & Hnet).
  destruct (money_cents (ImportDsdMaster.get row "Price"))
    as (p & Ep & Hp).
  rewrite Ecc, Enet, Ep, (allowance_of_cents cc net Hcc Hnet).
  destruct (ImportDsdMaster.stripped (ImportDsdMaster.get row "Vendor #"));
    [|discriminate].
  destruct (ImportDsdMaster.stripped
              (ImportDsdMaster.get row "Long Description")); [|discriminate].
  destruct (ImportDsdMaster.stripped (ImportDsdMaster.get row "Size Alpha"));
    [|discriminate].
  destruct (ImportDsdMaster.stripped
              (ImportDsdMaster.get row "Vendor Comments")); [|discriminate].
  destruct (ImportDsdMaster.stripped (ImportDsdMaster.get row "NOTES"));
    [|discriminate].
  intros [= <-]. exists cc, net.
  cbn [ImportDsdMaster.d_case_cost ImportDsdMaster.d_allowance
       ImportDsdMaster.d_case_pack ImportDsdMaster.d_price_qty
       ImportDsdMaster.d_retail_price ImportDsdMaster.d_last_price_change
       ImportDsdMaster.d_last_cost_change].
  set (allow := if ((0 <? net) && (net <? cc))%bool then cc - net else 0).
  set (left := if ((0 <? net) && (net <? cc))%bool then net else cc).
  assert (Hleft : cc - allow = left /\ Z.abs left < 10 ^ prec).
  { unfold allow, left.
    destruct ((0 <? net) && (net <? cc))%bool; split; lia. }
  destruct Hleft as [Eleft Hleft].
  pose proof (pint_at_least (ImportDsdMaster.get row "Case Pack") 1
                ltac:(lia)) as Hpack.
  assert (Hnetcost :
            py_sub (PDec (Fin cc (-2))) (PDec (Fin allow (-2)))
            = Ok (PDec (Fin left (-2)))).
  { cbn [py_sub]. rewrite sub_same_exponent by (rewrite Eleft; exact Hleft).
    cbn [Py.bind]. now rewrite Eleft. }
  repeat split; try reflexivity.
  - exact Hnetcost.
  - exact Hpack.
  - apply pint_at_least. lia.
  - rewrite unit_cost_of_pack
      by (cbn [ImportDsdMaster.instance case_pack
               ImportDsdMaster.d_case_pack]; lia).
    cbn [ImportDsdMaster.instance case_cost allowance case_pack
         ImportDsdMaster.d_case_cost ImportDsdMaster.d_allowance
         ImportDsdMaster.d_case_pack].
    rewrite Hnetcost. cbn [Py.bind py_truediv]. unfold of_int.
    destruct (div_finite left (-2)
                (ImportDsdMaster.pint (ImportDsdMaster.get row "Case Pack") 1)
                0 ltac:(lia)) as (c & e & ->).
    cbn [Py.bind]. eauto.
  - cbn [Dec.truthy]. destruct (Z.eqb_spec p 0) as [-> | Hnz]; cbn [negb].
    + now left.
    + right. exists p. now split.
Qed.

Lemma imported_item_has_the_costs_of_its_row_witness :
  exists d : ImportDsdMaster.Draft,
    ImportDsdMaster.draft_of Sheet.cola "COKE" (Some "COKE|COLA"%string)
      "049000028904" = ImportDsdMaster.Goes d
    /\ ImportDsdMaster.d_allowance d = Fin 120 (-2)
    /\ net_case_cost (ImportDsdMaster.instance 1 d)
       = Ok (PDec (Fin 1080 (-2)))
    /\ 1 <= ImportDsdMaster.d_case_pack d
    /\ exists c e : Z,
         unit_cost (ImportDsdMaster.instance 1 d) = Ok (PDec (Fin c e)).
Proof.
  eexists. split; [reflexivity|].
  destruct (imported_item_has_the_costs_of_its_row Sheet.cola
              "COKE" "049000028904" (Some "COKE|COLA"%string) _ 1 eq_refl)
    as (cc & net & Ecc & Enet & _ & Hallow & Hnetcost & Hpack & _ & Hunit & _).
  vm_compute in Ecc. vm_compute in Enet.
  injection Ecc as <-. injection Enet as <-.
  split; [exact Hallow|]. split; [exact Hnetcost|].
  split; [exact Hpack | exact Hunit].
Defined.

(* ================================================================= *)
(** ** import_dsd_master.py: the loop over the rows *)

Section Loop.

Import ImportDsdMaster Loaded.

Variable db : Database.

Lemma not_in_codes {A : Type} (f : A -> string) (v : string) (l : list A) :
  existsb (fun x => String.eqb (f x) v) l = false -> ~ In v (map f l).
Proof.
  induction l as [|x l IH]; cbn; [tauto|].
  intros H. apply orb_false_elim in H as [Hx Hl].
  intros [E | Hin]; [|now apply IH].
  rewrite E, String.eqb_refl in Hx. discriminate.
Qed.

Lemma in_codes {A : Type} (f : A -> string) (v : string) (l : list A) :
  existsb (fun x => String.eqb (f x) v) l = true -> In v (map f l).
Proof.
  intros H. apply existsb_exists in H as (x & Hin & E).
  apply String.eqb_eq in E. subst v. now apply in_map.
Qed.

Lemma nodup_snoc {A : Type} (x : A) (l : list A) :
  NoDup l -> ~ In x l -> NoDup (l ++ [x]).
Proof.
  induction 1 as [|y l Hy Hl IH]; intros Hx; cbn.
  - constructor; [tauto | constructor].
  - constructor.
    + intros Hin. apply in_app_or in Hin as [Hin | [E | []]]; [tauto|].
      apply Hx. now left.
    + apply IH. intros Hin. apply Hx. now right.
Qed.

Lemma in_map_snoc {A B : Type} (f : A -> B) (y : B) (l : list A) (x : A) :
  In y (map f l) -> In y (map f (l ++ [x])).
Proof. intros H. rewrite map_app. apply in_or_app. now left. Qed.

(** *** flush *)

Lemma flush_nothing st : buf st = [] -> flush db st = st.
Proof. intros H. unfold flush. now rewrite H. Qed.

Lemma flush_something st :
  buf st <> [] ->
  exists ok : bool,
    flush db st
    = mkLoading (vc st) (lgc st) [] (batches st ++ [(buf st, ok)])
        (count (stats st) 0 0
           (if ok then Z.of_nat (List.length (buf st)) else 0) 0
           (if ok then 0 else Z.of_nat (List.length (buf st)))).
Proof.
  intros H. unfold flush. destruct (buf st) as [|d l] eqn:E; [easy|].
  destruct (takes_items db st (d :: l)); [now exists true | now exists false].
Qed.

Lemma handed_snoc ok ok' st v g b l s :
  handed ok' (mkLoading v g b (batches st ++ [(l, ok)]) s)
  = handed ok' st
    + (if Bool.eqb ok ok' then Z.of_nat (List.length l) else 0).
Proof.
  unfold handed. cbn [batches]. rewrite filter_app, map_app, list_sum_app.
  cbn [filter snd]. destruct (Bool.eqb ok ok'); cbn; lia.
Qed.

Lemma items_flush st : items (flush db st) = items st.
Proof.
  destruct (buf st) as [|d l] eqn:E.
  - now rewrite flush_nothing.
  - destruct (flush_something st) as (ok & ->); [now rewrite E|].
    unfold items. cbn [batches buf]. rewrite map_app, concat_app. cbn.
    now rewrite !app_nil_r.
Qed.

Lemma flush_tables st :
  vc (flush db st) = vc st /\ lgc (flush db st) = lgc st.
Proof.
  destruct (buf st) as [|d l] eqn:E.
  - now rewrite flush_nothing.
  - destruct (flush_something st) as (ok & ->); [now rewrite E|]. now split.
Qed.

(** After [flush()] the buffer is empty and its items are counted. *)
Lemma flush_counts n st (most : nat) :
  s_sk (stats st) + s_i (stats st) + s_err (stats st)
  + Z.of_nat (List.length (buf st)) = n ->
  s_i (stats st) = handed true st ->
  s_err (stats st) = handed false st ->
  (List.length (buf st) <= most)%nat ->
  Forall (fun b => (1 <= List.length (fst b) <= most)%nat) (batches st) ->
  let st' := flush db st in
  buf st' = []
  /\ s_sk (stats st') + s_i (stats st') + s_err (stats st') = n
  /\ s_i (stats st') = handed true st'
  /\ s_err (stats st') = handed false st'
  /\ s_sk (stats st') = s_sk (stats st)
  /\ s_v (stats st') = s_v (stats st)
  /\ s_lg (stats st') = s_lg (stats st)
  /\ Forall (fun b => (1 <= List.length (fst b) <= most)%nat) (batches st')
  /\ (batches st' = batches st
      \/ exists ok, batches st' = (batches st ++ [(buf st, ok)])%list).
Proof.
  intros Hn Hi He Hbuf Hfull st'. unfold st'. clear st'.
  destruct (buf st) as [|d l] eqn:E.
  - rewrite flush_nothing by assumption. rewrite E. cbn in Hn.
    repeat split; try assumption; try lia. now left.
  - destruct (flush_something st) as (ok & ->); [now rewrite E|].
    rewrite E in *. cbn [buf stats batches count s_sk s_i s_err s_v s_lg].
    rewrite !handed_snoc.
    repeat split; try (destruct ok; cbn [Bool.eqb]; lia).
    + apply Forall_app. split; [assumption|].
      constructor; [|constructor]. cbn [fst]. cbn in *. lia.
    + right. now exists ok.
Qed.

(** *** The counters *)

Ltac counting :=
  constructor; unfold handed in *;
  cbn [skip batches buf vc lgc stats count s_sk s_i s_err s_v s_lg] in *;
  try assumption; try lia.

Lemma skip_counted n st : counted n st -> counted (n + 1) (skip st).
Proof.
  intros []. counting.
Qed.

Lemma make_vendor_counted n st v st' :
  counted n st -> make_vendor db st v = Goes st' -> counted n st'.
Proof.
  intros H. unfold make_vendor.
  destruct (in_vc st v); [now intros [= <-]|].
  destruct (takes_vendor db st _); [|discriminate].
  intros [= <-]. destruct H. counting.
  rewrite length_app. cbn [List.length]. lia.
Qed.

Lemma make_group_counted n st row v st' lg :
  counted n st -> make_group db st row v = Goes (st', lg) -> counted n st'.
Proof.
  intros H. unfold make_group.
  destruct (stripped (get row "Link Code")) as [lc|]; [|discriminate].
  destruct (String.eqb lc ""); [now intros [= <- <-]|].
  destruct (in_lgc st _); [now intros [= <- <-]|].
  destruct (stripped (get row "Link Group Name")) as [name|]; [|discriminate].
  destruct (takes_group db st _); [|discriminate].
  intros [= <- <-]. destruct H. counting.
  rewrite length_app. cbn [List.length]. lia.
Qed.

Lemma append_counted n st item :
  counted n st ->
  let st3 := mkLoading (vc st) (lgc st) (buf st ++ [item]) (batches st)
               (stats st) in
  counted (n + 1)
    (if (500 <=? List.length (buf st3))%nat then flush db st3 else st3).
Proof.
  intros H st3. destruct H.
  assert (Hlen : List.length (buf st3) = S (List.length (buf st))).
  { unfold st3. cbn [buf]. rewrite length_app. cbn. lia. }
  destruct (Nat.leb_spec 500 (List.length (buf st3))) as [Hfull | Hroom].
  - destruct (flush_something st3) as (ok & ->).
    { unfold st3. cbn [buf]. now destruct (buf st). }
    assert (E500 : List.length (buf st3) = 500%nat) by lia.
    constructor; cbn [buf stats batches count s_sk s_i s_err s_v s_lg vc lgc];
      rewrite ?handed_snoc, ?E500;
      try (unfold st3; cbn [stats batches vc lgc]; fold (handed true st);
           fold (handed false st));
      try (destruct ok; cbn [Bool.eqb]; cbn; lia).
    + destruct ok; cbn [Bool.eqb]; unfold handed in *; cbn [batches]; lia.
    + destruct ok; cbn [Bool.eqb]; unfold handed in *; cbn [batches]; lia.
    + apply Forall_app. split; [assumption|].
      constructor; [exact E500 | constructor].
  - constructor; try assumption; try lia.
    rewrite Hlen. unfold st3. cbn [stats]. lia.
Qed.

(** *** What is made refers to what was made before *)

Lemma linked_same st st' :
  vc st' = vc st -> lgc st' = lgc st -> items st' = items st ->
  linked st -> linked st'.
Proof.
  intros Ev Eg Ei [].
  constructor; unfold vendor_made, group_made, item_made in *;
    rewrite ?Ev, ?Eg, ?Ei; assumption.
Qed.

Lemma make_vendor_linked st v st' :
  v <> ""%string -> v <> "#REF!"%string ->
  linked st -> make_vendor db st v = Goes st' ->
  linked st' /\ In v (map nv_code (vc st')) /\ items st' = items st.
Proof.
  intros Hv Href H. unfold make_vendor.
  destruct (in_vc st v) eqn:Hin.
  { intros [= <-]. split; [assumption|]. split; [|reflexivity].
    now apply in_codes. }
  destruct (takes_vendor db st _); [|discriminate].
  intros [= <-]. destruct H. split; [|split].
  - constructor; cbn [vc lgc].
    + rewrite map_app. apply nodup_snoc; [assumption|].
      now apply not_in_codes.
    + apply Forall_app. split; [assumption|].
      constructor; [|constructor]. repeat split; assumption.
    + assumption.
    + eapply Forall_impl; [|exact l_groups0].
      intros g (Hk & Hc & Hn & Hi). repeat split; try assumption.
      now apply in_map_snoc.
    + unfold items in *. cbn [batches buf].
      eapply Forall_impl; [|exact l_items0].
      intros d (Hi & Hu & Hl). repeat split; try assumption.
      now apply in_map_snoc.
  - cbn [vc]. rewrite map_app. apply in_or_app. right. now left.
  - reflexivity.
Qed.

Lemma make_group_linked st row v st' lg :
  linked st -> In v (map nv_code (vc st)) ->
  make_group db st row v = Goes (st', lg) ->
  linked st' /\ vc st' = vc st /\ items st' = items st
  /\ match lg with
     | Some k =>
         In k (map nl_key (lgc st'))
         /\ exists lc : string, k = (v ++ "|" ++ lc)%string
     | None => True
     end.
Proof.
  intros H Hv. unfold make_group.
  destruct (stripped (get row "Link Code")) as [lc|]; [|discriminate].
  destruct (String.eqb_spec lc "") as [|Hlc]; [now intros [= <- <-]|].
  destruct (in_lgc st _) eqn:Hin.
  { intros [= <- <-]. split; [assumption|]. split; [reflexivity|].
    split; [reflexivity|]. split; [now apply in_codes | now exists lc]. }
  destruct (stripped (get row "Link Group Name")) as [name|]; [|discriminate].
  destruct (takes_group db st _); [|discriminate].
  intros [= <- <-]. destruct H.
  split; [|split; [reflexivity|split; [reflexivity|split]]].
  - constructor; cbn [vc lgc]; try assumption.
    + rewrite map_app. apply nodup_snoc; [assumption|].
      now apply not_in_codes.
    + apply Forall_app. split; [assumption|].
      constructor; [|constructor].
      split; [reflexivity|]. split; [assumption|]. split; [|assumption].
      cbn [nl_name]. destruct (String.eqb_spec name ""); assumption.
    + unfold items in *. cbn [batches buf].
      eapply Forall_impl; [|exact l_items0].
      intros d (Hi & Hu & Hl).
      split; [assumption|]. split; [assumption|].
      destruct (d_link_group d); [|exact I].
      destruct Hl as [Hl Hk]. split; [now apply in_map_snoc | assumption].
  - cbn [lgc]. rewrite map_app. apply in_or_app. right. now left.
  - now exists lc.
Qed.

Lemma draft_of_keys row v lg upc d :
  draft_of row v lg upc = Goes d ->
  d_vendor d = v /\ d_link_group d = lg /\ d_upc d = upc.
Proof.
  unfold draft_of.
  destruct (allowance_of _ _); [|discriminate].
  repeat match goal with
         | |- context [stripped ?c] => destruct (stripped c); [|discriminate]
         end.
  intros [= <-]. now repeat split.
Qed.

(** Only a cell that is [None] stops the making of an item. *)
Lemma draft_of_stops row v lg upc why :
  draft_of row v lg upc = Stops why -> why = AttributeError.
Proof.
  unfold draft_of.
  destruct (money_cents (get row "Case Cost")) as (cc & -> & Hcc).
  destruct (money_cents (get row "Net Case Cost")) as (net & -> & Hnet).
  rewrite (allowance_of_cents cc net Hcc Hnet).
  repeat match goal with
         | |- context [stripped ?c] =>
             let E := fresh "E" in
             destruct (stripped c) eqn:E;
             [|destruct c; [discriminate E|]; injection E as <-;
               now intros [= <-]]
         end.
  discriminate.
Qed.

Lemma digits_are_normalized (s : string) :
  Str.keep Str.isdecimal s <> ""%string ->
  normalize_upc (Some (Str.keep Str.isdecimal s))
  = Some (Str.keep Str.isdecimal s).
Proof.
  intros Hne. rewrite normalize_upc_digits.
  rewrite (keep_fixed _ (Str.keep Str.isdecimal s)) by apply keep_all.
  now destruct (String.eqb_spec (Str.keep Str.isdecimal s) "").
Qed.

(** *** One row, and all of them *)

Lemma load_row_sound n st row st' :
  counted n st -> linked st -> load_row db st row = Goes st' ->
  counted (n + 1) st' /\ linked st'.
Proof.
  intros Hc Hl. unfold load_row.
  destruct (stripped (get row "Vendor Code")) as [v|]; [|discriminate].
  destruct (String.eqb_spec v "") as [|Hv].
  { cbn [orb]. intros [= <-]. split; [now apply skip_counted|].
    now apply (linked_same st). }
  destruct (String.eqb_spec v "#REF!") as [|Href].
  { cbn [orb]. intros [= <-]. split; [now apply skip_counted|].
    now apply (linked_same st). }
  cbn [orb].
  destruct (make_vendor db st v) as [st1|] eqn:E1; [|discriminate].
  pose proof (make_vendor_counted n st v st1 Hc E1) as Hc1.
  destruct (make_vendor_linked st v st1 Hv Href Hl E1) as (Hl1 & Hin1 & _).
  destruct (make_group db st1 row v) as [[st2 lg]|] eqn:E2; [|discriminate].
  pose proof (make_group_counted n st1 row v st2 lg Hc1 E2) as Hc2.
  destruct (make_group_linked st1 row v st2 lg Hl1 Hin1 E2)
    as (Hl2 & Ev2 & _ & Hlg).
  set (upc := upc_of row).
  destruct (String.eqb_spec upc "") as [|Hupc].
  { intros [= <-]. split; [now apply skip_counted|].
    now apply (linked_same st2). }
  destruct (draft_of row v lg upc) as [item|] eqn:Ed; [|discriminate].
  destruct (draft_of_keys _ _ _ _ _ Ed) as (Dv & Dl & Du).
  set (st3 := mkLoading (vc st2) (lgc st2) (buf st2 ++ [item]) (batches st2)
                (stats st2)).
  assert (Hl3 : linked st3).
  { destruct Hl2. constructor; try assumption.
    unfold items, st3 in *. cbn [batches buf]. rewrite app_assoc.
    apply Forall_app. split; [exact l_items0|].
    constructor; [|constructor]. unfold item_made. cbn [vc lgc].
    rewrite Dv, Dl, Du. split; [now rewrite Ev2|].
    split; [now apply (digits_are_normalized (Str.strip (str_of (get row "UPC"))))
           | exact Hlg]. }
  intros H. split.
  - pose proof (append_counted n st2 item Hc2) as Ha. cbv zeta in Ha.
    fold st3 in Ha.
    destruct (500 <=? List.length (buf st3))%nat; now injection H as <-.
  - destruct (500 <=? List.length (buf st3))%nat; injection H as <-;
      [|assumption].
    apply (linked_same st3); [apply flush_tables | apply flush_tables
                             | apply items_flush | assumption].
Qed.

Lemma load_row_stops st row why :
  load_row db st row = Stops why ->
  why = AttributeError \/ why = DatabaseError.
Proof.
  unfold load_row.
  destruct (get row "Vendor Code") as [s|]; cbn [stripped];
    [|intros [= <-]; now left].
  destruct (_ || _)%bool; [discriminate|].
  unfold make_vendor.
  destruct (in_vc st _).
  2: destruct (takes_vendor db st _); [|intros [= <-]; now right].
  all: match goal with
       | |- context [make_group db ?s ?r ?v] =>
           unfold make_group;
           destruct (get r "Link Code") as [lc|]; cbn [stripped];
           [|intros [= <-]; now left];
           destruct (String.eqb (Str.strip lc) "");
           [|destruct (in_lgc s _);
             [|destruct (get r "Link Group Name"); cbn [stripped];
               [|intros [= <-]; now left];
               destruct (takes_group db s _); [|intros [= <-]; now right]]]
       end.
  all: destruct (String.eqb _ ""); [discriminate|].
  all: match goal with
       | |- context [draft_of ?r ?v ?l ?u] =>
           destruct (draft_of r v l u) eqn:Ed;
           [destruct (_ <=? _)%nat; discriminate
           |apply draft_of_stops in Ed; intros [= <-]; now left]
       end.
Qed.

Lemma load_rows_sound rows : forall n st st',
  counted n st -> linked st -> load_rows db st rows = Goes st' ->
  counted (n + Z.of_nat (List.length rows)) st' /\ linked st'.
Proof.
  induction rows as [|row rows IH]; intros n st st' Hc Hl; cbn [load_rows].
  - intros [= <-]. cbn. now rewrite Z.add_0_r.
  - destruct (load_row db st row) as [st1|] eqn:E; [|discriminate].
    destruct (load_row_sound n st row st1 Hc Hl E) as [Hc1 Hl1].
    intros H. destruct (IH _ _ _ Hc1 Hl1 H) as [Hc' Hl'].
    split; [|assumption].
    replace (n + Z.of_nat (List.length (row :: rows)))
      with (n + 1 + Z.of_nat (List.length rows)) by (cbn [List.length]; lia).
    assumption.
Qed.

Lemma load_rows_stops rows : forall st why,
  load_rows db st rows = Stops why ->
  why = AttributeError \/ why = DatabaseError.
Proof.
  induction rows as [|row rows IH]; intros st why; cbn [load_rows];
    [discriminate|].
  destruct (load_row db st row) as [st1|] eqn:E.
  - apply IH.
  - intros [= <-]. now apply (load_row_stops st row).
Qed.

Lemma start_sound : counted 0 start /\ linked start.
Proof.
  split.
  - constructor; cbn; try reflexivity; try lia; constructor.
  - constructor; cbn; constructor.
Qed.

End Loop.

Lemma load_sound db rows st :
  ImportDsdMaster.load db rows = ImportDsdMaster.Goes st ->
  exists st0,
    st = ImportDsdMaster.flush db st0
    /\ Loaded.counted (Z.of_nat (List.length rows)) st0
    /\ Loaded.linked st0.
Proof.
  unfold ImportDsdMaster.load.
  destruct (ImportDsdMaster.load_rows db ImportDsdMaster.start rows)
    as [st0|] eqn:E; [|discriminate].
  intros [= <-]. exists st0. split; [reflexivity|].
  destruct start_sound as [Hc Hl].
  exact (load_rows_sound db rows 0 _ st0 Hc Hl E).
Qed.

Lemma forall_removelast {A : Type} (P : A -> Prop) (l : list A) :
  Forall P l -> Forall P (removelast l).
Proof.
  induction 1 as [|x l Hx Hl IH]; cbn; [constructor|].
  destruct l; [constructor | now constructor].
Qed.

(** The import accounts for every row that the reader yields.  When the
    script reaches its end, the buffer is empty and the counters
    "Skipped", "Items" and "Errors" add up to the number of rows: "Items"
    counts the items of the lists that [bulk_create] took, "Errors" those
    of the lists it refused (500 items are lost for one that the database
    rejects).  Every list handed over has 500 items, but for the last,
    which has between 1 and 500.  "Vendors" and "LinkGroups" are the
    numbers of vendors and link groups created, and no vendor code and no
    key of a link group is created twice.  When the script stops before
    its end, it is for a cell that is [None] (a line shorter than the
    header) or for a vendor or a link group that the database refuses,
    never for an amount that cannot be read. *)
Theorem import_counts_every_row :
  (forall (db : ImportDsdMaster.Database) (rows : list ImportDsdMaster.Row)
          (st : ImportDsdMaster.Loading),
     ImportDsdMaster.load db rows = ImportDsdMaster.Goes st ->
     ImportDsdMaster.buf st = []
     /\ ImportDsdMaster.s_sk (ImportDsdMaster.stats st)
        + ImportDsdMaster.s_i (ImportDsdMaster.stats st)
        + ImportDsdMaster.s_err (ImportDsdMaster.stats st)
        = Z.of_nat (List.length rows)
     /\ ImportDsdMaster.s_i (ImportDsdMaster.stats st) = Loaded.handed true st
     /\ ImportDsdMaster.s_err (ImportDsdMaster.stats st)
        = Loaded.handed false st
     /\ 0 <= ImportDsdMaster.s_sk (ImportDsdMaster.stats st)
     /\ Forall (fun b => (1 <= List.length (fst b) <= 500)%nat)
          (ImportDsdMaster.batches st)
     /\ Forall (fun b => List.length (fst b) = 500%nat)
          (removelast (ImportDsdMaster.batches st))
     /\ ImportDsdMaster.s_v (ImportDsdMaster.stats st)
        = Z.of_nat (List.length (ImportDsdMaster.vc st))
     /\ NoDup (map ImportDsdMaster.nv_code (ImportDsdMaster.vc st))
     /\ ImportDsdMaster.s_lg (ImportDsdMaster.stats st)
        = Z.of_nat (List.length (ImportDsdMaster.lgc st))
     /\ NoDup (map ImportDsdMaster.nl_key (ImportDsdMaster.lgc st)))
  /\ (forall (db : ImportDsdMaster.Database)
             (rows : list ImportDsdMaster.Row) (why : ImportDsdMaster.stop),
        ImportDsdMaster.load db rows = ImportDsdMaster.Stops why ->
        why = ImportDsdMaster.AttributeError
        \/ why = ImportDsdMaster.DatabaseError).
Proof.
  split.
  - intros db rows st H.
    destruct (load_sound db rows st H) as (st0 & -> & Hc & Hl).
    destruct Hc as [Hrows Hi0 He0 Hsk0 Hbuf0 Hfull0 Hv0 Hlg0].
    destruct Hl as [Hcodes _ Hkeys _ _].
    destruct (flush_counts db (Z.of_nat (List.length rows)) st0 500)
      as (Hbuf & Hsum & Hi & He & Hsk & Hv & Hlg & Hlists & Hlast);
      try assumption; try lia.
    { eapply Forall_impl; [|exact Hfull0]. cbn beta. intros b Hb. lia. }
    destruct (flush_tables db st0) as [Evc Elgc].
    repeat match goal with |- _ /\ _ => split end.
    + exact Hbuf.
    + exact Hsum.
    + exact Hi.
    + exact He.
    + now rewrite Hsk.
    + exact Hlists.
    + destruct Hlast as [-> | (ok & ->)].
      * now apply forall_removelast.
      * now rewrite removelast_last.
    + now rewrite Evc, Hv.
    + now rewrite Evc.
    + now rewrite Elgc, Hlg.
    + now rewrite Elgc.
  - intros db rows why. unfold ImportDsdMaster.load.
    destruct (ImportDsdMaster.load_rows db ImportDsdMaster.start rows)
      as [st0|] eqn:E; [discriminate|].
    intros [= <-]. exact (load_rows_stops db rows _ _ E).
Qed.

Lemma import_counts_every_row_witness :
  let rows := [Sheet.cola; Sheet.no_vendor; Sheet.no_upc; Sheet.root_beer] in
  let st := Sheet.after Sheet.open rows in
  (ImportDsdMaster.load Sheet.open rows = ImportDsdMaster.Goes st
   /\ ImportDsdMaster.s_sk (ImportDsdMaster.stats st)
      + ImportDsdMaster.s_i (ImportDsdMaster.stats st)
      + ImportDsdMaster.s_err (ImportDsdMaster.stats st) = 4
   /\ ImportDsdMaster.s_i (ImportDsdMaster.stats st) = Loaded.handed true st
   /\ ImportDsdMaster.s_v (ImportDsdMaster.stats st)
      = Z.of_nat (List.length (ImportDsdMaster.vc st)))
  /\ (let st' := Sheet.after Sheet.closed rows in
      ImportDsdMaster.load Sheet.closed rows = ImportDsdMaster.Goes st'
      /\ ImportDsdMaster.s_sk (ImportDsdMaster.stats st')
         + ImportDsdMaster.s_i (ImportDsdMaster.stats st')
         + ImportDsdMaster.s_err (ImportDsdMaster.stats st') = 4
      /\ ImportDsdMaster.s_err (ImportDsdMaster.stats st')
         = Loaded.handed false st')
  /\ (ImportDsdMaster.load Sheet.open [Sheet.cola; Sheet.short]
      = ImportDsdMaster.Stops ImportDsdMaster.AttributeError
      /\ (ImportDsdMaster.AttributeError = ImportDsdMaster.AttributeError
          \/ ImportDsdMaster.AttributeError = ImportDsdMaster.DatabaseError)).
Proof.
  intros rows st.
  assert (Hshut : ImportDsdMaster.load Sheet.closed rows
                  = ImportDsdMaster.Goes (Sheet.after Sheet.closed rows))
    by (vm_compute; reflexivity).
  assert (Hrun : ImportDsdMaster.load Sheet.open rows
                 = ImportDsdMaster.Goes st) by (vm_compute; reflexivity).
  assert (Hstop : ImportDsdMaster.load Sheet.open [Sheet.cola; Sheet.short]
                  = ImportDsdMaster.Stops ImportDsdMaster.AttributeError)
    by (vm_compute; reflexivity).
  split.
  { split; [exact Hrun|].
    destruct (proj1 import_counts_every_row Sheet.open rows st Hrun)
      as (_ & Hsum & Hi & _ & _ & _ & _ & Hv & _).
    split; [exact Hsum|]. split; [exact Hi | exact Hv]. }
  split.
  - cbv zeta. split; [exact Hshut|].
    destruct (proj1 import_counts_every_row Sheet.closed rows _ Hshut)
      as (_ & Hsum & _ & He & _).
    split; [exact Hsum | exact He].
  - split; [exact Hstop|].
    exact (proj2 import_counts_every_row Sheet.open
             [Sheet.cola; Sheet.short] _ Hstop).
Defined.

(* ================================================================= *)
(** ** import_dsd_master.py: vendors and link groups of the items *)

Lemma same_key_same_row {A : Type} (f : A -> string) (l : list A) :
  NoDup (map f l) ->
  forall x y, In x l -> In y l -> f x = f y -> x = y.
Proof.
  induction l as [|a l IH]; cbn; [tauto|].
  intros Hnd x y Hx Hy E. apply NoDup_cons_iff in Hnd as [Ha Hnd].
  destruct Hx as [<- | Hx], Hy as [<- | Hy].
  - reflexivity.
  - exfalso. apply Ha. rewrite E. now apply in_map.
  - exfalso. apply Ha. rewrite <- E. now apply in_map.
  - now apply IH.
Qed.

(** A code without a bar is read off its key. *)
Lemma key_gives_vendor (v v' lc lc' : string) :
  Loaded.no_bar v = true -> Loaded.no_bar v' = true ->
  (v ++ "|" ++ lc)%string = (v' ++ "|" ++ lc')%string -> v = v'.
Proof.
  revert v'. induction v as [|a v IH]; intros [|b v'] Hv Hv' E; cbn in *.
  - reflexivity.
  - injection E as <- _. discriminate.
  - injection E as -> _. discriminate.
  - injection E as <- E. apply andb_prop in Hv as [_ Hv].
    apply andb_prop in Hv' as [_ Hv']. f_equal. now apply IH.
Qed.

(** Every item that the import hands to the database belongs to a vendor
    that the run created before it, carries a UPC that [normalize_upc]
    leaves as it is (digits only, not empty), and, when it has a link
    group, that group is the one created under the key made of the
    vendor code, a bar and the link code.  When neither vendor code holds
    a bar, the group belongs to the vendor of the item.  With a bar in a
    code it need not: vendor "A|B" with link code "C" and vendor "A" with
    link code "B|C" share the key "A|B|C", and the item of the second
    vendor is put into the link group of the first. *)
Theorem imported_items_refer_to_what_was_created :
  (forall (db : ImportDsdMaster.Database) (rows : list ImportDsdMaster.Row)
          (st : ImportDsdMaster.Loading),
     ImportDsdMaster.load db rows = ImportDsdMaster.Goes st ->
     Loaded.items st = List.concat (map fst (ImportDsdMaster.batches st))
     /\ forall d : ImportDsdMaster.Draft,
          In d (Loaded.items st) ->
          In (ImportDsdMaster.d_vendor d)
            (map ImportDsdMaster.nv_code (ImportDsdMaster.vc st))
          /\ normalize_upc (Some (ImportDsdMaster.d_upc d))
             = Some (ImportDsdMaster.d_upc d)
          /\ forall k : string,
               ImportDsdMaster.d_link_group d = Some k ->
               exists g : ImportDsdMaster.NewLinkGroup,
                 In g (ImportDsdMaster.lgc st)
                 /\ ImportDsdMaster.nl_key g = k
                 /\ (forall g', In g' (ImportDsdMaster.lgc st) ->
                                ImportDsdMaster.nl_key g' = k -> g' = g)
                 /\ In (ImportDsdMaster.nl_vendor g)
                      (map ImportDsdMaster.nv_code (ImportDsdMaster.vc st))
                 /\ (Loaded.no_bar (ImportDsdMaster.d_vendor d) = true ->
                     Loaded.no_bar (ImportDsdMaster.nl_vendor g) = true ->
                     ImportDsdMaster.nl_vendor g
                     = ImportDsdMaster.d_vendor d))
  /\ (let st := Sheet.after Sheet.open
                   [Sheet.first_of_key; Sheet.second_of_key] in
      ImportDsdMaster.load Sheet.open
        [Sheet.first_of_key; Sheet.second_of_key]
      = ImportDsdMaster.Goes st
      /\ map (fun d => (ImportDsdMaster.d_vendor d,
                        ImportDsdMaster.d_link_group d)) (Loaded.items st)
         = [("A|B", Some "A|B|C"); ("A", Some "A|B|C")]%string
      /\ map (fun g => (ImportDsdMaster.nl_key g,
                        ImportDsdMaster.nl_vendor g))
           (ImportDsdMaster.lgc st)
         = [("A|B|C", "A|B")]%string).
Proof.
  split.
  - intros db rows st H.
    destruct (load_sound db rows st H) as (st0 & -> & Hc & Hl).
    destruct (flush_tables db st0) as [Evc Elgc].
    split.
    { destruct Hc as [Hrows Hi0 He0 Hsk0 Hbuf0 Hfull0 Hv0 Hlg0].
      destruct (flush_counts db (Z.of_nat (List.length rows)) st0 500)
        as (Hbuf & _); try assumption; try lia.
      { eapply Forall_impl; [|exact Hfull0]. cbn beta. intros b Hb. lia. }
      unfold Loaded.items. rewrite Hbuf. apply app_nil_r. }
    rewrite items_flush, Evc, Elgc.
    destruct Hl as [_ _ Hkeys Hgroups Hitems]. intros d Hd.
    pose proof (proj1 (Forall_forall _ _) Hitems d Hd) as (Hv & Hu & Hg).
    split; [assumption|]. split; [assumption|].
    intros k Ek. rewrite Ek in Hg. destruct Hg as [Hin (lc & Hk)].
    apply in_map_iff in Hin as (g & Eg & Hin).
    pose proof (proj1 (Forall_forall _ _) Hgroups g Hin)
      as (Hkey & _ & _ & Hgv).
    exists g. split; [assumption|]. split; [assumption|].
    split; [|split; [assumption|]].
    + intros g' Hin' Eg'.
      apply (same_key_same_row ImportDsdMaster.nl_key
               (ImportDsdMaster.lgc st0)); [assumption..|congruence].
    + intros Hd1 Hg1.
      apply (key_gives_vendor _ _ (ImportDsdMaster.nl_link_code g) lc);
        [assumption..|congruence].
  - cbv zeta. split; [vm_compute; reflexivity|].
    split; vm_compute; reflexivity.
Qed.

Lemma imported_items_refer_to_what_was_created_witness :
  let rows := [Sheet.cola; Sheet.root_beer] in
  let st := Sheet.after Sheet.open rows in
  ImportDsdMaster.load Sheet.open rows = ImportDsdMaster.Goes st
  /\ Loaded.items st = List.concat (map fst (ImportDsdMaster.batches st))
  /\ forall d : ImportDsdMaster.Draft,
       In d (Loaded.items st) ->
       In (ImportDsdMaster.d_vendor d)
         (map ImportDsdMaster.nv_code (ImportDsdMaster.vc st))
       /\ normalize_upc (Some (ImportDsdMaster.d_upc d))
          = Some (ImportDsdMaster.d_upc d).
Proof.
  intros rows st.
  assert (Hrun : ImportDsdMaster.load Sheet.open rows
                 = ImportDsdMaster.Goes st) by (vm_compute; reflexivity).
  split; [exact Hrun|].
  destruct (proj1 imported_items_refer_to_what_was_created Sheet.open
              rows st Hrun) as [Hitems Hall].
  split; [exact Hitems|].
  intros d Hd. destruct (Hall d Hd) as (Hv & Hu & _). now split.
Defined.

(* ================================================================= *)
(** ** import_dsd_master.py: dates *)

(** *** Numerals *)










(** *** The text of a date *)







(** *** The calendar *)






(* ================================================================= *)
(** ** import_dsd_master.py: the UPC of a row *)

Lemma keep_lstrip s : Str.keep Str.isdecimal (Str.lstrip s)
                      = Str.keep Str.isdecimal s.
Proof.
  induction s as [|a s IH]; [reflexivity|]. cbn [Str.lstrip].
  destruct (Str.isspace a) eqn:Ha; [|reflexivity].
  rewrite IH. cbn [Str.keep].
  destruct (Str.isdecimal a) eqn:Hd; [|reflexivity].
  rewrite (decimal_is_not_space a Hd) in Ha. discriminate.
Qed.

Lemma keep_rev p s : Str.keep p (Str.rev s) = Str.rev (Str.keep p s).
Proof.
  induction s as [|a s IH]; [reflexivity|].
  rewrite rev_cons, keep_app, IH. cbn [Str.keep].
  destruct (p a); [now rewrite rev_cons | apply append_empty_r].
Qed.

Lemma keep_strip s : Str.keep Str.isdecimal (Str.strip s)
                     = Str.keep Str.isdecimal s.
Proof.
  unfold Str.strip.
  now rewrite keep_rev, keep_lstrip, keep_rev, rev_involutive, keep_lstrip.
Qed.

Lemma below_256 (P : N -> bool) :
  forallb P (map N.of_nat (seq 0 256)) = true ->
  forall c, (c < 256)%N -> P c = true.
Proof.
  intros H c Hc. rewrite forallb_forall in H. apply H.
  rewrite in_map_iff. exists (N.to_nat c). split; [apply Nnat.N2Nat.id|].
  apply in_seq. lia.
Qed.

Lemma within_apart (r1 r2 : list (N * N)) :
  forallb (fun a => forallb (fun b => ((snd a <? fst b) || (snd b <? fst a))%N)
                      r2) r1 = true ->
  forall c, Wide.within r1 c = true -> Wide.within r2 c = false.
Proof.
  intros H c H1. destruct (Wide.within r2 c) eqn:H2; [|reflexivity].
  unfold Wide.within in H1, H2.
  apply existsb_exists in H1, H2.
  destruct H1 as (a & Ha & Hac), H2 as (b & Hb & Hbc).
  rewrite forallb_forall in H. specialize (H a Ha).
  rewrite forallb_forall in H. specialize (H b Hb).
  apply andb_prop in Hac, Hbc. destruct Hac as [A1 A2], Hbc as [B1 B2].
  apply N.leb_le in A1, A2, B1, B2.
  apply orb_prop in H. destruct H as [H|H]; apply N.ltb_lt in H; lia.
Qed.

(** The tables of Unicode 14.0 are as every version has them. *)
Lemma unicode14_standard : Wide.standard Wide.unicode14.
Proof.
  split; [|split].
  - intros c Hc. apply Bool.eqb_prop.
    revert c Hc.
    apply (below_256 (fun c => Bool.eqb (Wide.decimal Wide.unicode14 c)
                                 (Str.isdecimal (ascii_of_N c)))).
    vm_compute. reflexivity.
  - intros c Hc. apply Bool.eqb_prop.
    revert c Hc.
    apply (below_256 (fun c => Bool.eqb (Wide.space Wide.unicode14 c)
                                 (Str.isspace (ascii_of_N c)))).
    vm_compute. reflexivity.
  - apply (within_apart Wide.Nd Wide.White_Space). vm_compute. reflexivity.
Qed.

Lemma ascii_digit_is_decimal (u : Wide.Unicode) :
  Wide.standard u ->
  forall c, Wide.ascii_digit c = true -> Wide.decimal u c = true.
Proof.
  intros (Hd & _ & _) c Hc.
  pose proof Hc as Hc'. unfold Wide.ascii_digit in Hc'.
  apply andb_prop in Hc'. destruct Hc' as [A B]. apply N.leb_le in A, B.
  rewrite Hd by lia. unfold Str.isdecimal.
  rewrite N_ascii_embedding by lia. exact Hc.
Qed.

Lemma ascii_digit_is_not_space (u : Wide.Unicode) :
  Wide.standard u ->
  forall c, Wide.ascii_digit c = true -> Wide.space u c = false.
Proof.
  intros Hu c Hc. pose proof (ascii_digit_is_decimal u Hu c Hc) as Hd.
  destruct Hu as (_ & _ & Hds). now apply Hds.
Qed.

Lemma wide_lstrip_fixed (u : Wide.Unicode) (t : Wide.text) :
  (forall c, In c t -> Wide.space u c = false) -> Wide.lstrip u t = t.
Proof.
  destruct t as [|c t]; [reflexivity|]. intros H. cbn.
  now rewrite (H c (or_introl eq_refl)).
Qed.

Lemma wide_strip_fixed (u : Wide.Unicode) (t : Wide.text) :
  (forall c, In c t -> Wide.space u c = false) -> Wide.strip u t = t.
Proof.
  intros H. unfold Wide.strip.
  rewrite (wide_lstrip_fixed u t H).
  rewrite wide_lstrip_fixed.
  - apply List.rev_involutive.
  - intros c Hc. apply H. now apply in_rev.
Qed.

Lemma filter_wide_lstrip (u : Wide.Unicode) (p : N -> bool) (t : Wide.text) :
  (forall c, p c = true -> Wide.space u c = false) ->
  filter p (Wide.lstrip u t) = filter p t.
Proof.
  intros H. induction t as [|c t IH]; [reflexivity|]. cbn [Wide.lstrip].
  destruct (Wide.space u c) eqn:Hc; [|reflexivity].
  rewrite IH. cbn [filter].
  destruct (p c) eqn:Hp; [|reflexivity].
  rewrite (H c Hp) in Hc. discriminate.
Qed.

Lemma filter_wide_strip (u : Wide.Unicode) (p : N -> bool) (t : Wide.text) :
  (forall c, p c = true -> Wide.space u c = false) ->
  filter p (Wide.strip u t) = filter p t.
Proof.
  intros H. unfold Wide.strip.
  now rewrite filter_rev, filter_wide_lstrip, filter_rev,
    List.rev_involutive, filter_wide_lstrip.
Qed.

Lemma in_filter_decimal (u : Wide.Unicode) (t : Wide.text) :
  Wide.standard u ->
  forall c, In c (filter (Wide.decimal u) t) -> Wide.space u c = false.
Proof.
  intros (_ & _ & H) c Hc. apply filter_In in Hc. now apply H.
Qed.

Lemma of_string_cons a s :
  Wide.of_string (String a s) = N_of_ascii a :: Wide.of_string s.
Proof. reflexivity. Qed.

Lemma of_string_app s t :
  Wide.of_string (s ++ t) = (Wide.of_string s ++ Wide.of_string t)%list.
Proof.
  induction s as [|a s IH]; [reflexivity|].
  cbn [append]. now rewrite !of_string_cons, IH.
Qed.

Lemma of_string_rev s : Wide.of_string (Str.rev s) = rev (Wide.of_string s).
Proof.
  induction s as [|a s IH]; [reflexivity|].
  now rewrite rev_cons, of_string_app, IH, of_string_cons.
Qed.

Lemma of_string_lstrip (u : Wide.Unicode) s :
  Wide.standard u ->
  Wide.of_string (Str.lstrip s) = Wide.lstrip u (Wide.of_string s).
Proof.
  intros (_ & Hs & _). induction s as [|a s IH]; [reflexivity|].
  rewrite of_string_cons. cbn [Str.lstrip Wide.lstrip].
  rewrite Hs by apply N_ascii_bounded. rewrite ascii_N_embedding.
  destruct (Str.isspace a); [exact IH | reflexivity].
Qed.

Lemma of_string_strip (u : Wide.Unicode) s :
  Wide.standard u ->
  Wide.of_string (Str.strip s) = Wide.strip u (Wide.of_string s).
Proof.
  intros Hu. unfold Str.strip, Wide.strip.
  now rewrite of_string_rev, (of_string_lstrip u) by exact Hu;
    rewrite of_string_rev, (of_string_lstrip u) by exact Hu.
Qed.

Lemma of_string_keep s :
  Wide.of_string (Str.keep Str.isdecimal s)
  = filter Wide.ascii_digit (Wide.of_string s).
Proof.
  induction s as [|a s IH]; [reflexivity|].
  rewrite of_string_cons. cbn [Str.keep filter].
  change (Wide.ascii_digit (N_of_ascii a)) with (Str.isdecimal a).
  destruct (Str.isdecimal a); [now rewrite of_string_cons, IH | exact IH].
Qed.

Lemma filter_decimal_of_string (u : Wide.Unicode) s :
  Wide.standard u ->
  filter (Wide.decimal u) (Wide.of_string s)
  = filter Wide.ascii_digit (Wide.of_string s).
Proof.
  intros (Hd & _ & _). induction s as [|a s IH]; [reflexivity|].
  rewrite of_string_cons. cbn [filter].
  rewrite Hd by apply N_ascii_bounded. rewrite ascii_N_embedding.
  change (Wide.ascii_digit (N_of_ascii a)) with (Str.isdecimal a).
  now rewrite IH.
Qed.

Lemma or_none_of_string s :
  Wide.or_none (Wide.of_string s)
  = (if String.eqb s "" then None else Some (Wide.of_string s)).
Proof. destruct s; reflexivity. Qed.

(** The import does not clean the UPC of a row the way [normalize_upc]
    does.  A cell holds any text, and the white space and the decimal
    digits are what the interpreter's version of Unicode says.  The import
    keeps the characters 0 to 9 of the cell, [normalize_upc] every decimal
    digit; what the import keeps is the characters 0 to 9 of what
    [normalize_upc] returns.  The two agree, the row being skipped when
    [normalize_upc] gives [None], exactly when the cell has no decimal digit
    other than 0 to 9; a cell that is one other decimal digit is a UPC for
    [normalize_upc] and is skipped by the import.  On a text of characters
    below 256 the two are the functions on strings, which agree.  A row
    whose UPC comes out empty adds no item and counts as skipped. *)
Theorem imported_upc_keeps_ascii_digits_only :
  forall u : Wide.Unicode,
    Wide.standard u ->
    (forall cell : Wide.text,
       Wide.upc_of u cell = filter Wide.ascii_digit cell
       /\ Wide.normalize_upc u (Some cell)
          = Wide.or_none (filter (Wide.decimal u) cell)
       /\ Wide.upc_of u cell
          = filter Wide.ascii_digit
              (match Wide.normalize_upc u (Some cell) with
               | Some t => t
               | None => []
               end)
       /\ ((forall c, In c cell -> Wide.decimal u c = true ->
                      Wide.ascii_digit c = true)
           <-> Wide.normalize_upc u (Some cell)
               = Wide.or_none (Wide.upc_of u cell)))
    /\ (forall c : N,
          Wide.decimal u c = true -> Wide.ascii_digit c = false ->
          Wide.normalize_upc u (Some [c]) = Some [c]
          /\ Wide.upc_of u [c] = [])
    /\ (forall s : string,
          Wide.normalize_upc u (Some (Wide.of_string s))
          = option_map Wide.of_string (normalize_upc (Some s)))
    /\ (forall row : ImportDsdMaster.Row,
          Wide.upc_of u
            (Wide.of_string
               (ImportDsdMaster.str_of (ImportDsdMaster.get row "UPC")))
          = Wide.of_string (ImportDsdMaster.upc_of row)
          /\ normalize_upc
               (Some (ImportDsdMaster.str_of (ImportDsdMaster.get row "UPC")))
             = (if String.eqb (ImportDsdMaster.upc_of row) ""
                then None else Some (ImportDsdMaster.upc_of row)))
    /\ (forall (row : ImportDsdMaster.Row) (db : ImportDsdMaster.Database)
               (st st' : ImportDsdMaster.Loading),
          ImportDsdMaster.load_row db st row = ImportDsdMaster.Goes st' ->
          ImportDsdMaster.upc_of row = ""%string ->
          Loaded.items st' = Loaded.items st
          /\ ImportDsdMaster.s_sk (ImportDsdMaster.stats st')
             = ImportDsdMaster.s_sk (ImportDsdMaster.stats st) + 1).
Proof.
  intros u Hu.
  assert (Hup : forall cell,
             Wide.upc_of u cell = filter Wide.ascii_digit cell).
  { intros cell. unfold Wide.upc_of. apply filter_wide_strip.
    now apply ascii_digit_is_not_space. }
  assert (Hnorm : forall cell,
             Wide.normalize_upc u (Some cell)
             = Wide.or_none (filter (Wide.decimal u) cell)).
  { intros cell. unfold Wide.normalize_upc.
    rewrite wide_strip_fixed; [reflexivity|].
    now apply in_filter_decimal. }
  assert (Hsub : forall cell,
             filter Wide.ascii_digit (filter (Wide.decimal u) cell)
             = filter Wide.ascii_digit cell).
  { intros cell. induction cell as [|c cell IH]; [reflexivity|].
    cbn [filter]. destruct (Wide.decimal u c) eqn:Hc.
    - cbn [filter]. now rewrite IH.
    - rewrite IH. destruct (Wide.ascii_digit c) eqn:Ha; [|reflexivity].
      rewrite (ascii_digit_is_decimal u Hu c Ha) in Hc. discriminate. }
  split; [|split; [|split; [|split]]].
  - intros cell. split; [apply Hup|]. split; [apply Hnorm|]. split.
    + rewrite Hup, Hnorm.
      destruct (filter (Wide.decimal u) cell) as [|d t] eqn:E.
      * rewrite <- Hsub, E. reflexivity.
      * cbn [Wide.or_none]. rewrite <- E. symmetry. apply Hsub.
    + rewrite Hup, Hnorm. split.
      * intros H. f_equal.
        induction cell as [|c cell IH]; [reflexivity|].
        cbn [filter]. destruct (Wide.decimal u c) eqn:Hc.
        -- rewrite (H c (or_introl eq_refl) Hc). f_equal.
           apply IH. intros c' Hin. apply H. now right.
        -- destruct (Wide.ascii_digit c) eqn:Ha.
           ++ rewrite (ascii_digit_is_decimal u Hu c Ha) in Hc. discriminate.
           ++ apply IH. intros c' Hin. apply H. now right.
      * intros E c Hin Hc.
        assert (Hc' : In c (filter (Wide.decimal u) cell))
          by (apply filter_In; now split).
        destruct (filter (Wide.decimal u) cell) as [|d t] eqn:Ed;
          [destruct Hc'|].
        destruct (filter Wide.ascii_digit cell) as [|d' t'] eqn:Ea;
          [discriminate E|].
        cbn [Wide.or_none] in E. injection E as E1 E2.
        rewrite E1, E2, <- Ea in Hc'. now apply filter_In in Hc'.
  - intros c Hc Ha. rewrite Hup, Hnorm. cbn [filter]. now rewrite Hc, Ha.
  - intros s. rewrite Hnorm, normalize_upc_digits.
    rewrite (filter_decimal_of_string u s Hu), <- of_string_keep.
    rewrite or_none_of_string.
    now destruct (String.eqb (Str.keep Str.isdecimal s) "").
  - intros row. split.
    + unfold ImportDsdMaster.upc_of.
      now rewrite Hup, keep_strip, of_string_keep.
    + rewrite normalize_upc_digits. unfold ImportDsdMaster.upc_of.
      now rewrite keep_strip.
  - intros row db st st' Hrow E.
    revert Hrow. unfold ImportDsdMaster.load_row.
    destruct (ImportDsdMaster.stripped (ImportDsdMaster.get row "Vendor Code"))
      as [v|]; [|discriminate].
    destruct (_ || _)%bool.
    { intros [= <-]. split; reflexivity. }
    unfold ImportDsdMaster.make_vendor.
    destruct (ImportDsdMaster.in_vc st v).
    2: destruct (ImportDsdMaster.takes_vendor db st _); [|discriminate].
    all: unfold ImportDsdMaster.make_group;
      (destruct (ImportDsdMaster.stripped
                   (ImportDsdMaster.get row "Link Code")) as [lc|];
       [|discriminate]);
      destruct (String.eqb lc "");
      [|match goal with
        | |- context [ImportDsdMaster.in_lgc ?s ?k] =>
            destruct (ImportDsdMaster.in_lgc s k);
            [|destruct (ImportDsdMaster.stripped
                          (ImportDsdMaster.get row "Link Group Name"));
              [|discriminate];
              destruct (ImportDsdMaster.takes_group db s _); [|discriminate]]
        end];
      rewrite E; cbn [String.eqb]; intros [= <-];
      (split; [reflexivity | cbn; lia]).
Qed.

Lemma imported_upc_keeps_ascii_digits_only_witness :
  Wide.upc_of Wide.unicode14 (Wide.of_string "0-49000-02890-4")
  = Wide.of_string "049000028904"
  /\ Wide.normalize_upc Wide.unicode14 (Some (Wide.of_string "0-49000-02890-4"))
     = Some (Wide.of_string "049000028904")
  /\ Wide.normalize_upc Wide.unicode14 (Some Wide.arabic_indic)
     = Some Wide.arabic_indic
  /\ Wide.upc_of Wide.unicode14 Wide.arabic_indic = []
  /\ (let st := Sheet.after Sheet.open [Sheet.no_upc] in
      ImportDsdMaster.load_row Sheet.open ImportDsdMaster.start Sheet.no_upc
      = ImportDsdMaster.Goes st
      /\ Loaded.items st = Loaded.items ImportDsdMaster.start
      /\ ImportDsdMaster.s_sk (ImportDsdMaster.stats st)
         = ImportDsdMaster.s_sk (ImportDsdMaster.stats ImportDsdMaster.start)
           + 1).
Proof.
  pose proof (imported_upc_keeps_ascii_digits_only
                Wide.unicode14 unicode14_standard)
    as (Hcell & _ & _ & _ & Hskip).
  split; [|split; [|split; [|split]]].
  - exact (proj1 (Hcell (Wide.of_string "0-49000-02890-4"))).
  - exact (proj1 (proj2 (Hcell (Wide.of_string "0-49000-02890-4")))).
  - exact (proj1 (proj2 (Hcell Wide.arabic_indic))).
  - exact (proj1 (Hcell Wide.arabic_indic)).
  - cbv zeta.
    assert (Hrow : ImportDsdMaster.load_row Sheet.open ImportDsdMaster.start
                     Sheet.no_upc
                   = ImportDsdMaster.Goes
                       (Sheet.after Sheet.open [Sheet.no_upc]))
      by (vm_compute; reflexivity).
    split; [exact Hrow|].
    exact (Hskip Sheet.no_upc Sheet.open ImportDsdMaster.start _ Hrow
             eq_refl).
Defined.
